(** * mcpgo: the tool handlers of the Golang Echo Scaffolder MCP server

    A shallow embedding of the handlers of package [tools]
    ([internal/tools/*.go]) and of the library calls they make
    ([mcp.CallToolRequest.GetString], [RequireString],
    [mcp.NewToolResultText], [mcp.NewToolResultError], [fmt.Sprintf],
    [strings.Contains], [strings.Title], [strings.Join],
    [json.Unmarshal]), followed by the properties of the handlers.

    Go strings are byte sequences: they are modelled by [string], whose
    characters are the bytes. *)

From Stdlib Require Import ZArith Ascii String List Bool Lia.
From stdpp Require Import base option list gmap strings.

Local Open Scope string_scope.

(** ** Characters and strings *)

Module Str.

(** The characters that cannot be written inside a literal. *)
Definition dquote : ascii := Ascii false true false false false true false false.
Definition newline : ascii := Ascii false true false true false false false false.
Definition tabchar : ascii := Ascii true false false true false false false false.

Definition dq : string := String dquote EmptyString.
Definition nl : string := String newline EmptyString.
Definition tab : string := String tabchar EmptyString.

(** [strings.HasPrefix(s, p)]. *)
Fixpoint HasPrefix (s p : string) : bool :=
  match p, s with
  | EmptyString, _ => true
  | String _ _, EmptyString => false
  | String c p', String d s' => if Ascii.eqb c d then HasPrefix s' p' else false
  end.

(** [strings.Contains(s, substr)]: [substr] occurs at some offset of [s]. *)
Fixpoint Contains (s substr : string) : bool :=
  HasPrefix s substr ||
  match s with
  | EmptyString => false
  | String _ s' => Contains s' substr
  end.

(** [strings.HasSuffix(s, suffix)], on the reversed byte lists. *)
Definition rev (s : string) : string :=
  string_of_list_ascii (List.rev (list_ascii_of_string s)).

Definition HasSuffix (s suffix : string) : bool := HasPrefix (rev s) (rev suffix).

(** [strings.Join(elems, sep)]. *)
Fixpoint Join (elems : list string) (sep : string) : string :=
  match elems with
  | [] => EmptyString
  | [e] => e
  | e :: rest => e ++ sep ++ Join rest sep
  end.

(** The text of consecutive source lines of a raw string literal: every
    line is followed by a newline. *)
Fixpoint lines (ls : list string) : string :=
  match ls with
  | [] => EmptyString
  | l :: rest => l ++ nl ++ lines rest
  end.

(** Whether the byte [c] occurs in [s]. *)
Fixpoint mem (c : ascii) (s : string) : bool :=
  match s with
  | EmptyString => false
  | String d s' => Ascii.eqb c d || mem c s'
  end.

End Str.

(** ** fmt.Sprintf

    Every operand the handlers pass to [fmt.Sprintf] is a string. A format
    string is kept as the list of its directives; those of the handlers
    are literal text, [%s] and [%v] (which print a string operand as it is
    and take the next operand), [%[n]s] (operand [n], counted from 1),
    [%d] (not a verb for a string) and the percent sign, written [%%] or
    with flags, width and precision as in [% 3.9%], which prints [%] and
    takes no operand. *)

Module Fmt.

Inductive directive :=
| Lit (text : string)          (* literal text, and [%] for a percent directive *)
| Verb_s                       (* [%s] or [%v]: the next operand *)
| Verb_s_at (n : nat)          (* [%[n]s]: operand [n], from 1 *)
| Verb_bad (verb : string).    (* a verb that strings do not have, as [%d] *)

Definition format := list directive.

(** What is printed for a verb that has no operand left, for an index
    outside the operands ([badArgNum]), for a verb the operand does not
    have ([badVerb]) and for the operands left over. *)
Definition missing (verb : string) : string := "%!" ++ verb ++ "(MISSING)".
Definition badindex (verb : string) : string := "%!" ++ verb ++ "(BADINDEX)".
Definition badverb (verb x : string) : string := "%!" ++ verb ++ "(string=" ++ x ++ ")".
Definition extra (a : list string) : string :=
  "%!(EXTRA " ++ Str.Join (List.map (fun x => "string=" ++ x) a) ", " ++ ")".

(** [doPrintf]: [argNum] is the number of the next operand, from 0, and
    [reordered] whether an index has been met. An index in range moves
    [argNum]; one out of range leaves it. At the end the operands from
    [argNum] on are reported, unless an index has been met. *)
Fixpoint doPrintf (f : format) (a : list string) (argNum : nat) (reordered : bool) : string :=
  match f with
  | [] =>
      if negb reordered && (argNum <? length a)%nat then extra (drop argNum a)
      else EmptyString
  | Lit text :: f' => text ++ doPrintf f' a argNum reordered
  | Verb_s :: f' =>
      match a !! argNum with
      | Some x => x ++ doPrintf f' a (S argNum) reordered
      | None => missing "s" ++ doPrintf f' a argNum reordered
      end
  | Verb_s_at n :: f' =>
      match n with
      | O => badindex "s" ++ doPrintf f' a argNum true
      | S i =>
          match a !! i with
          | Some x => x ++ doPrintf f' a (S i) true
          | None => badindex "s" ++ doPrintf f' a argNum true
          end
      end
  | Verb_bad verb :: f' =>
      match a !! argNum with
      | Some x => badverb verb x ++ doPrintf f' a (S argNum) reordered
      | None => missing verb ++ doPrintf f' a argNum reordered
      end
  end.

Definition Sprintf (f : format) (a : list string) : string := doPrintf f a 0 false.

End Fmt.

(** ** The mcp package: requests and results *)

Module Mcp.

(** A value of Go type [any] found in the arguments of a request. The
    handlers only ask whether it is a string. *)
Inductive any :=
| AnyString (s : string)
| AnyNumber (z : Z)
| AnyBool (b : bool)
| AnyNil.

(** [CallToolRequest]: the arguments by name ([GetArguments]; a request
    without an argument object has no argument). *)
Record CallToolRequest := { Arguments : gmap string any }.

(** [CallToolResult]: one text content and the [IsError] flag. *)
Record CallToolResult := { Text : string; IsError : bool }.

Definition NewToolResultText (text : string) : CallToolResult :=
  {| Text := text; IsError := false |}.

Definition NewToolResultError (text : string) : CallToolResult :=
  {| Text := text; IsError := true |}.

(** [request.GetString(key, defaultValue)]. *)
Definition GetString (request : CallToolRequest) (key defaultValue : string) : string :=
  match Arguments request !! key with
  | Some (AnyString str) => str
  | _ => defaultValue
  end.

(** [request.RequireString(key)]: the string, or the text of the error.
    The key is printed with [%q]; the keys of this program are plain
    identifiers, which [%q] prints between double quotes unchanged. *)
Definition RequireString (request : CallToolRequest) (key : string) : string + string :=
  match Arguments request !! key with
  | Some (AnyString str) => inl str
  | Some _ => inr ("argument " ++ Str.dq ++ key ++ Str.dq ++ " is not a string")
  | None => inr ("required argument " ++ Str.dq ++ key ++ Str.dq ++ " not found")
  end.

(** A parameter declared by [mcp.WithString]: its name and whether
    [mcp.Required()] is among its options. *)
Record Param := { ParamName : string; Required : bool }.

(** [mcp.Tool]: the name and the declared parameters. *)
Record Tool := { Name : string; Params : list Param }.

Definition WithString (name : string) (required : bool) : Param :=
  {| ParamName := name; Required := required |}.

Definition NewTool (name : string) (params : list Param) : Tool :=
  {| Name := name; Params := params |}.

(** Whether the schema of [t] marks [p] as required. *)
Definition requires (t : Tool) (p : string) : bool :=
  existsb (fun q => String.eqb (ParamName q) p && Required q) (Params t).

End Mcp.

(** ** fix_app ([internal/tools/fix_app.go]) *)

Module FixApp.
Import Str Fmt Mcp.

(** [GetFixAppTool]: neither parameter is required. *)
Definition GetFixAppTool : Tool :=
  NewTool "fix_app" [WithString "app_name" false; WithString "error_message" false].

(** [strings.Builder]: the text written so far. *)
Definition Builder := string.
Definition WriteString (b : Builder) (s : string) : Builder := b ++ s.

(** The substring the handler looks for in the error message. *)
Definition not_in_std : string := "is not in std".

(** The extra import-path hint. *)
Definition hint : string :=
  "This error typically means Go cannot find your internal packages. Double-check your import paths to ensure they use your module name (e.g., `[appname]/internal/models`) and run `go mod tidy`." ++ nl.

(** The checklist, written before the error message is looked at. *)
Definition checklist (appName : string) : Builder :=
  let b := EmptyString in
  let b := WriteString b ("Here are some pointers to address common issues in your Echo web application:" ++ nl ++ nl) in
  let b := if String.eqb appName EmptyString then b
           else WriteString b (Sprintf [Lit "For application '"; Verb_s; Lit ("':" ++ nl)] [appName]) in
  let b := WriteString b ("1.  **Go Module Paths**: Ensure your Go module is correctly initialized and that internal imports use the module name." ++ nl) in
  let b := WriteString b (Sprintf [Lit "    If your module is named `"; Verb_s; Lit ("`, then imports for internal packages should look like:" ++ nl)] [appName]) in
  let b := WriteString b ("    ```go" ++ nl) in
  let b := WriteString b (Sprintf
             [Lit ("    import (" ++ nl ++ "        " ++ dq); Verb_s;
              Lit ("/internal/models" ++ dq ++ nl ++ "        " ++ dq); Verb_s;
              Lit ("/internal/repository" ++ dq ++ nl ++ "        " ++ dq); Verb_s;
              Lit ("/internal/service" ++ dq ++ nl ++ "        " ++ dq); Verb_s;
              Lit ("/internal/controllers" ++ dq ++ nl ++ "    )" ++ nl)]
             [appName; appName; appName; appName]) in
  let b := WriteString b ("    ```" ++ nl) in
  let b := WriteString b (Sprintf [Lit "    Make sure to replace `"; Verb_s; Lit ("` with your actual module name." ++ nl ++ nl)] [appName]) in
  let b := WriteString b ("2.  **Missing Dependencies**: If you see errors like " ++ dq ++ "no required module provides package..." ++ dq ++ ", run `go mod tidy` in your application's root directory (") in
  let b := WriteString b (Sprintf [Lit "`cd "; Verb_s; Lit " && go mod tidy`"] [appName]) in
  let b := WriteString b (") to fetch missing dependencies." ++ nl ++ nl) in
  let b := WriteString b ("3.  **Database Initialization**: Ensure your `main.go` (in `cmd/web/`) correctly initializes the GORM database connection and auto-migrates all your models. For example:" ++ nl) in
  let b := WriteString b ("    ```go" ++ nl) in
  let b := WriteString b (Sprintf
             [Lit ("    import (" ++ nl ++ "        " ++ dq ++ "gorm.io/driver/sqlite" ++ dq ++ nl
                   ++ "        " ++ dq ++ "gorm.io/gorm" ++ dq ++ nl ++ "        " ++ dq); Verb_s;
              Lit ("/internal/models" ++ dq ++ nl ++ "    )" ++ nl ++ nl)]
             [appName]) in
  let b := WriteString b (lines
             ["    func main() {";
              "        db, err := gorm.Open(sqlite.Open(" ++ dq ++ "gorm.db" ++ dq ++ "), &gorm.Config{})";
              "        if err != nil {";
              "            // handle error";
              "        }";
              "        db.AutoMigrate(&models.Product{}, &models.Customer{}, &models.ProductCustomer{}) // Add all your models";
              "    }"]) in
  let b := WriteString b ("    ```" ++ nl ++ nl) in
  let b := WriteString b ("4.  **Repository, Service, and Controller Initialization**: Verify that you are creating instances of your repositories, services, and controllers, and injecting dependencies correctly (repositories into services, services into controllers)." ++ nl ++ nl) in
  let b := WriteString b ("5.  **Route Registration**: Ensure all your controller methods have corresponding routes registered in your `main.go` (in `cmd/web/`). For example:" ++ nl) in
  let b := WriteString b ("    ```go" ++ nl) in
  let b := WriteString b (lines
             ["    e.POST(" ++ dq ++ "/products" ++ dq ++ ", productController.CreateProduct)";
              "    e.GET(" ++ dq ++ "/products/:id" ++ dq ++ ", productController.GetProductByID)";
              "    // ... and so on for all CRUD operations and models"]) in
  WriteString b ("    ```" ++ nl).

(** The part written when the error message is not empty. *)
Definition regarding (b : Builder) (errorMessage : string) : Builder :=
  if String.eqb errorMessage EmptyString then b
  else
    let b := WriteString b (Sprintf [Lit (nl ++ nl ++ "Regarding your specific error: " ++ dq); Verb_s; Lit (dq ++ nl)] [errorMessage]) in
    if Contains errorMessage not_in_std then WriteString b hint else b.

(** [FixAppHandler]. *)
Definition FixAppHandler (request : CallToolRequest) : CallToolResult :=
  let appName := GetString request "app_name" EmptyString in
  let errorMessage := GetString request "error_message" EmptyString in
  let responseBuilder := checklist appName in
  let responseBuilder := regarding responseBuilder errorMessage in
  NewToolResultText responseBuilder.

End FixApp.

(** ** unicode/utf8 and the case mappings of package strings *)

Module Utf8.
Local Open Scope Z_scope.

Definition rune := Z.

Definition RuneError : rune := 0xFFFD.
Definition MaxRune : rune := 0x10FFFF.
Definition RuneSelf : rune := 0x80.

Definition byte_val (c : ascii) : Z := Z.of_N (N_of_ascii c).

(** The conversion [byte(x)] keeps the low eight bits. *)
Definition to_byte (x : Z) : ascii := ascii_of_N (Z.to_N (Z.land x 0xFF)).

(** A code point that UTF-8 can encode: in range and not a surrogate. *)
Definition ValidRune (r : rune) : bool :=
  ((0 <=? r) && (r <? 0xD800)) || ((0xDFFF <? r) && (r <=? MaxRune)).

(** [utf8.AppendRune]. *)
Definition EncodeRune (r : rune) : list ascii :=
  if (0 <=? r) && (r <=? 0x7F) then [to_byte r]
  else if (0 <=? r) && (r <=? 0x7FF) then
    [to_byte (Z.lor 0xC0 (Z.shiftr r 6));
     to_byte (Z.lor 0x80 (Z.land r 0x3F))]
  else if negb (ValidRune r) then
    [to_byte 0xEF; to_byte 0xBF; to_byte 0xBD]
  else if r <=? 0xFFFF then
    [to_byte (Z.lor 0xE0 (Z.shiftr r 12));
     to_byte (Z.lor 0x80 (Z.land (Z.shiftr r 6) 0x3F));
     to_byte (Z.lor 0x80 (Z.land r 0x3F))]
  else
    [to_byte (Z.lor 0xF0 (Z.shiftr r 18));
     to_byte (Z.lor 0x80 (Z.land (Z.shiftr r 12) 0x3F));
     to_byte (Z.lor 0x80 (Z.land (Z.shiftr r 6) 0x3F));
     to_byte (Z.lor 0x80 (Z.land r 0x3F))].

(** The table [first] with [acceptRanges]: for a leading byte, the length
    of the sequence and the range accepted for the second byte. *)
Definition first (x0 : Z) : option (nat * Z * Z) :=
  if (0xC2 <=? x0) && (x0 <=? 0xDF) then Some (2%nat, 0x80, 0xBF)
  else if x0 =? 0xE0 then Some (3%nat, 0xA0, 0xBF)
  else if (0xE1 <=? x0) && (x0 <=? 0xEC) then Some (3%nat, 0x80, 0xBF)
  else if x0 =? 0xED then Some (3%nat, 0x80, 0x9F)
  else if (0xEE <=? x0) && (x0 <=? 0xEF) then Some (3%nat, 0x80, 0xBF)
  else if x0 =? 0xF0 then Some (4%nat, 0x90, 0xBF)
  else if (0xF1 <=? x0) && (x0 <=? 0xF3) then Some (4%nat, 0x80, 0xBF)
  else if x0 =? 0xF4 then Some (4%nat, 0x80, 0x8F)
  else None.

Definition is_cont (x : Z) : bool := (0x80 <=? x) && (x <=? 0xBF).

(** [utf8.DecodeRuneInString] on a string that starts with [b0], followed
    by [o1], [o2], [o3] where the string is that long: the rune and its
    width. Any malformed or truncated sequence is [(RuneError, 1)]. *)
Definition DecodeRune4 (b0 : ascii) (o1 o2 o3 : option ascii) : rune * nat :=
  let x0 := byte_val b0 in
  if x0 <? RuneSelf then (x0, 1%nat)
  else
    match first x0, o1 with
    | Some (size, lo, hi), Some b1 =>
        let x1 := byte_val b1 in
        if (x1 <? lo) || (hi <? x1) then (RuneError, 1%nat)
        else if (size =? 2)%nat then
          (Z.lor (Z.shiftl (Z.land x0 0x1F) 6) (Z.land x1 0x3F), 2%nat)
        else
          match o2 with
          | Some b2 =>
              let x2 := byte_val b2 in
              if negb (is_cont x2) then (RuneError, 1%nat)
              else if (size =? 3)%nat then
                (Z.lor (Z.lor (Z.shiftl (Z.land x0 0x0F) 12) (Z.shiftl (Z.land x1 0x3F) 6))
                       (Z.land x2 0x3F), 3%nat)
              else
                match o3 with
                | Some b3 =>
                    let x3 := byte_val b3 in
                    if negb (is_cont x3) then (RuneError, 1%nat)
                    else
                      (Z.lor (Z.lor (Z.lor (Z.shiftl (Z.land x0 0x07) 18)
                                           (Z.shiftl (Z.land x1 0x3F) 12))
                                    (Z.shiftl (Z.land x2 0x3F) 6))
                             (Z.land x3 0x3F), 4%nat)
                | None => (RuneError, 1%nat)
                end
          | None => (RuneError, 1%nat)
          end
    | _, _ => (RuneError, 1%nat)
    end.

Definition DecodeRune (s : list ascii) : rune * nat :=
  match s with
  | [] => (RuneError, 0%nat)
  | b0 :: t => DecodeRune4 b0 (t !! 0%nat) (t !! 1%nat) (t !! 2%nat)
  end.

(** The runes of [for _, c := range s]: at each position outside a rune
    already read ([skip] counts its remaining bytes) the rune that starts
    there. *)
Fixpoint DecodeRunes (skip : nat) (s : list ascii) : list rune :=
  match s with
  | [] => []
  | _ :: t =>
      match skip with
      | S k => DecodeRunes k t
      | O => let '(r, size) := DecodeRune s in r :: DecodeRunes (Nat.pred size) t
      end
  end.

Definition runes (s : string) : list rune := DecodeRunes 0 (list_ascii_of_string s).

(** What [strings.Map] builds from the mapped runes: a negative rune is
    dropped, the others are written in UTF-8. *)
Definition write_runes (rs : list rune) : string :=
  string_of_list_ascii
    (List.flat_map (fun r => if r <? 0 then [] else EncodeRune r) rs).

End Utf8.

(** The tables of package unicode are not part of the program: the case
    mapping of a rune above ASCII ([unicode.To]) and the three properties
    that [strings.Title] consults are parameters of the development. *)
Class UnicodeTables := {
  To_TitleCase : Z -> Z;
  To_LowerCase : Z -> Z;
  IsLetter : Z -> bool;
  IsDigit : Z -> bool;
  IsSpace : Z -> bool
}.

Module Strings.
Import Utf8.
Local Open Scope Z_scope.

Section WithTables.
Context {tables : UnicodeTables}.

(** [unicode.ToTitle]. *)
Definition ToTitle (r : rune) : rune :=
  if r <=? 0x7F then
    (if (0x61 <=? r) && (r <=? 0x7A) then r - 0x20 else r)
  else To_TitleCase r.

(** [unicode.ToLower]. *)
Definition ToLower_rune (r : rune) : rune :=
  if r <=? 0x7F then
    (if (0x41 <=? r) && (r <=? 0x5A) then r + 0x20 else r)
  else To_LowerCase r.

(** [isSeparator] of package strings. *)
Definition isSeparator (r : rune) : bool :=
  if r <=? 0x7F then
    if (0x30 <=? r) && (r <=? 0x39) then false
    else if (0x61 <=? r) && (r <=? 0x7A) then false
    else if (0x41 <=? r) && (r <=? 0x5A) then false
    else if r =? 0x5F then false
    else true
  else if IsLetter r || IsDigit r then false
  else IsSpace r.

(** The closure [strings.Title] passes to [strings.Map], applied to the
    runes in turn; [prev] is the rune before. *)
Fixpoint title_runes (prev : rune) (rs : list rune) : list rune :=
  match rs with
  | [] => []
  | r :: rest => (if isSeparator prev then ToTitle r else r) :: title_runes r rest
  end.

(** [strings.Title(s)]; [prev] starts as a space. *)
Definition Title (s : string) : string :=
  write_runes (title_runes 0x20 (runes s)).

(** [strings.ToLower(s)]. *)
Definition ToLower (s : string) : string :=
  write_runes (List.map ToLower_rune (runes s)).

End WithTables.

End Strings.

(** ** encoding/json: decoding into [[]map[string]string] *)

Module Json.
Import Utf8.

(** A JSON text, once scanned. *)
#[local] Unset Elimination Schemes.
Inductive value :=
| Null
| Bool (b : bool)
| Number
| Str (s : string)
| Arr (elems : list value)
| Obj (members : list (string * value)).
#[local] Set Elimination Schemes.

(** [maxNestingDepth] of the scanner. *)
Definition maxNestingDepth : nat := Z.to_nat 10000.

Definition is_space (c : ascii) : bool :=
  match byte_val c with
  | 0x20 | 0x09 | 0x0D | 0x0A => true
  | _ => false
  end%Z.

Fixpoint skip_space (s : list ascii) : list ascii :=
  match s with
  | c :: t => if is_space c then skip_space t else s
  | [] => []
  end.

Definition is_digit (c : ascii) : bool :=
  ((0x30 <=? byte_val c) && (byte_val c <=? 0x39))%Z.

Definition hex_val (c : ascii) : option Z :=
  let x := byte_val c in
  (if (0x30 <=? x) && (x <=? 0x39) then Some (x - 0x30)
   else if (0x61 <=? x) && (x <=? 0x66) then Some (x - 0x61 + 10)
   else if (0x41 <=? x) && (x <=? 0x46) then Some (x - 0x41 + 10)
   else None)%Z.

(** [getu4] on the four characters after a backslash and [u]. *)
Definition getu4 (c1 c2 c3 c4 : ascii) : option Z :=
  match hex_val c1, hex_val c2, hex_val c3, hex_val c4 with
  | Some a, Some b, Some c, Some d => Some (((a * 16 + b) * 16 + c) * 16 + d)%Z
  | _, _, _, _ => None
  end.

(** The rune a [\uXXXX] escape at the head of [s] stands for, when [s]
    starts with one. *)
Definition escape_u (s : list ascii) : option Z :=
  match s with
  | "\"%char :: "u"%char :: c1 :: c2 :: c3 :: c4 :: _ => getu4 c1 c2 c3 c4
  | _ => None
  end.

Definition is_surrogate (r : Z) : bool := ((0xD800 <=? r) && (r <? 0xE000))%Z.

(** [utf16.DecodeRune]: the code point of a surrogate pair, or the
    replacement character. *)
Definition utf16_DecodeRune (r1 r2 : Z) : Z :=
  (if (0xD800 <=? r1) && (r1 <? 0xDC00) && (0xDC00 <=? r2) && (r2 <? 0xE000)
   then Z.lor (Z.shiftl (r1 - 0xD800) 10) (r2 - 0xDC00) + 0x10000
   else RuneError)%Z.

(** The simple escapes of [unquote]. *)
Definition simple_escape (c : ascii) : option ascii :=
  match c with
  | "034"%char => Some "034"%char
  | "\"%char => Some "\"%char
  | "/"%char => Some "/"%char
  | "b"%char => Some "008"%char
  | "f"%char => Some "012"%char
  | "n"%char => Some "010"%char
  | "r"%char => Some "013"%char
  | "t"%char => Some "009"%char
  | _ => None
  end.

(** The scanner inside a string literal together with [unquote]: [s] is the
    text after the opening quote, [out] the bytes produced so far, in
    reverse; [skip] counts the bytes of [s] already consumed by the
    element read before (the rest of an escape, or of a UTF-8 sequence).
    The result is the unquoted string and the text after the closing
    quote. A control character, an unknown escape and a missing closing
    quote are syntax errors. *)
Fixpoint scan_string (skip : nat) (s : list ascii) (out : list ascii)
  : option (string * list ascii) :=
  match s with
  | [] => None
  | c :: t =>
      match skip with
      | S k => scan_string k t out
      | O =>
          if Ascii.eqb c Str.dquote then Some (string_of_list_ascii (List.rev out), t)
          else if Ascii.eqb c "\"%char then
            match t with
            | [] => None
            | e :: t' =>
                match simple_escape e with
                | Some b => scan_string 1 t (b :: out)
                | None =>
                    if Ascii.eqb e "u"%char then
                      match escape_u s with
                      | None => None
                      | Some rr =>
                          if is_surrogate rr then
                            match escape_u (List.skipn 5 t) with
                            | Some rr1 =>
                                let dec := utf16_DecodeRune rr rr1 in
                                if (dec =? RuneError)%Z
                                then scan_string 5 t (List.rev (EncodeRune RuneError) ++ out)%list
                                else scan_string 11 t (List.rev (EncodeRune dec) ++ out)%list
                            | None => scan_string 5 t (List.rev (EncodeRune RuneError) ++ out)%list
                            end
                          else scan_string 5 t (List.rev (EncodeRune rr) ++ out)%list
                      end
                    else None
                end
            end
          else if (byte_val c <? 0x20)%Z then None
          else if (byte_val c <? RuneSelf)%Z then scan_string 0 t (c :: out)
          else
            let '(rr, size) := DecodeRune s in
            scan_string (Nat.pred size) t (List.rev (EncodeRune rr) ++ out)%list
      end
  end.

(** The digits at the head of [s], removed; [None] when there is none. *)
Fixpoint skip_digits (s : list ascii) : list ascii :=
  match s with
  | c :: t => if is_digit c then skip_digits t else s
  | [] => []
  end.

Definition digits1 (s : list ascii) : option (list ascii) :=
  match s with
  | c :: t => if is_digit c then Some (skip_digits t) else None
  | [] => None
  end.

(** A number literal at the head of [s] (after an optional minus sign has
    been removed): the text after it. *)
Definition scan_number (s : list ascii) : option (list ascii) :=
  let int_part :=
    match s with
    | "0"%char :: t => Some t
    | c :: t => if is_digit c then Some (skip_digits t) else None
    | [] => None
    end in
  let frac_part r :=
    match r with
    | "."%char :: t => digits1 t
    | _ => Some r
    end in
  let exp_part r :=
    match r with
    | "e"%char :: t | "E"%char :: t =>
        match t with
        | "+"%char :: t' | "-"%char :: t' => digits1 t'
        | _ => digits1 t
        end
    | _ => Some r
    end in
  r ← int_part; r ← frac_part r; exp_part r.

Section Containers.
(** The scanner of one value, one nesting level down. *)
Variable scan_value : list ascii -> option (value * list ascii).

(** The elements of an array, [s] standing at the first of them. *)
Fixpoint scan_elements (n : nat) (s : list ascii) (acc : list value)
  : option (list value * list ascii) :=
  match n with
  | O => None
  | S n' =>
      match scan_value s with
      | None => None
      | Some (v, r) =>
          match skip_space r with
          | ","%char :: r' => scan_elements n' r' (v :: acc)
          | "]"%char :: r' => Some (List.rev (v :: acc), r')
          | _ => None
          end
      end
  end.

(** The members of an object, [s] standing at the first key. *)
Fixpoint scan_members (n : nat) (s : list ascii) (acc : list (string * value))
  : option (list (string * value) * list ascii) :=
  match n with
  | O => None
  | S n' =>
      match skip_space s with
      | q :: r =>
          if Ascii.eqb q Str.dquote then
            match scan_string 0 r [] with
            | None => None
            | Some (key, r1) =>
                match skip_space r1 with
                | ":"%char :: r2 =>
                    match scan_value r2 with
                    | None => None
                    | Some (v, r3) =>
                        match skip_space r3 with
                        | ","%char :: r4 => scan_members n' r4 ((key, v) :: acc)
                        | "}"%char :: r4 => Some (List.rev ((key, v) :: acc), r4)
                        | _ => None
                        end
                    end
                | _ => None
                end
            end
          else None
      | [] => None
      end
  end.
End Containers.

(** One value at the head of [s], after white space; [depth] is the number
    of levels of nesting still allowed. *)
Fixpoint scan_value (depth : nat) (s : list ascii) : option (value * list ascii) :=
  match skip_space s with
  | [] => None
  | c :: r =>
      if Ascii.eqb c "["%char then
        match depth with
        | O => None
        | S d =>
            match skip_space r with
            | "]"%char :: r' => Some (Arr [], r')
            | _ =>
                match scan_elements (scan_value d) (length r) r [] with
                | Some (vs, r') => Some (Arr vs, r')
                | None => None
                end
            end
        end
      else if Ascii.eqb c "{"%char then
        match depth with
        | O => None
        | S d =>
            match skip_space r with
            | "}"%char :: r' => Some (Obj [], r')
            | _ =>
                match scan_members (scan_value d) (length r) r [] with
                | Some (ms, r') => Some (Obj ms, r')
                | None => None
                end
            end
        end
      else if Ascii.eqb c Str.dquote then
        match scan_string 0 r [] with
        | Some (str, r') => Some (Str str, r')
        | None => None
        end
      else if Ascii.eqb c "-"%char then
        match scan_number r with
        | Some r' => Some (Number, r')
        | None => None
        end
      else if is_digit c then
        match scan_number (c :: r) with
        | Some r' => Some (Number, r')
        | None => None
        end
      else
        match c :: r with
        | "t"%char :: "r"%char :: "u"%char :: "e"%char :: r' => Some (Bool true, r')
        | "f"%char :: "a"%char :: "l"%char :: "s"%char :: "e"%char :: r' => Some (Bool false, r')
        | "n"%char :: "u"%char :: "l"%char :: "l"%char :: r' => Some (Null, r')
        | _ => None
        end
  end.

(** [checkValid]: the whole input is one value between white space. *)
Definition scan (data : string) : option value :=
  match scan_value maxNestingDepth (list_ascii_of_string data) with
  | Some (v, r) =>
      match skip_space r with
      | [] => Some v
      | _ => None
      end
  | None => None
  end.

(** A member value stored into a [string]: a string is stored, [null]
    leaves the empty string, anything else is an [UnmarshalTypeError]. *)
Definition to_string (v : value) : option string :=
  match v with
  | Str s => Some s
  | Null => Some EmptyString
  | _ => None
  end.

(** An object stored into a [map[string]string]: the members are set in
    turn, a later key replacing an earlier one. *)
Fixpoint to_members (ms : list (string * value)) (m : gmap string string)
  : option (gmap string string) :=
  match ms with
  | [] => Some m
  | (k, v) :: rest =>
      match to_string v with
      | Some s => to_members rest (<[k := s]> m)
      | None => None
      end
  end.

(** An element stored into a [map[string]string]: [null] leaves the nil
    map, which reads as the empty one. *)
Definition to_map (v : value) : option (gmap string string) :=
  match v with
  | Obj ms => to_members ms ∅
  | Null => Some ∅
  | _ => None
  end.

(** The value stored into a [[]map[string]string]: [null] leaves the nil
    slice. *)
Definition to_slice (v : value) : option (list (gmap string string)) :=
  match v with
  | Arr vs => mapM to_map vs
  | Null => Some []
  | _ => None
  end.

(** [json.Unmarshal([]byte(data), &fields)] with [fields] of type
    [[]map[string]string] and nil: the slice, or [None] when an error is
    returned (a syntax error, or a value of the wrong type anywhere). *)
Definition Unmarshal (data : string) : option (list (gmap string string)) :=
  v ← scan data; to_slice v.

End Json.

(** The text of the error of [json.Unmarshal] is written by the library; it
    is a function of the input and is kept as a parameter. *)
Class JsonErrors := { Unmarshal_error : string -> string }.

(** ** produce_app_boilerplate ([internal/tools/produce_app_boilerplate.go]) *)

Module ProduceAppBoilerplate.
Import Str Fmt Mcp.

(** [GetProduceAppBoilerplateTool]. *)
Definition GetProduceAppBoilerplateTool : Tool :=
  NewTool "produce_app_boilerplate" [WithString "app_name" true].

(** The format string of the response. *)
Definition response_format : format :=
  [Lit (lines
      [EmptyString;
       "# Echo Web Application Scaffold Instructions";
       EmptyString]
     ++ "To scaffold the Echo web application '");
   Verb_s_at 1;
   Lit (lines
      ["', please perform the following steps:";
       EmptyString;
       "1. Create the directory structure (or ensure it exists):"]
     ++ "   `mkdir -p ");
   Verb_s_at 1;
   Lit (lines
      ["/cmd/web`";
       EmptyString]
     ++ "2. Create or update the file at `");
   Verb_s_at 1;
   Lit (lines
      ["/cmd/web/main.go` with the following content:";
       "```go";
       "package main";
       EmptyString;
       "import (";
       tab ++ dq ++ "net/http" ++ dq;
       EmptyString;
       tab ++ dq ++ "github.com/labstack/echo/v4" ++ dq;
       tab ++ dq ++ "github.com/labstack/echo/v4/middleware" ++ dq;
       ")";
       EmptyString;
       "func main() {";
       tab ++ "e := echo.New()";
       tab ++ "e.Use(middleware.Logger())";
       tab ++ "e.Use(middleware.Recover())";
       tab ++ "e.GET(" ++ dq ++ "/" ++ dq ++ ", hello)";
       tab ++ "e.Logger.Fatal(e.Start(" ++ dq ++ ":1323" ++ dq ++ "))";
       "}";
       EmptyString;
       "func hello(c echo.Context) error {";
       tab ++ "return c.String(http.StatusOK, " ++ dq ++ "Hello, World!" ++ dq ++ ")";
       "}";
       "```";
       EmptyString;
       "3. Initialize the Go module and fetch dependencies:"]
     ++ "   `cd ");
   Verb_s_at 1;
   Lit (" && go mod init ");
   Verb_s_at 1;
   Lit (lines
      [" && go get github.com/labstack/echo/v4 && go mod tidy`";
       EmptyString;
       "4. To run the server, navigate to the application directory and execute:"]
     ++ "   `cd ");
   Verb_s_at 1;
   Lit (lines
      [" && go run ./cmd/web`";
       EmptyString]
     ++ "5. Bootstrap dependencies in `");
   Verb_s_at 1;
   Lit (lines
      ["/cmd/web/main.go`:"]
     ++ "   After creating models, repositories, services, and controllers, you will need to create or update `");
   Verb_s_at 1;
   Lit (lines
      ["/cmd/web/main.go` to bootstrap these dependencies.";
       "   This typically involves:";
       "   - Importing `gorm.io/driver/sqlite` (or your chosen database driver) and `gorm.io/gorm`.";
       "   - Initializing the database connection (e.g., `db, err := gorm.Open(sqlite.Open(" ++ dq ++ "gorm.db" ++ dq ++ "), &gorm.Config{})`).";
       "   - Auto-migrating your models (e.g., `db.AutoMigrate(&models.YourModel{})`).";
       "   - Creating instances of your repositories (e.g., `userRepo := repository.NewUserRepository(db)`).";
       "   - Creating instances of your services (e.g., `userService := service.NewUserService(userRepo)`).";
       "   - Creating instances of your controllers, injecting services (e.g., `userController := controllers.NewUserController(userService)`).";
       "   - Registering routes for your controllers (e.g., `e.POST(" ++ dq ++ "/users" ++ dq ++ ", userController.CreateUser)`).";
       EmptyString]
     ++ "   Here's an example of how `");
   Verb_s_at 1;
   Lit (lines
      ["/cmd/web/main.go` might look after adding a 'User' model with service layer:";
       "   ```go";
       "package main";
       EmptyString;
       "import (";
       tab ++ dq ++ "net/http" ++ dq;
       EmptyString;
       tab ++ dq ++ "github.com/labstack/echo/v4" ++ dq;
       tab ++ dq ++ "github.com/labstack/echo/v4/middleware" ++ dq;
       tab ++ dq ++ "gorm.io/driver/sqlite" ++ dq;
       tab ++ dq ++ "gorm.io/gorm" ++ dq;
       EmptyString]
     ++ tab ++ dq);
   Verb_s_at 6;
   Lit (lines
      ["/internal/models" ++ dq]
     ++ tab ++ dq);
   Verb_s_at 6;
   Lit (lines
      ["/internal/repository" ++ dq]
     ++ tab ++ dq);
   Verb_s_at 6;
   Lit (lines
      ["/internal/service" ++ dq]
     ++ tab ++ dq);
   Verb_s_at 6;
   Lit (lines
      ["/internal/controllers" ++ dq;
       ")";
       EmptyString;
       "func main() {";
       tab ++ "e := echo.New()";
       tab ++ "e.Use(middleware.Logger())";
       tab ++ "e.Use(middleware.Recover())";
       EmptyString;
       tab ++ "// Database initialization";
       tab ++ "db, err := gorm.Open(sqlite.Open(" ++ dq ++ "gorm.db" ++ dq ++ "), &gorm.Config{})";
       tab ++ "if err != nil {";
       tab ++ tab ++ "e.Logger.Fatal(" ++ dq ++ "failed to connect database" ++ dq ++ ", err)";
       tab ++ "}";
       EmptyString;
       tab ++ "// Auto-migrate models";
       tab ++ "err = db.AutoMigrate(&models.User{}) // Add all your models here";
       tab ++ "if err != nil {";
       tab ++ tab ++ "e.Logger.Fatal(" ++ dq ++ "failed to auto migrate models" ++ dq ++ ", err)";
       tab ++ "}";
       EmptyString;
       tab ++ "// Initialize repositories";
       tab ++ "userRepo := repository.NewUserRepository(db)";
       EmptyString;
       tab ++ "// Initialize services";
       tab ++ "userService := service.NewUserService(userRepo)";
       EmptyString;
       tab ++ "// Initialize controllers";
       tab ++ "userController := controllers.NewUserController(userService)";
       EmptyString;
       tab ++ "// Routes";
       tab ++ "e.GET(" ++ dq ++ "/" ++ dq ++ ", hello)";
       tab ++ "e.POST(" ++ dq ++ "/users" ++ dq ++ ", userController.CreateUser)";
       tab ++ "e.GET(" ++ dq ++ "/users/:id" ++ dq ++ ", userController.GetUserByID) // Example for GetByID";
       tab ++ "e.GET(" ++ dq ++ "/users" ++ dq ++ ", userController.ListUsers)       // Example for List";
       tab ++ "e.PUT(" ++ dq ++ "/users/:id" ++ dq ++ ", userController.UpdateUser)";
       tab ++ "e.DELETE(" ++ dq ++ "/users/:id" ++ dq ++ ", userController.DeleteUser)";
       EmptyString;
       tab ++ "e.Logger.Fatal(e.Start(" ++ dq ++ ":1323" ++ dq ++ "))";
       "}";
       EmptyString;
       "func hello(c echo.Context) error {";
       tab ++ "return c.String(http.StatusOK, " ++ dq ++ "Hello, World!" ++ dq ++ ")";
       "}";
       "```"])].

(** [ProduceAppBoilerplateHandler]. *)
Definition ProduceAppBoilerplateHandler (request : CallToolRequest) : CallToolResult :=
  match RequireString request "app_name" with
  | inr err => NewToolResultError (Sprintf [Lit "Error getting 'app_name': "; Verb_s] [err])
  | inl appName =>
      let response :=
        Sprintf response_format [appName; appName; appName; appName; appName; appName] in
      NewToolResultText response
  end.

End ProduceAppBoilerplate.

(** ** produce_model_boilerplate *)

Module ProduceModelBoilerplate.
Import Str Fmt Mcp.

(** [GetProduceModelBoilerplateTool]: [app_name] is declared without
    [mcp.Required()]. *)
Definition GetProduceModelBoilerplateTool : Tool :=
  NewTool "produce_model_boilerplate"
    [WithString "app_name" false; WithString "model_name" true; WithString "fields" true].

(** [field[key]] on a [map[string]string]: the empty string for a key
    that is not in the map. *)
Definition index (field : gmap string string) (key : string) : string :=
  default EmptyString (field !! key).

(** The format string of a struct field. *)
Definition field_format : format :=
  [Lit tab; Verb_s; Lit " "; Verb_s; Lit (" `json:" ++ dq); Verb_s; Lit (dq ++ "`")].

(** The format string of the model file. *)
Definition model_format : format :=
  [Lit (lines ["package models"; EmptyString; "import " ++ dq ++ "gorm.io/gorm" ++ dq; EmptyString]
        ++ "type ");
   Verb_s;
   Lit (lines [" struct {"; tab ++ "gorm.Model"]);
   Verb_s;
   Lit (lines [EmptyString; "}"])].

(** The format string of the response. *)
Definition response_format : format :=
  [Lit (lines
      [EmptyString;
       "# Model and Repository Scaffold Instructions";
       EmptyString]
     ++ "To scaffold the model '");
   Verb_s_at 1;
   Lit (lines
      ["' and its repository, please perform the following steps:";
       EmptyString;
       "Note: The model includes 'gorm.Model' which provides the following fields automatically:";
       "- ID (uint, primary key)";
       "- CreatedAt (time.Time)";
       "- UpdatedAt (time.Time)";
       "- DeletedAt (soft delete with index)";
       EmptyString;
       "These fields don't need to be added manually to your model.";
       EmptyString]
     ++ "1. Create or update the file at `internal/models/");
   Verb_s_at 2;
   Lit (lines
      [".go` with the following content:";
       "```go"]);
   Verb_s_at 3;
   Lit (lines
      [EmptyString;
       "```";
       EmptyString;
       "2. Create the repository directory (or ensure it exists):"]
     ++ "   `mkdir -p internal/repository/");
   Verb_s_at 2;
   Lit (lines
      ["`";
       EmptyString]
     ++ "3. For each of the following, create or update the file in `internal/repository/");
   Verb_s_at 2;
   Lit (lines
      ["/` as needed:";
       EmptyString;
       "   a. `repo.go` (constructor and interface for dependency injection):";
       "```go";
       "package repository";
       EmptyString;
       "import (";
       tab ++ dq ++ "context" ++ dq;
       tab ++ dq ++ "gorm.io/gorm" ++ dq]
     ++ tab ++ dq);
   Verb_s_at 6;
   Lit (lines
      ["/internal/models" ++ dq;
       ")";
       EmptyString]
     ++ "type ");
   Verb_s_at 4;
   Lit (lines
      ["Repository interface {"]
     ++ tab ++ "Create(ctx context.Context, ");
   Verb_s_at 5;
   Lit (" *models.");
   Verb_s_at 4;
   Lit (lines
      [") error"]
     ++ tab ++ "Update(ctx context.Context, ");
   Verb_s_at 5;
   Lit (" *models.");
   Verb_s_at 4;
   Lit (lines
      [") error";
       tab ++ "Delete(ctx context.Context, id uint) error"]
     ++ tab ++ "Get(ctx context.Context, filters map[string]interface{}) ([]models.");
   Verb_s_at 4;
   Lit (lines
      [", error)";
       "}";
       EmptyString]
     ++ "type ");
   Verb_s_at 4;
   Lit (lines
      ["RepositoryImpl struct {";
       tab ++ "db *gorm.DB";
       "}";
       EmptyString]
     ++ "func New");
   Verb_s_at 4;
   Lit ("Repository(db *gorm.DB) ");
   Verb_s_at 4;
   Lit (lines
      ["Repository {"]
     ++ tab ++ "return &");
   Verb_s_at 4;
   Lit (lines
      ["RepositoryImpl{db: db}";
       "}";
       "```";
       EmptyString;
       "   b. `create.go` (Create method):";
       "```go";
       "package repository";
       EmptyString;
       "import (";
       tab ++ dq ++ "context" ++ dq]
     ++ tab ++ dq);
   Verb_s_at 6;
   Lit (lines
      ["/internal/models" ++ dq;
       ")";
       EmptyString]
     ++ "func (r *");
   Verb_s_at 4;
   Lit ("RepositoryImpl) Create(ctx context.Context, ");
   Verb_s_at 5;
   Lit (" *models.");
   Verb_s_at 4;
   Lit (lines
      [") error {"]
     ++ tab ++ "return r.db.WithContext(ctx).Create(");
   Verb_s_at 5;
   Lit (lines
      [").Error";
       "}";
       "```";
       EmptyString;
       "   c. `update.go` (Update method):";
       "```go";
       "package repository";
       EmptyString;
       "import (";
       tab ++ dq ++ "context" ++ dq]
     ++ tab ++ dq);
   Verb_s_at 6;
   Lit (lines
      ["/internal/models" ++ dq;
       ")";
       EmptyString]
     ++ "func (r *");
   Verb_s_at 4;
   Lit ("RepositoryImpl) Update(ctx context.Context, ");
   Verb_s_at 5;
   Lit (" *models.");
   Verb_s_at 4;
   Lit (lines
      [") error {"]
     ++ tab ++ "return r.db.WithContext(ctx).Save(");
   Verb_s_at 5;
   Lit (lines
      [").Error";
       "}";
       "```";
       EmptyString;
       "   d. `delete.go` (Delete method):";
       "```go";
       "package repository";
       EmptyString;
       "import (";
       tab ++ dq ++ "context" ++ dq]
     ++ tab ++ dq);
   Verb_s_at 6;
   Lit (lines
      ["/internal/models" ++ dq;
       ")";
       EmptyString]
     ++ "func (r *");
   Verb_s_at 4;
   Lit (lines
      ["RepositoryImpl) Delete(ctx context.Context, id uint) error {"]
     ++ tab ++ "return r.db.WithContext(ctx).Delete(&models.");
   Verb_s_at 4;
   Lit (lines
      ["{}, id).Error";
       "}";
       "```";
       EmptyString;
       "   e. `get.go` (Get method - many-to-many with filtering):";
       "```go";
       "package repository";
       EmptyString;
       "import (";
       tab ++ dq ++ "context" ++ dq;
       tab ++ dq ++ "fmt" ++ dq]
     ++ tab ++ dq);
   Verb_s_at 6;
   Lit (lines
      ["/internal/models" ++ dq;
       ")";
       EmptyString]
     ++ "func (r *");
   Verb_s_at 4;
   Lit ("RepositoryImpl) Get(ctx context.Context, filters map[string]interface{}) ([]models.");
   Verb_s_at 4;
   Lit (lines
      [", error) {"]
     ++ tab ++ "var ");
   Verb_s_at 5;
   Lit (" []models.");
   Verb_s_at 4;
   Lit (lines
      [EmptyString;
       tab ++ "query := r.db.WithContext(ctx)";
       tab ++ "for key, value := range filters {";
       tab ++ tab ++ "query = query.Where(fmt.Sprintf(" ++ dq ++ "%s = ?" ++ dq ++ ", key), value)";
       tab ++ "}"]
     ++ tab ++ "err := query.Find(&");
   Verb_s_at 5;
   Lit (lines
      [").Error"]
     ++ tab ++ "return ");
   Verb_s_at 5;
   Lit (lines
      [", err";
       "}";
       "```";
       EmptyString;
       "4. Bootstrap dependencies in `cmd/web/main.go`:";
       "   After creating models, repositories, services, and controllers, you will need to create or update `cmd/web/main.go` to bootstrap these dependencies.";
       "   This typically involves:";
       "   - Importing `gorm.io/driver/sqlite` (or your chosen database driver) and `gorm.io/gorm`.";
       "   - Initializing the database connection (e.g., `db, err := gorm.Open(sqlite.Open(" ++ dq ++ "gorm.db" ++ dq ++ "), &gorm.Config{})`).";
       "   - Auto-migrating your models (e.g., `db.AutoMigrate(&models.YourModel{})`).";
       "   - Creating instances of your repositories (e.g., `userRepo := repository.NewUserRepository(db)`).";
       "   - Creating instances of your services, injecting repositories (e.g., `userService := service.NewUserService(userRepo)`).";
       "   - Creating instances of your controllers, injecting services (e.g., `userController := controllers.NewUserController(userService)`).";
       "   - Registering routes for your controllers (e.g., `e.POST(" ++ dq ++ "/users" ++ dq ++ ", userController.CreateUser)`).";
       EmptyString;
       "   **Important Note**: It is recommended to use a service layer between your controllers and repositories. Controllers should not communicate directly with repositories. Instead, controllers should use services, and services should use repositories. This promotes better separation of concerns and makes your code more maintainable.";
       EmptyString;
       "   Here's an example of how `cmd/web/main.go` might look after adding a 'User' model with service layer:";
       "   ```go";
       "package main";
       EmptyString;
       "import (";
       tab ++ dq ++ "net/http" ++ dq;
       EmptyString;
       tab ++ dq ++ "github.com/labstack/echo/v4" ++ dq;
       tab ++ dq ++ "github.com/labstack/echo/v4/middleware" ++ dq;
       tab ++ dq ++ "gorm.io/driver/sqlite" ++ dq;
       tab ++ dq ++ "gorm.io/gorm" ++ dq;
       EmptyString]
     ++ tab ++ dq);
   Verb_s_at 6;
   Lit (lines
      ["/internal/models" ++ dq]
     ++ tab ++ dq);
   Verb_s_at 6;
   Lit (lines
      ["/internal/repository" ++ dq]
     ++ tab ++ dq);
   Verb_s_at 6;
   Lit (lines
      ["/internal/service" ++ dq]
     ++ tab ++ dq);
   Verb_s_at 6;
   Lit (lines
      ["/internal/controllers" ++ dq;
       ")";
       EmptyString;
       "func main() {";
       tab ++ "e := echo.New()";
       tab ++ "e.Use(middleware.Logger())";
       tab ++ "e.Use(middleware.Recover())";
       EmptyString;
       tab ++ "// Database initialization";
       tab ++ "db, err := gorm.Open(sqlite.Open(" ++ dq ++ "gorm.db" ++ dq ++ "), &gorm.Config{})";
       tab ++ "if err != nil {";
       tab ++ tab ++ "e.Logger.Fatal(" ++ dq ++ "failed to connect database" ++ dq ++ ", err)";
       tab ++ "}";
       EmptyString;
       tab ++ "// Auto-migrate models";
       tab ++ "err = db.AutoMigrate(&models.User{}) // Add all your models here";
       tab ++ "if err != nil {";
       tab ++ tab ++ "e.Logger.Fatal(" ++ dq ++ "failed to auto migrate models" ++ dq ++ ", err)";
       tab ++ "}";
       EmptyString;
       tab ++ "// Initialize repositories";
       tab ++ "userRepo := repository.NewUserRepository(db)";
       EmptyString;
       tab ++ "// Initialize services";
       tab ++ "userService := service.NewUserService(userRepo)";
       EmptyString;
       tab ++ "// Initialize controllers";
       tab ++ "userController := controllers.NewUserController(userService)";
       EmptyString;
       tab ++ "// Routes";
       tab ++ "e.GET(" ++ dq ++ "/" ++ dq ++ ", hello)";
       tab ++ "e.POST(" ++ dq ++ "/users" ++ dq ++ ", userController.CreateUser)";
       tab ++ "e.GET(" ++ dq ++ "/users/:id" ++ dq ++ ", userController.GetUserByID) // Example for GetByID";
       tab ++ "e.GET(" ++ dq ++ "/users" ++ dq ++ ", userController.ListUsers)       // Example for List";
       tab ++ "e.PUT(" ++ dq ++ "/users/:id" ++ dq ++ ", userController.UpdateUser)";
       tab ++ "e.DELETE(" ++ dq ++ "/users/:id" ++ dq ++ ", userController.DeleteUser)";
       EmptyString;
       tab ++ "e.Logger.Fatal(e.Start(" ++ dq ++ ":1323" ++ dq ++ "))";
       "}";
       EmptyString;
       "func hello(c echo.Context) error {";
       tab ++ "return c.String(http.StatusOK, " ++ dq ++ "Hello, World!" ++ dq ++ ")";
       "}";
       "```"])].

Section WithLibraries.
Context {tables : UnicodeTables} {json_errors : JsonErrors}.

(** The body of the loop over [fields]. *)
Definition struct_field (field : gmap string string) : string :=
  let name := index field "name" in
  let fieldType := index field "type" in
  Sprintf field_format [Strings.Title name; fieldType; name].

(** The loop: every field appends its line to [structFields]. *)
Definition struct_fields (fields : list (gmap string string)) : list string :=
  fold_left (fun structFields field => structFields ++ [struct_field field])%list fields [].

Definition modelContent (modelName : string) (fields : list (gmap string string)) : string :=
  Sprintf model_format [Strings.Title modelName; Join (struct_fields fields) nl].

(** [ProduceModelBoilerplateHandler]. *)
Definition ProduceModelBoilerplateHandler (request : CallToolRequest) : CallToolResult :=
  let appName := GetString request "app_name" EmptyString in
  if String.eqb appName EmptyString then NewToolResultError "App name is required"
  else
    match RequireString request "model_name" with
    | inr err => NewToolResultError (Sprintf [Lit "Error getting 'model_name': "; Verb_s] [err])
    | inl modelName =>
        match RequireString request "fields" with
        | inr err => NewToolResultError (Sprintf [Lit "Error getting 'fields': "; Verb_s] [err])
        | inl fieldsJSON =>
            match Json.Unmarshal fieldsJSON with
            | None =>
                NewToolResultError
                  (Sprintf [Lit "Invalid 'fields' JSON format: "; Verb_s]
                           [Unmarshal_error fieldsJSON])
            | Some fields =>
                let titleModelName := Strings.Title modelName in
                let lowerModelName := Strings.ToLower modelName in
                let response :=
                  Sprintf response_format
                    [titleModelName; lowerModelName; modelContent modelName fields;
                     titleModelName; lowerModelName; appName] in
                NewToolResultText response
            end
        end
    end.

End WithLibraries.

End ProduceModelBoilerplate.

(** ** produce_service_boilerplate *)

Module ProduceServiceBoilerplate.
Import Str Fmt Mcp.

(** [GetProduceServiceBoilerplateTool]: [app_name] is declared without [mcp.Required()]. *)
Definition GetProduceServiceBoilerplateTool : Tool :=
  NewTool "produce_service_boilerplate" [WithString "app_name" false; WithString "model_name" true].

(** The format string of the response. *)
Definition response_format : format :=
  [Lit (lines
      ["# Service Layer and DTOs Scaffold Instructions";
       EmptyString;
       "## Understanding DTOs (Data Transfer Objects)";
       EmptyString;
       "**What are DTOs?**";
       "DTOs (Data Transfer Objects) are objects that carry data between processes or layers in your application. In the context of a web API:";
       "- They define the structure of data sent to and received from your API endpoints";
       "- They separate your internal domain models from your external API contract";
       "- They allow you to control exactly what data is exposed to clients";
       EmptyString;
       "**When to use DTOs:**";
       "- When your internal model structure differs from what you want to expose in your API";
       "- When you need to validate or transform data before it reaches your domain model";
       "- When you want to version your API without changing your domain models";
       "- When you need to combine data from multiple models into a single response";
       EmptyString;
       "**Benefits of using DTOs:**";
       "- Decoupling: Changes to your domain models don't necessarily break your API contract";
       "- Security: You can exclude sensitive fields from responses";
       "- Flexibility: You can shape responses differently for different endpoints";
       "- Validation: You can add validation rules specific to API requests";
       EmptyString;
       "**Should you create a DTO package?**";
       "- **Yes, create a DTO package if:**";
       "  - Your API is public-facing or used by multiple clients";
       "  - Your models contain sensitive fields that shouldn't be exposed";
       "  - Your API request/response structure needs to differ from your database models";
       "  - You need to validate API inputs separately from model validation";
       "  - You're building a medium to large application where maintainability is important";
       EmptyString;
       "- **You might not need a DTO package if:**";
       "  - You're building a simple prototype or proof-of-concept";
       "  - Your application is very small with minimal API endpoints";
       "  - Your models map directly to your API with no sensitive fields";
       "  - You're the only consumer of your API and don't need a strict contract";
       EmptyString;
       "For this scaffolding, we'll create a dedicated 'dto' package to contain all your DTOs, organized by model/domain. This follows best practices for separation of concerns and maintainability in medium to large applications.";
       EmptyString]
     ++ "To scaffold the service layer with DTOs for model '");
   Verb_s_at 1;
   Lit (lines
      ["', please perform the following steps:";
       EmptyString;
       "1. Create the DTOs directory (or ensure it exists):"]
     ++ "   mkdir -p internal/dto/");
   Verb_s_at 2;
   Lit (lines
      [EmptyString;
       EmptyString]
     ++ "2. Create or update the file at internal/dto/");
   Verb_s_at 2;
   Lit (lines
      ["/dto.go with the following content:";
       EmptyString;
       "package dto";
       EmptyString;
       "import " ++ dq ++ "time" ++ dq;
       EmptyString]
     ++ "// Create");
   Verb_s_at 1;
   Lit ("Request represents the request payload for creating a ");
   Verb_s_at 2;
   Lit (lines
      [EmptyString]
     ++ "type Create");
   Verb_s_at 1;
   Lit (lines
      ["Request struct {";
       tab ++ "// Add your fields here based on your model";
       tab ++ "// Example fields - replace with actual model fields:";
       tab ++ "// Name        string `json:" ++ dq ++ "name" ++ dq ++ " validate:" ++ dq ++ "required" ++ dq ++ "`";
       tab ++ "// Email       string `json:" ++ dq ++ "email" ++ dq ++ " validate:" ++ dq ++ "required,email" ++ dq ++ "`";
       tab ++ "// Description string `json:" ++ dq ++ "description" ++ dq ++ "`";
       "}";
       EmptyString]
     ++ "// Update");
   Verb_s_at 1;
   Lit ("Request represents the request payload for updating a ");
   Verb_s_at 2;
   Lit (lines
      [EmptyString]
     ++ "type Update");
   Verb_s_at 1;
   Lit (lines
      ["Request struct {";
       tab ++ "ID uint `json:" ++ dq ++ "id" ++ dq ++ " validate:" ++ dq ++ "required" ++ dq ++ "`";
       tab ++ "// Add your fields here based on your model";
       tab ++ "// Example fields - replace with actual model fields:";
       tab ++ "// Name        *string `json:" ++ dq ++ "name,omitempty" ++ dq ++ "`";
       tab ++ "// Email       *string `json:" ++ dq ++ "email,omitempty" ++ dq ++ "`";
       tab ++ "// Description *string `json:" ++ dq ++ "description,omitempty" ++ dq ++ "`";
       "}";
       EmptyString]
     ++ "// ");
   Verb_s_at 1;
   Lit ("Response represents the response payload for ");
   Verb_s_at 2;
   Lit (lines
      [" operations"]
     ++ "type ");
   Verb_s_at 1;
   Lit (lines
      ["Response struct {";
       tab ++ "ID        uint      `json:" ++ dq ++ "id" ++ dq ++ "`";
       tab ++ "CreatedAt time.Time `json:" ++ dq ++ "created_at" ++ dq ++ "`";
       tab ++ "UpdatedAt time.Time `json:" ++ dq ++ "updated_at" ++ dq ++ "`";
       tab ++ "// Add your fields here based on your model";
       tab ++ "// Example fields - replace with actual model fields:";
       tab ++ "// Name        string `json:" ++ dq ++ "name" ++ dq ++ "`";
       tab ++ "// Email       string `json:" ++ dq ++ "email" ++ dq ++ "`";
       tab ++ "// Description string `json:" ++ dq ++ "description" ++ dq ++ "`";
       "}";
       EmptyString]
     ++ "// List");
   Verb_s_at 1;
   Lit ("Response represents the response payload for listing ");
   Verb_s_at 2;
   Lit (lines
      [EmptyString]
     ++ "type List");
   Verb_s_at 1;
   Lit (lines
      ["Response struct {"]
     ++ tab ++ "Data  []");
   Verb_s_at 1;
   Lit (lines
      ["Response `json:" ++ dq ++ "data" ++ dq ++ "`";
       tab ++ "Total int          `json:" ++ dq ++ "total" ++ dq ++ "`";
       tab ++ "Page  int          `json:" ++ dq ++ "page" ++ dq ++ "`";
       tab ++ "Limit int          `json:" ++ dq ++ "limit" ++ dq ++ "`";
       "}";
       EmptyString;
       "3. Create the service directory (or ensure it exists):"]
     ++ "   mkdir -p internal/service/");
   Verb_s_at 2;
   Lit (lines
      [EmptyString;
       EmptyString;
       "4. Create the service files:";
       EmptyString]
     ++ "   a. internal/service/");
   Verb_s_at 2;
   Lit (lines
      ["/service.go (interface and constructor):";
       EmptyString;
       "package service";
       EmptyString;
       "import (";
       tab ++ dq ++ "context" ++ dq]
     ++ tab ++ dq);
   Verb_s_at 3;
   Lit (lines
      ["/internal/dto" ++ dq]
     ++ tab ++ dq);
   Verb_s_at 3;
   Lit (lines
      ["/internal/models" ++ dq]
     ++ tab ++ dq);
   Verb_s_at 3;
   Lit (lines
      ["/internal/repository" ++ dq;
       ")";
       EmptyString]
     ++ "type ");
   Verb_s_at 1;
   Lit (lines
      ["Service interface {"]
     ++ tab ++ "Create(ctx context.Context, req *dto.Create");
   Verb_s_at 1;
   Lit ("Request) (*dto.");
   Verb_s_at 1;
   Lit (lines
      ["Response, error)"]
     ++ tab ++ "Update(ctx context.Context, req *dto.Update");
   Verb_s_at 1;
   Lit ("Request) (*dto.");
   Verb_s_at 1;
   Lit (lines
      ["Response, error)";
       tab ++ "Delete(ctx context.Context, id uint) error"]
     ++ tab ++ "GetByID(ctx context.Context, id uint) (*dto.");
   Verb_s_at 1;
   Lit (lines
      ["Response, error)"]
     ++ tab ++ "List(ctx context.Context, page, limit int, filters map[string]interface{}) (*dto.List");
   Verb_s_at 1;
   Lit (lines
      ["Response, error)";
       "}";
       EmptyString]
     ++ "type ");
   Verb_s_at 1;
   Lit (lines
      ["ServiceImpl struct {"]
     ++ tab);
   Verb_s_at 2;
   Lit ("Repo repository.");
   Verb_s_at 1;
   Lit (lines
      ["Repository";
       "}";
       EmptyString]
     ++ "func New");
   Verb_s_at 1;
   Lit ("Service(");
   Verb_s_at 2;
   Lit ("Repo repository.");
   Verb_s_at 1;
   Lit ("Repository) ");
   Verb_s_at 1;
   Lit (lines
      ["Service {"]
     ++ tab ++ "return &");
   Verb_s_at 1;
   Lit ("ServiceImpl{");
   Verb_s_at 2;
   Lit ("Repo: ");
   Verb_s_at 2;
   Lit (lines
      ["Repo}";
       "}";
       EmptyString;
       "// Helper function to convert model to DTO"]
     ++ "func (s *");
   Verb_s_at 1;
   Lit ("ServiceImpl) modelToDTO(model *models.");
   Verb_s_at 1;
   Lit (") *dto.");
   Verb_s_at 1;
   Lit (lines
      ["Response {"]
     ++ tab ++ "return &dto.");
   Verb_s_at 1;
   Lit (lines
      ["Response{";
       tab ++ tab ++ "ID:        model.ID,";
       tab ++ tab ++ "CreatedAt: model.CreatedAt,";
       tab ++ tab ++ "UpdatedAt: model.UpdatedAt,";
       tab ++ tab ++ "// Map your model fields to DTO fields here";
       tab ++ tab ++ "// Example:";
       tab ++ tab ++ "// Name:        model.Name,";
       tab ++ tab ++ "// Email:       model.Email,";
       tab ++ tab ++ "// Description: model.Description,";
       tab ++ "}";
       "}";
       EmptyString;
       "// Helper function to convert create DTO to model"]
     ++ "func (s *");
   Verb_s_at 1;
   Lit ("ServiceImpl) createDTOToModel(req *dto.Create");
   Verb_s_at 1;
   Lit ("Request) *models.");
   Verb_s_at 1;
   Lit (lines
      [" {"]
     ++ tab ++ "return &models.");
   Verb_s_at 1;
   Lit (lines
      ["{";
       tab ++ tab ++ "// Map your DTO fields to model fields here";
       tab ++ tab ++ "// Example:";
       tab ++ tab ++ "// Name:        req.Name,";
       tab ++ tab ++ "// Email:       req.Email,";
       tab ++ tab ++ "// Description: req.Description,";
       tab ++ "}";
       "}";
       EmptyString]
     ++ "   b. internal/service/");
   Verb_s_at 2;
   Lit (lines
      ["/create.go (Create method):";
       EmptyString;
       "package service";
       EmptyString;
       "import (";
       tab ++ dq ++ "context" ++ dq]
     ++ tab ++ dq);
   Verb_s_at 3;
   Lit (lines
      ["/internal/dto" ++ dq;
       ")";
       EmptyString]
     ++ "func (s *");
   Verb_s_at 1;
   Lit ("ServiceImpl) Create(ctx context.Context, req *dto.Create");
   Verb_s_at 1;
   Lit ("Request) (*dto.");
   Verb_s_at 1;
   Lit (lines
      ["Response, error) {";
       tab ++ "// Convert DTO to model";
       tab ++ "model := s.createDTOToModel(req)";
       EmptyString;
       tab ++ "// Create in repository"]
     ++ tab ++ "if err := s.");
   Verb_s_at 2;
   Lit (lines
      ["Repo.Create(ctx, model); err != nil {";
       tab ++ tab ++ "return nil, err";
       tab ++ "}";
       EmptyString;
       tab ++ "// Convert model back to DTO and return";
       tab ++ "return s.modelToDTO(model), nil";
       "}";
       EmptyString]
     ++ "   c. internal/service/");
   Verb_s_at 2;
   Lit (lines
      ["/update.go (Update method):";
       EmptyString;
       "package service";
       EmptyString;
       "import (";
       tab ++ dq ++ "context" ++ dq;
       tab ++ dq ++ "errors" ++ dq]
     ++ tab ++ dq);
   Verb_s_at 3;
   Lit (lines
      ["/internal/dto" ++ dq;
       ")";
       EmptyString]
     ++ "func (s *");
   Verb_s_at 1;
   Lit ("ServiceImpl) Update(ctx context.Context, req *dto.Update");
   Verb_s_at 1;
   Lit ("Request) (*dto.");
   Verb_s_at 1;
   Lit (lines
      ["Response, error) {";
       tab ++ "// First, get the existing record";
       tab ++ "filters := map[string]interface{}{" ++ dq ++ "id" ++ dq ++ ": req.ID}"]
     ++ tab ++ "existing, err := s.");
   Verb_s_at 2;
   Lit (lines
      ["Repo.Get(ctx, filters)";
       tab ++ "if err != nil {";
       tab ++ tab ++ "return nil, err";
       tab ++ "}";
       tab ++ "if len(existing) == 0 {"]
     ++ tab ++ tab ++ "return nil, errors.New(" ++ dq);
   Verb_s_at 2;
   Lit (lines
      [" not found" ++ dq ++ ")";
       tab ++ "}";
       EmptyString;
       tab ++ "model := &existing[0]";
       tab ++ "// Update only the fields that are provided (not nil)";
       tab ++ "// Example:";
       tab ++ "// if req.Name != nil {";
       tab ++ "//     model.Name = *req.Name";
       tab ++ "// }";
       tab ++ "// if req.Email != nil {";
       tab ++ "//     model.Email = *req.Email";
       tab ++ "// }";
       tab ++ "// if req.Description != nil {";
       tab ++ "//     model.Description = *req.Description";
       tab ++ "// }";
       EmptyString;
       tab ++ "// Update in repository"]
     ++ tab ++ "if err := s.");
   Verb_s_at 2;
   Lit (lines
      ["Repo.Update(ctx, model); err != nil {";
       tab ++ tab ++ "return nil, err";
       tab ++ "}";
       EmptyString;
       tab ++ "// Convert model back to DTO and return";
       tab ++ "return s.modelToDTO(model), nil";
       "}";
       EmptyString]
     ++ "   d. internal/service/");
   Verb_s_at 2;
   Lit (lines
      ["/delete.go (Delete method):";
       EmptyString;
       "package service";
       EmptyString;
       "import " ++ dq ++ "context" ++ dq;
       EmptyString]
     ++ "func (s *");
   Verb_s_at 1;
   Lit (lines
      ["ServiceImpl) Delete(ctx context.Context, id uint) error {"]
     ++ tab ++ "return s.");
   Verb_s_at 2;
   Lit (lines
      ["Repo.Delete(ctx, id)";
       "}";
       EmptyString]
     ++ "   e. internal/service/");
   Verb_s_at 2;
   Lit (lines
      ["/get_by_id.go (GetByID method):";
       EmptyString;
       "package service";
       EmptyString;
       "import (";
       tab ++ dq ++ "context" ++ dq;
       tab ++ dq ++ "errors" ++ dq]
     ++ tab ++ dq);
   Verb_s_at 3;
   Lit (lines
      ["/internal/dto" ++ dq;
       ")";
       EmptyString]
     ++ "func (s *");
   Verb_s_at 1;
   Lit ("ServiceImpl) GetByID(ctx context.Context, id uint) (*dto.");
   Verb_s_at 1;
   Lit (lines
      ["Response, error) {";
       tab ++ "filters := map[string]interface{}{" ++ dq ++ "id" ++ dq ++ ": id}"]
     ++ tab ++ "results, err := s.");
   Verb_s_at 2;
   Lit (lines
      ["Repo.Get(ctx, filters)";
       tab ++ "if err != nil {";
       tab ++ tab ++ "return nil, err";
       tab ++ "}";
       tab ++ "if len(results) == 0 {"]
     ++ tab ++ tab ++ "return nil, errors.New(" ++ dq);
   Verb_s_at 2;
   Lit (lines
      [" not found" ++ dq ++ ")";
       tab ++ "}";
       EmptyString;
       tab ++ "return s.modelToDTO(&results[0]), nil";
       "}";
       EmptyString]
     ++ "   f. internal/service/");
   Verb_s_at 2;
   Lit (lines
      ["/list.go (List method):";
       EmptyString;
       "package service";
       EmptyString;
       "import (";
       tab ++ dq ++ "context" ++ dq]
     ++ tab ++ dq);
   Verb_s_at 3;
   Lit (lines
      ["/internal/dto" ++ dq;
       ")";
       EmptyString]
     ++ "func (s *");
   Verb_s_at 1;
   Lit ("ServiceImpl) List(ctx context.Context, page, limit int, filters map[string]interface{}) (*dto.List");
   Verb_s_at 1;
   Lit (lines
      ["Response, error) {";
       tab ++ "// Get data from repository"]
     ++ tab ++ "results, err := s.");
   Verb_s_at 2;
   Lit (lines
      ["Repo.Get(ctx, filters)";
       tab ++ "if err != nil {";
       tab ++ tab ++ "return nil, err";
       tab ++ "}";
       EmptyString;
       tab ++ "// Convert models to DTOs"]
     ++ tab ++ "dtoResults := make([]dto.");
   Verb_s_at 1;
   Lit (lines
      ["Response, len(results))";
       tab ++ "for i, model := range results {";
       tab ++ tab ++ "dtoResults[i] = *s.modelToDTO(&model)";
       tab ++ "}";
       EmptyString;
       tab ++ "// TODO: Implement proper pagination in repository layer";
       tab ++ "// For now, return all results"]
     ++ tab ++ "return &dto.List");
   Verb_s_at 1;
   Lit (lines
      ["Response{";
       tab ++ tab ++ "Data:  dtoResults,";
       tab ++ tab ++ "Total: len(dtoResults),";
       tab ++ tab ++ "Page:  page,";
       tab ++ tab ++ "Limit: limit,";
       tab ++ "}, nil";
       "}";
       EmptyString;
       "5. Update your controller to use the service layer instead of repository directly.";
       "   The controller should now inject the service and use DTOs for request/response.";
       EmptyString;
       "6. Bootstrap dependencies in cmd/web/main.go:";
       "   After creating services, you will need to update cmd/web/main.go to bootstrap the service layer.";
       "   This typically involves:";
       "   - Creating instances of your repositories (e.g., userRepo := repository.NewUserRepository(db)).";
       "   - Creating instances of your services, injecting repositories (e.g., userService := service.NewUserService(userRepo)).";
       "   - Creating instances of your controllers, injecting services (e.g., userController := controllers.NewUserController(userService)).";
       EmptyString;
       "   Here's an example of how cmd/web/main.go might look with the service layer:";
       EmptyString;
       "package main";
       EmptyString;
       "import (";
       tab ++ dq ++ "net/http" ++ dq;
       EmptyString;
       tab ++ dq ++ "github.com/labstack/echo/v4" ++ dq;
       tab ++ dq ++ "github.com/labstack/echo/v4/middleware" ++ dq;
       tab ++ dq ++ "gorm.io/driver/sqlite" ++ dq;
       tab ++ dq ++ "gorm.io/gorm" ++ dq;
       EmptyString]
     ++ tab ++ dq);
   Verb_s_at 3;
   Lit (lines
      ["/internal/models" ++ dq]
     ++ tab ++ dq);
   Verb_s_at 3;
   Lit (lines
      ["/internal/repository" ++ dq]
     ++ tab ++ dq);
   Verb_s_at 3;
   Lit (lines
      ["/internal/service" ++ dq]
     ++ tab ++ dq);
   Verb_s_at 3;
   Lit (lines
      ["/internal/controllers" ++ dq;
       ")";
       EmptyString;
       "func main() {";
       tab ++ "e := echo.New()";
       tab ++ "e.Use(middleware.Logger())";
       tab ++ "e.Use(middleware.Recover())";
       EmptyString;
       tab ++ "// Database initialization";
       tab ++ "db, err := gorm.Open(sqlite.Open(" ++ dq ++ "gorm.db" ++ dq ++ "), &gorm.Config{})";
       tab ++ "if err != nil {";
       tab ++ tab ++ "e.Logger.Fatal(" ++ dq ++ "failed to connect database" ++ dq ++ ", err)";
       tab ++ "}";
       EmptyString;
       tab ++ "// Auto-migrate models"]
     ++ tab ++ "err = db.AutoMigrate(&models.");
   Verb_s_at 1;
   Lit (lines
      ["{}) // Add all your models here";
       tab ++ "if err != nil {";
       tab ++ tab ++ "e.Logger.Fatal(" ++ dq ++ "failed to auto migrate models" ++ dq ++ ", err)";
       tab ++ "}";
       EmptyString;
       tab ++ "// Initialize repositories"]
     ++ tab);
   Verb_s_at 2;
   Lit ("Repo := repository.New");
   Verb_s_at 1;
   Lit (lines
      ["Repository(db)";
       EmptyString;
       tab ++ "// Initialize services"]
     ++ tab);
   Verb_s_at 2;
   Lit ("Service := service.New");
   Verb_s_at 1;
   Lit ("Service(");
   Verb_s_at 2;
   Lit (lines
      ["Repo)";
       EmptyString;
       tab ++ "// Initialize controllers"]
     ++ tab);
   Verb_s_at 2;
   Lit ("Controller := controllers.New");
   Verb_s_at 1;
   Lit ("Controller(");
   Verb_s_at 2;
   Lit (lines
      ["Service)";
       EmptyString;
       tab ++ "// Routes";
       tab ++ "e.GET(" ++ dq ++ "/" ++ dq ++ ", hello)"]
     ++ tab ++ "e.POST(" ++ dq ++ "/");
   Verb_s_at 2;
   Lit ("s" ++ dq ++ ", ");
   Verb_s_at 2;
   Lit ("Controller.Create");
   Verb_s_at 1;
   Lit (lines
      [")"]
     ++ tab ++ "e.GET(" ++ dq ++ "/");
   Verb_s_at 2;
   Lit ("s/:id" ++ dq ++ ", ");
   Verb_s_at 2;
   Lit ("Controller.Get");
   Verb_s_at 1;
   Lit (lines
      ["ByID)"]
     ++ tab ++ "e.GET(" ++ dq ++ "/");
   Verb_s_at 2;
   Lit ("s" ++ dq ++ ", ");
   Verb_s_at 2;
   Lit ("Controller.List");
   Verb_s_at 1;
   Lit (lines
      [")"]
     ++ tab ++ "e.PUT(" ++ dq ++ "/");
   Verb_s_at 2;
   Lit ("s/:id" ++ dq ++ ", ");
   Verb_s_at 2;
   Lit ("Controller.Update");
   Verb_s_at 1;
   Lit (lines
      [")"]
     ++ tab ++ "e.DELETE(" ++ dq ++ "/");
   Verb_s_at 2;
   Lit ("s/:id" ++ dq ++ ", ");
   Verb_s_at 2;
   Lit ("Controller.Delete");
   Verb_s_at 1;
   Lit (lines
      [")";
       EmptyString;
       tab ++ "e.Logger.Fatal(e.Start(" ++ dq ++ ":1323" ++ dq ++ "))";
       "}";
       EmptyString;
       "func hello(c echo.Context) error {";
       tab ++ "return c.String(http.StatusOK, " ++ dq ++ "Hello, World!" ++ dq ++ ")";
       "}"])].

Section WithLibraries.
Context {tables : UnicodeTables}.

(** [ProduceServiceBoilerplateHandler]. *)
Definition ProduceServiceBoilerplateHandler (request : CallToolRequest) : CallToolResult :=
  let appName := GetString request "app_name" EmptyString in
  if String.eqb appName EmptyString then NewToolResultError "App name is required"
  else
    match RequireString request "model_name" with
    | inr err => NewToolResultError (Sprintf [Lit "Error getting 'model_name': "; Verb_s] [err])
    | inl modelName =>
        let titleModelName := Strings.Title modelName in
        let lowerModelName := Strings.ToLower modelName in
        let response := Sprintf response_format [titleModelName; lowerModelName; appName] in
        NewToolResultText response
    end.

End WithLibraries.

End ProduceServiceBoilerplate.

(** ** produce_api_controller_boilerplate ([internal/tools/produce_api_controller_boilerplate.go]) *)

Module ProduceApiControllerBoilerplate.
Import Str Fmt Mcp.

(** [GetProduceApiControllerBoilerplateTool]: [app_name] is declared without [mcp.Required()]. *)
Definition GetProduceApiControllerBoilerplateTool : Tool :=
  NewTool "produce_api_controller_boilerplate" [WithString "app_name" false; WithString "model_name" true].

(** The format string of the response. *)
Definition response_format : format :=
  [Lit (lines
      [EmptyString;
       "# API Controller Scaffold Instructions";
       EmptyString]
     ++ "To scaffold the API controller for model '");
   Verb_s_at 1;
   Lit (lines
      ["', please perform the following steps:";
       EmptyString;
       "1. Create the controller directory (or ensure it exists):"]
     ++ "   `mkdir -p internal/controllers/");
   Verb_s_at 2;
   Lit (lines
      ["`";
       EmptyString]
     ++ "2. For each of the following, create or update the file in `internal/controllers/");
   Verb_s_at 2;
   Lit (lines
      ["/` as needed:";
       EmptyString;
       "   a. `controller.go` (interface and constructor):";
       "```go";
       "package controllers";
       EmptyString;
       "import (";
       tab ++ dq ++ "github.com/labstack/echo/v4" ++ dq]
     ++ tab ++ dq);
   Verb_s_at 5;
   Lit (lines
      ["/internal/service" ++ dq]
     ++ tab ++ dq);
   Verb_s_at 5;
   Lit (lines
      ["/internal/dto" ++ dq;
       ")";
       EmptyString]
     ++ "type ");
   Verb_s_at 3;
   Lit (lines
      ["Controller interface {"]
     ++ tab ++ "Create");
   Verb_s_at 3;
   Lit (lines
      ["(c echo.Context) error"]
     ++ tab ++ "Update");
   Verb_s_at 3;
   Lit (lines
      ["(c echo.Context) error"]
     ++ tab ++ "Delete");
   Verb_s_at 3;
   Lit (lines
      ["(c echo.Context) error"]
     ++ tab ++ "List");
   Verb_s_at 3;
   Lit (lines
      ["(c echo.Context) error // New: List method"]
     ++ tab ++ "Get");
   Verb_s_at 3;
   Lit (lines
      ["ByID(c echo.Context) error // New: GetByID method";
       "}";
       EmptyString]
     ++ "type ");
   Verb_s_at 3;
   Lit (lines
      ["ControllerImpl struct {"]
     ++ tab);
   Verb_s_at 4;
   Lit ("Service service.");
   Verb_s_at 3;
   Lit (lines
      ["Service";
       "}";
       EmptyString]
     ++ "func New");
   Verb_s_at 3;
   Lit ("Controller(");
   Verb_s_at 4;
   Lit ("Service service.");
   Verb_s_at 3;
   Lit ("Service) ");
   Verb_s_at 3;
   Lit (lines
      ["Controller {"]
     ++ tab ++ "return &");
   Verb_s_at 3;
   Lit ("ControllerImpl{");
   Verb_s_at 4;
   Lit ("Service: ");
   Verb_s_at 4;
   Lit (lines
      ["Service}";
       "}";
       "```";
       EmptyString;
       "   b. `create.go` (Create method - JSON request & response):";
       "```go";
       "package controllers";
       EmptyString;
       "import (";
       tab ++ dq ++ "net/http" ++ dq;
       EmptyString;
       tab ++ dq ++ "github.com/labstack/echo/v4" ++ dq]
     ++ tab ++ dq);
   Verb_s_at 5;
   Lit (lines
      ["/internal/dto" ++ dq;
       ")";
       EmptyString]
     ++ "func (ctrl *");
   Verb_s_at 3;
   Lit ("ControllerImpl) Create");
   Verb_s_at 3;
   Lit (lines
      ["(c echo.Context) error {"]
     ++ tab ++ "req := new(dto.Create");
   Verb_s_at 3;
   Lit (lines
      ["Request)";
       tab ++ "if err := c.Bind(req); err != nil {";
       tab ++ tab ++ "return echo.NewHTTPError(http.StatusBadRequest, err.Error())";
       tab ++ "}";
       tab ++ "// Add validation here if needed"]
     ++ tab ++ "result, err := ctrl.");
   Verb_s_at 4;
   Lit (lines
      ["Service.Create(c.Request().Context(), req)";
       tab ++ "if err != nil {";
       tab ++ tab ++ "return echo.NewHTTPError(http.StatusInternalServerError, err.Error())";
       tab ++ "}";
       tab ++ "return c.JSON(http.StatusCreated, result)";
       "}";
       "```";
       EmptyString;
       "   c. `update.go` (Update method - JSON request & response):";
       "```go";
       "package controllers";
       EmptyString;
       "import (";
       tab ++ dq ++ "net/http" ++ dq;
       tab ++ dq ++ "strconv" ++ dq;
       EmptyString;
       tab ++ dq ++ "github.com/labstack/echo/v4" ++ dq]
     ++ tab ++ dq);
   Verb_s_at 5;
   Lit (lines
      ["/internal/dto" ++ dq;
       ")";
       EmptyString]
     ++ "func (ctrl *");
   Verb_s_at 3;
   Lit ("ControllerImpl) Update");
   Verb_s_at 3;
   Lit (lines
      ["(c echo.Context) error {";
       tab ++ "id, err := strconv.ParseUint(c.Param(" ++ dq ++ "id" ++ dq ++ "), 10, 64)";
       tab ++ "if err != nil {";
       tab ++ tab ++ "return echo.NewHTTPError(http.StatusBadRequest, " ++ dq ++ "Invalid ID" ++ dq ++ ")";
       tab ++ "}";
       EmptyString]
     ++ tab ++ "req := new(dto.Update");
   Verb_s_at 3;
   Lit (lines
      ["Request)";
       tab ++ "if err := c.Bind(req); err != nil {";
       tab ++ tab ++ "return echo.NewHTTPError(http.StatusBadRequest, err.Error())";
       tab ++ "}";
       tab ++ "req.ID = uint(id)";
       EmptyString;
       tab ++ "// Add validation here if needed"]
     ++ tab ++ "result, err := ctrl.");
   Verb_s_at 4;
   Lit (lines
      ["Service.Update(c.Request().Context(), req)";
       tab ++ "if err != nil {";
       tab ++ tab ++ "return echo.NewHTTPError(http.StatusInternalServerError, err.Error())";
       tab ++ "}";
       tab ++ "return c.JSON(http.StatusOK, result)";
       "}";
       "```";
       EmptyString;
       "   d. `delete.go` (Delete method - JSON request & response):";
       "```go";
       "package controllers";
       EmptyString;
       "import (";
       tab ++ dq ++ "net/http" ++ dq;
       tab ++ dq ++ "strconv" ++ dq;
       EmptyString;
       tab ++ dq ++ "github.com/labstack/echo/v4" ++ dq;
       ")";
       EmptyString]
     ++ "func (ctrl *");
   Verb_s_at 3;
   Lit ("ControllerImpl) Delete");
   Verb_s_at 3;
   Lit (lines
      ["(c echo.Context) error {";
       tab ++ "id, err := strconv.ParseUint(c.Param(" ++ dq ++ "id" ++ dq ++ "), 10, 64)";
       tab ++ "if err != nil {";
       tab ++ tab ++ "return echo.NewHTTPError(http.StatusBadRequest, " ++ dq ++ "Invalid ID" ++ dq ++ ")";
       tab ++ "}"]
     ++ tab ++ "if err := ctrl.");
   Verb_s_at 4;
   Lit (lines
      ["Service.Delete(c.Request().Context(), uint(id)); err != nil {";
       tab ++ tab ++ "return echo.NewHTTPError(http.StatusInternalServerError, err.Error())";
       tab ++ "}";
       tab ++ "return c.NoContent(http.StatusNoContent)";
       "}";
       "```";
       EmptyString;
       "   e. `list.go` (List method - JSON request & response):";
       "```go";
       "package controllers";
       EmptyString;
       "import (";
       tab ++ dq ++ "net/http" ++ dq;
       tab ++ dq ++ "strconv" ++ dq;
       EmptyString;
       tab ++ dq ++ "github.com/labstack/echo/v4" ++ dq;
       ")";
       EmptyString]
     ++ "func (ctrl *");
   Verb_s_at 3;
   Lit ("ControllerImpl) List");
   Verb_s_at 3;
   Lit (lines
      ["(c echo.Context) error {";
       tab ++ "// Parse pagination parameters";
       tab ++ "page, _ := strconv.Atoi(c.QueryParam(" ++ dq ++ "page" ++ dq ++ "))";
       tab ++ "if page <= 0 {";
       tab ++ tab ++ "page = 1";
       tab ++ "}";
       tab ++ "limit, _ := strconv.Atoi(c.QueryParam(" ++ dq ++ "limit" ++ dq ++ "))";
       tab ++ "if limit <= 0 {";
       tab ++ tab ++ "limit = 10";
       tab ++ "}";
       EmptyString;
       tab ++ "// You might want to parse query parameters for filtering here";
       tab ++ "filters := make(map[string]interface{}) ";
       tab ++ "// Example: filters[" ++ dq ++ "name" ++ dq ++ "] = c.QueryParam(" ++ dq ++ "name" ++ dq ++ ")";
       EmptyString]
     ++ tab ++ "result, err := ctrl.");
   Verb_s_at 4;
   Lit (lines
      ["Service.List(c.Request().Context(), page, limit, filters)";
       tab ++ "if err != nil {";
       tab ++ tab ++ "return echo.NewHTTPError(http.StatusInternalServerError, err.Error())";
       tab ++ "}";
       tab ++ "return c.JSON(http.StatusOK, result)";
       "}";
       "```";
       EmptyString;
       "   f. `get_by_id.go` (GetByID method - JSON request & response):";
       "```go";
       "package controllers";
       EmptyString;
       "import (";
       tab ++ dq ++ "net/http" ++ dq;
       tab ++ dq ++ "strconv" ++ dq;
       EmptyString;
       tab ++ dq ++ "github.com/labstack/echo/v4" ++ dq;
       ")";
       EmptyString]
     ++ "func (ctrl *");
   Verb_s_at 3;
   Lit ("ControllerImpl) Get");
   Verb_s_at 3;
   Lit (lines
      ["ByID(c echo.Context) error {";
       tab ++ "id, err := strconv.ParseUint(c.Param(" ++ dq ++ "id" ++ dq ++ "), 10, 64)";
       tab ++ "if err != nil {";
       tab ++ tab ++ "return echo.NewHTTPError(http.StatusBadRequest, " ++ dq ++ "Invalid ID" ++ dq ++ ")";
       tab ++ "}";
       EmptyString]
     ++ tab ++ "result, err := ctrl.");
   Verb_s_at 4;
   Lit (lines
      ["Service.GetByID(c.Request().Context(), uint(id))";
       tab ++ "if err != nil {";
       tab ++ tab ++ "return echo.NewHTTPError(http.StatusInternalServerError, err.Error())";
       tab ++ "}";
       tab ++ "return c.JSON(http.StatusOK, result)";
       "}";
       "```"])].

Section WithLibraries.
Context {tables : UnicodeTables}.

(** [ProduceApiControllerBoilerplateHandler]. *)
Definition ProduceApiControllerBoilerplateHandler (request : CallToolRequest) : CallToolResult :=
  let appName := GetString request "app_name" EmptyString in
  if String.eqb appName EmptyString then NewToolResultError "App name is required"
  else
    match RequireString request "model_name" with
    | inr err => NewToolResultError (Sprintf [Lit "Error getting 'model_name': "; Verb_s] [err])
    | inl modelName =>
        let titleModelName := Strings.Title modelName in
        let lowerModelName := Strings.ToLower modelName in
        let response := Sprintf response_format [titleModelName; lowerModelName; titleModelName; lowerModelName; appName] in
        NewToolResultText response
    end.

End WithLibraries.

End ProduceApiControllerBoilerplate.

(** ** produce_html_controller_boilerplate *)

Module ProduceHtmlControllerBoilerplate.
Import Str Fmt Mcp.

(** [GetProduceHtmlControllerBoilerplateTool]: [app_name] is declared without [mcp.Required()]. *)
Definition GetProduceHtmlControllerBoilerplateTool : Tool :=
  NewTool "produce_html_controller_boilerplate" [WithString "app_name" false; WithString "model_name" true].

(** The format string of the response. *)
Definition response_format : format :=
  [Lit (lines
      [EmptyString;
       "# HTML Controller Scaffold Instructions using templUI";
       EmptyString]
     ++ "To scaffold the HTML controller for model '");
   Verb_s_at 1;
   Lit (lines
      ["' using templUI, please perform the following steps:";
       EmptyString;
       "## Prerequisites";
       EmptyString;
       "1. Install the templUI CLI and templ:";
       "   `go install github.com/axzilla/templui/cmd/templui@latest`";
       "   `go install github.com/a-h/templ/cmd/templ@latest`";
       EmptyString;
       "2. Install Tailwind CSS (on Mac):";
       "   `brew install tailwindcss`";
       EmptyString;
       "## Base Configuration";
       EmptyString;
       "1. Create the CSS configuration file and base styles:";
       "   `mkdir -p assets/css`";
       "   Create `assets/css/input.css` with the following content:";
       EmptyString;
       "```css";
       "@import 'tailwindcss';";
       EmptyString;
       "@custom-variant dark (&:where(.dark, .dark *));";
       EmptyString;
       "@theme inline {";
       "  --color-border: var(--border);";
       "  --color-input: var(--input);";
       "  --color-background: var(--background);";
       "  --color-foreground: var(--foreground);";
       "  --color-primary: var(--primary);";
       "  --color-primary-foreground: var(--primary-foreground);";
       "  --color-secondary: var(--secondary);";
       "  --color-secondary-foreground: var(--secondary-foreground);";
       "  --color-destructive: var(--destructive);";
       "  --color-destructive-foreground: var(--destructive-foreground);";
       "  --color-muted: var(--muted);";
       "  --color-muted-foreground: var(--muted-foreground);";
       "  --color-accent: var(--accent);";
       "  --color-accent-foreground: var(---accent-foreground);";
       "  --color-popover: var(--popover);";
       "  --color-popover-foreground: var(--popover-foreground);";
       "  --color-card: var(--card);";
       "  --color-card-foreground: var(--card-foreground);";
       "  --color-ring: var(--ring);";
       EmptyString;
       "  --radius-sm: calc(var(--radius) - 4px);";
       "  --radius-md: calc(var(--radius) - 2px);";
       "  --radius-lg: var(--radius);";
       EmptyString;
       "  --container-2xl: 1400px;";
       "}";
       EmptyString;
       ":root {";
       "  --background: hsl(0 0%);";
       "  --foreground: hsl(240 10%);";
       "  --muted: hsl(240 4.8%);";
       "  --muted-foreground: hsl(240 3.8%);";
       "  --popover: hsl(0 0%);";
       "  --popover-foreground: hsl(240 10%);";
       "  --card: hsl(0 0%);";
       "  --card-foreground: hsl(240 10%);";
       "  --border: hsl(240 5.9%);";
       "  --input: hsl(240 5.9%);";
       "  --primary: hsl(240 5.9%);";
       "  --primary-foreground: hsl(0 0%);";
       "  --secondary: hsl(240 4.8%);";
       "  --secondary-foreground: hsl(240 5.9%);";
       "  --accent: hsl(240 4.8%);";
       "  --accent-foreground: hsl(240 5.9%);";
       "  --destructive: hsl(0 84.2%);";
       "  --destructive-foreground: hsl(0 0%);";
       "  --ring: hsl(240 5.9%);";
       "  --radius: 0.5rem;";
       "}";
       EmptyString;
       ".dark {";
       "  --background: hsl(240 10%);";
       "  --foreground: hsl(0 0%);";
       "  --muted: hsl(240 3.7%);";
       "  --muted-foreground: hsl(240 5%);";
       "  --popover: hsl(240 10%);";
       "  --popover-foreground: hsl(0 0%);";
       "  --card: hsl(240 10%);";
       "  --card-foreground: hsl(0 0%);";
       "  --border: hsl(240 3.7%);";
       "  --input: hsl(240 3.7%);";
       "  --primary: hsl(0 0%);";
       "  --primary-foreground: hsl(240 5.9%);";
       "  --secondary: hsl(240 3.7%);";
       "  --secondary-foreground: hsl(0 0%);";
       "  --accent: hsl(240 3.7%);";
       "  --accent-foreground: hsl(0 0%);";
       "  --destructive: hsl(0 62.8%);";
       "  --destructive-foreground: hsl(0 0%);";
       "  --ring: hsl(240 4.9%);";
       "  --radius: 0.5rem;";
       "}";
       EmptyString;
       "@layer base {";
       "  * {";
       "    @apply border-border;";
       "  }";
       EmptyString;
       "  body {";
       "    @apply bg-background text-foreground;";
       "    font-feature-settings:";
       "      " ++ dq ++ "rlig" ++ dq ++ " 1,";
       "      " ++ dq ++ "calt" ++ dq ++ " 1;";
       "  }";
       "}";
       "```";
       EmptyString;
       "2. Create a Makefile for development tools:";
       "   Create `Makefile` in your project root with the following content:";
       EmptyString;
       "```makefile";
       "# Run templ generation in watch mode";
       "templ:";
       "    templ generate --watch --proxy=" ++ dq ++ "http://localhost:8090" ++ dq ++ " --open-browser=false";
       EmptyString;
       "# Run air for Go hot reload";
       "server:";
       "    air \";
       "    --build.cmd " ++ dq ++ "go build -o tmp/bin/main ./cmd/web/main.go" ++ dq ++ " \";
       "    --build.bin " ++ dq ++ "tmp/bin/main" ++ dq ++ " \";
       "    --build.delay " ++ dq ++ "100" ++ dq ++ " \";
       "    --build.exclude_dir " ++ dq ++ "node_modules" ++ dq ++ " \";
       "    --build.include_ext " ++ dq ++ "go" ++ dq ++ " \";
       "    --build.stop_on_error " ++ dq ++ "false" ++ dq ++ " \";
       "    --misc.clean_on_exit true";
       EmptyString;
       "# Watch Tailwind CSS changes";
       "tailwind:";
       "    tailwindcss -i ./assets/css/input.css -o ./assets/css/output.css --watch";
       EmptyString;
       "# Start development server with all watchers";
       "dev:";
       "    make -j3 tailwind templ server";
       "```";
       EmptyString;
       "3. Initialize templUI in your project:";
       "   `templui init`";
       EmptyString;
       "4. Add required components:";
       "   `templui add button card alert checkbox input`";
       EmptyString;
       "## Create HTML Controller Structure";
       EmptyString;
       "1. Create the directory structure:"]
     ++ "   `mkdir -p ui/layouts ui/modules ui/pages/");
   Verb_s_at 2;
   Lit (lines
      ["`";
       EmptyString;
       "2. Create the base layout:";
       "   Create `ui/layouts/base.templ` with the following content:";
       EmptyString;
       "```go";
       "package layouts";
       EmptyString;
       "import ("]
     ++ tab ++ dq);
   Verb_s_at 5;
   Lit (lines
      ["/modules" ++ dq;
       ")";
       EmptyString;
       "templ ThemeSwitcherScript() {";
       tab ++ "{{ handle := templ.NewOnceHandle() }}";
       tab ++ "@handle.Once() {";
       tab ++ tab ++ "<script nonce={ templ.GetNonce(ctx) }>";
       tab ++ tab ++ tab ++ "// Initial theme setup";
       tab ++ tab ++ tab ++ "document.documentElement.classList.toggle('dark', localStorage.getItem('appTheme') === 'dark');";
       EmptyString;
       tab ++ tab ++ tab ++ "document.addEventListener('alpine:init', () => {";
       tab ++ tab ++ tab ++ tab ++ "Alpine.data('themeHandler', () => ({";
       tab ++ tab ++ tab ++ tab ++ tab ++ "isDark: localStorage.getItem('appTheme') === 'dark',";
       tab ++ tab ++ tab ++ tab ++ tab ++ "themeClasses() {";
       tab ++ tab ++ tab ++ tab ++ tab ++ tab ++ "return this.isDark ? 'text-white' : 'bg-white text-black'";
       tab ++ tab ++ tab ++ tab ++ tab ++ "},";
       tab ++ tab ++ tab ++ tab ++ tab ++ "toggleTheme() {";
       tab ++ tab ++ tab ++ tab ++ tab ++ tab ++ "this.isDark = !this.isDark;";
       tab ++ tab ++ tab ++ tab ++ tab ++ tab ++ "localStorage.setItem('appTheme', this.isDark ? 'dark' : 'light');";
       tab ++ tab ++ tab ++ tab ++ tab ++ tab ++ "document.documentElement.classList.toggle('dark', this.isDark);";
       tab ++ tab ++ tab ++ tab ++ tab ++ "}";
       tab ++ tab ++ tab ++ tab ++ "}))";
       tab ++ tab ++ tab ++ "})";
       tab ++ tab ++ "</script>";
       tab ++ "}";
       "}";
       EmptyString;
       "templ BaseLayout() {";
       tab ++ "<!DOCTYPE html>";
       tab ++ "<html lang=" ++ dq ++ "en" ++ dq ++ " class=" ++ dq ++ "h-full dark" ++ dq ++ ">";
       tab ++ tab ++ "<head>";
       tab ++ tab ++ tab ++ "<meta charset=" ++ dq ++ "UTF-8" ++ dq ++ "/>";
       tab ++ tab ++ tab ++ "<meta name=" ++ dq ++ "viewport" ++ dq ++ " content=" ++ dq ++ "width=device-width, initial-scale=1.0" ++ dq ++ "/>";
       tab ++ tab ++ tab ++ "<!-- Tailwind CSS (output) -->";
       tab ++ tab ++ tab ++ "<link href=" ++ dq ++ "/assets/css/output.css" ++ dq ++ " rel=" ++ dq ++ "stylesheet" ++ dq ++ "/>";
       tab ++ tab ++ tab ++ "<!-- Alpine.js -->";
       tab ++ tab ++ tab ++ "<script defer src=" ++ dq ++ "https://cdn.jsdelivr.net/npm/alpinejs@3.x.x/dist/cdn.min.js" ++ dq ++ "></script>";
       tab ++ tab ++ tab ++ "<!-- Theme switcher script -->";
       tab ++ tab ++ tab ++ "@ThemeSwitcherScript()";
       tab ++ tab ++ "</head>";
       tab ++ tab ++ "<body";
       tab ++ tab ++ tab ++ "x-data=" ++ dq ++ "themeHandler" ++ dq;
       tab ++ tab ++ tab ++ "x-bind:class=" ++ dq ++ "themeClasses" ++ dq;
       tab ++ tab ++ ">";
       tab ++ tab ++ tab ++ "@modules.Navbar()";
       tab ++ tab ++ tab ++ "{ children... }";
       tab ++ tab ++ "</body>";
       tab ++ "</html>";
       "}";
       "```";
       EmptyString;
       "3. Create the navbar module:";
       "   Create `ui/modules/navbar.templ` with the following content:";
       EmptyString;
       "```go";
       "package modules";
       EmptyString;
       "templ Navbar() {";
       tab ++ "<nav class=" ++ dq ++ "border-b py-3" ++ dq ++ ">";
       tab ++ tab ++ "<div class=" ++ dq ++ "container mx-auto px-4 flex justify-between items-center" ++ dq ++ ">"]
     ++ tab ++ tab ++ tab ++ "<a href=" ++ dq ++ "/" ++ dq ++ " class=" ++ dq ++ "text-xl font-bold" ++ dq ++ ">");
   Verb_s_at 5;
   Lit (lines
      ["</a>";
       tab ++ tab ++ tab ++ "<div class=" ++ dq ++ "flex items-center gap-4" ++ dq ++ ">"]
     ++ tab ++ tab ++ tab ++ tab ++ "<a href=" ++ dq ++ "/");
   Verb_s_at 2;
   Lit ("s" ++ dq ++ " class=" ++ dq ++ "hover:underline" ++ dq ++ ">");
   Verb_s_at 1;
   Lit (lines
      ["s</a>";
       tab ++ tab ++ tab ++ tab ++ "@ThemeSwitcher()";
       tab ++ tab ++ tab ++ "</div>";
       tab ++ tab ++ "</div>";
       tab ++ "</nav>";
       "}";
       "```";
       EmptyString;
       "4. Create the theme switcher module:";
       "   Create `ui/modules/theme_switcher.templ` with the following content:";
       EmptyString;
       "```go";
       "package modules";
       EmptyString]
     ++ "import " ++ dq);
   Verb_s_at 5;
   Lit (lines
      ["/components/button" ++ dq]
     ++ "import " ++ dq);
   Verb_s_at 5;
   Lit (lines
      ["/components/icon" ++ dq;
       EmptyString;
       "templ themeSwitcherHandler() {";
       tab ++ "{{ handle := templ.NewOnceHandle() }}";
       tab ++ "@handle.Once() {";
       tab ++ tab ++ "<script nonce={ templ.GetNonce(ctx) }>";
       tab ++ tab ++ tab ++ "document.addEventListener('alpine:init', () => {";
       tab ++ tab ++ tab ++ tab ++ "Alpine.data('themeSwitcherHandler', () => ({";
       tab ++ tab ++ tab ++ tab ++ tab ++ "isDarkMode() {";
       tab ++ tab ++ tab ++ tab ++ tab ++ tab ++ "return this.isDark";
       tab ++ tab ++ tab ++ tab ++ tab ++ "},";
       tab ++ tab ++ tab ++ tab ++ tab ++ "isLightMode() {";
       tab ++ tab ++ tab ++ tab ++ tab ++ tab ++ "return !this.isDark";
       tab ++ tab ++ tab ++ tab ++ tab ++ "}";
       tab ++ tab ++ tab ++ tab ++ "}))";
       tab ++ tab ++ tab ++ "}) ";
       tab ++ tab ++ "</script>";
       tab ++ "}";
       "}";
       EmptyString;
       "type ThemeSwitcherProps struct {";
       tab ++ "Class string";
       "}";
       EmptyString;
       "templ ThemeSwitcher(props ...ThemeSwitcherProps) {";
       tab ++ "{{ var p ThemeSwitcherProps }}";
       tab ++ "if len(props) > 0 {";
       tab ++ tab ++ "{{ p = props[0] }}";
       tab ++ "}";
       tab ++ "@themeSwitcherHandler()";
       tab ++ "@button.Button(button.Props{";
       tab ++ tab ++ "Size:    button.SizeIcon,";
       tab ++ tab ++ "Variant: button.VariantGhost,";
       tab ++ tab ++ "Class:   p.Class,";
       tab ++ tab ++ "Attributes: templ.Attributes{";
       tab ++ tab ++ tab ++ dq ++ "@click" ++ dq ++ ": " ++ dq ++ "toggleTheme" ++ dq ++ ",";
       tab ++ tab ++ "},";
       tab ++ "}) {";
       tab ++ tab ++ "@DynamicThemeIcon()";
       tab ++ "}";
       "}";
       EmptyString;
       "templ DynamicThemeIcon() {";
       tab ++ "<div x-data=" ++ dq ++ "themeSwitcherHandler" ++ dq ++ ">";
       tab ++ tab ++ "<span x-show=" ++ dq ++ "isDarkMode" ++ dq ++ " class=" ++ dq ++ "block" ++ dq ++ ">";
       tab ++ tab ++ tab ++ "@LightIcon()";
       tab ++ tab ++ "</span>";
       tab ++ tab ++ "<span x-show=" ++ dq ++ "isLightMode" ++ dq ++ " class=" ++ dq ++ "block" ++ dq ++ ">";
       tab ++ tab ++ tab ++ "@DarkIcon()";
       tab ++ tab ++ "</span>";
       tab ++ "</div>";
       "}";
       EmptyString;
       "templ DarkIcon() {";
       tab ++ "@icon.Moon()";
       "}";
       EmptyString;
       "templ LightIcon() {";
       tab ++ "@icon.SunMedium()";
       "}";
       "```";
       EmptyString]
     ++ "5. Create the ");
   Verb_s_at 1;
   Lit (lines
      [" pages:";
       EmptyString]
     ++ "   a. Create `ui/pages/");
   Verb_s_at 2;
   Lit (lines
      ["/index.templ` (List page):";
       EmptyString;
       "```go"]
     ++ "package ");
   Verb_s_at 2;
   Lit (lines
      ["pages";
       EmptyString;
       "import ("]
     ++ tab ++ dq);
   Verb_s_at 5;
   Lit (lines
      ["/layouts" ++ dq]
     ++ tab ++ dq);
   Verb_s_at 5;
   Lit (lines
      ["/components/button" ++ dq]
     ++ tab ++ dq);
   Verb_s_at 5;
   Lit (lines
      ["/components/alert" ++ dq]
     ++ tab ++ dq);
   Verb_s_at 5;
   Lit (lines
      ["/components/icon" ++ dq]
     ++ tab ++ dq);
   Verb_s_at 5;
   Lit (lines
      ["/internal/dto" ++ dq;
       ")";
       EmptyString]
     ++ "templ Index(items []dto.");
   Verb_s_at 3;
   Lit (lines
      ["Response, page int, limit int, total int) {";
       tab ++ "@layouts.BaseLayout() {";
       tab ++ tab ++ "<div class=" ++ dq ++ "container mx-auto px-4 py-8" ++ dq ++ ">";
       tab ++ tab ++ tab ++ "<div class=" ++ dq ++ "flex justify-between items-center mb-6" ++ dq ++ ">"]
     ++ tab ++ tab ++ tab ++ tab ++ "<h1 class=" ++ dq ++ "text-2xl font-bold" ++ dq ++ ">");
   Verb_s_at 1;
   Lit (lines
      ["s</h1>"]
     ++ tab ++ tab ++ tab ++ tab ++ "<a href=" ++ dq ++ "/");
   Verb_s_at 2;
   Lit (lines
      ["s/new" ++ dq ++ ">";
       tab ++ tab ++ tab ++ tab ++ tab ++ "@button.Button(button.Props{}) {"]
     ++ tab ++ tab ++ tab ++ tab ++ tab ++ tab ++ "Create ");
   Verb_s_at 1;
   Lit (lines
      [EmptyString;
       tab ++ tab ++ tab ++ tab ++ tab ++ "}";
       tab ++ tab ++ tab ++ tab ++ "</a>";
       tab ++ tab ++ tab ++ "</div>";
       EmptyString;
       tab ++ tab ++ tab ++ "<!-- Example of using Alert component -->";
       tab ++ tab ++ tab ++ "<div class=" ++ dq ++ "mb-6" ++ dq ++ ">";
       tab ++ tab ++ tab ++ tab ++ "@alert.Alert() {";
       tab ++ tab ++ tab ++ tab ++ tab ++ "@icon.Rocket(icon.Props{Size: 16})";
       tab ++ tab ++ tab ++ tab ++ tab ++ "@alert.Title() {"]
     ++ tab ++ tab ++ tab ++ tab ++ tab ++ tab);
   Verb_s_at 1;
   Lit (lines
      [" Management";
       tab ++ tab ++ tab ++ tab ++ tab ++ "}";
       tab ++ tab ++ tab ++ tab ++ tab ++ "@alert.Description() {"]
     ++ tab ++ tab ++ tab ++ tab ++ tab ++ tab ++ "This page allows you to manage your ");
   Verb_s_at 1;
   Lit ("s. You can create, view, edit, and delete ");
   Verb_s_at 1;
   Lit (lines
      ["s.";
       tab ++ tab ++ tab ++ tab ++ tab ++ "}";
       tab ++ tab ++ tab ++ tab ++ "}";
       tab ++ tab ++ tab ++ "</div>";
       EmptyString;
       tab ++ tab ++ tab ++ "<div class=" ++ dq ++ "bg-card rounded-lg shadow overflow-hidden" ++ dq ++ ">";
       tab ++ tab ++ tab ++ tab ++ "<table class=" ++ dq ++ "min-w-full divide-y divide-border" ++ dq ++ ">";
       tab ++ tab ++ tab ++ tab ++ tab ++ "<thead class=" ++ dq ++ "bg-muted" ++ dq ++ ">";
       tab ++ tab ++ tab ++ tab ++ tab ++ tab ++ "<tr>";
       tab ++ tab ++ tab ++ tab ++ tab ++ tab ++ tab ++ "<th scope=" ++ dq ++ "col" ++ dq ++ " class=" ++ dq ++ "px-6 py-3 text-left text-xs font-medium text-muted-foreground uppercase tracking-wider" ++ dq ++ ">ID</th>";
       tab ++ tab ++ tab ++ tab ++ tab ++ tab ++ tab ++ "<!-- Add your model fields here -->";
       tab ++ tab ++ tab ++ tab ++ tab ++ tab ++ tab ++ "<th scope=" ++ dq ++ "col" ++ dq ++ " class=" ++ dq ++ "px-6 py-3 text-left text-xs font-medium text-muted-foreground uppercase tracking-wider" ++ dq ++ ">Name</th>";
       tab ++ tab ++ tab ++ tab ++ tab ++ tab ++ tab ++ "<th scope=" ++ dq ++ "col" ++ dq ++ " class=" ++ dq ++ "px-6 py-3 text-left text-xs font-medium text-muted-foreground uppercase tracking-wider" ++ dq ++ ">Active</th>";
       tab ++ tab ++ tab ++ tab ++ tab ++ tab ++ tab ++ "<th scope=" ++ dq ++ "col" ++ dq ++ " class=" ++ dq ++ "px-6 py-3 text-left text-xs font-medium text-muted-foreground uppercase tracking-wider" ++ dq ++ ">Actions</th>";
       tab ++ tab ++ tab ++ tab ++ tab ++ tab ++ "</tr>";
       tab ++ tab ++ tab ++ tab ++ tab ++ "</thead>";
       tab ++ tab ++ tab ++ tab ++ tab ++ "<tbody class=" ++ dq ++ "bg-card divide-y divide-border" ++ dq ++ ">";
       tab ++ tab ++ tab ++ tab ++ tab ++ tab ++ "for _, item := range items {";
       tab ++ tab ++ tab ++ tab ++ tab ++ tab ++ tab ++ "<tr class=" ++ dq ++ "hover:bg-muted/50" ++ dq ++ ">";
       tab ++ tab ++ tab ++ tab ++ tab ++ tab ++ tab ++ tab ++ "<td class=" ++ dq ++ "px-6 py-4 whitespace-nowrap text-sm" ++ dq ++ ">{ item.ID.String() }</td>";
       tab ++ tab ++ tab ++ tab ++ tab ++ tab ++ tab ++ tab ++ "<!-- Add your model fields here -->";
       tab ++ tab ++ tab ++ tab ++ tab ++ tab ++ tab ++ tab ++ "<td class=" ++ dq ++ "px-6 py-4 whitespace-nowrap text-sm" ++ dq ++ ">{ item.Name }</td>";
       tab ++ tab ++ tab ++ tab ++ tab ++ tab ++ tab ++ tab ++ "<td class=" ++ dq ++ "px-6 py-4 whitespace-nowrap text-sm" ++ dq ++ ">";
       tab ++ tab ++ tab ++ tab ++ tab ++ tab ++ tab ++ tab ++ tab ++ "{ if item.Active { " ++ dq ++ "Yes" ++ dq ++ " } else { " ++ dq ++ "No" ++ dq ++ " } }";
       tab ++ tab ++ tab ++ tab ++ tab ++ tab ++ tab ++ tab ++ "</td>";
       tab ++ tab ++ tab ++ tab ++ tab ++ tab ++ tab ++ tab ++ "<td class=" ++ dq ++ "px-6 py-4 whitespace-nowrap text-sm flex gap-2" ++ dq ++ ">"]
     ++ tab ++ tab ++ tab ++ tab ++ tab ++ tab ++ tab ++ tab ++ tab ++ "<a href={ templ.SafeURL(" ++ dq ++ "/");
   Verb_s_at 2;
   Lit (lines
      ["s/" ++ dq ++ " + item.ID.String()) }>";
       tab ++ tab ++ tab ++ tab ++ tab ++ tab ++ tab ++ tab ++ tab ++ tab ++ "@button.Button(button.Props{";
       tab ++ tab ++ tab ++ tab ++ tab ++ tab ++ tab ++ tab ++ tab ++ tab ++ tab ++ "Variant: button.VariantOutline,";
       tab ++ tab ++ tab ++ tab ++ tab ++ tab ++ tab ++ tab ++ tab ++ tab ++ tab ++ "Size: button.SizeSmall,";
       tab ++ tab ++ tab ++ tab ++ tab ++ tab ++ tab ++ tab ++ tab ++ tab ++ "}) {";
       tab ++ tab ++ tab ++ tab ++ tab ++ tab ++ tab ++ tab ++ tab ++ tab ++ tab ++ "View";
       tab ++ tab ++ tab ++ tab ++ tab ++ tab ++ tab ++ tab ++ tab ++ tab ++ "}";
       tab ++ tab ++ tab ++ tab ++ tab ++ tab ++ tab ++ tab ++ tab ++ "</a>"]
     ++ tab ++ tab ++ tab ++ tab ++ tab ++ tab ++ tab ++ tab ++ tab ++ "<a href={ templ.SafeURL(" ++ dq ++ "/");
   Verb_s_at 2;
   Lit (lines
      ["s/" ++ dq ++ " + item.ID.String() + " ++ dq ++ "/edit" ++ dq ++ ") }>";
       tab ++ tab ++ tab ++ tab ++ tab ++ tab ++ tab ++ tab ++ tab ++ tab ++ "@button.Button(button.Props{";
       tab ++ tab ++ tab ++ tab ++ tab ++ tab ++ tab ++ tab ++ tab ++ tab ++ tab ++ "Variant: button.VariantOutline,";
       tab ++ tab ++ tab ++ tab ++ tab ++ tab ++ tab ++ tab ++ tab ++ tab ++ tab ++ "Size: button.SizeSmall,";
       tab ++ tab ++ tab ++ tab ++ tab ++ tab ++ tab ++ tab ++ tab ++ tab ++ "}) {";
       tab ++ tab ++ tab ++ tab ++ tab ++ tab ++ tab ++ tab ++ tab ++ tab ++ tab ++ "Edit";
       tab ++ tab ++ tab ++ tab ++ tab ++ tab ++ tab ++ tab ++ tab ++ tab ++ "}";
       tab ++ tab ++ tab ++ tab ++ tab ++ tab ++ tab ++ tab ++ tab ++ "</a>"]
     ++ tab ++ tab ++ tab ++ tab ++ tab ++ tab ++ tab ++ tab ++ tab ++ "<form method=" ++ dq ++ "POST" ++ dq ++ " action={ " ++ dq ++ "/");
   Verb_s_at 2;
   Lit ("s/" ++ dq ++ " + item.ID.String() + " ++ dq ++ "/delete" ++ dq ++ " } onsubmit=" ++ dq ++ "return confirm('Are you sure you want to delete this ");
   Verb_s_at 2;
   Lit (lines
      ["?')" ++ dq ++ ">";
       tab ++ tab ++ tab ++ tab ++ tab ++ tab ++ tab ++ tab ++ tab ++ tab ++ "@button.Button(button.Props{";
       tab ++ tab ++ tab ++ tab ++ tab ++ tab ++ tab ++ tab ++ tab ++ tab ++ tab ++ "Variant: button.VariantDestructive,";
       tab ++ tab ++ tab ++ tab ++ tab ++ tab ++ tab ++ tab ++ tab ++ tab ++ tab ++ "Size: button.SizeSmall,";
       tab ++ tab ++ tab ++ tab ++ tab ++ tab ++ tab ++ tab ++ tab ++ tab ++ tab ++ "Type: " ++ dq ++ "submit" ++ dq ++ ",";
       tab ++ tab ++ tab ++ tab ++ tab ++ tab ++ tab ++ tab ++ tab ++ tab ++ "}) {";
       tab ++ tab ++ tab ++ tab ++ tab ++ tab ++ tab ++ tab ++ tab ++ tab ++ tab ++ "Delete";
       tab ++ tab ++ tab ++ tab ++ tab ++ tab ++ tab ++ tab ++ tab ++ tab ++ "}";
       tab ++ tab ++ tab ++ tab ++ tab ++ tab ++ tab ++ tab ++ tab ++ "</form>";
       tab ++ tab ++ tab ++ tab ++ tab ++ tab ++ tab ++ tab ++ "</td>";
       tab ++ tab ++ tab ++ tab ++ tab ++ tab ++ tab ++ "</tr>";
       tab ++ tab ++ tab ++ tab ++ tab ++ tab ++ "}";
       tab ++ tab ++ tab ++ tab ++ tab ++ "</tbody>";
       tab ++ tab ++ tab ++ tab ++ "</table>";
       tab ++ tab ++ tab ++ "</div>";
       EmptyString;
       tab ++ tab ++ tab ++ "<!-- Pagination -->";
       tab ++ tab ++ tab ++ "if total > 0 {";
       tab ++ tab ++ tab ++ tab ++ "<div class=" ++ dq ++ "mt-4 flex justify-between items-center" ++ dq ++ ">";
       tab ++ tab ++ tab ++ tab ++ tab ++ "<div class=" ++ dq ++ "text-sm text-muted-foreground" ++ dq ++ ">";
       tab ++ tab ++ tab ++ tab ++ tab ++ tab ++ "Showing { (page-1)*limit + 1 } to { min((page)*limit, total) } of { total } entries";
       tab ++ tab ++ tab ++ tab ++ tab ++ "</div>";
       tab ++ tab ++ tab ++ tab ++ tab ++ "<div class=" ++ dq ++ "flex gap-2" ++ dq ++ ">";
       tab ++ tab ++ tab ++ tab ++ tab ++ tab ++ "if page > 1 {"]
     ++ tab ++ tab ++ tab ++ tab ++ tab ++ tab ++ tab ++ "<a href={ templ.SafeURL(fmt.Sprintf(" ++ dq ++ "/");
   Verb_s_at 2;
   Lit ("s?page=");
   Verb_bad "d";
   Lit ("&limit=");
   Verb_bad "d";
   Lit (lines
      [dq ++ ", page-1, limit)) }>";
       tab ++ tab ++ tab ++ tab ++ tab ++ tab ++ tab ++ tab ++ "@button.Button(button.Props{";
       tab ++ tab ++ tab ++ tab ++ tab ++ tab ++ tab ++ tab ++ tab ++ "Variant: button.VariantOutline,";
       tab ++ tab ++ tab ++ tab ++ tab ++ tab ++ tab ++ tab ++ tab ++ "Size: button.SizeSmall,";
       tab ++ tab ++ tab ++ tab ++ tab ++ tab ++ tab ++ tab ++ "}) {";
       tab ++ tab ++ tab ++ tab ++ tab ++ tab ++ tab ++ tab ++ tab ++ "Previous";
       tab ++ tab ++ tab ++ tab ++ tab ++ tab ++ tab ++ tab ++ "}";
       tab ++ tab ++ tab ++ tab ++ tab ++ tab ++ tab ++ "</a>";
       tab ++ tab ++ tab ++ tab ++ tab ++ tab ++ "}";
       tab ++ tab ++ tab ++ tab ++ tab ++ tab ++ "if page*limit < total {"]
     ++ tab ++ tab ++ tab ++ tab ++ tab ++ tab ++ tab ++ "<a href={ templ.SafeURL(fmt.Sprintf(" ++ dq ++ "/");
   Verb_s_at 2;
   Lit ("s?page=");
   Verb_bad "d";
   Lit ("&limit=");
   Verb_bad "d";
   Lit (lines
      [dq ++ ", page+1, limit)) }>";
       tab ++ tab ++ tab ++ tab ++ tab ++ tab ++ tab ++ tab ++ "@button.Button(button.Props{";
       tab ++ tab ++ tab ++ tab ++ tab ++ tab ++ tab ++ tab ++ tab ++ "Variant: button.VariantOutline,";
       tab ++ tab ++ tab ++ tab ++ tab ++ tab ++ tab ++ tab ++ tab ++ "Size: button.SizeSmall,";
       tab ++ tab ++ tab ++ tab ++ tab ++ tab ++ tab ++ tab ++ "}) {";
       tab ++ tab ++ tab ++ tab ++ tab ++ tab ++ tab ++ tab ++ tab ++ "Next";
       tab ++ tab ++ tab ++ tab ++ tab ++ tab ++ tab ++ tab ++ "}";
       tab ++ tab ++ tab ++ tab ++ tab ++ tab ++ tab ++ "</a>";
       tab ++ tab ++ tab ++ tab ++ tab ++ tab ++ "}";
       tab ++ tab ++ tab ++ tab ++ tab ++ "</div>";
       tab ++ tab ++ tab ++ tab ++ "</div>";
       tab ++ tab ++ tab ++ "}";
       tab ++ tab ++ "</div>";
       tab ++ "}";
       "}";
       EmptyString;
       "func min(a, b int) int {";
       tab ++ "if a < b {";
       tab ++ tab ++ "return a";
       tab ++ "}";
       tab ++ "return b";
       "}";
       "```";
       EmptyString]
     ++ "   b. Create `ui/pages/");
   Verb_s_at 2;
   Lit (lines
      ["/show.templ` (Detail page):";
       EmptyString;
       "```go"]
     ++ "package ");
   Verb_s_at 2;
   Lit (lines
      ["pages";
       EmptyString;
       "import ("]
     ++ tab ++ dq);
   Verb_s_at 5;
   Lit (lines
      ["/layouts" ++ dq]
     ++ tab ++ dq);
   Verb_s_at 5;
   Lit (lines
      ["/components/button" ++ dq]
     ++ tab ++ dq);
   Verb_s_at 5;
   Lit (lines
      ["/components/alert" ++ dq]
     ++ tab ++ dq);
   Verb_s_at 5;
   Lit (lines
      ["/components/icon" ++ dq]
     ++ tab ++ dq);
   Verb_s_at 5;
   Lit (lines
      ["/internal/dto" ++ dq;
       ")";
       EmptyString]
     ++ "templ Show(item dto.");
   Verb_s_at 3;
   Lit (lines
      ["Response) {";
       tab ++ "@layouts.BaseLayout() {";
       tab ++ tab ++ "<div class=" ++ dq ++ "container mx-auto px-4 py-8" ++ dq ++ ">";
       tab ++ tab ++ tab ++ "<div class=" ++ dq ++ "mb-6" ++ dq ++ ">"]
     ++ tab ++ tab ++ tab ++ tab ++ "<a href=" ++ dq ++ "/");
   Verb_s_at 2;
   Lit (lines
      ["s" ++ dq ++ ">";
       tab ++ tab ++ tab ++ tab ++ tab ++ "@button.Button(button.Props{";
       tab ++ tab ++ tab ++ tab ++ tab ++ tab ++ "Variant: button.VariantOutline,";
       tab ++ tab ++ tab ++ tab ++ tab ++ "}) {"]
     ++ tab ++ tab ++ tab ++ tab ++ tab ++ tab ++ "← Back to ");
   Verb_s_at 1;
   Lit (lines
      ["s";
       tab ++ tab ++ tab ++ tab ++ tab ++ "}";
       tab ++ tab ++ tab ++ tab ++ "</a>";
       tab ++ tab ++ tab ++ "</div>";
       EmptyString;
       tab ++ tab ++ tab ++ "<!-- Example of using Alert component -->";
       tab ++ tab ++ tab ++ "<div class=" ++ dq ++ "mb-6" ++ dq ++ ">";
       tab ++ tab ++ tab ++ tab ++ "@alert.Alert(alert.Props{";
       tab ++ tab ++ tab ++ tab ++ tab ++ "Variant: alert.VariantInfo,";
       tab ++ tab ++ tab ++ tab ++ "}) {";
       tab ++ tab ++ tab ++ tab ++ tab ++ "@icon.Info(icon.Props{Size: 16})";
       tab ++ tab ++ tab ++ tab ++ tab ++ "@alert.Title() {"]
     ++ tab ++ tab ++ tab ++ tab ++ tab ++ tab);
   Verb_s_at 1;
   Lit (lines
      [" Details";
       tab ++ tab ++ tab ++ tab ++ tab ++ "}";
       tab ++ tab ++ tab ++ tab ++ tab ++ "@alert.Description() {"]
     ++ tab ++ tab ++ tab ++ tab ++ tab ++ tab ++ "You are viewing the details of a ");
   Verb_s_at 1;
   Lit (". You can edit or delete this ");
   Verb_s_at 1;
   Lit (lines
      [" using the buttons above.";
       tab ++ tab ++ tab ++ tab ++ tab ++ "}";
       tab ++ tab ++ tab ++ tab ++ "}";
       tab ++ tab ++ tab ++ "</div>";
       EmptyString;
       tab ++ tab ++ tab ++ "<div class=" ++ dq ++ "bg-card rounded-lg shadow overflow-hidden p-6" ++ dq ++ ">";
       tab ++ tab ++ tab ++ tab ++ "<div class=" ++ dq ++ "flex justify-between items-center mb-6" ++ dq ++ ">"]
     ++ tab ++ tab ++ tab ++ tab ++ tab ++ "<h1 class=" ++ dq ++ "text-2xl font-bold" ++ dq ++ ">");
   Verb_s_at 1;
   Lit (lines
      [" Details</h1>";
       tab ++ tab ++ tab ++ tab ++ tab ++ "<div class=" ++ dq ++ "flex gap-2" ++ dq ++ ">"]
     ++ tab ++ tab ++ tab ++ tab ++ tab ++ tab ++ "<a href={ templ.SafeURL(" ++ dq ++ "/");
   Verb_s_at 2;
   Lit (lines
      ["s/" ++ dq ++ " + item.ID.String() + " ++ dq ++ "/edit" ++ dq ++ ") }>";
       tab ++ tab ++ tab ++ tab ++ tab ++ tab ++ tab ++ "@button.Button(button.Props{}) {";
       tab ++ tab ++ tab ++ tab ++ tab ++ tab ++ tab ++ tab ++ "Edit";
       tab ++ tab ++ tab ++ tab ++ tab ++ tab ++ tab ++ "}";
       tab ++ tab ++ tab ++ tab ++ tab ++ tab ++ "</a>"]
     ++ tab ++ tab ++ tab ++ tab ++ tab ++ tab ++ "<form method=" ++ dq ++ "POST" ++ dq ++ " action={ " ++ dq ++ "/");
   Verb_s_at 2;
   Lit ("s/" ++ dq ++ " + item.ID.String() + " ++ dq ++ "/delete" ++ dq ++ " } onsubmit=" ++ dq ++ "return confirm('Are you sure you want to delete this ");
   Verb_s_at 2;
   Lit (lines
      ["?')" ++ dq ++ ">";
       tab ++ tab ++ tab ++ tab ++ tab ++ tab ++ tab ++ "@button.Button(button.Props{";
       tab ++ tab ++ tab ++ tab ++ tab ++ tab ++ tab ++ tab ++ "Variant: button.VariantDestructive,";
       tab ++ tab ++ tab ++ tab ++ tab ++ tab ++ tab ++ tab ++ "Type: " ++ dq ++ "submit" ++ dq ++ ",";
       tab ++ tab ++ tab ++ tab ++ tab ++ tab ++ tab ++ "}) {";
       tab ++ tab ++ tab ++ tab ++ tab ++ tab ++ tab ++ tab ++ "Delete";
       tab ++ tab ++ tab ++ tab ++ tab ++ tab ++ tab ++ "}";
       tab ++ tab ++ tab ++ tab ++ tab ++ tab ++ "</form>";
       tab ++ tab ++ tab ++ tab ++ tab ++ "</div>";
       tab ++ tab ++ tab ++ tab ++ "</div>";
       EmptyString;
       tab ++ tab ++ tab ++ tab ++ "<div class=" ++ dq ++ "grid grid-cols-1 md:grid-cols-2 gap-4" ++ dq ++ ">";
       tab ++ tab ++ tab ++ tab ++ tab ++ "<div class=" ++ dq ++ "space-y-2" ++ dq ++ ">";
       tab ++ tab ++ tab ++ tab ++ tab ++ tab ++ "<p class=" ++ dq ++ "text-sm font-medium text-muted-foreground" ++ dq ++ ">ID</p>";
       tab ++ tab ++ tab ++ tab ++ tab ++ tab ++ "<p>{ item.ID.String() }</p>";
       tab ++ tab ++ tab ++ tab ++ tab ++ "</div>";
       tab ++ tab ++ tab ++ tab ++ tab ++ "<!-- Add your model fields here -->";
       tab ++ tab ++ tab ++ tab ++ tab ++ "<div class=" ++ dq ++ "space-y-2" ++ dq ++ ">";
       tab ++ tab ++ tab ++ tab ++ tab ++ tab ++ "<p class=" ++ dq ++ "text-sm font-medium text-muted-foreground" ++ dq ++ ">Name</p>";
       tab ++ tab ++ tab ++ tab ++ tab ++ tab ++ "<p>{ item.Name }</p>";
       tab ++ tab ++ tab ++ tab ++ tab ++ "</div>";
       tab ++ tab ++ tab ++ tab ++ tab ++ "<div class=" ++ dq ++ "space-y-2" ++ dq ++ ">";
       tab ++ tab ++ tab ++ tab ++ tab ++ tab ++ "<p class=" ++ dq ++ "text-sm font-medium text-muted-foreground" ++ dq ++ ">Active</p>";
       tab ++ tab ++ tab ++ tab ++ tab ++ tab ++ "<p>{ if item.Active { " ++ dq ++ "Yes" ++ dq ++ " } else { " ++ dq ++ "No" ++ dq ++ " } }</p>";
       tab ++ tab ++ tab ++ tab ++ tab ++ "</div>";
       tab ++ tab ++ tab ++ tab ++ tab ++ "<!-- Add more fields as needed -->";
       tab ++ tab ++ tab ++ tab ++ "</div>";
       tab ++ tab ++ tab ++ "</div>";
       tab ++ tab ++ "</div>";
       tab ++ "}";
       "}";
       "```";
       EmptyString]
     ++ "   c. Create `ui/pages/");
   Verb_s_at 2;
   Lit (lines
      ["/form.templ` (Create/Edit form):";
       EmptyString;
       "```go"]
     ++ "package ");
   Verb_s_at 2;
   Lit (lines
      ["pages";
       EmptyString;
       "import ("]
     ++ tab ++ dq);
   Verb_s_at 5;
   Lit (lines
      ["/layouts" ++ dq]
     ++ tab ++ dq);
   Verb_s_at 5;
   Lit (lines
      ["/components/button" ++ dq]
     ++ tab ++ dq);
   Verb_s_at 5;
   Lit (lines
      ["/components/input" ++ dq]
     ++ tab ++ dq);
   Verb_s_at 5;
   Lit (lines
      ["/components/checkbox" ++ dq]
     ++ tab ++ dq);
   Verb_s_at 5;
   Lit (lines
      ["/components/alert" ++ dq]
     ++ tab ++ dq);
   Verb_s_at 5;
   Lit (lines
      ["/internal/dto" ++ dq;
       ")";
       EmptyString;
       "type FormMode string";
       EmptyString;
       "const (";
       tab ++ "FormModeCreate FormMode = " ++ dq ++ "create" ++ dq;
       tab ++ "FormModeEdit   FormMode = " ++ dq ++ "edit" ++ dq;
       ")";
       EmptyString]
     ++ "templ Form(mode FormMode, item *dto.");
   Verb_s_at 3;
   Lit (lines
      ["Response, errors map[string]string) {";
       tab ++ "@layouts.BaseLayout() {";
       tab ++ tab ++ "<div class=" ++ dq ++ "container mx-auto px-4 py-8" ++ dq ++ ">";
       tab ++ tab ++ tab ++ "<div class=" ++ dq ++ "mb-6" ++ dq ++ ">"]
     ++ tab ++ tab ++ tab ++ tab ++ "<a href=" ++ dq ++ "/");
   Verb_s_at 2;
   Lit (lines
      ["s" ++ dq ++ ">";
       tab ++ tab ++ tab ++ tab ++ tab ++ "@button.Button(button.Props{";
       tab ++ tab ++ tab ++ tab ++ tab ++ tab ++ "Variant: button.VariantOutline,";
       tab ++ tab ++ tab ++ tab ++ tab ++ "}) {"]
     ++ tab ++ tab ++ tab ++ tab ++ tab ++ tab ++ "← Back to ");
   Verb_s_at 1;
   Lit (lines
      ["s";
       tab ++ tab ++ tab ++ tab ++ tab ++ "}";
       tab ++ tab ++ tab ++ tab ++ "</a>";
       tab ++ tab ++ tab ++ "</div>";
       EmptyString;
       tab ++ tab ++ tab ++ "<div class=" ++ dq ++ "bg-card rounded-lg shadow overflow-hidden p-6" ++ dq ++ ">";
       tab ++ tab ++ tab ++ tab ++ "<h1 class=" ++ dq ++ "text-2xl font-bold mb-6" ++ dq ++ ">";
       tab ++ tab ++ tab ++ tab ++ tab ++ "if mode == FormModeCreate {"]
     ++ tab ++ tab ++ tab ++ tab ++ tab ++ tab ++ "Create New ");
   Verb_s_at 1;
   Lit (lines
      [EmptyString;
       tab ++ tab ++ tab ++ tab ++ tab ++ "} else {"]
     ++ tab ++ tab ++ tab ++ tab ++ tab ++ tab ++ "Edit ");
   Verb_s_at 1;
   Lit (lines
      [EmptyString;
       tab ++ tab ++ tab ++ tab ++ tab ++ "}";
       tab ++ tab ++ tab ++ tab ++ "</h1>";
       EmptyString;
       tab ++ tab ++ tab ++ tab ++ "<form method=" ++ dq ++ "POST" ++ dq ++ " class=" ++ dq ++ "space-y-6" ++ dq ++ ">";
       tab ++ tab ++ tab ++ tab ++ tab ++ "<!-- Example of using Alert component for form errors -->";
       tab ++ tab ++ tab ++ tab ++ tab ++ "if errorMsg, ok := errors[" ++ dq ++ "general" ++ dq ++ "]; ok {";
       tab ++ tab ++ tab ++ tab ++ tab ++ tab ++ "<div class=" ++ dq ++ "mb-6" ++ dq ++ ">";
       tab ++ tab ++ tab ++ tab ++ tab ++ tab ++ tab ++ "@alert.Alert(alert.Props{";
       tab ++ tab ++ tab ++ tab ++ tab ++ tab ++ tab ++ tab ++ "Variant: alert.VariantDestructive,";
       tab ++ tab ++ tab ++ tab ++ tab ++ tab ++ tab ++ "}) {";
       tab ++ tab ++ tab ++ tab ++ tab ++ tab ++ tab ++ tab ++ "@icon.AlertTriangle(icon.Props{Size: 16})";
       tab ++ tab ++ tab ++ tab ++ tab ++ tab ++ tab ++ tab ++ "@alert.Title() {";
       tab ++ tab ++ tab ++ tab ++ tab ++ tab ++ tab ++ tab ++ tab ++ "Error";
       tab ++ tab ++ tab ++ tab ++ tab ++ tab ++ tab ++ tab ++ "}";
       tab ++ tab ++ tab ++ tab ++ tab ++ tab ++ tab ++ tab ++ "@alert.Description() {";
       tab ++ tab ++ tab ++ tab ++ tab ++ tab ++ tab ++ tab ++ tab ++ "{ errorMsg }";
       tab ++ tab ++ tab ++ tab ++ tab ++ tab ++ tab ++ tab ++ "}";
       tab ++ tab ++ tab ++ tab ++ tab ++ tab ++ tab ++ "}";
       tab ++ tab ++ tab ++ tab ++ tab ++ tab ++ "</div>";
       tab ++ tab ++ tab ++ tab ++ tab ++ "}";
       EmptyString;
       tab ++ tab ++ tab ++ tab ++ tab ++ "<!-- Example of using Input component -->";
       tab ++ tab ++ tab ++ tab ++ tab ++ "<div class=" ++ dq ++ "space-y-2" ++ dq ++ ">";
       tab ++ tab ++ tab ++ tab ++ tab ++ tab ++ "<label for=" ++ dq ++ "name" ++ dq ++ " class=" ++ dq ++ "block text-sm font-medium" ++ dq ++ ">Name</label>";
       tab ++ tab ++ tab ++ tab ++ tab ++ tab ++ "@input.Input(input.Props{";
       tab ++ tab ++ tab ++ tab ++ tab ++ tab ++ tab ++ "Type: input.TypeText,";
       tab ++ tab ++ tab ++ tab ++ tab ++ tab ++ tab ++ "Id: " ++ dq ++ "name" ++ dq ++ ",";
       tab ++ tab ++ tab ++ tab ++ tab ++ tab ++ tab ++ "Name: " ++ dq ++ "name" ++ dq ++ ",";
       tab ++ tab ++ tab ++ tab ++ tab ++ tab ++ tab ++ "Value: item.Name,";
       tab ++ tab ++ tab ++ tab ++ tab ++ tab ++ tab ++ "Placeholder: " ++ dq ++ "Enter name" ++ dq ++ ",";
       tab ++ tab ++ tab ++ tab ++ tab ++ tab ++ tab ++ "Required: true,";
       tab ++ tab ++ tab ++ tab ++ tab ++ tab ++ "})";
       tab ++ tab ++ tab ++ tab ++ tab ++ tab ++ "if errorMsg, ok := errors[" ++ dq ++ "name" ++ dq ++ "]; ok {";
       tab ++ tab ++ tab ++ tab ++ tab ++ tab ++ tab ++ "<p class=" ++ dq ++ "text-destructive text-sm mt-1" ++ dq ++ ">{ errorMsg }</p>";
       tab ++ tab ++ tab ++ tab ++ tab ++ tab ++ "}";
       tab ++ tab ++ tab ++ tab ++ tab ++ "</div>";
       EmptyString;
       tab ++ tab ++ tab ++ tab ++ tab ++ "<!-- Example of using Checkbox component -->";
       tab ++ tab ++ tab ++ tab ++ tab ++ "<div class=" ++ dq ++ "space-y-2" ++ dq ++ ">";
       tab ++ tab ++ tab ++ tab ++ tab ++ tab ++ "<div class=" ++ dq ++ "flex items-center gap-2" ++ dq ++ ">";
       tab ++ tab ++ tab ++ tab ++ tab ++ tab ++ tab ++ "@checkbox.Checkbox(checkbox.Props{";
       tab ++ tab ++ tab ++ tab ++ tab ++ tab ++ tab ++ tab ++ "Id: " ++ dq ++ "active" ++ dq ++ ",";
       tab ++ tab ++ tab ++ tab ++ tab ++ tab ++ tab ++ tab ++ "Name: " ++ dq ++ "active" ++ dq ++ ",";
       tab ++ tab ++ tab ++ tab ++ tab ++ tab ++ tab ++ tab ++ "Checked: item.Active,";
       tab ++ tab ++ tab ++ tab ++ tab ++ tab ++ tab ++ "})";
       tab ++ tab ++ tab ++ tab ++ tab ++ tab ++ tab ++ "<label for=" ++ dq ++ "active" ++ dq ++ " class=" ++ dq ++ "text-sm font-medium" ++ dq ++ ">";
       tab ++ tab ++ tab ++ tab ++ tab ++ tab ++ tab ++ tab ++ "Active";
       tab ++ tab ++ tab ++ tab ++ tab ++ tab ++ tab ++ "</label>";
       tab ++ tab ++ tab ++ tab ++ tab ++ tab ++ "</div>";
       tab ++ tab ++ tab ++ tab ++ tab ++ tab ++ "if errorMsg, ok := errors[" ++ dq ++ "active" ++ dq ++ "]; ok {";
       tab ++ tab ++ tab ++ tab ++ tab ++ tab ++ tab ++ "<p class=" ++ dq ++ "text-destructive text-sm mt-1" ++ dq ++ ">{ errorMsg }</p>";
       tab ++ tab ++ tab ++ tab ++ tab ++ tab ++ "}";
       tab ++ tab ++ tab ++ tab ++ tab ++ "</div>";
       EmptyString;
       tab ++ tab ++ tab ++ tab ++ tab ++ "<!-- Add more form fields as needed -->";
       EmptyString;
       tab ++ tab ++ tab ++ tab ++ tab ++ "<div class=" ++ dq ++ "flex justify-end" ++ dq ++ ">"]
     ++ tab ++ tab ++ tab ++ tab ++ tab ++ tab ++ "<a href=" ++ dq ++ "/");
   Verb_s_at 2;
   Lit (lines
      ["s" ++ dq ++ " class=" ++ dq ++ "mr-2" ++ dq ++ ">";
       tab ++ tab ++ tab ++ tab ++ tab ++ tab ++ tab ++ "@button.Button(button.Props{";
       tab ++ tab ++ tab ++ tab ++ tab ++ tab ++ tab ++ tab ++ "Variant: button.VariantOutline,";
       tab ++ tab ++ tab ++ tab ++ tab ++ tab ++ tab ++ "}) {";
       tab ++ tab ++ tab ++ tab ++ tab ++ tab ++ tab ++ tab ++ "Cancel";
       tab ++ tab ++ tab ++ tab ++ tab ++ tab ++ tab ++ "}";
       tab ++ tab ++ tab ++ tab ++ tab ++ tab ++ "</a>";
       tab ++ tab ++ tab ++ tab ++ tab ++ tab ++ "@button.Button(button.Props{";
       tab ++ tab ++ tab ++ tab ++ tab ++ tab ++ tab ++ "Type: " ++ dq ++ "submit" ++ dq ++ ",";
       tab ++ tab ++ tab ++ tab ++ tab ++ tab ++ "}) {";
       tab ++ tab ++ tab ++ tab ++ tab ++ tab ++ tab ++ "if mode == FormModeCreate {"]
     ++ tab ++ tab ++ tab ++ tab ++ tab ++ tab ++ tab ++ tab ++ "Create ");
   Verb_s_at 1;
   Lit (lines
      [EmptyString;
       tab ++ tab ++ tab ++ tab ++ tab ++ tab ++ tab ++ "} else {"]
     ++ tab ++ tab ++ tab ++ tab ++ tab ++ tab ++ tab ++ tab ++ "Update ");
   Verb_s_at 1;
   Lit (lines
      [EmptyString;
       tab ++ tab ++ tab ++ tab ++ tab ++ tab ++ tab ++ "}";
       tab ++ tab ++ tab ++ tab ++ tab ++ tab ++ "}";
       tab ++ tab ++ tab ++ tab ++ tab ++ "</div>";
       tab ++ tab ++ tab ++ tab ++ "</form>";
       tab ++ tab ++ tab ++ "</div>";
       tab ++ tab ++ "</div>";
       tab ++ "}";
       "}";
       "```";
       EmptyString;
       "6. Create the HTML controller:"]
     ++ "   Create `internal/controllers/");
   Verb_s_at 2;
   Lit (lines
      ["/html_controller.go` with the following content:";
       EmptyString;
       "```go";
       "package controllers";
       EmptyString;
       "import (";
       tab ++ dq ++ "net/http" ++ dq;
       tab ++ dq ++ "strconv" ++ dq;
       EmptyString;
       tab ++ dq ++ "github.com/labstack/echo/v4" ++ dq]
     ++ tab ++ dq);
   Verb_s_at 5;
   Lit (lines
      ["/internal/service" ++ dq]
     ++ tab ++ dq);
   Verb_s_at 5;
   Lit (lines
      ["/internal/dto" ++ dq]
     ++ tab ++ dq);
   Verb_s_at 5;
   Lit ("/pages/");
   Verb_s_at 2;
   Lit (lines
      [dq;
       ")";
       EmptyString]
     ++ "type ");
   Verb_s_at 3;
   Lit (lines
      ["HtmlController interface {";
       tab ++ "Index(c echo.Context) error";
       tab ++ "Show(c echo.Context) error";
       tab ++ "New(c echo.Context) error";
       tab ++ "Create(c echo.Context) error";
       tab ++ "Edit(c echo.Context) error";
       tab ++ "Update(c echo.Context) error";
       tab ++ "Delete(c echo.Context) error";
       "}";
       EmptyString]
     ++ "type ");
   Verb_s_at 3;
   Lit (lines
      ["HtmlControllerImpl struct {"]
     ++ tab);
   Verb_s_at 4;
   Lit ("Service service.");
   Verb_s_at 3;
   Lit (lines
      ["Service";
       "}";
       EmptyString]
     ++ "func New");
   Verb_s_at 3;
   Lit ("HtmlController(");
   Verb_s_at 4;
   Lit ("Service service.");
   Verb_s_at 3;
   Lit ("Service) ");
   Verb_s_at 3;
   Lit (lines
      ["HtmlController {"]
     ++ tab ++ "return &");
   Verb_s_at 3;
   Lit ("HtmlControllerImpl{");
   Verb_s_at 4;
   Lit ("Service: ");
   Verb_s_at 4;
   Lit (lines
      ["Service}";
       "}";
       EmptyString;
       "// Index renders the list page"]
     ++ "func (ctrl *");
   Verb_s_at 3;
   Lit (lines
      ["HtmlControllerImpl) Index(c echo.Context) error {";
       tab ++ "// Parse pagination parameters";
       tab ++ "page, _ := strconv.Atoi(c.QueryParam(" ++ dq ++ "page" ++ dq ++ "))";
       tab ++ "if page <= 0 {";
       tab ++ tab ++ "page = 1";
       tab ++ "}";
       tab ++ "limit, _ := strconv.Atoi(c.QueryParam(" ++ dq ++ "limit" ++ dq ++ "))";
       tab ++ "if limit <= 0 {";
       tab ++ tab ++ "limit = 10";
       tab ++ "}";
       EmptyString;
       tab ++ "// You might want to parse query parameters for filtering here";
       tab ++ "filters := make(map[string]interface{})";
       tab ++ "// Example: filters[" ++ dq ++ "name" ++ dq ++ "] = c.QueryParam(" ++ dq ++ "name" ++ dq ++ ")";
       EmptyString]
     ++ tab ++ "result, err := ctrl.");
   Verb_s_at 4;
   Lit (lines
      ["Service.List(c.Request().Context(), page, limit, filters)";
       tab ++ "if err != nil {";
       tab ++ tab ++ "return echo.NewHTTPError(http.StatusInternalServerError, err.Error())";
       tab ++ "}";
       EmptyString]
     ++ tab ++ "return ");
   Verb_s_at 2;
   Lit (lines
      ["pages.Index(result.Items, page, limit, result.Total).Render(c.Request().Context(), c.Response().Writer)";
       "}";
       EmptyString;
       "// Show renders the detail page"]
     ++ "func (ctrl *");
   Verb_s_at 3;
   Lit (lines
      ["HtmlControllerImpl) Show(c echo.Context) error {";
       tab ++ "id, err := strconv.ParseUint(c.Param(" ++ dq ++ "id" ++ dq ++ "), 10, 64)";
       tab ++ "if err != nil {";
       tab ++ tab ++ "return echo.NewHTTPError(http.StatusBadRequest, " ++ dq ++ "Invalid ID" ++ dq ++ ")";
       tab ++ "}";
       EmptyString]
     ++ tab ++ "result, err := ctrl.");
   Verb_s_at 4;
   Lit (lines
      ["Service.GetByID(c.Request().Context(), uint(id))";
       tab ++ "if err != nil {";
       tab ++ tab ++ "return echo.NewHTTPError(http.StatusInternalServerError, err.Error())";
       tab ++ "}";
       EmptyString]
     ++ tab ++ "return ");
   Verb_s_at 2;
   Lit (lines
      ["pages.Show(*result).Render(c.Request().Context(), c.Response().Writer)";
       "}";
       EmptyString;
       "// New renders the create form"]
     ++ "func (ctrl *");
   Verb_s_at 3;
   Lit (lines
      ["HtmlControllerImpl) New(c echo.Context) error {";
       tab ++ "// Create an empty item for the form"]
     ++ tab ++ "item := &dto.");
   Verb_s_at 3;
   Lit (lines
      ["Response{}"]
     ++ tab ++ "return ");
   Verb_s_at 2;
   Lit ("pages.Form(");
   Verb_s_at 2;
   Lit (lines
      ["pages.FormModeCreate, item, nil).Render(c.Request().Context(), c.Response().Writer)";
       "}";
       EmptyString;
       "// Create handles the form submission for creating a new item"]
     ++ "func (ctrl *");
   Verb_s_at 3;
   Lit (lines
      ["HtmlControllerImpl) Create(c echo.Context) error {"]
     ++ tab ++ "req := new(dto.Create");
   Verb_s_at 3;
   Lit (lines
      ["Request)";
       tab ++ "if err := c.Bind(req); err != nil {";
       tab ++ tab ++ "// Create an empty item for the form"]
     ++ tab ++ tab ++ "item := &dto.");
   Verb_s_at 3;
   Lit (lines
      ["Response{}";
       tab ++ tab ++ "errors := map[string]string{" ++ dq ++ "general" ++ dq ++ ": err.Error()}"]
     ++ tab ++ tab ++ "return ");
   Verb_s_at 2;
   Lit ("pages.Form(");
   Verb_s_at 2;
   Lit (lines
      ["pages.FormModeCreate, item, errors).Render(c.Request().Context(), c.Response().Writer)";
       tab ++ "}";
       EmptyString;
       tab ++ "// Add validation here if needed"]
     ++ tab ++ "result, err := ctrl.");
   Verb_s_at 4;
   Lit (lines
      ["Service.Create(c.Request().Context(), req)";
       tab ++ "if err != nil {";
       tab ++ tab ++ "// Return to form with errors"]
     ++ tab ++ tab ++ "item := &dto.");
   Verb_s_at 3;
   Lit (lines
      ["Response{";
       tab ++ tab ++ tab ++ "// Map request fields to response fields";
       tab ++ tab ++ tab ++ "// Example: Name: req.Name,";
       tab ++ tab ++ tab ++ "// Example: Active: req.Active,";
       tab ++ tab ++ "}";
       tab ++ tab ++ "errors := map[string]string{" ++ dq ++ "general" ++ dq ++ ": err.Error()}"]
     ++ tab ++ tab ++ "return ");
   Verb_s_at 2;
   Lit ("pages.Form(");
   Verb_s_at 2;
   Lit (lines
      ["pages.FormModeCreate, item, errors).Render(c.Request().Context(), c.Response().Writer)";
       tab ++ "}";
       EmptyString;
       tab ++ "// Redirect to the detail page"]
     ++ tab ++ "return c.Redirect(http.StatusSeeOther, " ++ dq ++ "/");
   Verb_s_at 2;
   Lit (lines
      ["s/" ++ dq ++ "+strconv.FormatUint(uint64(result.ID), 10))";
       "}";
       EmptyString;
       "// Edit renders the edit form"]
     ++ "func (ctrl *");
   Verb_s_at 3;
   Lit (lines
      ["HtmlControllerImpl) Edit(c echo.Context) error {";
       tab ++ "id, err := strconv.ParseUint(c.Param(" ++ dq ++ "id" ++ dq ++ "), 10, 64)";
       tab ++ "if err != nil {";
       tab ++ tab ++ "return echo.NewHTTPError(http.StatusBadRequest, " ++ dq ++ "Invalid ID" ++ dq ++ ")";
       tab ++ "}";
       EmptyString]
     ++ tab ++ "result, err := ctrl.");
   Verb_s_at 4;
   Lit (lines
      ["Service.GetByID(c.Request().Context(), uint(id))";
       tab ++ "if err != nil {";
       tab ++ tab ++ "return echo.NewHTTPError(http.StatusInternalServerError, err.Error())";
       tab ++ "}";
       EmptyString]
     ++ tab ++ "return ");
   Verb_s_at 2;
   Lit ("pages.Form(");
   Verb_s_at 2;
   Lit (lines
      ["pages.FormModeEdit, result, nil).Render(c.Request().Context(), c.Response().Writer)";
       "}";
       EmptyString;
       "// Update handles the form submission for updating an item"]
     ++ "func (ctrl *");
   Verb_s_at 3;
   Lit (lines
      ["HtmlControllerImpl) Update(c echo.Context) error {";
       tab ++ "id, err := strconv.ParseUint(c.Param(" ++ dq ++ "id" ++ dq ++ "), 10, 64)";
       tab ++ "if err != nil {";
       tab ++ tab ++ "return echo.NewHTTPError(http.StatusBadRequest, " ++ dq ++ "Invalid ID" ++ dq ++ ")";
       tab ++ "}";
       EmptyString]
     ++ tab ++ "req := new(dto.Update");
   Verb_s_at 3;
   Lit (lines
      ["Request)";
       tab ++ "if err := c.Bind(req); err != nil {";
       tab ++ tab ++ "// Get the current item for the form"]
     ++ tab ++ tab ++ "result, _ := ctrl.");
   Verb_s_at 4;
   Lit (lines
      ["Service.GetByID(c.Request().Context(), uint(id))";
       tab ++ tab ++ "errors := map[string]string{" ++ dq ++ "general" ++ dq ++ ": err.Error()}"]
     ++ tab ++ tab ++ "return ");
   Verb_s_at 2;
   Lit ("pages.Form(");
   Verb_s_at 2;
   Lit (lines
      ["pages.FormModeEdit, result, errors).Render(c.Request().Context(), c.Response().Writer)";
       tab ++ "}";
       tab ++ "req.ID = uint(id)";
       EmptyString;
       tab ++ "// Add validation here if needed"]
     ++ tab ++ "result, err := ctrl.");
   Verb_s_at 4;
   Lit (lines
      ["Service.Update(c.Request().Context(), req)";
       tab ++ "if err != nil {";
       tab ++ tab ++ "// Return to form with errors"]
     ++ tab ++ tab ++ "item, _ := ctrl.");
   Verb_s_at 4;
   Lit (lines
      ["Service.GetByID(c.Request().Context(), uint(id))";
       tab ++ tab ++ "errors := map[string]string{" ++ dq ++ "general" ++ dq ++ ": err.Error()}"]
     ++ tab ++ tab ++ "return ");
   Verb_s_at 2;
   Lit ("pages.Form(");
   Verb_s_at 2;
   Lit (lines
      ["pages.FormModeEdit, item, errors).Render(c.Request().Context(), c.Response().Writer)";
       tab ++ "}";
       EmptyString;
       tab ++ "// Redirect to the detail page"]
     ++ tab ++ "return c.Redirect(http.StatusSeeOther, " ++ dq ++ "/");
   Verb_s_at 2;
   Lit (lines
      ["s/" ++ dq ++ "+strconv.FormatUint(uint64(result.ID), 10))";
       "}";
       EmptyString;
       "// Delete handles the deletion of an item"]
     ++ "func (ctrl *");
   Verb_s_at 3;
   Lit (lines
      ["HtmlControllerImpl) Delete(c echo.Context) error {";
       tab ++ "id, err := strconv.ParseUint(c.Param(" ++ dq ++ "id" ++ dq ++ "), 10, 64)";
       tab ++ "if err != nil {";
       tab ++ tab ++ "return echo.NewHTTPError(http.StatusBadRequest, " ++ dq ++ "Invalid ID" ++ dq ++ ")";
       tab ++ "}";
       EmptyString]
     ++ tab ++ "if err := ctrl.");
   Verb_s_at 4;
   Lit (lines
      ["Service.Delete(c.Request().Context(), uint(id)); err != nil {";
       tab ++ tab ++ "return echo.NewHTTPError(http.StatusInternalServerError, err.Error())";
       tab ++ "}";
       EmptyString;
       tab ++ "// Redirect to the list page"]
     ++ tab ++ "return c.Redirect(http.StatusSeeOther, " ++ dq ++ "/");
   Verb_s_at 2;
   Lit (lines
      ["s" ++ dq ++ ")";
       "}";
       "```";
       EmptyString;
       "7. Update your main.go to register the HTML routes:";
       "   Add the following to your main.go file:";
       EmptyString;
       "```go";
       "// Initialize HTML controllers"]);
   Verb_s_at 4;
   Lit ("HtmlController := controllers.New");
   Verb_s_at 3;
   Lit ("HtmlController(");
   Verb_s_at 4;
   Lit (lines
      ["Service)";
       EmptyString;
       "// HTML Routes"]
     ++ "e.GET(" ++ dq ++ "/");
   Verb_s_at 2;
   Lit ("s" ++ dq ++ ", ");
   Verb_s_at 4;
   Lit (lines
      ["HtmlController.Index)"]
     ++ "e.GET(" ++ dq ++ "/");
   Verb_s_at 2;
   Lit ("s/new" ++ dq ++ ", ");
   Verb_s_at 4;
   Lit (lines
      ["HtmlController.New)"]
     ++ "e.POST(" ++ dq ++ "/");
   Verb_s_at 2;
   Lit ("s" ++ dq ++ ", ");
   Verb_s_at 4;
   Lit (lines
      ["HtmlController.Create)"]
     ++ "e.GET(" ++ dq ++ "/");
   Verb_s_at 2;
   Lit ("s/:id" ++ dq ++ ", ");
   Verb_s_at 4;
   Lit (lines
      ["HtmlController.Show)"]
     ++ "e.GET(" ++ dq ++ "/");
   Verb_s_at 2;
   Lit ("s/:id/edit" ++ dq ++ ", ");
   Verb_s_at 4;
   Lit (lines
      ["HtmlController.Edit)"]
     ++ "e.POST(" ++ dq ++ "/");
   Verb_s_at 2;
   Lit ("s/:id" ++ dq ++ ", ");
   Verb_s_at 4;
   Lit (lines
      ["HtmlController.Update)"]
     ++ "e.POST(" ++ dq ++ "/");
   Verb_s_at 2;
   Lit ("s/:id/delete" ++ dq ++ ", ");
   Verb_s_at 4;
   Lit (lines
      ["HtmlController.Delete)";
       EmptyString;
       "// Serve static files";
       "e.Static(" ++ dq ++ "/assets" ++ dq ++ ", " ++ dq ++ "assets" ++ dq ++ ")";
       "```";
       EmptyString;
       "8. Start the development server:";
       "   `make dev`";
       EmptyString;
       "This will:";
       "- Watch and compile templ files";
       "- Start the Go server with hot reload";
       "- Watch and compile Tailwind CSS changes"])].

Section WithLibraries.
Context {tables : UnicodeTables}.

(** [ProduceHtmlControllerBoilerplateHandler]. *)
Definition ProduceHtmlControllerBoilerplateHandler (request : CallToolRequest) : CallToolResult :=
  let appName := GetString request "app_name" EmptyString in
  if String.eqb appName EmptyString then NewToolResultError "App name is required"
  else
    match RequireString request "model_name" with
    | inr err => NewToolResultError (Sprintf [Lit "Error getting 'model_name': "; Verb_s] [err])
    | inl modelName =>
        let titleModelName := Strings.Title modelName in
        let lowerModelName := Strings.ToLower modelName in
        let response := Sprintf response_format [titleModelName; lowerModelName; titleModelName; lowerModelName; appName] in
        NewToolResultText response
    end.

End WithLibraries.

End ProduceHtmlControllerBoilerplate.

(** ** The server ([main.go]): the registered tools *)

Module Server.
Import Mcp.

(** The six tools of [main], in the order of their registration. *)
Inductive tool :=
| produce_app_boilerplate
| produce_model_boilerplate
| produce_service_boilerplate
| produce_api_controller_boilerplate
| produce_html_controller_boilerplate
| fix_app.

Definition tools : list tool :=
  [produce_app_boilerplate; produce_model_boilerplate; produce_service_boilerplate;
   produce_api_controller_boilerplate; produce_html_controller_boilerplate; fix_app].

(** The tool definition each [Get...Tool] returns. *)
Definition definition (t : tool) : Tool :=
  match t with
  | produce_app_boilerplate => ProduceAppBoilerplate.GetProduceAppBoilerplateTool
  | produce_model_boilerplate => ProduceModelBoilerplate.GetProduceModelBoilerplateTool
  | produce_service_boilerplate => ProduceServiceBoilerplate.GetProduceServiceBoilerplateTool
  | produce_api_controller_boilerplate =>
      ProduceApiControllerBoilerplate.GetProduceApiControllerBoilerplateTool
  | produce_html_controller_boilerplate =>
      ProduceHtmlControllerBoilerplate.GetProduceHtmlControllerBoilerplateTool
  | fix_app => FixApp.GetFixAppTool
  end.

(** The names of the declared parameters of a tool. *)
Definition parameters (t : tool) : list string :=
  List.map ParamName (Params (definition t)).

Section WithLibraries.
Context {tables : UnicodeTables} {json_errors : JsonErrors}.

(** The handler registered with each tool. *)
Definition handler (t : tool) : CallToolRequest -> CallToolResult :=
  match t with
  | produce_app_boilerplate => ProduceAppBoilerplate.ProduceAppBoilerplateHandler
  | produce_model_boilerplate => ProduceModelBoilerplate.ProduceModelBoilerplateHandler
  | produce_service_boilerplate => ProduceServiceBoilerplate.ProduceServiceBoilerplateHandler
  | produce_api_controller_boilerplate =>
      ProduceApiControllerBoilerplate.ProduceApiControllerBoilerplateHandler
  | produce_html_controller_boilerplate =>
      ProduceHtmlControllerBoilerplate.ProduceHtmlControllerBoilerplateHandler
  | fix_app => FixApp.FixAppHandler
  end.

End WithLibraries.

(** The tools whose handler reads [model_name]. *)
Definition takes_model_name (t : tool) : bool :=
  match t with
  | produce_app_boilerplate | fix_app => false
  | _ => true
  end.

End Server.

(** ** Notions used to state the properties *)

Module Spec.
Import Str Mcp.

(** The lines of a text: the pieces between newline characters. *)
Fixpoint text_lines (s : string) : list string :=
  match s with
  | EmptyString => [EmptyString]
  | String c s' =>
      if Ascii.eqb c newline then EmptyString :: text_lines s'
      else
        match text_lines s' with
        | l :: ls => String c l :: ls
        | [] => [String c EmptyString]
        end
  end.

(** The struct-field line the specification describes for a field name and a field
    type: the capitalized name, the type, and the tag with the name as
    given. *)
Definition field_line {tables : UnicodeTables} (name fieldType : string) : string :=
  tab ++ Strings.Title name ++ " " ++ fieldType ++ " `json:" ++ dq ++ name ++ dq ++ "`".

(** The text of the error of [RequireString] for a missing [model_name], as
    the handlers report it. *)
Definition model_name_missing : string :=
  "Error getting 'model_name': required argument " ++ dq ++ "model_name" ++ dq ++ " not found".

(** A request given by its arguments. *)
Definition request (args : list (string * any)) : CallToolRequest :=
  {| Arguments := list_to_map args |}.

(** A JSON object with string members, and a JSON array, as texts. *)
Definition json_member (kv : string * string) : string :=
  dq ++ fst kv ++ dq ++ ":" ++ dq ++ snd kv ++ dq.

Definition json_object (members : list (string * string)) : string :=
  "{" ++ Join (List.map json_member members) "," ++ "}".

Definition json_array (elems : list string) : string :=
  "[" ++ Join elems "," ++ "]".

(** A fragment of the Unicode tables: the case pairs and the letters of
    Latin-1, and the white space of the whole table. *)
Definition latin1_title (r : Z) : Z :=
  (if (0xE0 <=? r) && (r <=? 0xFE) && negb (r =? 0xF7) then r - 0x20
   else if r =? 0xFF then 0x178
   else if r =? 0xB5 then 0x39C
   else r)%Z.

Definition latin1_lower (r : Z) : Z :=
  (if (0xC0 <=? r) && (r <=? 0xDE) && negb (r =? 0xD7) then r + 0x20
   else if r =? 0x178 then 0xFF
   else if r =? 0x39C then 0x3BC
   else r)%Z.

Definition latin1_letter (r : Z) : bool :=
  ((r =? 0xAA) || (r =? 0xB5) || (r =? 0xBA)
   || ((0xC0 <=? r) && (r <=? 0xD6)) || ((0xD8 <=? r) && (r <=? 0xF6))
   || ((0xF8 <=? r) && (r <=? 0xFF)) || (r =? 0x178) || (r =? 0x39C) || (r =? 0x3BC))%Z.

Definition white_space (r : Z) : bool :=
  (((0x09 <=? r) && (r <=? 0x0D)) || (r =? 0x20) || (r =? 0x85) || (r =? 0xA0)
   || (r =? 0x1680) || ((0x2000 <=? r) && (r <=? 0x200A))
   || (r =? 0x2028) || (r =? 0x2029) || (r =? 0x202F) || (r =? 0x205F) || (r =? 0x3000))%Z.

Definition latin1_tables : UnicodeTables :=
  {| To_TitleCase := latin1_title;
     To_LowerCase := latin1_lower;
     IsLetter := latin1_letter;
     IsDigit := fun _ => false;
     IsSpace := white_space |}.

(** The message of [json.Unmarshal] on the inputs of the examples. *)
Definition sample_errors : JsonErrors :=
  {| Unmarshal_error := fun data =>
       if String.eqb data "not json"
       then "invalid character 'o' in literal null (expecting 'u')"
       else "unexpected end of JSON input" |}.

(** *** The response of fix_app as static and interpolated pieces *)

(** A piece of a response: text of the program, or a string taken from the
    request. *)
Inductive segment :=
| Static (s : string)
| Dynamic (d : string).

Definition segment_text (g : segment) : string :=
  match g with
  | Static s => s
  | Dynamic d => d
  end.

Fixpoint text (l : list segment) : string :=
  match l with
  | [] => EmptyString
  | g :: l' => segment_text g ++ text l'
  end.

(** The pieces [FixApp.checklist] writes, in order. *)
Definition checklist_segments (appName : string) : list segment :=
  List.app
    [Static ("Here are some pointers to address common issues in your Echo web application:" ++ nl ++ nl)]
  (List.app
    (if String.eqb appName EmptyString then []
     else [Static "For application '"; Dynamic appName; Static ("':" ++ nl)])
      [Static ("1.  **Go Module Paths**: Ensure your Go module is correctly initialized and that internal imports use the module name." ++ nl
               ++ "    If your module is named `");
       Dynamic appName;
       Static ("`, then imports for internal packages should look like:" ++ nl
               ++ "    ```go" ++ nl ++ "    import (" ++ nl ++ "        " ++ dq);
       Dynamic appName;
       Static ("/internal/models" ++ dq ++ nl ++ "        " ++ dq);
       Dynamic appName;
       Static ("/internal/repository" ++ dq ++ nl ++ "        " ++ dq);
       Dynamic appName;
       Static ("/internal/service" ++ dq ++ nl ++ "        " ++ dq);
       Dynamic appName;
       Static ("/internal/controllers" ++ dq ++ nl ++ "    )" ++ nl
               ++ "    ```" ++ nl ++ "    Make sure to replace `");
       Dynamic appName;
       Static ("` with your actual module name." ++ nl ++ nl
               ++ "2.  **Missing Dependencies**: If you see errors like " ++ dq
               ++ "no required module provides package..." ++ dq
               ++ ", run `go mod tidy` in your application's root directory (" ++ "`cd ");
       Dynamic appName;
       Static (" && go mod tidy`" ++ ") to fetch missing dependencies." ++ nl ++ nl
               ++ "3.  **Database Initialization**: Ensure your `main.go` (in `cmd/web/`) correctly initializes the GORM database connection and auto-migrates all your models. For example:" ++ nl
               ++ "    ```go" ++ nl
               ++ "    import (" ++ nl ++ "        " ++ dq ++ "gorm.io/driver/sqlite" ++ dq ++ nl
               ++ "        " ++ dq ++ "gorm.io/gorm" ++ dq ++ nl ++ "        " ++ dq);
       Dynamic appName;
       Static ("/internal/models" ++ dq ++ nl ++ "    )" ++ nl ++ nl
               ++ lines
                    ["    func main() {";
                     "        db, err := gorm.Open(sqlite.Open(" ++ dq ++ "gorm.db" ++ dq ++ "), &gorm.Config{})";
                     "        if err != nil {";
                     "            // handle error";
                     "        }";
                     "        db.AutoMigrate(&models.Product{}, &models.Customer{}, &models.ProductCustomer{}) // Add all your models";
                     "    }"]
               ++ "    ```" ++ nl ++ nl
               ++ "4.  **Repository, Service, and Controller Initialization**: Verify that you are creating instances of your repositories, services, and controllers, and injecting dependencies correctly (repositories into services, services into controllers)." ++ nl ++ nl
               ++ "5.  **Route Registration**: Ensure all your controller methods have corresponding routes registered in your `main.go` (in `cmd/web/`). For example:" ++ nl
               ++ "    ```go" ++ nl
               ++ lines
                    ["    e.POST(" ++ dq ++ "/products" ++ dq ++ ", productController.CreateProduct)";
                     "    e.GET(" ++ dq ++ "/products/:id" ++ dq ++ ", productController.GetProductByID)";
                     "    // ... and so on for all CRUD operations and models"]
               ++ "    ```" ++ nl)]).

(** The pieces written for an error message that is not empty, the hint
    apart. *)
Definition regarding_segments (errorMessage : string) : list segment :=
  if String.eqb errorMessage EmptyString then []
  else [Static (nl ++ nl ++ "Regarding your specific error: " ++ dq);
        Dynamic errorMessage; Static (dq ++ nl)].

(** The hint around its opening bracket, a character that the text of the
    program has nowhere else. *)
Definition hint_before : string :=
  "This error typically means Go cannot find your internal packages. Double-check your import paths to ensure they use your module name (e.g., `".

Definition hint_after : string :=
  "appname]/internal/models`) and run `go mod tidy`." ++ nl.

Definition bracket : ascii := "["%char.

Fixpoint take (n : nat) (s : string) : string :=
  match n, s with
  | S n', String c s' => String c (take n' s')
  | _, _ => EmptyString
  end.

Fixpoint drop (n : nat) (s : string) : string :=
  match n, s with
  | S n', String _ s' => drop n' s'
  | _, _ => s
  end.

(** A static text [s] that stands before an interpolated string agrees
    with no beginning of the hint: no prefix of [hint_before] that is not
    empty ends where [s] ends. *)
Definition left_ok (s : string) : bool :=
  forallb (fun i => negb (HasSuffix s (take i hint_before) || HasSuffix (take i hint_before) s))
          (seq 1 (String.length hint_before)).

(** A static text [s] that stands after an interpolated string agrees with
    no end of the hint. *)
Definition right_ok (s : string) : bool :=
  forallb (fun j => negb (HasPrefix s (drop j hint_after) || HasPrefix (drop j hint_after) s))
          (seq 0 (String.length hint_after)).

(** The static pieces have no bracket, and every interpolated piece stands
    between two static pieces that agree with no part of the hint. *)
Fixpoint well_separated (prev : option segment) (l : list segment) : bool :=
  match l with
  | [] => true
  | Static s :: l' => negb (mem bracket s) && well_separated (Some (Static s)) l'
  | Dynamic d :: l' =>
      match prev with
      | Some (Static s) => left_ok s
      | _ => false
      end
      && match l' with
         | Static s' :: _ => right_ok s'
         | _ => false
         end
      && well_separated (Some (Dynamic d)) l'
  end.

(** *** Checks by enumeration *)

(** [P] on the [p] integers from [lo] on. *)
Fixpoint check_range (P : Z -> bool) (lo : Z) (p : positive) : bool :=
  match p with
  | xH => P lo
  | xO p' => check_range P lo p' && check_range P (lo + Z.pos p') p'
  | xI p' => P lo && check_range P (lo + 1) p' && check_range P (lo + 1 + Z.pos p') p'
  end.

(** Decoding the bytes [utf8.AppendRune] writes for a valid rune gives the
    rune back and its width, whatever follows for the widths below four. *)
Definition decodes_to (r : Z) (width : nat) (result : Z * nat) : bool :=
  (fst result =? r)%Z && (snd result =? width)%nat.

Definition roundtrip_ok (r : Z) : bool :=
  negb (Utf8.ValidRune r)
  || match Utf8.EncodeRune r with
     | [b0] => (Utf8.byte_val b0 <? Utf8.RuneSelf)%Z && (Utf8.byte_val b0 =? r)%Z
     | [b0; b1] => decodes_to r 2 (Utf8.DecodeRune4 b0 (Some b1) None None)
     | [b0; b1; b2] => decodes_to r 3 (Utf8.DecodeRune4 b0 (Some b1) (Some b2) None)
     | [b0; b1; b2; b3] => decodes_to r 4 (Utf8.DecodeRune4 b0 (Some b1) (Some b2) (Some b3))
     | _ => false
     end.

(** What the idempotence of [strings.Title] asks of the tables, at one
    rune: the title case of a valid rune is valid, is its own title case,
    and is a separator exactly when the rune is. *)
Definition title_case_stable {tables : UnicodeTables} (r : Z) : bool :=
  negb (Utf8.ValidRune r)
  || (Utf8.ValidRune (Strings.ToTitle r)
      && (Strings.ToTitle (Strings.ToTitle r) =? Strings.ToTitle r)%Z
      && Bool.eqb (Strings.isSeparator (Strings.ToTitle r)) (Strings.isSeparator r)).

(** The ASCII runes: their title case does not consult the tables. *)
Definition ascii_rune (r : Z) : bool := ((0 <=? r) && (r <? Utf8.RuneSelf))%Z.

(** A string of ASCII bytes only. *)
Fixpoint is_ascii (s : string) : bool :=
  match s with
  | EmptyString => true
  | String c s' => (Utf8.byte_val c <? Utf8.RuneSelf)%Z && is_ascii s'
  end.

(** The requests of the examples. *)
Definition sample_fields : string :=
  json_array [json_object [("name", "title"); ("type", "string")];
              json_object [("name", "pages"); ("type", "int")]].

Definition sample_request : CallToolRequest :=
  request [("app_name", AnyString "shop"); ("model_name", AnyString "book");
           ("fields", AnyString sample_fields)].

Definition malformed_request : CallToolRequest :=
  request [("app_name", AnyString "shop"); ("model_name", AnyString "book");
           ("fields", AnyString "not json")].

Definition sample_decoded : list (gmap string string) :=
  [ {[ "name" := "title"; "type" := "string" ]}; {[ "name" := "pages"; "type" := "int" ]} ].

(** A fields string with one descriptor whose type holds a newline and a tab,
    escaped as JSON has them, and the request that carries it. *)
Definition newline_fields : string :=
  json_array [json_object [("name", "a"); ("type", "int\n\tB int")]].

Definition newline_request : CallToolRequest :=
  request [("app_name", AnyString "shop"); ("model_name", AnyString "book");
           ("fields", AnyString newline_fields)].

(** A fields string whose descriptors lack a key, or have one more. *)
Definition partial_fields : string :=
  json_array [json_object [("type", "int")]; json_object [("name", "id")];
              json_object [("name", "n"); ("type", "uint"); ("note", "x")]; "{}"].

Definition partial_request : CallToolRequest :=
  request [("app_name", AnyString "shop"); ("model_name", AnyString "book");
           ("fields", AnyString partial_fields)].

End Spec.

(** ** The single-file server ([main.go])

    [main.go] holds the five tools of the server and their handlers in one
    file, under the names [create_app], [create_model],
    [create_model_controller], [create_service] and [fix_app]. *)

Module Main.
Import Str Fmt Mcp.

(** The tool definitions of [main]. *)
Definition createAppTool : Tool := NewTool "create_app" [WithString "app_name" true].

Definition createModelTool : Tool :=
  NewTool "create_model"
    [WithString "app_name" false; WithString "model_name" true; WithString "fields" true].

Definition createModelControllerTool : Tool :=
  NewTool "create_model_controller" [WithString "app_name" false; WithString "model_name" true].

Definition createServiceTool : Tool :=
  NewTool "create_service" [WithString "app_name" false; WithString "model_name" true].

Definition fixAppTool : Tool :=
  NewTool "fix_app" [WithString "app_name" false; WithString "error_message" false].

(** The format strings of the responses. *)
Definition createApp_format : format :=
  [Lit (lines
      [EmptyString;
       "# Echo Web Application Scaffold Instructions";
       EmptyString]
     ++ "To scaffold the Echo web application '");
   Verb_s_at 1;
   Lit (lines
      ["', please perform the following steps:";
       EmptyString;
       "1. Create the directory structure (or ensure it exists):"]
     ++ "   `mkdir -p ");
   Verb_s_at 1;
   Lit (lines
      ["/cmd/web`";
       EmptyString]
     ++ "2. Create or update the file at `");
   Verb_s_at 1;
   Lit (lines
      ["/cmd/web/main.go` with the following content:";
       "```go";
       "package main";
       EmptyString;
       "import (";
       tab ++ dq ++ "net/http" ++ dq;
       EmptyString;
       tab ++ dq ++ "github.com/labstack/echo/v4" ++ dq;
       tab ++ dq ++ "github.com/labstack/echo/v4/middleware" ++ dq;
       ")";
       EmptyString;
       "func main() {";
       tab ++ "e := echo.New()";
       tab ++ "e.Use(middleware.Logger())";
       tab ++ "e.Use(middleware.Recover())";
       tab ++ "e.GET(" ++ dq ++ "/" ++ dq ++ ", hello)";
       tab ++ "e.Logger.Fatal(e.Start(" ++ dq ++ ":1323" ++ dq ++ "))";
       "}";
       EmptyString;
       "func hello(c echo.Context) error {";
       tab ++ "return c.String(http.StatusOK, " ++ dq ++ "Hello, World!" ++ dq ++ ")";
       "}";
       "```";
       EmptyString;
       "3. Initialize the Go module and fetch dependencies:"]
     ++ "   `cd ");
   Verb_s_at 1;
   Lit (" && go mod init ");
   Verb_s_at 1;
   Lit (lines
      [" && go get github.com/labstack/echo/v4 && go mod tidy`";
       EmptyString;
       "4. To run the server, navigate to the application directory and execute:"]
     ++ "   `cd ");
   Verb_s_at 1;
   Lit (lines
      [" && go run ./cmd/web`";
       EmptyString]
     ++ "5. Bootstrap dependencies in `");
   Verb_s_at 1;
   Lit (lines
      ["/cmd/web/main.go`:"]
     ++ "   After creating models, repositories, services, and controllers, you will need to create or update `");
   Verb_s_at 1;
   Lit (lines
      ["/cmd/web/main.go` to bootstrap these dependencies.";
       "   This typically involves:";
       "   - Importing `gorm.io/driver/sqlite` (or your chosen database driver) and `gorm.io/gorm`.";
       "   - Initializing the database connection (e.g., `db, err := gorm.Open(sqlite.Open(" ++ dq ++ "gorm.db" ++ dq ++ "), &gorm.Config{})`).";
       "   - Auto-migrating your models (e.g., `db.AutoMigrate(&models.YourModel{})`).";
       "   - Creating instances of your repositories (e.g., `userRepo := repository.NewUserRepository(db)`).";
       "   - Creating instances of your services (e.g., `userService := service.NewUserService(userRepo)`).";
       "   - Creating instances of your controllers, injecting services (e.g., `userController := controllers.NewUserController(userService)`).";
       "   - Registering routes for your controllers (e.g., `e.POST(" ++ dq ++ "/users" ++ dq ++ ", userController.CreateUser)`).";
       EmptyString]
     ++ "   Here's an example of how `");
   Verb_s_at 1;
   Lit (lines
      ["/cmd/web/main.go` might look after adding a 'User' model with service layer:";
       "   ```go";
       "package main";
       EmptyString;
       "import (";
       tab ++ dq ++ "net/http" ++ dq;
       EmptyString;
       tab ++ dq ++ "github.com/labstack/echo/v4" ++ dq;
       tab ++ dq ++ "github.com/labstack/echo/v4/middleware" ++ dq;
       tab ++ dq ++ "gorm.io/driver/sqlite" ++ dq;
       tab ++ dq ++ "gorm.io/gorm" ++ dq;
       EmptyString]
     ++ tab ++ dq);
   Verb_s_at 6;
   Lit (lines
      ["/internal/models" ++ dq]
     ++ tab ++ dq);
   Verb_s_at 6;
   Lit (lines
      ["/internal/repository" ++ dq]
     ++ tab ++ dq);
   Verb_s_at 6;
   Lit (lines
      ["/internal/service" ++ dq]
     ++ tab ++ dq);
   Verb_s_at 6;
   Lit (lines
      ["/internal/controllers" ++ dq;
       ")";
       EmptyString;
       "func main() {";
       tab ++ "e := echo.New()";
       tab ++ "e.Use(middleware.Logger())";
       tab ++ "e.Use(middleware.Recover())";
       EmptyString;
       tab ++ "// Database initialization";
       tab ++ "db, err := gorm.Open(sqlite.Open(" ++ dq ++ "gorm.db" ++ dq ++ "), &gorm.Config{})";
       tab ++ "if err != nil {";
       tab ++ tab ++ "e.Logger.Fatal(" ++ dq ++ "failed to connect database" ++ dq ++ ", err)";
       tab ++ "}";
       EmptyString;
       tab ++ "// Auto-migrate models";
       tab ++ "err = db.AutoMigrate(&models.User{}) // Add all your models here";
       tab ++ "if err != nil {";
       tab ++ tab ++ "e.Logger.Fatal(" ++ dq ++ "failed to auto migrate models" ++ dq ++ ", err)";
       tab ++ "}";
       EmptyString;
       tab ++ "// Initialize repositories";
       tab ++ "userRepo := repository.NewUserRepository(db)";
       EmptyString;
       tab ++ "// Initialize services";
       tab ++ "userService := service.NewUserService(userRepo)";
       EmptyString;
       tab ++ "// Initialize controllers";
       tab ++ "userController := controllers.NewUserController(userService)";
       EmptyString;
       tab ++ "// Routes";
       tab ++ "e.GET(" ++ dq ++ "/" ++ dq ++ ", hello)";
       tab ++ "e.POST(" ++ dq ++ "/users" ++ dq ++ ", userController.CreateUser)";
       tab ++ "e.GET(" ++ dq ++ "/users/:id" ++ dq ++ ", userController.GetUserByID) // Example for GetByID";
       tab ++ "e.GET(" ++ dq ++ "/users" ++ dq ++ ", userController.ListUsers)       // Example for List";
       tab ++ "e.PUT(" ++ dq ++ "/users/:id" ++ dq ++ ", userController.UpdateUser)";
       tab ++ "e.DELETE(" ++ dq ++ "/users/:id" ++ dq ++ ", userController.DeleteUser)";
       EmptyString;
       tab ++ "e.Logger.Fatal(e.Start(" ++ dq ++ ":1323" ++ dq ++ "))";
       "}";
       EmptyString;
       "func hello(c echo.Context) error {";
       tab ++ "return c.String(http.StatusOK, " ++ dq ++ "Hello, World!" ++ dq ++ ")";
       "}";
       "```"])].

Definition createModel_format : format :=
  [Lit (lines
      [EmptyString;
       "# Model and Repository Scaffold Instructions";
       EmptyString]
     ++ "To scaffold the model '");
   Verb_s_at 1;
   Lit (lines
      ["' and its repository, please perform the following steps:";
       EmptyString]
     ++ "1. Create or update the file at `internal/models/");
   Verb_s_at 2;
   Lit (lines
      [".go` with the following content:";
       "```go"]);
   Verb_s_at 3;
   Lit (lines
      [EmptyString;
       "```";
       EmptyString;
       "2. Create the repository directory (or ensure it exists):"]
     ++ "   `mkdir -p internal/repository/");
   Verb_s_at 2;
   Lit (lines
      ["`";
       EmptyString]
     ++ "3. For each of the following, create or update the file in `internal/repository/");
   Verb_s_at 2;
   Lit (lines
      ["/` as needed:";
       EmptyString;
       "   a. `repo.go` (constructor and interface for dependency injection):";
       "```go";
       "package repository";
       EmptyString;
       "import (";
       tab ++ dq ++ "context" ++ dq;
       tab ++ dq ++ "gorm.io/gorm" ++ dq]
     ++ tab ++ dq);
   Verb_s_at 6;
   Lit (lines
      ["/internal/models" ++ dq;
       ")";
       EmptyString]
     ++ "type ");
   Verb_s_at 4;
   Lit (lines
      ["Repository interface {"]
     ++ tab ++ "Create(ctx context.Context, ");
   Verb_s_at 5;
   Lit (" *models.");
   Verb_s_at 4;
   Lit (lines
      [") error"]
     ++ tab ++ "Update(ctx context.Context, ");
   Verb_s_at 5;
   Lit (" *models.");
   Verb_s_at 4;
   Lit (lines
      [") error";
       tab ++ "Delete(ctx context.Context, id uint) error"]
     ++ tab ++ "Get(ctx context.Context, filters map[string]interface{}) ([]models.");
   Verb_s_at 4;
   Lit (lines
      [", error)";
       "}";
       EmptyString]
     ++ "type ");
   Verb_s_at 4;
   Lit (lines
      ["RepositoryImpl struct {";
       tab ++ "db *gorm.DB";
       "}";
       EmptyString]
     ++ "func New");
   Verb_s_at 4;
   Lit ("Repository(db *gorm.DB) ");
   Verb_s_at 4;
   Lit (lines
      ["Repository {"]
     ++ tab ++ "return &");
   Verb_s_at 4;
   Lit (lines
      ["RepositoryImpl{db: db}";
       "}";
       "```";
       EmptyString;
       "   b. `create.go` (Create method):";
       "```go";
       "package repository";
       EmptyString;
       "import (";
       tab ++ dq ++ "context" ++ dq]
     ++ tab ++ dq);
   Verb_s_at 6;
   Lit (lines
      ["/internal/models" ++ dq;
       ")";
       EmptyString]
     ++ "func (r *");
   Verb_s_at 4;
   Lit ("RepositoryImpl) Create(ctx context.Context, ");
   Verb_s_at 5;
   Lit (" *models.");
   Verb_s_at 4;
   Lit (lines
      [") error {"]
     ++ tab ++ "return r.db.WithContext(ctx).Create(");
   Verb_s_at 5;
   Lit (lines
      [").Error";
       "}";
       "```";
       EmptyString;
       "   c. `update.go` (Update method):";
       "```go";
       "package repository";
       EmptyString;
       "import (";
       tab ++ dq ++ "context" ++ dq]
     ++ tab ++ dq);
   Verb_s_at 6;
   Lit (lines
      ["/internal/models" ++ dq;
       ")";
       EmptyString]
     ++ "func (r *");
   Verb_s_at 4;
   Lit ("RepositoryImpl) Update(ctx context.Context, ");
   Verb_s_at 5;
   Lit (" *models.");
   Verb_s_at 4;
   Lit (lines
      [") error {"]
     ++ tab ++ "return r.db.WithContext(ctx).Save(");
   Verb_s_at 5;
   Lit (lines
      [").Error";
       "}";
       "```";
       EmptyString;
       "   d. `delete.go` (Delete method):";
       "```go";
       "package repository";
       EmptyString;
       "import (";
       tab ++ dq ++ "context" ++ dq]
     ++ tab ++ dq);
   Verb_s_at 6;
   Lit (lines
      ["/internal/models" ++ dq;
       ")";
       EmptyString]
     ++ "func (r *");
   Verb_s_at 4;
   Lit (lines
      ["RepositoryImpl) Delete(ctx context.Context, id uint) error {"]
     ++ tab ++ "return r.db.WithContext(ctx).Delete(&models.");
   Verb_s_at 4;
   Lit (lines
      ["{}, id).Error";
       "}";
       "```";
       EmptyString;
       "   e. `get.go` (Get method - many-to-many with filtering):";
       "```go";
       "package repository";
       EmptyString;
       "import (";
       tab ++ dq ++ "context" ++ dq;
       tab ++ dq ++ "fmt" ++ dq]
     ++ tab ++ dq);
   Verb_s_at 6;
   Lit (lines
      ["/internal/models" ++ dq;
       ")";
       EmptyString]
     ++ "func (r *");
   Verb_s_at 4;
   Lit ("RepositoryImpl) Get(ctx context.Context, filters map[string]interface{}) ([]models.");
   Verb_s_at 4;
   Lit (lines
      [", error) {"]
     ++ tab ++ "var ");
   Verb_s_at 5;
   Lit (" []models.");
   Verb_s_at 4;
   Lit (lines
      [EmptyString;
       tab ++ "query := r.db.WithContext(ctx)";
       tab ++ "for key, value := range filters {";
       tab ++ tab ++ "query = query.Where(fmt.Sprintf(" ++ dq ++ "%s = ?" ++ dq ++ ", key), value)";
       tab ++ "}"]
     ++ tab ++ "err := query.Find(&");
   Verb_s_at 5;
   Lit (lines
      [").Error"]
     ++ tab ++ "return ");
   Verb_s_at 5;
   Lit (lines
      [", err";
       "}";
       "```";
       EmptyString;
       "4. Bootstrap dependencies in `cmd/web/main.go`:";
       "   After creating models, repositories, and controllers, you will need to create or update `cmd/web/main.go` to bootstrap these dependencies.";
       "   This typically involves:";
       "   - Importing `gorm.io/driver/sqlite` (or your chosen database driver) and `gorm.io/gorm`.";
       "   - Initializing the database connection (e.g., `db, err := gorm.Open(sqlite.Open(" ++ dq ++ "gorm.db" ++ dq ++ "), &gorm.Config{})`).";
       "   - Auto-migrating your models (e.g., `db.AutoMigrate(&models.YourModel{})`).";
       "   - Creating instances of your repositories (e.g., `userRepo := repository.NewUserRepository(db)`).";
       "   - Creating instances of your controllers, injecting their dependencies (e.g., `userController := controllers.NewUserController(userRepo)`).";
       "   - Registering routes for your controllers (e.g., `e.POST(" ++ dq ++ "/users" ++ dq ++ ", userController.CreateUser)`).";
       EmptyString;
       "   Here's an example of how `cmd/web/main.go` might look after adding a 'User' model and controller:";
       "   ```go";
       "package main";
       EmptyString;
       "import (";
       tab ++ dq ++ "net/http" ++ dq;
       EmptyString;
       tab ++ dq ++ "github.com/labstack/echo/v4" ++ dq;
       tab ++ dq ++ "github.com/labstack/echo/v4/middleware" ++ dq;
       tab ++ dq ++ "gorm.io/driver/sqlite" ++ dq;
       tab ++ dq ++ "gorm.io/gorm" ++ dq;
       EmptyString]
     ++ tab ++ dq);
   Verb_s_at 6;
   Lit (lines
      ["/internal/models" ++ dq]
     ++ tab ++ dq);
   Verb_s_at 6;
   Lit (lines
      ["/internal/repository" ++ dq]
     ++ tab ++ dq);
   Verb_s_at 6;
   Lit (lines
      ["/internal/controllers" ++ dq;
       ")";
       EmptyString;
       "func main() {";
       tab ++ "e := echo.New()";
       tab ++ "e.Use(middleware.Logger())";
       tab ++ "e.Use(middleware.Recover())";
       EmptyString;
       tab ++ "// Database initialization";
       tab ++ "db, err := gorm.Open(sqlite.Open(" ++ dq ++ "gorm.db" ++ dq ++ "), &gorm.Config{})";
       tab ++ "if err != nil {";
       tab ++ tab ++ "e.Logger.Fatal(" ++ dq ++ "failed to connect database" ++ dq ++ ", err)";
       tab ++ "}";
       EmptyString;
       tab ++ "// Auto-migrate models";
       tab ++ "err = db.AutoMigrate(&models.User{}) // Add all your models here";
       tab ++ "if err != nil {";
       tab ++ tab ++ "e.Logger.Fatal(" ++ dq ++ "failed to auto migrate models" ++ dq ++ ", err)";
       tab ++ "}";
       EmptyString;
       tab ++ "// Initialize repositories";
       tab ++ "userRepo := repository.NewUserRepository(db)";
       EmptyString;
       tab ++ "// Initialize controllers";
       tab ++ "userController := controllers.NewUserController(userRepo)";
       EmptyString;
       tab ++ "// Routes";
       tab ++ "e.GET(" ++ dq ++ "/" ++ dq ++ ", hello)";
       tab ++ "e.POST(" ++ dq ++ "/users" ++ dq ++ ", userController.CreateUser)";
       tab ++ "e.GET(" ++ dq ++ "/users/:id" ++ dq ++ ", userController.GetUserByID) // Example for GetByID";
       tab ++ "e.GET(" ++ dq ++ "/users" ++ dq ++ ", userController.ListUsers)       // Example for List";
       tab ++ "e.PUT(" ++ dq ++ "/users/:id" ++ dq ++ ", userController.UpdateUser)";
       tab ++ "e.DELETE(" ++ dq ++ "/users/:id" ++ dq ++ ", userController.DeleteUser)";
       EmptyString;
       tab ++ "e.Logger.Fatal(e.Start(" ++ dq ++ ":1323" ++ dq ++ "))";
       "}";
       EmptyString;
       "func hello(c echo.Context) error {";
       tab ++ "return c.String(http.StatusOK, " ++ dq ++ "Hello, World!" ++ dq ++ ")";
       "}";
       "```"])].

Definition createModelController_format : format :=
  [Lit (lines
      [EmptyString;
       "# Controller Scaffold Instructions";
       EmptyString]
     ++ "To scaffold the controller for model '");
   Verb_s_at 1;
   Lit (lines
      ["', please perform the following steps:";
       EmptyString;
       "1. Create the controller directory (or ensure it exists):"]
     ++ "   `mkdir -p internal/controllers/");
   Verb_s_at 2;
   Lit (lines
      ["`";
       EmptyString]
     ++ "2. For each of the following, create or update the file in `internal/controllers/");
   Verb_s_at 2;
   Lit (lines
      ["/` as needed:";
       EmptyString;
       "   a. `controller.go` (interface and constructor):";
       "```go";
       "package controllers";
       EmptyString;
       "import (";
       tab ++ dq ++ "github.com/labstack/echo/v4" ++ dq]
     ++ tab ++ dq);
   Verb_s_at 5;
   Lit (lines
      ["/internal/service" ++ dq]
     ++ tab ++ dq);
   Verb_s_at 5;
   Lit (lines
      ["/internal/dto" ++ dq;
       ")";
       EmptyString]
     ++ "type ");
   Verb_s_at 3;
   Lit (lines
      ["Controller interface {"]
     ++ tab ++ "Create");
   Verb_s_at 3;
   Lit (lines
      ["(c echo.Context) error"]
     ++ tab ++ "Update");
   Verb_s_at 3;
   Lit (lines
      ["(c echo.Context) error"]
     ++ tab ++ "Delete");
   Verb_s_at 3;
   Lit (lines
      ["(c echo.Context) error"]
     ++ tab ++ "List");
   Verb_s_at 3;
   Lit (lines
      ["(c echo.Context) error // New: List method"]
     ++ tab ++ "Get");
   Verb_s_at 3;
   Lit (lines
      ["ByID(c echo.Context) error // New: GetByID method";
       "}";
       EmptyString]
     ++ "type ");
   Verb_s_at 3;
   Lit (lines
      ["ControllerImpl struct {"]
     ++ tab);
   Verb_s_at 4;
   Lit ("Service service.");
   Verb_s_at 3;
   Lit (lines
      ["Service";
       "}";
       EmptyString]
     ++ "func New");
   Verb_s_at 3;
   Lit ("Controller(");
   Verb_s_at 4;
   Lit ("Service service.");
   Verb_s_at 3;
   Lit ("Service) ");
   Verb_s_at 3;
   Lit (lines
      ["Controller {"]
     ++ tab ++ "return &");
   Verb_s_at 3;
   Lit ("ControllerImpl{");
   Verb_s_at 4;
   Lit ("Service: ");
   Verb_s_at 4;
   Lit (lines
      ["Service}";
       "}";
       "```";
       EmptyString;
       "   b. `create.go` (Create method - JSON request & response):";
       "```go";
       "package controllers";
       EmptyString;
       "import (";
       tab ++ dq ++ "net/http" ++ dq;
       EmptyString;
       tab ++ dq ++ "github.com/labstack/echo/v4" ++ dq]
     ++ tab ++ dq);
   Verb_s_at 5;
   Lit (lines
      ["/internal/dto" ++ dq;
       ")";
       EmptyString]
     ++ "func (ctrl *");
   Verb_s_at 3;
   Lit ("ControllerImpl) Create");
   Verb_s_at 3;
   Lit (lines
      ["(c echo.Context) error {"]
     ++ tab ++ "req := new(dto.Create");
   Verb_s_at 3;
   Lit (lines
      ["Request)";
       tab ++ "if err := c.Bind(req); err != nil {";
       tab ++ tab ++ "return echo.NewHTTPError(http.StatusBadRequest, err.Error())";
       tab ++ "}";
       tab ++ "// Add validation here if needed"]
     ++ tab ++ "result, err := ctrl.");
   Verb_s_at 4;
   Lit (lines
      ["Service.Create(c.Request().Context(), req)";
       tab ++ "if err != nil {";
       tab ++ tab ++ "return echo.NewHTTPError(http.StatusInternalServerError, err.Error())";
       tab ++ "}";
       tab ++ "return c.JSON(http.StatusCreated, result)";
       "}";
       "```";
       EmptyString;
       "   c. `update.go` (Update method - JSON request & response):";
       "```go";
       "package controllers";
       EmptyString;
       "import (";
       tab ++ dq ++ "net/http" ++ dq;
       tab ++ dq ++ "strconv" ++ dq;
       EmptyString;
       tab ++ dq ++ "github.com/labstack/echo/v4" ++ dq]
     ++ tab ++ dq);
   Verb_s_at 5;
   Lit (lines
      ["/internal/dto" ++ dq;
       ")";
       EmptyString]
     ++ "func (ctrl *");
   Verb_s_at 3;
   Lit ("ControllerImpl) Update");
   Verb_s_at 3;
   Lit (lines
      ["(c echo.Context) error {";
       tab ++ "id, err := strconv.ParseUint(c.Param(" ++ dq ++ "id" ++ dq ++ "), 10, 64)";
       tab ++ "if err != nil {";
       tab ++ tab ++ "return echo.NewHTTPError(http.StatusBadRequest, " ++ dq ++ "Invalid ID" ++ dq ++ ")";
       tab ++ "}";
       tab]
     ++ tab ++ "req := new(dto.Update");
   Verb_s_at 3;
   Lit (lines
      ["Request)";
       tab ++ "if err := c.Bind(req); err != nil {";
       tab ++ tab ++ "return echo.NewHTTPError(http.StatusBadRequest, err.Error())";
       tab ++ "}";
       tab ++ "req.ID = uint(id)";
       tab;
       tab ++ "// Add validation here if needed"]
     ++ tab ++ "result, err := ctrl.");
   Verb_s_at 4;
   Lit (lines
      ["Service.Update(c.Request().Context(), req)";
       tab ++ "if err != nil {";
       tab ++ tab ++ "return echo.NewHTTPError(http.StatusInternalServerError, err.Error())";
       tab ++ "}";
       tab ++ "return c.JSON(http.StatusOK, result)";
       "}";
       "```";
       EmptyString;
       "   d. `delete.go` (Delete method - JSON request & response):";
       "```go";
       "package controllers";
       EmptyString;
       "import (";
       tab ++ dq ++ "net/http" ++ dq;
       tab ++ dq ++ "strconv" ++ dq;
       EmptyString;
       tab ++ dq ++ "github.com/labstack/echo/v4" ++ dq;
       ")";
       EmptyString]
     ++ "func (ctrl *");
   Verb_s_at 3;
   Lit ("ControllerImpl) Delete");
   Verb_s_at 3;
   Lit (lines
      ["(c echo.Context) error {";
       tab ++ "id, err := strconv.ParseUint(c.Param(" ++ dq ++ "id" ++ dq ++ "), 10, 64)";
       tab ++ "if err != nil {";
       tab ++ tab ++ "return echo.NewHTTPError(http.StatusBadRequest, " ++ dq ++ "Invalid ID" ++ dq ++ ")";
       tab ++ "}"]
     ++ tab ++ "if err := ctrl.");
   Verb_s_at 4;
   Lit (lines
      ["Service.Delete(c.Request().Context(), uint(id)); err != nil {";
       tab ++ tab ++ "return echo.NewHTTPError(http.StatusInternalServerError, err.Error())";
       tab ++ "}";
       tab ++ "return c.NoContent(http.StatusNoContent)";
       "}";
       "```";
       EmptyString;
       "   e. `list.go` (List method - JSON request & response):";
       "```go";
       "package controllers";
       EmptyString;
       "import (";
       tab ++ dq ++ "net/http" ++ dq;
       tab ++ dq ++ "strconv" ++ dq;
       EmptyString;
       tab ++ dq ++ "github.com/labstack/echo/v4" ++ dq;
       ")";
       EmptyString]
     ++ "func (ctrl *");
   Verb_s_at 3;
   Lit ("ControllerImpl) List");
   Verb_s_at 3;
   Lit (lines
      ["(c echo.Context) error {";
       tab ++ "// Parse pagination parameters";
       tab ++ "page, _ := strconv.Atoi(c.QueryParam(" ++ dq ++ "page" ++ dq ++ "))";
       tab ++ "if page <= 0 {";
       tab ++ tab ++ "page = 1";
       tab ++ "}";
       tab ++ "limit, _ := strconv.Atoi(c.QueryParam(" ++ dq ++ "limit" ++ dq ++ "))";
       tab ++ "if limit <= 0 {";
       tab ++ tab ++ "limit = 10";
       tab ++ "}";
       EmptyString;
       tab ++ "// You might want to parse query parameters for filtering here";
       tab ++ "filters := make(map[string]interface{}) ";
       tab ++ "// Example: filters[" ++ dq ++ "name" ++ dq ++ "] = c.QueryParam(" ++ dq ++ "name" ++ dq ++ ")";
       EmptyString]
     ++ tab ++ "result, err := ctrl.");
   Verb_s_at 4;
   Lit (lines
      ["Service.List(c.Request().Context(), page, limit, filters)";
       tab ++ "if err != nil {";
       tab ++ tab ++ "return echo.NewHTTPError(http.StatusInternalServerError, err.Error())";
       tab ++ "}";
       tab ++ "return c.JSON(http.StatusOK, result)";
       "}";
       "```";
       EmptyString;
       "   f. `get_by_id.go` (GetByID method - JSON request & response):";
       "```go";
       "package controllers";
       EmptyString;
       "import (";
       tab ++ dq ++ "net/http" ++ dq;
       tab ++ dq ++ "strconv" ++ dq;
       EmptyString;
       tab ++ dq ++ "github.com/labstack/echo/v4" ++ dq;
       ")";
       EmptyString]
     ++ "func (ctrl *");
   Verb_s_at 3;
   Lit ("ControllerImpl) Get");
   Verb_s_at 3;
   Lit (lines
      ["ByID(c echo.Context) error {";
       tab ++ "id, err := strconv.ParseUint(c.Param(" ++ dq ++ "id" ++ dq ++ "), 10, 64)";
       tab ++ "if err != nil {";
       tab ++ tab ++ "return echo.NewHTTPError(http.StatusBadRequest, " ++ dq ++ "Invalid ID" ++ dq ++ ")";
       tab ++ "}";
       tab]
     ++ tab ++ "result, err := ctrl.");
   Verb_s_at 4;
   Lit (lines
      ["Service.GetByID(c.Request().Context(), uint(id))";
       tab ++ "if err != nil {";
       tab ++ tab ++ "return echo.NewHTTPError(http.StatusInternalServerError, err.Error())";
       tab ++ "}";
       tab ++ "return c.JSON(http.StatusOK, result)";
       "}";
       "```"])].

Definition createService_format : format :=
  [Lit (lines
      ["# Service Layer and DTOs Scaffold Instructions";
       EmptyString]
     ++ "To scaffold the service layer with DTOs for model '");
   Verb_s_at 1;
   Lit (lines
      ["', please perform the following steps:";
       EmptyString;
       "1. Create the DTOs directory (or ensure it exists):"]
     ++ "   mkdir -p internal/dto/");
   Verb_s_at 2;
   Lit (lines
      [EmptyString;
       EmptyString]
     ++ "2. Create or update the file at internal/dto/");
   Verb_s_at 2;
   Lit (lines
      ["/dto.go with the following content:";
       EmptyString;
       "package dto";
       EmptyString;
       "import " ++ dq ++ "time" ++ dq;
       EmptyString]
     ++ "// Create");
   Verb_s_at 1;
   Lit ("Request represents the request payload for creating a ");
   Verb_s_at 2;
   Lit (lines
      [EmptyString]
     ++ "type Create");
   Verb_s_at 1;
   Lit (lines
      ["Request struct {";
       tab ++ "// Add your fields here based on your model";
       tab ++ "// Example fields - replace with actual model fields:";
       tab ++ "// Name        string `json:" ++ dq ++ "name" ++ dq ++ " validate:" ++ dq ++ "required" ++ dq ++ "`";
       tab ++ "// Email       string `json:" ++ dq ++ "email" ++ dq ++ " validate:" ++ dq ++ "required,email" ++ dq ++ "`";
       tab ++ "// Description string `json:" ++ dq ++ "description" ++ dq ++ "`";
       "}";
       EmptyString]
     ++ "// Update");
   Verb_s_at 1;
   Lit ("Request represents the request payload for updating a ");
   Verb_s_at 2;
   Lit (lines
      [EmptyString]
     ++ "type Update");
   Verb_s_at 1;
   Lit (lines
      ["Request struct {";
       tab ++ "ID uint `json:" ++ dq ++ "id" ++ dq ++ " validate:" ++ dq ++ "required" ++ dq ++ "`";
       tab ++ "// Add your fields here based on your model";
       tab ++ "// Example fields - replace with actual model fields:";
       tab ++ "// Name        *string `json:" ++ dq ++ "name,omitempty" ++ dq ++ "`";
       tab ++ "// Email       *string `json:" ++ dq ++ "email,omitempty" ++ dq ++ "`";
       tab ++ "// Description *string `json:" ++ dq ++ "description,omitempty" ++ dq ++ "`";
       "}";
       EmptyString]
     ++ "// ");
   Verb_s_at 1;
   Lit ("Response represents the response payload for ");
   Verb_s_at 2;
   Lit (lines
      [" operations"]
     ++ "type ");
   Verb_s_at 1;
   Lit (lines
      ["Response struct {";
       tab ++ "ID        uint      `json:" ++ dq ++ "id" ++ dq ++ "`";
       tab ++ "CreatedAt time.Time `json:" ++ dq ++ "created_at" ++ dq ++ "`";
       tab ++ "UpdatedAt time.Time `json:" ++ dq ++ "updated_at" ++ dq ++ "`";
       tab ++ "// Add your fields here based on your model";
       tab ++ "// Example fields - replace with actual model fields:";
       tab ++ "// Name        string `json:" ++ dq ++ "name" ++ dq ++ "`";
       tab ++ "// Email       string `json:" ++ dq ++ "email" ++ dq ++ "`";
       tab ++ "// Description string `json:" ++ dq ++ "description" ++ dq ++ "`";
       "}";
       EmptyString]
     ++ "// List");
   Verb_s_at 1;
   Lit ("Response represents the response payload for listing ");
   Verb_s_at 2;
   Lit (lines
      [EmptyString]
     ++ "type List");
   Verb_s_at 1;
   Lit (lines
      ["Response struct {"]
     ++ tab ++ "Data  []");
   Verb_s_at 1;
   Lit (lines
      ["Response `json:" ++ dq ++ "data" ++ dq ++ "`";
       tab ++ "Total int          `json:" ++ dq ++ "total" ++ dq ++ "`";
       tab ++ "Page  int          `json:" ++ dq ++ "page" ++ dq ++ "`";
       tab ++ "Limit int          `json:" ++ dq ++ "limit" ++ dq ++ "`";
       "}";
       EmptyString;
       "3. Create the service directory (or ensure it exists):"]
     ++ "   mkdir -p internal/service/");
   Verb_s_at 2;
   Lit (lines
      [EmptyString;
       EmptyString;
       "4. Create the service files:";
       EmptyString]
     ++ "   a. internal/service/");
   Verb_s_at 2;
   Lit (lines
      ["/service.go (interface and constructor):";
       EmptyString;
       "package service";
       EmptyString;
       "import (";
       tab ++ dq ++ "context" ++ dq]
     ++ tab ++ dq);
   Verb_s_at 3;
   Lit (lines
      ["/internal/dto" ++ dq]
     ++ tab ++ dq);
   Verb_s_at 3;
   Lit (lines
      ["/internal/models" ++ dq]
     ++ tab ++ dq);
   Verb_s_at 3;
   Lit (lines
      ["/internal/repository" ++ dq;
       ")";
       EmptyString]
     ++ "type ");
   Verb_s_at 1;
   Lit (lines
      ["Service interface {"]
     ++ tab ++ "Create(ctx context.Context, req *dto.Create");
   Verb_s_at 1;
   Lit ("Request) (*dto.");
   Verb_s_at 1;
   Lit (lines
      ["Response, error)"]
     ++ tab ++ "Update(ctx context.Context, req *dto.Update");
   Verb_s_at 1;
   Lit ("Request) (*dto.");
   Verb_s_at 1;
   Lit (lines
      ["Response, error)";
       tab ++ "Delete(ctx context.Context, id uint) error"]
     ++ tab ++ "GetByID(ctx context.Context, id uint) (*dto.");
   Verb_s_at 1;
   Lit (lines
      ["Response, error)"]
     ++ tab ++ "List(ctx context.Context, page, limit int, filters map[string]interface{}) (*dto.List");
   Verb_s_at 1;
   Lit (lines
      ["Response, error)";
       "}";
       EmptyString]
     ++ "type ");
   Verb_s_at 1;
   Lit (lines
      ["ServiceImpl struct {"]
     ++ tab);
   Verb_s_at 2;
   Lit ("Repo repository.");
   Verb_s_at 1;
   Lit (lines
      ["Repository";
       "}";
       EmptyString]
     ++ "func New");
   Verb_s_at 1;
   Lit ("Service(");
   Verb_s_at 2;
   Lit ("Repo repository.");
   Verb_s_at 1;
   Lit ("Repository) ");
   Verb_s_at 1;
   Lit (lines
      ["Service {"]
     ++ tab ++ "return &");
   Verb_s_at 1;
   Lit ("ServiceImpl{");
   Verb_s_at 2;
   Lit ("Repo: ");
   Verb_s_at 2;
   Lit (lines
      ["Repo}";
       "}";
       EmptyString;
       "// Helper function to convert model to DTO"]
     ++ "func (s *");
   Verb_s_at 1;
   Lit ("ServiceImpl) modelToDTO(model *models.");
   Verb_s_at 1;
   Lit (") *dto.");
   Verb_s_at 1;
   Lit (lines
      ["Response {"]
     ++ tab ++ "return &dto.");
   Verb_s_at 1;
   Lit (lines
      ["Response{";
       tab ++ tab ++ "ID:        model.ID,";
       tab ++ tab ++ "CreatedAt: model.CreatedAt,";
       tab ++ tab ++ "UpdatedAt: model.UpdatedAt,";
       tab ++ tab ++ "// Map your model fields to DTO fields here";
       tab ++ tab ++ "// Example:";
       tab ++ tab ++ "// Name:        model.Name,";
       tab ++ tab ++ "// Email:       model.Email,";
       tab ++ tab ++ "// Description: model.Description,";
       tab ++ "}";
       "}";
       EmptyString;
       "// Helper function to convert create DTO to model"]
     ++ "func (s *");
   Verb_s_at 1;
   Lit ("ServiceImpl) createDTOToModel(req *dto.Create");
   Verb_s_at 1;
   Lit ("Request) *models.");
   Verb_s_at 1;
   Lit (lines
      [" {"]
     ++ tab ++ "return &models.");
   Verb_s_at 1;
   Lit (lines
      ["{";
       tab ++ tab ++ "// Map your DTO fields to model fields here";
       tab ++ tab ++ "// Example:";
       tab ++ tab ++ "// Name:        req.Name,";
       tab ++ tab ++ "// Email:       req.Email,";
       tab ++ tab ++ "// Description: req.Description,";
       tab ++ "}";
       "}";
       EmptyString]
     ++ "   b. internal/service/");
   Verb_s_at 2;
   Lit (lines
      ["/create.go (Create method):";
       EmptyString;
       "package service";
       EmptyString;
       "import (";
       tab ++ dq ++ "context" ++ dq]
     ++ tab ++ dq);
   Verb_s_at 3;
   Lit (lines
      ["/internal/dto" ++ dq;
       ")";
       EmptyString]
     ++ "func (s *");
   Verb_s_at 1;
   Lit ("ServiceImpl) Create(ctx context.Context, req *dto.Create");
   Verb_s_at 1;
   Lit ("Request) (*dto.");
   Verb_s_at 1;
   Lit (lines
      ["Response, error) {";
       tab ++ "// Convert DTO to model";
       tab ++ "model := s.createDTOToModel(req)";
       tab;
       tab ++ "// Create in repository"]
     ++ tab ++ "if err := s.");
   Verb_s_at 2;
   Lit (lines
      ["Repo.Create(ctx, model); err != nil {";
       tab ++ tab ++ "return nil, err";
       tab ++ "}";
       tab;
       tab ++ "// Convert model back to DTO and return";
       tab ++ "return s.modelToDTO(model), nil";
       "}";
       EmptyString]
     ++ "   c. internal/service/");
   Verb_s_at 2;
   Lit (lines
      ["/update.go (Update method):";
       EmptyString;
       "package service";
       EmptyString;
       "import (";
       tab ++ dq ++ "context" ++ dq;
       tab ++ dq ++ "errors" ++ dq]
     ++ tab ++ dq);
   Verb_s_at 3;
   Lit (lines
      ["/internal/dto" ++ dq;
       ")";
       EmptyString]
     ++ "func (s *");
   Verb_s_at 1;
   Lit ("ServiceImpl) Update(ctx context.Context, req *dto.Update");
   Verb_s_at 1;
   Lit ("Request) (*dto.");
   Verb_s_at 1;
   Lit (lines
      ["Response, error) {";
       tab ++ "// First, get the existing record";
       tab ++ "filters := map[string]interface{}{" ++ dq ++ "id" ++ dq ++ ": req.ID}"]
     ++ tab ++ "existing, err := s.");
   Verb_s_at 2;
   Lit (lines
      ["Repo.Get(ctx, filters)";
       tab ++ "if err != nil {";
       tab ++ tab ++ "return nil, err";
       tab ++ "}";
       tab ++ "if len(existing) == 0 {"]
     ++ tab ++ tab ++ "return nil, errors.New(" ++ dq);
   Verb_s_at 2;
   Lit (lines
      [" not found" ++ dq ++ ")";
       tab ++ "}";
       tab;
       tab ++ "model := &existing[0]";
       tab ++ "// Update only the fields that are provided (not nil)";
       tab ++ "// Example:";
       tab ++ "// if req.Name != nil {";
       tab ++ "//     model.Name = *req.Name";
       tab ++ "// }";
       tab ++ "// if req.Email != nil {";
       tab ++ "//     model.Email = *req.Email";
       tab ++ "// }";
       tab ++ "// if req.Description != nil {";
       tab ++ "//     model.Description = *req.Description";
       tab ++ "// }";
       tab;
       tab ++ "// Update in repository"]
     ++ tab ++ "if err := s.");
   Verb_s_at 2;
   Lit (lines
      ["Repo.Update(ctx, model); err != nil {";
       tab ++ tab ++ "return nil, err";
       tab ++ "}";
       tab;
       tab ++ "// Convert model back to DTO and return";
       tab ++ "return s.modelToDTO(model), nil";
       "}";
       EmptyString]
     ++ "   d. internal/service/");
   Verb_s_at 2;
   Lit (lines
      ["/delete.go (Delete method):";
       EmptyString;
       "package service";
       EmptyString;
       "import " ++ dq ++ "context" ++ dq;
       EmptyString]
     ++ "func (s *");
   Verb_s_at 1;
   Lit (lines
      ["ServiceImpl) Delete(ctx context.Context, id uint) error {"]
     ++ tab ++ "return s.");
   Verb_s_at 2;
   Lit (lines
      ["Repo.Delete(ctx, id)";
       "}";
       EmptyString]
     ++ "   e. internal/service/");
   Verb_s_at 2;
   Lit (lines
      ["/get_by_id.go (GetByID method):";
       EmptyString;
       "package service";
       EmptyString;
       "import (";
       tab ++ dq ++ "context" ++ dq;
       tab ++ dq ++ "errors" ++ dq]
     ++ tab ++ dq);
   Verb_s_at 3;
   Lit (lines
      ["/internal/dto" ++ dq;
       ")";
       EmptyString]
     ++ "func (s *");
   Verb_s_at 1;
   Lit ("ServiceImpl) GetByID(ctx context.Context, id uint) (*dto.");
   Verb_s_at 1;
   Lit (lines
      ["Response, error) {";
       tab ++ "filters := map[string]interface{}{" ++ dq ++ "id" ++ dq ++ ": id}"]
     ++ tab ++ "results, err := s.");
   Verb_s_at 2;
   Lit (lines
      ["Repo.Get(ctx, filters)";
       tab ++ "if err != nil {";
       tab ++ tab ++ "return nil, err";
       tab ++ "}";
       tab ++ "if len(results) == 0 {"]
     ++ tab ++ tab ++ "return nil, errors.New(" ++ dq);
   Verb_s_at 2;
   Lit (lines
      [" not found" ++ dq ++ ")";
       tab ++ "}";
       tab;
       tab ++ "return s.modelToDTO(&results[0]), nil";
       "}";
       EmptyString]
     ++ "   f. internal/service/");
   Verb_s_at 2;
   Lit (lines
      ["/list.go (List method):";
       EmptyString;
       "package service";
       EmptyString;
       "import (";
       tab ++ dq ++ "context" ++ dq]
     ++ tab ++ dq);
   Verb_s_at 3;
   Lit (lines
      ["/internal/dto" ++ dq;
       ")";
       EmptyString]
     ++ "func (s *");
   Verb_s_at 1;
   Lit ("ServiceImpl) List(ctx context.Context, page, limit int, filters map[string]interface{}) (*dto.List");
   Verb_s_at 1;
   Lit (lines
      ["Response, error) {";
       tab ++ "// Get data from repository"]
     ++ tab ++ "results, err := s.");
   Verb_s_at 2;
   Lit (lines
      ["Repo.Get(ctx, filters)";
       tab ++ "if err != nil {";
       tab ++ tab ++ "return nil, err";
       tab ++ "}";
       tab;
       tab ++ "// Convert models to DTOs"]
     ++ tab ++ "dtoResults := make([]dto.");
   Verb_s_at 1;
   Lit (lines
      ["Response, len(results))";
       tab ++ "for i, model := range results {";
       tab ++ tab ++ "dtoResults[i] = *s.modelToDTO(&model)";
       tab ++ "}";
       tab;
       tab ++ "// TODO: Implement proper pagination in repository layer";
       tab ++ "// For now, return all results"]
     ++ tab ++ "return &dto.List");
   Verb_s_at 1;
   Lit (lines
      ["Response{";
       tab ++ tab ++ "Data:  dtoResults,";
       tab ++ tab ++ "Total: len(dtoResults),";
       tab ++ tab ++ "Page:  page,";
       tab ++ tab ++ "Limit: limit,";
       tab ++ "}, nil";
       "}";
       EmptyString;
       "5. Update your controller to use the service layer instead of repository directly.";
       "   The controller should now inject the service and use DTOs for request/response.";
       EmptyString;
       "6. Bootstrap dependencies in cmd/web/main.go:";
       "   After creating services, you will need to update cmd/web/main.go to bootstrap the service layer.";
       "   This typically involves:";
       "   - Creating instances of your repositories (e.g., userRepo := repository.NewUserRepository(db)).";
       "   - Creating instances of your services, injecting repositories (e.g., userService := service.NewUserService(userRepo)).";
       "   - Creating instances of your controllers, injecting services (e.g., userController := controllers.NewUserController(userService)).";
       EmptyString;
       "   Here's an example of how cmd/web/main.go might look with the service layer:";
       EmptyString;
       "package main";
       EmptyString;
       "import (";
       tab ++ dq ++ "net/http" ++ dq;
       EmptyString;
       tab ++ dq ++ "github.com/labstack/echo/v4" ++ dq;
       tab ++ dq ++ "github.com/labstack/echo/v4/middleware" ++ dq;
       tab ++ dq ++ "gorm.io/driver/sqlite" ++ dq;
       tab ++ dq ++ "gorm.io/gorm" ++ dq;
       EmptyString]
     ++ tab ++ dq);
   Verb_s_at 3;
   Lit (lines
      ["/internal/models" ++ dq]
     ++ tab ++ dq);
   Verb_s_at 3;
   Lit (lines
      ["/internal/repository" ++ dq]
     ++ tab ++ dq);
   Verb_s_at 3;
   Lit (lines
      ["/internal/service" ++ dq]
     ++ tab ++ dq);
   Verb_s_at 3;
   Lit (lines
      ["/internal/controllers" ++ dq;
       ")";
       EmptyString;
       "func main() {";
       tab ++ "e := echo.New()";
       tab ++ "e.Use(middleware.Logger())";
       tab ++ "e.Use(middleware.Recover())";
       EmptyString;
       tab ++ "// Database initialization";
       tab ++ "db, err := gorm.Open(sqlite.Open(" ++ dq ++ "gorm.db" ++ dq ++ "), &gorm.Config{})";
       tab ++ "if err != nil {";
       tab ++ tab ++ "e.Logger.Fatal(" ++ dq ++ "failed to connect database" ++ dq ++ ", err)";
       tab ++ "}";
       EmptyString;
       tab ++ "// Auto-migrate models"]
     ++ tab ++ "err = db.AutoMigrate(&models.");
   Verb_s_at 1;
   Lit (lines
      ["{}) // Add all your models here";
       tab ++ "if err != nil {";
       tab ++ tab ++ "e.Logger.Fatal(" ++ dq ++ "failed to auto migrate models" ++ dq ++ ", err)";
       tab ++ "}";
       EmptyString;
       tab ++ "// Initialize repositories"]
     ++ tab);
   Verb_s_at 2;
   Lit ("Repo := repository.New");
   Verb_s_at 1;
   Lit (lines
      ["Repository(db)";
       EmptyString;
       tab ++ "// Initialize services"]
     ++ tab);
   Verb_s_at 2;
   Lit ("Service := service.New");
   Verb_s_at 1;
   Lit ("Service(");
   Verb_s_at 2;
   Lit (lines
      ["Repo)";
       EmptyString;
       tab ++ "// Initialize controllers"]
     ++ tab);
   Verb_s_at 2;
   Lit ("Controller := controllers.New");
   Verb_s_at 1;
   Lit ("Controller(");
   Verb_s_at 2;
   Lit (lines
      ["Service)";
       EmptyString;
       tab ++ "// Routes";
       tab ++ "e.GET(" ++ dq ++ "/" ++ dq ++ ", hello)"]
     ++ tab ++ "e.POST(" ++ dq ++ "/");
   Verb_s_at 2;
   Lit ("s" ++ dq ++ ", ");
   Verb_s_at 2;
   Lit ("Controller.Create");
   Verb_s_at 1;
   Lit (lines
      [")"]
     ++ tab ++ "e.GET(" ++ dq ++ "/");
   Verb_s_at 2;
   Lit ("s/:id" ++ dq ++ ", ");
   Verb_s_at 2;
   Lit ("Controller.Get");
   Verb_s_at 1;
   Lit (lines
      ["ByID)"]
     ++ tab ++ "e.GET(" ++ dq ++ "/");
   Verb_s_at 2;
   Lit ("s" ++ dq ++ ", ");
   Verb_s_at 2;
   Lit ("Controller.List");
   Verb_s_at 1;
   Lit (lines
      [")"]
     ++ tab ++ "e.PUT(" ++ dq ++ "/");
   Verb_s_at 2;
   Lit ("s/:id" ++ dq ++ ", ");
   Verb_s_at 2;
   Lit ("Controller.Update");
   Verb_s_at 1;
   Lit (lines
      [")"]
     ++ tab ++ "e.DELETE(" ++ dq ++ "/");
   Verb_s_at 2;
   Lit ("s/:id" ++ dq ++ ", ");
   Verb_s_at 2;
   Lit ("Controller.Delete");
   Verb_s_at 1;
   Lit (lines
      [")";
       EmptyString;
       tab ++ "e.Logger.Fatal(e.Start(" ++ dq ++ ":1323" ++ dq ++ "))";
       "}";
       EmptyString;
       "func hello(c echo.Context) error {";
       tab ++ "return c.String(http.StatusOK, " ++ dq ++ "Hello, World!" ++ dq ++ ")";
       "}"])].

(** The format string of a struct field, and of the model file. *)
Definition field_format : format :=
  [Lit tab; Verb_s; Lit " "; Verb_s; Lit (" `json:" ++ dq); Verb_s; Lit (dq ++ "`")].

Definition model_format : format :=
  [Lit (lines ["package models"; EmptyString; "import " ++ dq ++ "gorm.io/gorm" ++ dq; EmptyString]
        ++ "type ");
   Verb_s;
   Lit (lines [" struct {"; tab ++ "gorm.Model"]);
   Verb_s;
   Lit (lines [EmptyString; "}"])].

(** [createAppHandler]. *)
Definition createAppHandler (request : CallToolRequest) : CallToolResult :=
  match RequireString request "app_name" with
  | inr err => NewToolResultError (Sprintf [Lit "Error getting 'app_name': "; Verb_s] [err])
  | inl appName =>
      let response :=
        Sprintf createApp_format [appName; appName; appName; appName; appName; appName] in
      NewToolResultText response
  end.

(** [main.go] looks for the same substring as package tools. *)
Definition not_in_std : string := "is not in std".

(** The hint of [fixAppHandler]. *)
Definition hint : string :=
  "This error typically means Go cannot find your internal packages. Double-check your import paths to ensure they use your module name (e.g., `mcpgo-app/internal/models`) and run `go mod tidy`." ++ nl.

(** The checklist [fixAppHandler] writes before it looks at the error
    message. *)
Definition checklist (appName : string) : FixApp.Builder :=
  let b := EmptyString in
  let b := FixApp.WriteString b ("Here are some pointers to address common issues in your Echo web application:" ++ nl ++ nl) in
  let b := if String.eqb appName EmptyString then b
           else FixApp.WriteString b (Sprintf [Lit "For application '"; Verb_s; Lit ("':" ++ nl)] [appName]) in
  let b := FixApp.WriteString b ("1.  **Go Module Paths**: Ensure your Go module is correctly initialized and that internal imports use the module name." ++ nl) in
  let b := FixApp.WriteString b (Sprintf [Lit "    If your module is named `"; Verb_s; Lit ("`, then imports for internal packages should look like:" ++ nl)] [appName]) in
  let b := FixApp.WriteString b ("    ```go" ++ nl) in
  let b := FixApp.WriteString b (Sprintf
             [Lit ("    import (" ++ nl ++ "        " ++ dq); Verb_s;
              Lit ("/internal/models" ++ dq ++ nl ++ "        " ++ dq); Verb_s;
              Lit ("/internal/repository" ++ dq ++ nl ++ "        " ++ dq); Verb_s;
              Lit ("/internal/service" ++ dq ++ nl ++ "        " ++ dq); Verb_s;
              Lit ("/internal/controllers" ++ dq ++ nl ++ "    )" ++ nl)]
             [appName; appName; appName; appName]) in
  let b := FixApp.WriteString b ("    ```" ++ nl) in
  let b := FixApp.WriteString b (Sprintf [Lit "    Make sure to replace `"; Verb_s; Lit ("` with your actual module name (e.g., `mcpgo-app`)." ++ nl ++ nl)] [appName]) in
  let b := FixApp.WriteString b ("2.  **Missing Dependencies**: If you see errors like " ++ dq ++ "no required module provides package..." ++ dq ++ ", run `go mod tidy` in your application's root directory (") in
  let b := FixApp.WriteString b (Sprintf [Lit "`cd "; Verb_s; Lit " && go mod tidy`"] [appName]) in
  let b := FixApp.WriteString b (") to fetch missing dependencies." ++ nl ++ nl) in
  let b := FixApp.WriteString b ("3.  **Database Initialization**: Ensure your `main.go` (in `cmd/web/`) correctly initializes the GORM database connection and auto-migrates all your models. For example:" ++ nl) in
  let b := FixApp.WriteString b ("    ```go" ++ nl) in
  let b := FixApp.WriteString b (Sprintf
             [Lit ("    import (" ++ nl ++ "        " ++ dq ++ "gorm.io/driver/sqlite" ++ dq ++ nl
                   ++ "        " ++ dq ++ "gorm.io/gorm" ++ dq ++ nl ++ "        " ++ dq); Verb_s;
              Lit ("/internal/models" ++ dq ++ nl ++ "    )" ++ nl ++ nl)]
             [appName]) in
  let b := FixApp.WriteString b (lines
             ["    func main() {";
              "        db, err := gorm.Open(sqlite.Open(" ++ dq ++ "gorm.db" ++ dq ++ "), &gorm.Config{})";
              "        if err != nil {";
              "            // handle error";
              "        }";
              "        db.AutoMigrate(&models.Product{}, &models.Customer{}, &models.ProductCustomer{}) // Add all your models";
              "    }"]) in
  let b := FixApp.WriteString b ("    ```" ++ nl ++ nl) in
  let b := FixApp.WriteString b ("4.  **Repository, Service, and Controller Initialization**: Verify that you are creating instances of your repositories, services, and controllers, and injecting dependencies correctly (repositories into services, services into controllers)." ++ nl ++ nl) in
  let b := FixApp.WriteString b ("5.  **Route Registration**: Ensure all your controller methods have corresponding routes registered in your `main.go` (in `cmd/web/`). For example:" ++ nl) in
  let b := FixApp.WriteString b ("    ```go" ++ nl) in
  let b := FixApp.WriteString b (lines
             ["    e.POST(" ++ dq ++ "/products" ++ dq ++ ", productController.CreateProduct)";
              "    e.GET(" ++ dq ++ "/products/:id" ++ dq ++ ", productController.GetProductByID)";
              "    // ... and so on for all CRUD operations and models"]) in
  FixApp.WriteString b ("    ```" ++ nl).

(** The part written when the error message is not empty. *)
Definition regarding (b : FixApp.Builder) (errorMessage : string) : FixApp.Builder :=
  if String.eqb errorMessage EmptyString then b
  else
    let b := FixApp.WriteString b (Sprintf [Lit (nl ++ nl ++ "Regarding your specific error: " ++ dq); Verb_s; Lit (dq ++ nl)] [errorMessage]) in
    if Contains errorMessage not_in_std then FixApp.WriteString b hint else b.

(** [fixAppHandler]. *)
Definition fixAppHandler (request : CallToolRequest) : CallToolResult :=
  let appName := GetString request "app_name" EmptyString in
  let errorMessage := GetString request "error_message" EmptyString in
  let responseBuilder := checklist appName in
  let responseBuilder := regarding responseBuilder errorMessage in
  NewToolResultText responseBuilder.


Section WithLibraries.
Context {tables : UnicodeTables} {json_errors : JsonErrors}.

(** The body of the loop of [createModelHandler] over [fields]. *)
Definition struct_field (field : gmap string string) : string :=
  let name := default EmptyString (field !! "name") in
  let fieldType := default EmptyString (field !! "type") in
  Sprintf field_format [Strings.Title name; fieldType; name].

Definition struct_fields (fields : list (gmap string string)) : list string :=
  fold_left (fun structFields field => structFields ++ [struct_field field])%list fields [].

Definition modelContent (modelName : string) (fields : list (gmap string string)) : string :=
  Sprintf model_format [Strings.Title modelName; Join (struct_fields fields) nl].

(** [createModelHandler]. *)
Definition createModelHandler (request : CallToolRequest) : CallToolResult :=
  let appName := GetString request "app_name" EmptyString in
  if String.eqb appName EmptyString then NewToolResultError "App name is required"
  else
    match RequireString request "model_name" with
    | inr err => NewToolResultError (Sprintf [Lit "Error getting 'model_name': "; Verb_s] [err])
    | inl modelName =>
        match RequireString request "fields" with
        | inr err => NewToolResultError (Sprintf [Lit "Error getting 'fields': "; Verb_s] [err])
        | inl fieldsJSON =>
            match Json.Unmarshal fieldsJSON with
            | None =>
                NewToolResultError
                  (Sprintf [Lit "Invalid 'fields' JSON format: "; Verb_s]
                           [Unmarshal_error fieldsJSON])
            | Some fields =>
                let titleModelName := Strings.Title modelName in
                let lowerModelName := Strings.ToLower modelName in
                let response :=
                  Sprintf createModel_format
                    [titleModelName; lowerModelName; modelContent modelName fields;
                     titleModelName; lowerModelName; appName] in
                NewToolResultText response
            end
        end
    end.

(** [createModelControllerHandler]. *)
Definition createModelControllerHandler (request : CallToolRequest) : CallToolResult :=
  let appName := GetString request "app_name" EmptyString in
  if String.eqb appName EmptyString then NewToolResultError "App name is required"
  else
    match RequireString request "model_name" with
    | inr err => NewToolResultError (Sprintf [Lit "Error getting 'model_name': "; Verb_s] [err])
    | inl modelName =>
        let titleModelName := Strings.Title modelName in
        let lowerModelName := Strings.ToLower modelName in
        let response := Sprintf createModelController_format [titleModelName; lowerModelName; titleModelName; lowerModelName; appName] in
        NewToolResultText response
    end.

(** [createServiceHandler]. *)
Definition createServiceHandler (request : CallToolRequest) : CallToolResult :=
  let appName := GetString request "app_name" EmptyString in
  if String.eqb appName EmptyString then NewToolResultError "App name is required"
  else
    match RequireString request "model_name" with
    | inr err => NewToolResultError (Sprintf [Lit "Error getting 'model_name': "; Verb_s] [err])
    | inl modelName =>
        let titleModelName := Strings.Title modelName in
        let lowerModelName := Strings.ToLower modelName in
        let response := Sprintf createService_format [titleModelName; lowerModelName; appName] in
        NewToolResultText response
    end.

End WithLibraries.

(** The tools of [main], in the order of their registration, with the tool
    of package tools that took the place of each. *)
Inductive tool :=
| create_app
| create_model
| create_model_controller
| create_service
| fix_app.

Definition tools : list tool :=
  [create_app; create_model; create_model_controller; create_service; fix_app].

Definition definition (t : tool) : Tool :=
  match t with
  | create_app => createAppTool
  | create_model => createModelTool
  | create_model_controller => createModelControllerTool
  | create_service => createServiceTool
  | fix_app => fixAppTool
  end.

Definition handler {tables : UnicodeTables} {json_errors : JsonErrors} (t : tool)
  : CallToolRequest -> CallToolResult :=
  match t with
  | create_app => createAppHandler
  | create_model => createModelHandler
  | create_model_controller => createModelControllerHandler
  | create_service => createServiceHandler
  | fix_app => fixAppHandler
  end.

Definition successor (t : tool) : Server.tool :=
  match t with
  | create_app => Server.produce_app_boilerplate
  | create_model => Server.produce_model_boilerplate
  | create_model_controller => Server.produce_api_controller_boilerplate
  | create_service => Server.produce_service_boilerplate
  | fix_app => Server.fix_app
  end.

End Main.

(** ** Notions used to state further properties *)

Module Notions.
Import Str Mcp Spec.

(** A plain character: printable ASCII other than the double quote and the
    backslash. JSON writes it as it is. *)
Definition plain_char (c : ascii) : bool :=
  ((0x20 <=? Utf8.byte_val c) && (Utf8.byte_val c <? 0x7F))%Z
  && negb (Ascii.eqb c dquote) && negb (Ascii.eqb c "\"%char).

Fixpoint plain (s : string) : bool :=
  match s with
  | EmptyString => true
  | String c s' => plain_char c && plain s'
  end.

(** A descriptor is a name and a type; a plain one has both plain. *)
Definition plain_descriptor (d : string * string) : bool := plain (fst d) && plain (snd d).

(** The JSON text of a list of descriptors, as a client writes it. *)
Definition encode_descriptor (d : string * string) : string :=
  json_object [("name", fst d); ("type", snd d)].

Definition encode_descriptors (ds : list (string * string)) : string :=
  json_array (List.map encode_descriptor ds).

(** The map a descriptor decodes to: the two keys, set in the order of the
    text. *)
Definition descriptor_map (d : string * string) : gmap string string :=
  <["type" := snd d]> (<["name" := fst d]> ∅).

(** White space of JSON only. *)
Fixpoint blank (s : string) : bool :=
  match s with
  | EmptyString => true
  | String c s' => Json.is_space c && blank s'
  end.

(** The first character of a text after its white space. *)
Definition first_char (s : string) : option ascii :=
  match Json.skip_space (list_ascii_of_string s) with
  | c :: _ => Some c
  | [] => None
  end.

(** Capitalization and lower case byte by byte, as they are on ASCII. *)
Definition upper_byte (c : ascii) : ascii :=
  if ((0x61 <=? Utf8.byte_val c) && (Utf8.byte_val c <=? 0x7A))%Z
  then Utf8.to_byte (Utf8.byte_val c - 0x20) else c.

Definition lower_byte (c : ascii) : ascii :=
  if ((0x41 <=? Utf8.byte_val c) && (Utf8.byte_val c <=? 0x5A))%Z
  then Utf8.to_byte (Utf8.byte_val c + 0x20) else c.

(** A letter, a digit or the underscore: what does not start a word. *)
Definition word_byte (c : ascii) : bool :=
  let x := Utf8.byte_val c in
  (((0x30 <=? x) && (x <=? 0x39)) || ((0x61 <=? x) && (x <=? 0x7A))
   || ((0x41 <=? x) && (x <=? 0x5A)) || (x =? 0x5F))%Z.

(** [after_word] tells whether the byte before was a word byte. *)
Fixpoint title_bytes (after_word : bool) (s : string) : string :=
  match s with
  | EmptyString => EmptyString
  | String c s' =>
      String (if after_word then c else upper_byte c) (title_bytes (word_byte c) s')
  end.

Fixpoint lower_bytes (s : string) : string :=
  match s with
  | EmptyString => EmptyString
  | String c s' => String (lower_byte c) (lower_bytes s')
  end.

(** A position of a format where operand [i] is printed between the
    end [before] of a literal and the beginning [after] of the next. *)
Definition prints_between (f : Fmt.format) (k i : nat) (before after : string) : bool :=
  match List.skipn k f with
  | Fmt.Lit x :: Fmt.Verb_s_at n :: Fmt.Lit y :: _ =>
      (n =? S i)%nat && HasSuffix x before && HasPrefix y after
  | _ => false
  end.

(** The characters of a member whose key and value are strings. *)
Definition member_chars (k v : string) (rest : list ascii) : list ascii :=
  (dquote :: list_ascii_of_string k ++ dquote :: ":"%char :: dquote
   :: list_ascii_of_string v ++ dquote :: rest)%list.

(** The scanned form of a descriptor. *)
Definition descriptor_value (d : string * string) : Json.value :=
  Json.Obj [("name", Json.Str (fst d)); ("type", Json.Str (snd d))].

(** Whether a text opens, after its white space, as an array or as
    [null] does. *)
Definition opens_list (s : string) : bool :=
  match first_char s with
  | Some c => Ascii.eqb c "["%char || Ascii.eqb c "n"%char
  | None => false
  end.

(** A word: letters, digits and underscores only. *)
Fixpoint word (s : string) : bool :=
  match s with
  | EmptyString => true
  | String c s' => word_byte c && word s'
  end.

(** A position of a format where, after the indexed operand [i], two
    directives with the verb [verb], which strings do not have, take the
    next two operands; [x] and [y] are the literals before each. *)
Definition misprints_after (f : Fmt.format) (k i : nat) (x verb y : string) : bool :=
  match List.skipn k f with
  | Fmt.Verb_s_at n :: Fmt.Lit x' :: Fmt.Verb_bad v :: Fmt.Lit y' :: Fmt.Verb_bad v' :: _ =>
      (n =? S i)%nat && String.eqb x' x && String.eqb v verb && String.eqb y' y
      && String.eqb v' verb
  | _ => false
  end.

(** The text a format stands for when it is made of literals and indexed
    operands: the literals, with the operands at their places. *)
Fixpoint substitute (f : Fmt.format) (a : list string) : string :=
  match f with
  | [] => EmptyString
  | Fmt.Lit x :: f' => x ++ substitute f' a
  | Fmt.Verb_s_at (S i) :: f' => default EmptyString (a !! i) ++ substitute f' a
  | _ :: f' => substitute f' a
  end.

(** A format made of literals and of indexed operands among the first [n],
    with one such operand at least. *)
Definition indexed_within (n : nat) (f : Fmt.format) : bool :=
  forallb (fun d => match d with
                    | Fmt.Lit _ => true
                    | Fmt.Verb_s_at (S i) => (i <? n)%nat
                    | _ => false
                    end) f
  && existsb (fun d => match d with Fmt.Verb_s_at _ => true | _ => false end) f.

End Notions.

(** * Properties *)

(** ** Requests *)

Module McpFacts.
Import Str Mcp.

Lemma GetString_absent request key :
  Arguments request !! key = None -> GetString request key EmptyString = EmptyString.
Proof. unfold GetString. intros ->. reflexivity. Qed.

Lemma GetString_present request key str :
  Arguments request !! key = Some (AnyString str) ->
  GetString request key EmptyString = str.
Proof. unfold GetString. intros ->. reflexivity. Qed.

Lemma RequireString_present request key str :
  Arguments request !! key = Some (AnyString str) -> RequireString request key = inl str.
Proof. unfold RequireString. intros ->. reflexivity. Qed.

Lemma RequireString_absent request key :
  Arguments request !! key = None ->
  RequireString request key = inr ("required argument " ++ dq ++ key ++ dq ++ " not found").
Proof. unfold RequireString. intros ->. reflexivity. Qed.

(** Both accessors read one argument only. *)
Lemma GetString_ext r1 r2 key d :
  Arguments r1 !! key = Arguments r2 !! key -> GetString r1 key d = GetString r2 key d.
Proof. unfold GetString. intros ->. reflexivity. Qed.

Lemma RequireString_ext r1 r2 key :
  Arguments r1 !! key = Arguments r2 !! key -> RequireString r1 key = RequireString r2 key.
Proof. unfold RequireString. intros ->. reflexivity. Qed.

Lemma eqb_empty_false s : s <> EmptyString -> String.eqb s EmptyString = false.
Proof. intros H. apply String.eqb_neq. exact H. Qed.

Lemma append_empty_r (s : string) : s ++ EmptyString = s.
Proof. induction s as [|c s IH]; [reflexivity | exact (f_equal (String c) IH)]. Qed.

(** The format of the error results: a text and one operand. *)
Lemma Sprintf_text_operand text x : Fmt.Sprintf [Fmt.Lit text; Fmt.Verb_s] [x] = text ++ x.
Proof.
  change (Fmt.Sprintf [Fmt.Lit text; Fmt.Verb_s] [x]) with (text ++ (x ++ EmptyString)).
  rewrite append_empty_r. reflexivity.
Qed.

End McpFacts.

(** ** fix_app *)

Module FixAppFacts.
Import Str Fmt Mcp FixApp McpFacts.

(** C10. [FixAppHandler] never returns an error result: whatever the
    request, also one without [app_name] and [error_message], the result
    is a text result, and its text is the checklist written for the
    application name read with default empty, followed by the part about
    the error message; on the request without arguments it is the
    checklist with the empty name interpolated. *)
Theorem FixAppHandler_never_errors (request : CallToolRequest) :
  IsError (FixAppHandler request) = false
  /\ FixAppHandler request =
       NewToolResultText
         (regarding (checklist (GetString request "app_name" EmptyString))
                    (GetString request "error_message" EmptyString))
  /\ FixAppHandler {| Arguments := ∅ |} = NewToolResultText (checklist EmptyString)
  /\ Contains (checklist EmptyString) "If your module is named ``, then imports" = true.
Proof.
  split; [reflexivity|]. split; [reflexivity|]. split.
  - reflexivity.
  - vm_compute. reflexivity.
Qed.

End FixAppFacts.


(** ** The handlers that take a model name *)

Module HandlerFacts.
Import Str Fmt Mcp McpFacts Server Spec.

Section WithLibraries.
Context {tables : UnicodeTables} {json_errors : JsonErrors}.

(** The four handlers start alike: the application name is looked at first,
    the model name next. *)
Lemma handler_without_app_name t request :
  takes_model_name t = true ->
  GetString request "app_name" EmptyString = EmptyString ->
  handler t request = NewToolResultError "App name is required".
Proof.
  intros Ht Ha.
  destruct t; try discriminate Ht; unfold handler;
    [ unfold ProduceModelBoilerplate.ProduceModelBoilerplateHandler
    | unfold ProduceServiceBoilerplate.ProduceServiceBoilerplateHandler
    | unfold ProduceApiControllerBoilerplate.ProduceApiControllerBoilerplateHandler
    | unfold ProduceHtmlControllerBoilerplate.ProduceHtmlControllerBoilerplateHandler ];
    rewrite Ha; reflexivity.
Qed.

Lemma handler_without_model_name t request appName :
  takes_model_name t = true ->
  GetString request "app_name" EmptyString = appName ->
  appName <> EmptyString ->
  Arguments request !! "model_name" = None ->
  handler t request = NewToolResultError model_name_missing.
Proof.
  intros Ht Ha Hne Hm.
  destruct t; try discriminate Ht; unfold handler;
    [ unfold ProduceModelBoilerplate.ProduceModelBoilerplateHandler
    | unfold ProduceServiceBoilerplate.ProduceServiceBoilerplateHandler
    | unfold ProduceApiControllerBoilerplate.ProduceApiControllerBoilerplateHandler
    | unfold ProduceHtmlControllerBoilerplate.ProduceHtmlControllerBoilerplateHandler ];
    rewrite Ha, (eqb_empty_false _ Hne), (RequireString_absent _ _ Hm); reflexivity.
Qed.

(** C9. The schemas of the four tools that take a model name declare
    [app_name] without marking it required, and yet each of their handlers
    answers the error result [App name is required] to every request in
    which [app_name] is absent or is the empty string. *)
Theorem app_name_effectively_required (t : tool) (request : CallToolRequest) :
  In t [produce_model_boilerplate; produce_service_boilerplate;
        produce_api_controller_boilerplate; produce_html_controller_boilerplate] ->
  Arguments request !! "app_name" = None
  \/ Arguments request !! "app_name" = Some (AnyString EmptyString) ->
  In "app_name" (parameters t)
  /\ requires (definition t) "app_name" = false
  /\ handler t request = NewToolResultError "App name is required"
  /\ IsError (handler t request) = true.
Proof.
  intros Ht Ha.
  assert (Hm : takes_model_name t = true).
  { simpl in Ht. destruct Ht as [<-|[<-|[<-|[<-|[]]]]]; reflexivity. }
  assert (Hg : GetString request "app_name" EmptyString = EmptyString).
  { destruct Ha as [Ha|Ha].
    - apply GetString_absent, Ha.
    - apply GetString_present, Ha. }
  rewrite (handler_without_app_name t request Hm Hg).
  destruct t; try discriminate Hm; (split; [simpl; tauto|]); (split; [reflexivity|]);
    split; reflexivity.
Qed.

(** C5, as the handlers have it. When [model_name] is omitted from a
    request to one of the four tools that take it, the result is an error
    result. Its text names [model_name] when the application name is
    supplied and not empty; otherwise the application name is reported
    first and the text is [App name is required]. *)
Theorem model_name_omitted (t : tool) (request : CallToolRequest) :
  In t [produce_model_boilerplate; produce_service_boilerplate;
        produce_api_controller_boilerplate; produce_html_controller_boilerplate] ->
  Arguments request !! "model_name" = None ->
  IsError (handler t request) = true
  /\ (GetString request "app_name" EmptyString <> EmptyString ->
      Text (handler t request) = model_name_missing
      /\ Contains (Text (handler t request)) "model_name" = true)
  /\ (GetString request "app_name" EmptyString = EmptyString ->
      Text (handler t request) = "App name is required").
Proof.
  intros Ht Hm.
  assert (Htm : takes_model_name t = true).
  { simpl in Ht. destruct Ht as [<-|[<-|[<-|[<-|[]]]]]; reflexivity. }
  destruct (String.eqb_spec (GetString request "app_name" EmptyString) EmptyString) as [He|Hne].
  - rewrite (handler_without_app_name t request Htm He).
    split; [reflexivity|]. split; [intros H; contradiction|]. reflexivity.
  - rewrite (handler_without_model_name t request _ Htm eq_refl Hne Hm).
    split; [reflexivity|]. split; [intros _; split; vm_compute; reflexivity|].
    intros H; contradiction.
Qed.

End WithLibraries.

End HandlerFacts.

(** ** produce_model_boilerplate: the struct fields *)

Module ModelFacts.
Import Str Fmt Mcp McpFacts Spec ProduceModelBoilerplate.

Section WithLibraries.
Context {tables : UnicodeTables} {json_errors : JsonErrors}.

(** The title of the empty string is empty, whatever the tables. *)
Lemma Title_empty : Strings.Title EmptyString = EmptyString.
Proof. reflexivity. Qed.

Lemma Sprintf_field_format a b c :
  Sprintf field_format [a; b; c] = tab ++ a ++ " " ++ b ++ " `json:" ++ dq ++ c ++ dq ++ "`".
Proof. reflexivity. Qed.

(** The line of a field is the line of its name and type, each read with
    default empty. *)
Lemma struct_field_line field :
  struct_field field = field_line (index field "name") (index field "type").
Proof. unfold struct_field, field_line. apply Sprintf_field_format. Qed.

(** The loop appends one line per field: it maps [struct_field]. *)
Lemma fold_append_map {A B} (f : A -> B) (l : list A) (acc : list B) :
  fold_left (fun acc x => acc ++ [f x])%list l acc = (acc ++ List.map f l)%list.
Proof.
  revert acc. induction l as [|x l IH]; intros acc; simpl.
  - symmetry. apply app_nil_r.
  - rewrite IH, <- app_assoc. reflexivity.
Qed.

Lemma struct_fields_map fields : struct_fields fields = List.map struct_field fields.
Proof. unfold struct_fields. rewrite fold_append_map. reflexivity. Qed.

Lemma struct_fields_length fields : length (struct_fields fields) = length fields.
Proof. rewrite struct_fields_map. apply length_map. Qed.

Lemma struct_fields_lookup fields (i : nat) field :
  fields !! i = Some field -> struct_fields fields !! i = Some (struct_field field).
Proof.
  intros H. rewrite struct_fields_map, list_lookup_fmap_Some. exists field. auto.
Qed.

(** The handler on a request that carries the three parameters. *)
Lemma handler_with_parameters request appName modelName fieldsJSON :
  Arguments request !! "app_name" = Some (AnyString appName) ->
  appName <> EmptyString ->
  Arguments request !! "model_name" = Some (AnyString modelName) ->
  Arguments request !! "fields" = Some (AnyString fieldsJSON) ->
  ProduceModelBoilerplateHandler request =
    match Json.Unmarshal fieldsJSON with
    | None =>
        NewToolResultError ("Invalid 'fields' JSON format: " ++ Unmarshal_error fieldsJSON)
    | Some fields =>
        NewToolResultText
          (Sprintf response_format
             [Strings.Title modelName; Strings.ToLower modelName; modelContent modelName fields;
              Strings.Title modelName; Strings.ToLower modelName; appName])
    end.
Proof.
  intros Ha Hne Hm Hf. unfold ProduceModelBoilerplateHandler.
  rewrite (GetString_present _ _ _ Ha), (eqb_empty_false _ Hne).
  rewrite (RequireString_present _ _ _ Hm), (RequireString_present _ _ _ Hf).
  destruct (Json.Unmarshal fieldsJSON); [reflexivity|].
  rewrite Sprintf_text_operand. reflexivity.
Qed.

(** C2. The line emitted for a descriptor with name [name] and type
    [fieldType] is a tab, the capitalized name ([strings.Title]), a space,
    the type as supplied, and the json tag holding the name as supplied;
    it is the line at the position of the descriptor. *)
Theorem struct_field_combines (fields : list (gmap string string)) (i : nat)
    (field : gmap string string) (name fieldType : string) :
  fields !! i = Some field ->
  field !! "name" = Some name ->
  field !! "type" = Some fieldType ->
  struct_fields fields !! i =
    Some (tab ++ Strings.Title name ++ " " ++ fieldType ++ " `json:" ++ dq ++ name ++ dq ++ "`").
Proof.
  intros Hi Hn Ht. rewrite (struct_fields_lookup _ _ _ Hi), struct_field_line.
  unfold index. rewrite Hn, Ht. reflexivity.
Qed.

(** C4, as the handler has it. On a request that carries the model name and
    the fields string, the handler looks at the application name first,
    which the schema does not mark required: when it is a string that is
    not empty, the handler returns an error result exactly when
    [json.Unmarshal] fails on the fields string, the error result carries
    the message of the decoder as text, and when the list decodes the
    result is the text result built from it, whatever the fields hold;
    when it is absent, empty or not a string, the result is the error
    result [App name is required], whether the fields string decodes or
    not. *)
Theorem malformed_fields_iff (request : CallToolRequest) (modelName fieldsJSON : string) :
  Arguments request !! "model_name" = Some (AnyString modelName) ->
  Arguments request !! "fields" = Some (AnyString fieldsJSON) ->
  (forall appName,
     Arguments request !! "app_name" = Some (AnyString appName) ->
     appName <> EmptyString ->
     (IsError (ProduceModelBoilerplateHandler request) = true
      <-> Json.Unmarshal fieldsJSON = None)
     /\ (Json.Unmarshal fieldsJSON = None ->
         ProduceModelBoilerplateHandler request =
           NewToolResultError ("Invalid 'fields' JSON format: " ++ Unmarshal_error fieldsJSON))
     /\ (forall fields, Json.Unmarshal fieldsJSON = Some fields ->
         ProduceModelBoilerplateHandler request =
           NewToolResultText
             (Sprintf response_format
                [Strings.Title modelName; Strings.ToLower modelName;
                 modelContent modelName fields;
                 Strings.Title modelName; Strings.ToLower modelName; appName])))
  /\ (GetString request "app_name" EmptyString = EmptyString ->
      ProduceModelBoilerplateHandler request = NewToolResultError "App name is required"
      /\ IsError (ProduceModelBoilerplateHandler request) = true).
Proof.
  intros Hm Hf. split.
  - intros appName Ha Hne.
    rewrite (handler_with_parameters _ _ _ _ Ha Hne Hm Hf).
    destruct (Json.Unmarshal fieldsJSON) as [fields|]; simpl.
    + split; [split; discriminate|]. split; [discriminate|].
      intros ? [= <-]. reflexivity.
    + split; [split; reflexivity|]. split; [reflexivity|]. discriminate.
  - intros Ha.
    assert (E : ProduceModelBoilerplateHandler request
                = NewToolResultError "App name is required")
      by exact (HandlerFacts.handler_without_app_name Server.produce_model_boilerplate request
                  eq_refl Ha).
    rewrite E. split; reflexivity.
Qed.

End WithLibraries.

End ModelFacts.

(** ** produce_model_boilerplate: the declaration as a text *)

Module DeclarationFacts.
Import Str Fmt Mcp McpFacts Spec ProduceModelBoilerplate ModelFacts.

Lemma append_assoc_r (a b c : string) : (a ++ b) ++ c = a ++ (b ++ c).
Proof. induction a as [|x a IH]; [reflexivity | exact (f_equal (String x) IH)]. Qed.

Lemma HasPrefix_append (m rest : string) : HasPrefix (m ++ rest) m = true.
Proof.
  induction m as [|c m IH]; [destruct rest; reflexivity|].
  change (HasPrefix (String c (m ++ rest)) (String c m) = true).
  cbn [HasPrefix]. rewrite Ascii.eqb_refl. exact IH.
Qed.

Lemma Contains_cons c s m : Contains s m = true -> Contains (String c s) m = true.
Proof. intros H. cbn [Contains]. rewrite H. apply orb_true_r. Qed.

(** A text contains what it is built around. *)
Lemma Contains_middle (pre m post : string) : Contains (pre ++ m ++ post) m = true.
Proof.
  induction pre as [|c pre IH].
  - change (Contains (m ++ post) m = true).
    destruct (m ++ post) eqn:E; cbn [Contains]; rewrite <- E, HasPrefix_append; reflexivity.
  - change (Contains (String c (pre ++ m ++ post)) m = true). apply Contains_cons, IH.
Qed.

(** A text has a first line. *)
Lemma text_lines_cons (s : string) : exists l ls, text_lines s = l :: ls.
Proof.
  induction s as [|c s (l & ls & E)]; cbn [text_lines]; [eauto|].
  destruct (Ascii.eqb c newline); [eauto|]. rewrite E. eauto.
Qed.

(** The lines of a text that starts with a piece free of newlines. *)
Lemma text_lines_append (s rest : string) :
  mem newline s = false ->
  text_lines (s ++ rest) =
    match text_lines rest with
    | l :: ls => (s ++ l) :: ls
    | [] => [s]
    end.
Proof.
  induction s as [|c s IH]; intros H.
  - change (EmptyString ++ rest) with rest.
    destruct (text_lines_cons rest) as (l & ls & E). rewrite E. reflexivity.
  - cbn [mem] in H. apply orb_false_elim in H as [Hc Hs].
    change (String c s ++ rest) with (String c (s ++ rest)).
    cbn [text_lines]. rewrite Ascii.eqb_sym in Hc. rewrite Hc, (IH Hs).
    destruct (text_lines_cons rest) as (l & ls & E). rewrite E. reflexivity.
Qed.

Lemma text_lines_single (s : string) : mem newline s = false -> text_lines s = [s].
Proof.
  intros H. rewrite <- (append_empty_r s) at 1. rewrite (text_lines_append _ _ H).
  cbn [text_lines]. rewrite append_empty_r. reflexivity.
Qed.

(** Joined with newlines, pieces free of newlines are the lines of the
    text. *)
Lemma text_lines_Join (ls : list string) :
  ls <> [] ->
  (forall l, In l ls -> mem newline l = false) ->
  text_lines (Join ls nl) = ls.
Proof.
  induction ls as [|l ls IH]; intros Hne H; [contradiction|].
  destruct ls as [|l2 ls].
  - apply text_lines_single, H. left. reflexivity.
  - change (Join (l :: l2 :: ls) nl) with (l ++ String newline (Join (l2 :: ls) nl)).
    rewrite text_lines_append by (apply H; left; reflexivity).
    cbn [text_lines]. rewrite Ascii.eqb_refl, append_empty_r.
    f_equal. apply IH; [discriminate|]. intros l' Hl'. apply H. right. exact Hl'.
Qed.

Section WithLibraries.
Context {tables : UnicodeTables} {json_errors : JsonErrors}.

(** The declaration: the header, the struct opened under the capitalized
    model name, the field lines joined by newlines, the closing brace. *)
Lemma modelContent_text modelName fields :
  modelContent modelName fields =
    lines ["package models"; EmptyString; "import " ++ dq ++ "gorm.io/gorm" ++ dq; EmptyString]
    ++ "type " ++ Strings.Title modelName ++ " struct {" ++ nl ++ tab ++ "gorm.Model" ++ nl
    ++ Join (struct_fields fields) nl ++ nl ++ "}" ++ nl.
Proof. reflexivity. Qed.

(** A format whose third index directive is [%[3]s] prints the third
    operand. *)
Lemma Sprintf_contains_third x y z rest t l mc others :
  Contains
    (Sprintf (Lit x :: Verb_s_at 1 :: Lit y :: Verb_s_at 2 :: Lit z :: Verb_s_at 3 :: rest)
             (t :: l :: mc :: others)) mc = true.
Proof.
  change (Contains (x ++ (t ++ (y ++ (l ++ (z ++ (mc ++ doPrintf rest (t :: l :: mc :: others) 3 true))))))
                   mc = true).
  rewrite <- (append_assoc_r x), <- (append_assoc_r (x ++ t)),
          <- (append_assoc_r ((x ++ t) ++ y)), <- (append_assoc_r (((x ++ t) ++ y) ++ l)).
  apply Contains_middle.
Qed.

(** The response is written around the declaration. *)
Lemma response_contains_declaration t l mc a :
  Contains (Sprintf response_format [t; l; mc; t; l; a]) mc = true.
Proof. unfold response_format. apply Sprintf_contains_third. Qed.

(** C1, as the handler has it. When the fields string decodes to a list of
    N descriptors, the handler builds N field lines, the line of each
    descriptor at its position, and the declaration in the response is the
    header followed by these lines joined by newlines and the closing
    brace. The text between the [gorm.Model] line and the closing brace
    has exactly these N lines when N is not zero and no field line holds a
    newline character. *)
Theorem declaration_field_lines (request : CallToolRequest)
    (appName modelName fieldsJSON : string) (fields : list (gmap string string)) :
  Arguments request !! "app_name" = Some (AnyString appName) ->
  appName <> EmptyString ->
  Arguments request !! "model_name" = Some (AnyString modelName) ->
  Arguments request !! "fields" = Some (AnyString fieldsJSON) ->
  Json.Unmarshal fieldsJSON = Some fields ->
  length (struct_fields fields) = length fields
  /\ (forall (i : nat) field, fields !! i = Some field ->
        struct_fields fields !! i = Some (struct_field field))
  /\ modelContent modelName fields =
       lines ["package models"; EmptyString; "import " ++ dq ++ "gorm.io/gorm" ++ dq; EmptyString]
       ++ "type " ++ Strings.Title modelName ++ " struct {" ++ nl ++ tab ++ "gorm.Model" ++ nl
       ++ Join (struct_fields fields) nl ++ nl ++ "}" ++ nl
  /\ IsError (ProduceModelBoilerplateHandler request) = false
  /\ Contains (Text (ProduceModelBoilerplateHandler request)) (modelContent modelName fields) = true
  /\ (fields <> [] ->
      (forall line, In line (struct_fields fields) -> mem newline line = false) ->
      text_lines (Join (struct_fields fields) nl) = struct_fields fields).
Proof.
  intros Ha Hne Hm Hf Hu.
  rewrite (handler_with_parameters _ _ _ _ Ha Hne Hm Hf), Hu.
  split; [apply struct_fields_length|].
  split; [apply struct_fields_lookup|].
  split; [apply modelContent_text|].
  split; [reflexivity|].
  split; [apply response_contains_declaration|].
  intros Hfields Hnl. apply text_lines_Join; [|exact Hnl].
  rewrite struct_fields_map. destruct fields; [contradiction | discriminate].
Qed.

End WithLibraries.

End DeclarationFacts.

(** ** The properties on the sample requests *)

Module Samples.
Import Str Fmt Mcp Spec Server.

Lemma sample_fields_decode : Json.Unmarshal sample_fields = Some sample_decoded.
Proof. vm_compute. reflexivity. Qed.

Lemma not_json_rejected : Json.Unmarshal "not json" = None.
Proof. vm_compute. reflexivity. Qed.

(** The empty name and the empty type are decoded like any other. *)
Lemma empty_contents_decode :
  Json.Unmarshal (json_array [json_object [("name", EmptyString); ("type", EmptyString)]])
  = Some [ {[ "name" := EmptyString; "type" := EmptyString ]} ].
Proof. vm_compute. reflexivity. Qed.

End Samples.

Module Witnesses.
Import Str Fmt Mcp Spec Server ProduceModelBoilerplate.

(** C9 on a request to the model tool that has no [app_name]. *)
Lemma app_name_effectively_required_witness :
  requires (definition produce_model_boilerplate) "app_name" = false
  /\ handler (tables := latin1_tables) (json_errors := sample_errors)
       produce_model_boilerplate
       (request [("model_name", AnyString "book"); ("fields", AnyString sample_fields)])
     = NewToolResultError "App name is required".
Proof.
  pose proof (HandlerFacts.app_name_effectively_required
                (tables := latin1_tables) (json_errors := sample_errors)
                produce_model_boilerplate
                (request [("model_name", AnyString "book"); ("fields", AnyString sample_fields)])
                (or_introl eq_refl) (or_introl eq_refl)) as (_ & H1 & H2 & _).
  split; [exact H1 | exact H2].
Defined.

(** C5 on a request to the service tool that has the application name
    only. *)
Lemma model_name_omitted_witness :
  handler (tables := latin1_tables) (json_errors := sample_errors)
    produce_service_boilerplate (request [("app_name", AnyString "shop")])
  = NewToolResultError model_name_missing.
Proof.
  pose proof (HandlerFacts.model_name_omitted
                (tables := latin1_tables) (json_errors := sample_errors)
                produce_service_boilerplate (request [("app_name", AnyString "shop")])
                (or_intror (or_introl eq_refl)) eq_refl) as (He & Ht & _).
  destruct (Ht ltac:(discriminate)) as (Htext & _).
  destruct (handler produce_service_boilerplate (request [("app_name", AnyString "shop")]))
    as [text err].
  simpl in He, Htext. rewrite He, Htext. reflexivity.
Defined.

(** The request without arguments: [model_name] is omitted, and the text of
    the error result does not mention it. *)
Lemma model_name_omitted_counterexample :
  Arguments (request []) !! "model_name" = None
  /\ handler (tables := latin1_tables) (json_errors := sample_errors)
       produce_model_boilerplate (request [])
     = NewToolResultError "App name is required"
  /\ Contains "App name is required" "model_name" = false.
Proof. repeat split. Qed.

(** C2 on the first descriptor of the sample. *)
Lemma struct_field_combines_witness :
  struct_fields (tables := latin1_tables) sample_decoded !! 0%nat =
    Some (tab ++ Strings.Title (tables := latin1_tables) "title" ++ " " ++ "string"
              ++ " `json:" ++ dq ++ "title" ++ dq ++ "`").
Proof.
  exact (ModelFacts.struct_field_combines (tables := latin1_tables)
           sample_decoded 0 {[ "name" := "title"; "type" := "string" ]} "title" "string"
           eq_refl eq_refl eq_refl).
Defined.

(** C4 on the request whose fields are the text [not json]. *)
Lemma malformed_fields_iff_witness :
  ProduceModelBoilerplateHandler (tables := latin1_tables) (json_errors := sample_errors)
    malformed_request
  = NewToolResultError
      "Invalid 'fields' JSON format: invalid character 'o' in literal null (expecting 'u')".
Proof.
  refine (proj1 (proj2 (proj1 (ModelFacts.malformed_fields_iff
                                 (tables := latin1_tables) (json_errors := sample_errors)
                                 malformed_request "book" "not json" eq_refl eq_refl)
                              "shop" eq_refl _))
                Samples.not_json_rejected).
  discriminate.
Defined.

(** The request with the model name and the sample fields and without
    [app_name]: the two parameters that the schema marks required are
    present, the fields string decodes, and the result is an error
    result. *)
Lemma malformed_fields_iff_counterexample :
  requires GetProduceModelBoilerplateTool "app_name" = false
  /\ requires GetProduceModelBoilerplateTool "model_name" = true
  /\ requires GetProduceModelBoilerplateTool "fields" = true
  /\ Arguments (request [("model_name", AnyString "book"); ("fields", AnyString sample_fields)])
       !! "model_name" = Some (AnyString "book")
  /\ Arguments (request [("model_name", AnyString "book"); ("fields", AnyString sample_fields)])
       !! "fields" = Some (AnyString sample_fields)
  /\ Json.Unmarshal sample_fields = Some sample_decoded
  /\ ProduceModelBoilerplateHandler (tables := latin1_tables) (json_errors := sample_errors)
       (request [("model_name", AnyString "book"); ("fields", AnyString sample_fields)])
     = NewToolResultError "App name is required"
  /\ IsError (ProduceModelBoilerplateHandler
                (tables := latin1_tables) (json_errors := sample_errors)
                (request [("model_name", AnyString "book");
                          ("fields", AnyString sample_fields)])) = true.
Proof.
  split; [reflexivity|]. split; [reflexivity|]. split; [reflexivity|].
  split; [reflexivity|]. split; [reflexivity|].
  split; [exact Samples.sample_fields_decode|].
  split; reflexivity.
Qed.

(** C1 on the sample request. *)
Lemma declaration_field_lines_witness :
  Contains (Text (ProduceModelBoilerplateHandler (tables := latin1_tables)
                    (json_errors := sample_errors) sample_request))
           (modelContent (tables := latin1_tables) "book" sample_decoded) = true
  /\ text_lines (Join (struct_fields (tables := latin1_tables) sample_decoded) nl)
     = struct_fields (tables := latin1_tables) sample_decoded.
Proof.
  pose proof (DeclarationFacts.declaration_field_lines
                (tables := latin1_tables) (json_errors := sample_errors)
                sample_request "shop" "book" sample_fields sample_decoded
                eq_refl ltac:(discriminate) eq_refl eq_refl Samples.sample_fields_decode)
    as (_ & _ & _ & _ & Hc & Hl).
  split; [exact Hc|]. apply Hl; [unfold sample_decoded; discriminate|].
  intros line Hin. vm_compute in Hin. destruct Hin as [<-|[<-|[]]]; reflexivity.
Defined.

(** One descriptor whose type holds a newline: the list decodes to one
    descriptor, and the declaration in the response has two lines between
    the [gorm.Model] line and the closing brace. *)
Lemma declaration_field_lines_counterexample :
  exists fields,
    Json.Unmarshal newline_fields = Some fields
    /\ length fields = 1%nat
    /\ ProduceModelBoilerplateHandler (tables := latin1_tables) (json_errors := sample_errors)
         newline_request
       = NewToolResultText
           (Sprintf response_format
              ["Book"; "book"; modelContent (tables := latin1_tables) "book" fields;
               "Book"; "book"; "shop"])
    /\ text_lines (modelContent (tables := latin1_tables) "book" fields)
       = ["package models"; EmptyString; "import " ++ dq ++ "gorm.io/gorm" ++ dq; EmptyString;
          "type Book struct {"; tab ++ "gorm.Model";
          tab ++ "A int"; tab ++ "B int `json:" ++ dq ++ "a" ++ dq ++ "`";
          "}"; EmptyString].
Proof.
  exists [ {[ "name" := "a"; "type" := "int" ++ nl ++ tab ++ "B int" ]} ].
  assert (Hu : Json.Unmarshal newline_fields
               = Some [ {[ "name" := "a"; "type" := "int" ++ nl ++ tab ++ "B int" ]} ])
    by (vm_compute; reflexivity).
  split; [exact Hu|]. split; [reflexivity|]. split.
  - assert (Hne : "shop" <> EmptyString) by discriminate.
    rewrite (ModelFacts.handler_with_parameters
               (tables := latin1_tables) (json_errors := sample_errors)
               newline_request "shop" "book" newline_fields eq_refl Hne eq_refl eq_refl), Hu.
    reflexivity.
  - vm_compute. reflexivity.
Qed.

End Witnesses.

(** ** Every handler is a function of the declared parameters *)

Module PurityFacts.
Import Str Fmt Mcp McpFacts Spec Server.

Section WithLibraries.
Context {tables : UnicodeTables} {json_errors : JsonErrors}.

(** C7. A handler is a function from the request to the result, with no
    state read or written, and its result depends on the request through
    the declared parameters of the tool only: two requests with the same
    values for them get the same result, text and error flag alike. *)
Theorem handler_depends_on_parameters (t : tool) (r1 r2 : CallToolRequest) :
  (forall key, In key (parameters t) -> Arguments r1 !! key = Arguments r2 !! key) ->
  handler t r1 = handler t r2.
Proof.
  intros H.
  assert (Hget : forall key d, In key (parameters t) -> GetString r1 key d = GetString r2 key d).
  { intros key d Hk. apply GetString_ext, H, Hk. }
  assert (Hreq : forall key, In key (parameters t) -> RequireString r1 key = RequireString r2 key).
  { intros key Hk. apply RequireString_ext, H, Hk. }
  destruct t; unfold handler.
  - unfold ProduceAppBoilerplate.ProduceAppBoilerplateHandler.
    rewrite (Hreq "app_name") by (simpl; tauto). reflexivity.
  - unfold ProduceModelBoilerplate.ProduceModelBoilerplateHandler.
    rewrite (Hget "app_name"), (Hreq "model_name"), (Hreq "fields") by (simpl; tauto).
    reflexivity.
  - unfold ProduceServiceBoilerplate.ProduceServiceBoilerplateHandler.
    rewrite (Hget "app_name"), (Hreq "model_name") by (simpl; tauto). reflexivity.
  - unfold ProduceApiControllerBoilerplate.ProduceApiControllerBoilerplateHandler.
    rewrite (Hget "app_name"), (Hreq "model_name") by (simpl; tauto). reflexivity.
  - unfold ProduceHtmlControllerBoilerplate.ProduceHtmlControllerBoilerplateHandler.
    rewrite (Hget "app_name"), (Hreq "model_name") by (simpl; tauto). reflexivity.
  - unfold FixApp.FixAppHandler.
    rewrite (Hget "app_name"), (Hget "error_message") by (simpl; tauto). reflexivity.
Qed.

End WithLibraries.

(** C7 on two requests to [fix_app] that differ by an argument the tool
    does not declare. *)
Lemma handler_depends_on_parameters_witness :
  handler (tables := latin1_tables) (json_errors := sample_errors) fix_app
    (request [("app_name", AnyString "shop")])
  = handler (tables := latin1_tables) (json_errors := sample_errors) fix_app
      (request [("app_name", AnyString "shop"); ("verbose", AnyBool true)]).
Proof.
  apply (handler_depends_on_parameters (tables := latin1_tables) (json_errors := sample_errors)).
  intros key [<-|[<-|[]]]; reflexivity.
Defined.

End PurityFacts.

(** ** Occurrences of a text in a concatenation *)

Module StringFacts.
Import Str McpFacts Spec.

Lemma append_cons c (a b : string) : String c a ++ b = String c (a ++ b).
Proof. reflexivity. Qed.

Lemma append_assoc (a b c : string) : (a ++ b) ++ c = a ++ (b ++ c).
Proof. induction a as [|x a IH]; [reflexivity | exact (f_equal (String x) IH)]. Qed.

Lemma length_append (a b : string) :
  String.length (a ++ b) = (String.length a + String.length b)%nat.
Proof. induction a as [|x a IH]; [reflexivity | exact (f_equal S IH)]. Qed.

(** Two ways of cutting the same text: one cut is inside a piece of the
    other. *)
Lemma append_split (a b c d : string) :
  a ++ b = c ++ d ->
  (exists k, c = a ++ k /\ b = k ++ d) \/ (exists k, a = c ++ k /\ d = k ++ b).
Proof.
  revert c. induction a as [|x a IH]; intros c H.
  - left. exists c. split; [reflexivity | exact H].
  - destruct c as [|y c].
    + right. exists (String x a). split; [reflexivity | symmetry; exact H].
    + rewrite !append_cons in H. injection H as -> H.
      destruct (IH c H) as [(k & -> & ->)|(k & -> & ->)]; [left | right]; exists k; auto.
Qed.

Lemma HasPrefix_true (s p : string) : HasPrefix s p = true <-> exists v, s = p ++ v.
Proof.
  revert s. induction p as [|c p IH]; intros s.
  - split; [intros _; exists s; reflexivity | intros _; destruct s; reflexivity].
  - destruct s as [|d s]; cbn [HasPrefix].
    + split; [discriminate | intros (v & H); discriminate H].
    + destruct (Ascii.eqb_spec c d) as [->|Hne].
      * rewrite IH. split; intros (v & H); exists v.
        -- rewrite H. reflexivity.
        -- rewrite append_cons in H. injection H as H. exact H.
      * split; [discriminate|]. intros (v & H). rewrite append_cons in H.
        injection H as H _. congruence.
Qed.

Lemma Contains_true (s h : string) : Contains s h = true -> exists u v, s = u ++ h ++ v.
Proof.
  induction s as [|c s IH]; cbn [Contains]; intros H.
  - rewrite orb_false_r in H. apply HasPrefix_true in H as (v & H).
    exists EmptyString, v. exact H.
  - apply orb_true_iff in H as [H|H].
    + apply HasPrefix_true in H as (v & H). exists EmptyString, v. exact H.
    + destruct (IH H) as (u & v & ->). exists (String c u), v. reflexivity.
Qed.

Lemma Contains_false (s h u v : string) : Contains s h = false -> s <> u ++ h ++ v.
Proof.
  intros H ->. revert H. induction u as [|c u IH].
  - change (EmptyString ++ h ++ v) with (h ++ v). intros H.
    assert (Hp : HasPrefix (h ++ v) h = true) by (apply HasPrefix_true; eauto).
    destruct (h ++ v); cbn [Contains] in H; rewrite Hp in H; discriminate.
  - rewrite append_cons. cbn [Contains]. intros H. apply orb_false_elim in H as [_ H]. auto.
Qed.

(** Reversal. *)
Lemma rev_cons c s : Str.rev (String c s) = Str.rev s ++ String c EmptyString.
Proof.
  unfold Str.rev. cbn [list_ascii_of_string List.rev].
  generalize (List.rev (list_ascii_of_string s)). intros l.
  induction l as [|x l IH]; [reflexivity|].
  cbn [List.app string_of_list_ascii]. rewrite IH. reflexivity.
Qed.

Lemma rev_append (a b : string) : Str.rev (a ++ b) = Str.rev b ++ Str.rev a.
Proof.
  induction a as [|c a IH].
  - change (Str.rev EmptyString) with EmptyString. rewrite append_empty_r. reflexivity.
  - rewrite append_cons, !rev_cons, IH, append_assoc. reflexivity.
Qed.

Lemma rev_involutive (s : string) : Str.rev (Str.rev s) = s.
Proof.
  induction s as [|c s IH]; [reflexivity|].
  rewrite rev_cons, rev_append, IH. reflexivity.
Qed.

Lemma HasSuffix_true (s k : string) : HasSuffix s k = true <-> exists u, s = u ++ k.
Proof.
  unfold HasSuffix. rewrite HasPrefix_true. split.
  - intros (v & H). exists (Str.rev v).
    rewrite <- (rev_involutive s), H, rev_append, rev_involutive. reflexivity.
  - intros (u & ->). exists (Str.rev u). apply rev_append.
Qed.

(** Membership of a character. *)
Lemma mem_append c (a b : string) : mem c (a ++ b) = mem c a || mem c b.
Proof.
  induction a as [|x a IH]; [reflexivity|].
  rewrite append_cons. cbn [mem]. rewrite IH, orb_assoc. reflexivity.
Qed.

Lemma mem_middle c (a b : string) : mem c (a ++ String c b) = true.
Proof.
  rewrite mem_append. cbn [mem]. rewrite Ascii.eqb_refl. apply orb_true_r.
Qed.

(** Prefixes and suffixes by length. *)
Lemma take_append (k d : string) : take (String.length k) (k ++ d) = k.
Proof.
  induction k as [|c k IH]; [destruct d; reflexivity|].
  rewrite append_cons. cbn [String.length take]. rewrite IH. reflexivity.
Qed.

Lemma drop_append (k d : string) : drop (String.length k) (k ++ d) = d.
Proof. induction k as [|c k IH]; [destruct d; reflexivity|]. exact IH. Qed.

End StringFacts.

(** ** produce_model_boilerplate: the lines in the response *)

Module EmissionFacts.
Import Str Fmt Mcp McpFacts Spec ProduceModelBoilerplate ModelFacts StringFacts.

Lemma Contains_trans (a b c : string) :
  Contains a b = true -> Contains b c = true -> Contains a c = true.
Proof.
  intros Hab Hbc.
  apply Contains_true in Hab as (u & v & ->). apply Contains_true in Hbc as (u' & v' & ->).
  rewrite !append_assoc, <- (append_assoc u u').
  apply DeclarationFacts.Contains_middle.
Qed.

Lemma Contains_append_r (p s m : string) : Contains s m = true -> Contains (p ++ s) m = true.
Proof.
  intros H. induction p as [|c p IH]; [exact H|].
  rewrite append_cons. apply DeclarationFacts.Contains_cons, IH.
Qed.

(** A text joined from pieces holds each of them. *)
Lemma Join_lookup (ls : list string) (sep : string) :
  forall (i : nat) (l : string), ls !! i = Some l -> Contains (Join ls sep) l = true.
Proof.
  induction ls as [|x ls IH]; intros i l Hi; [discriminate Hi|].
  destruct ls as [|y ls].
  - destruct i as [|i]; [|discriminate Hi]. injection Hi as <-.
    cbn [Join]. rewrite <- (append_empty_r x) at 1.
    apply (DeclarationFacts.Contains_middle EmptyString).
  - change (Join (x :: y :: ls) sep) with (x ++ sep ++ Join (y :: ls) sep).
    destruct i as [|i].
    + injection Hi as <-. apply (DeclarationFacts.Contains_middle EmptyString).
    + apply Contains_append_r, Contains_append_r, (IH i), Hi.
Qed.

Section WithLibraries.
Context {tables : UnicodeTables} {json_errors : JsonErrors}.

(** The declaration holds the lines joined. *)
Lemma modelContent_contains_lines modelName fields :
  Contains (modelContent modelName fields) (Join (struct_fields fields) nl) = true.
Proof.
  rewrite DeclarationFacts.modelContent_text.
  do 8 apply Contains_append_r.
  apply (DeclarationFacts.Contains_middle EmptyString).
Qed.

(** The response holds the line of every descriptor. *)
Lemma response_contains_line t l a modelName fields (i : nat) field :
  fields !! i = Some field ->
  Contains (Sprintf response_format [t; l; modelContent modelName fields; t; l; a])
           (struct_field field) = true.
Proof.
  intros Hi.
  apply (Contains_trans _ (modelContent modelName fields));
    [apply DeclarationFacts.response_contains_declaration|].
  apply (Contains_trans _ (Join (struct_fields fields) nl));
    [apply modelContent_contains_lines|].
  apply (Join_lookup _ _ i), struct_fields_lookup, Hi.
Qed.

(** C8. When the list decodes, a descriptor that lacks [name] or [type], or
    has other keys, does not make the handler fail: the result is a text
    result, there is one line per descriptor, the line of a descriptor has
    the empty string where a key is missing, and the text of the response
    holds that line, inside the declaration, which is written around the
    lines joined. Keys other than the two are not read. *)
Theorem missing_keys_render_empty (request : CallToolRequest)
    (appName modelName fieldsJSON : string) (fields : list (gmap string string)) :
  Arguments request !! "app_name" = Some (AnyString appName) ->
  appName <> EmptyString ->
  Arguments request !! "model_name" = Some (AnyString modelName) ->
  Arguments request !! "fields" = Some (AnyString fieldsJSON) ->
  Json.Unmarshal fieldsJSON = Some fields ->
  IsError (ProduceModelBoilerplateHandler request) = false
  /\ length (struct_fields fields) = length fields
  /\ Contains (Text (ProduceModelBoilerplateHandler request)) (modelContent modelName fields)
     = true
  /\ modelContent modelName fields =
       lines ["package models"; EmptyString; "import " ++ dq ++ "gorm.io/gorm" ++ dq; EmptyString]
       ++ "type " ++ Strings.Title modelName ++ " struct {" ++ nl ++ tab ++ "gorm.Model" ++ nl
       ++ Join (struct_fields fields) nl ++ nl ++ "}" ++ nl
  /\ forall (i : nat) field, fields !! i = Some field ->
       struct_fields fields !! i =
         Some (field_line (default EmptyString (field !! "name"))
                          (default EmptyString (field !! "type")))
       /\ Contains (Text (ProduceModelBoilerplateHandler request))
            (field_line (default EmptyString (field !! "name"))
                        (default EmptyString (field !! "type"))) = true
       /\ (field !! "name" = None ->
           struct_fields fields !! i =
             Some (tab ++ " " ++ default EmptyString (field !! "type")
                       ++ " `json:" ++ dq ++ dq ++ "`")
           /\ Contains (Text (ProduceModelBoilerplateHandler request))
                (tab ++ " " ++ default EmptyString (field !! "type")
                     ++ " `json:" ++ dq ++ dq ++ "`") = true)
       /\ (field !! "type" = None ->
           struct_fields fields !! i =
             Some (tab ++ Strings.Title (default EmptyString (field !! "name")) ++ "  `json:"
                       ++ dq ++ default EmptyString (field !! "name") ++ dq ++ "`")
           /\ Contains (Text (ProduceModelBoilerplateHandler request))
                (tab ++ Strings.Title (default EmptyString (field !! "name")) ++ "  `json:"
                     ++ dq ++ default EmptyString (field !! "name") ++ dq ++ "`") = true)
       /\ (forall other : gmap string string,
             other !! "name" = field !! "name" -> other !! "type" = field !! "type" ->
             struct_field other = struct_field field).
Proof.
  intros Ha Hne Hm Hf Hu.
  rewrite (handler_with_parameters _ _ _ _ Ha Hne Hm Hf), Hu.
  cbn [Text IsError NewToolResultText].
  split; [reflexivity|]. split; [apply struct_fields_length|].
  split; [apply DeclarationFacts.response_contains_declaration|].
  split; [apply DeclarationFacts.modelContent_text|].
  intros i field Hi.
  pose proof (response_contains_line (Strings.Title modelName) (Strings.ToLower modelName)
                appName modelName fields i field Hi) as Hline.
  rewrite struct_field_line in Hline. unfold index in Hline.
  rewrite (struct_fields_lookup _ _ _ Hi), struct_field_line. unfold index.
  split; [reflexivity|]. split; [exact Hline|]. split; [|split].
  - intros Hn. rewrite Hn in Hline |- *. split; [reflexivity | exact Hline].
  - intros Ht. rewrite Ht in Hline |- *. split; [reflexivity | exact Hline].
  - intros other Hn Ht. rewrite !struct_field_line. unfold index. rewrite Hn, Ht. reflexivity.
Qed.

End WithLibraries.

(** C8 on descriptors that lack a key or have one more: the second
    descriptor has a name only. *)
Lemma missing_keys_render_empty_witness :
  IsError (ProduceModelBoilerplateHandler (tables := latin1_tables)
             (json_errors := sample_errors) partial_request) = false
  /\ length (struct_fields (tables := latin1_tables)
               [ {[ "type" := "int" ]}; {[ "name" := "id" ]};
                 {[ "name" := "n"; "type" := "uint"; "note" := "x" ]}; ∅ ]) = 4%nat
  /\ Contains (Text (ProduceModelBoilerplateHandler (tables := latin1_tables)
                       (json_errors := sample_errors) partial_request))
       (tab ++ Strings.Title (tables := latin1_tables) "id" ++ "  `json:" ++ dq ++ "id" ++ dq ++ "`")
     = true.
Proof.
  assert (Hu : Json.Unmarshal partial_fields
               = Some [ {[ "type" := "int" ]}; {[ "name" := "id" ]};
                        {[ "name" := "n"; "type" := "uint"; "note" := "x" ]}; ∅ ])
    by (vm_compute; reflexivity).
  assert (Hne : "shop" <> EmptyString) by discriminate.
  pose proof (missing_keys_render_empty
                (tables := latin1_tables) (json_errors := sample_errors)
                partial_request "shop" "book" partial_fields _
                eq_refl Hne eq_refl eq_refl Hu) as (H1 & H2 & _ & _ & H3).
  split; [exact H1|]. split; [exact H2|].
  destruct (H3 1%nat {[ "name" := "id" ]} eq_refl) as (_ & _ & _ & Ht & _).
  exact (proj2 (Ht eq_refl)).
Defined.

End EmissionFacts.

(** ** fix_app: where the hint can occur *)

Module HintFacts.
Import Str McpFacts Spec StringFacts FixApp.

Lemma hint_split : hint = hint_before ++ String bracket hint_after.
Proof. reflexivity. Qed.

Lemma text_app (l1 l2 : list segment) : text (l1 ++ l2) = text l1 ++ text l2.
Proof.
  induction l1 as [|g l1 IH]; [reflexivity|].
  cbn [List.app text]. rewrite IH, append_assoc. reflexivity.
Qed.

Lemma nonempty_length (k : string) : k <> EmptyString -> (1 <= String.length k)%nat.
Proof. destruct k; [contradiction | cbn; lia]. Qed.

(** What [left_ok] excludes. *)
Lemma left_ok_spec (s k d1 : string) :
  left_ok s = true -> hint_before = k ++ d1 -> k <> EmptyString ->
  (exists j, s = j ++ k) \/ (exists j, k = j ++ s) -> False.
Proof.
  unfold left_ok. intros Hok HP Hk Hcompat.
  rewrite forallb_forall in Hok. specialize (Hok (String.length k)).
  assert (Hlen : String.length hint_before = (String.length k + String.length d1)%nat).
  { rewrite HP. apply length_append. }
  assert (Htake : take (String.length k) hint_before = k).
  { rewrite HP. apply take_append. }
  rewrite Htake in Hok.
  assert (Hin : In (String.length k) (seq 1 (String.length hint_before))).
  { apply in_seq. pose proof (nonempty_length k Hk). lia. }
  specialize (Hok Hin). apply negb_true_iff, orb_false_elim in Hok as [H1 H2].
  destruct Hcompat as [Hc|Hc]; apply HasSuffix_true in Hc; congruence.
Qed.

(** What [right_ok] excludes. *)
Lemma right_ok_spec (s k d2 : string) :
  right_ok s = true -> hint_after = d2 ++ k -> k <> EmptyString ->
  (exists j, s = k ++ j) \/ (exists j, k = s ++ j) -> False.
Proof.
  unfold right_ok. intros Hok HQ Hk Hcompat.
  rewrite forallb_forall in Hok. specialize (Hok (String.length d2)).
  assert (Hlen : String.length hint_after = (String.length d2 + String.length k)%nat).
  { rewrite HQ. apply length_append. }
  assert (Hdrop : drop (String.length d2) hint_after = k).
  { rewrite HQ. apply drop_append. }
  rewrite Hdrop in Hok.
  assert (Hin : In (String.length d2) (seq 0 (String.length hint_after))).
  { apply in_seq. pose proof (nonempty_length k Hk). lia. }
  specialize (Hok Hin). apply negb_true_iff, orb_false_elim in Hok as [H1 H2].
  destruct Hcompat as [Hc|Hc]; apply HasPrefix_true in Hc; congruence.
Qed.

(** A bracket of the text lies in an interpolated piece when the static
    pieces have none. *)
Lemma locate_bracket (l : list segment) (before after : string) :
  (forall s, In (Static s) l -> mem bracket s = false) ->
  text l = before ++ String bracket after ->
  exists l1 d1 d2 l2,
    l = (l1 ++ Dynamic (d1 ++ String bracket d2) :: l2)%list
    /\ before = text l1 ++ d1 /\ after = d2 ++ text l2.
Proof.
  revert before. induction l as [|g l IH]; intros before Hst H.
  - destruct before; discriminate H.
  - cbn [text] in H. destruct (append_split _ _ _ _ H) as [(k & Hb & Hk)|(k & Hg & Hk)].
    + destruct (IH k) as (l1 & d1 & d2 & l2 & -> & -> & ->).
      * intros s Hs. apply Hst. right. exact Hs.
      * exact Hk.
      * exists (g :: l1), d1, d2, l2. split; [reflexivity|]. split; [|reflexivity].
        rewrite Hb. cbn [text]. rewrite append_assoc. reflexivity.
    + destruct k as [|c k].
      * change (EmptyString ++ text l) with (text l) in Hk.
        rewrite append_empty_r in Hg. subst before.
        destruct (IH EmptyString) as (l1 & d1 & d2 & l2 & -> & Hb & ->).
        -- intros s Hs. apply Hst. right. exact Hs.
        -- symmetry. exact Hk.
        -- exists (g :: l1), d1, d2, l2. split; [reflexivity|]. split; [|reflexivity].
           cbn [text]. rewrite append_assoc, <- Hb, append_empty_r. reflexivity.
      * rewrite append_cons in Hk. injection Hk as <- ->.
        destruct g as [s|d]; cbn [segment_text] in Hg.
        -- exfalso. assert (Hm : mem bracket s = false) by (apply Hst; left; reflexivity).
           rewrite Hg, mem_middle in Hm. discriminate.
        -- exists [], before, k, l. rewrite Hg. repeat split.
Qed.

Lemma well_separated_statics (prev : option segment) (l : list segment) :
  well_separated prev l = true -> forall s, In (Static s) l -> mem bracket s = false.
Proof.
  revert prev. induction l as [|g l IH]; intros prev H s Hs; [contradiction|].
  destruct g as [s0|d]; cbn [well_separated] in H.
  - apply andb_true_iff in H as [H1 H2]. destruct Hs as [[= <-]|Hs].
    + apply negb_true_iff, H1.
    + exact (IH _ H2 _ Hs).
  - apply andb_true_iff in H as [_ H2]. destruct Hs as [Hs|Hs]; [discriminate|].
    exact (IH _ H2 _ Hs).
Qed.

(** The neighbours of an interpolated piece. *)
Lemma well_separated_at (prev : option segment) (l1 l2 : list segment) (d : string) :
  well_separated prev (l1 ++ Dynamic d :: l2) = true ->
  ((l1 = [] /\ exists s, prev = Some (Static s) /\ left_ok s = true)
   \/ exists l1' s, l1 = (l1' ++ [Static s])%list /\ left_ok s = true)
  /\ exists s' l2', l2 = Static s' :: l2' /\ right_ok s' = true.
Proof.
  revert prev. induction l1 as [|g l1 IH]; intros prev H.
  - cbn [List.app well_separated] in H.
    apply andb_true_iff in H as [H _]. apply andb_true_iff in H as [Hl Hr]. split.
    + left. split; [reflexivity|]. destruct prev as [[s|]|]; try discriminate. eauto.
    + destruct l2 as [|[s'|] l2']; try discriminate. eauto.
  - assert (Hrest : well_separated (Some g) (l1 ++ Dynamic d :: l2) = true).
    { cbn [List.app well_separated] in H. destruct g.
      - apply andb_true_iff in H as [_ H]. exact H.
      - apply andb_true_iff in H as [_ H]. exact H. }
    destruct (IH _ Hrest) as [[(-> & s & [= ->] & Hs)|(l1' & s & -> & Hs)] Hright]; split;
      try exact Hright; right.
    + exists [], s. split; [reflexivity | exact Hs].
    + exists (g :: l1'), s. split; [reflexivity | exact Hs].
Qed.

(** The hint occurs in a well separated text only inside an interpolated
    piece. *)
Lemma no_occurrence (l : list segment) :
  well_separated None l = true ->
  (forall d, In (Dynamic d) l -> Contains d hint = false) ->
  Contains (text l) hint = false.
Proof.
  intros Hws Hdyn. destruct (Contains (text l) hint) eqn:E; [exfalso | reflexivity].
  apply Contains_true in E as (u & v & E).
  rewrite hint_split, append_assoc, append_cons, <- append_assoc in E.
  destruct (locate_bracket l _ _ (well_separated_statics _ _ Hws) E)
    as (l1 & d1 & d2 & l2 & -> & Hleft & Hright).
  destruct (well_separated_at _ _ _ _ Hws)
    as [[(_ & s & [=] & _)|(l1' & s & -> & Hs)] (s' & l2' & -> & Hs')].
  assert (H1 : exists w, d1 = w ++ hint_before).
  { destruct (append_split _ _ _ _ Hleft) as [(k & Hk1 & Hk2)|(k & Hk1 & Hk2)].
    - destruct (String.eqb_spec k EmptyString) as [->|Hne].
      + exists EmptyString. rewrite Hk2. reflexivity.
      + exfalso. rewrite text_app in Hk1. cbn [text segment_text] in Hk1.
        rewrite append_empty_r in Hk1.
        destruct (append_split _ _ _ _ Hk1) as [(j & _ & Hj)|(j & _ & Hj)];
          apply (left_ok_spec s k d1 Hs Hk2 Hne); eauto.
    - exists k. exact Hk2. }
  assert (H2 : exists w, d2 = hint_after ++ w).
  { symmetry in Hright. destruct (append_split _ _ _ _ Hright) as [(k & Hk1 & Hk2)|(k & Hk1 & Hk2)].
    - destruct (String.eqb_spec k EmptyString) as [->|Hne].
      + exists EmptyString. rewrite append_empty_r in Hk1.
        rewrite Hk1, append_empty_r. reflexivity.
      + exfalso. cbn [text segment_text] in Hk2.
        destruct (append_split _ _ _ _ Hk2) as [(j & Hj & _)|(j & Hj & _)];
          apply (right_ok_spec s' k d2 Hs' Hk1 Hne); eauto.
    - exists k. exact Hk1. }
  destruct H1 as (w & ->). destruct H2 as (w' & ->).
  assert (Hin : In (Dynamic ((w ++ hint_before) ++ String bracket (hint_after ++ w')))
                   ((l1' ++ [Static s]) ++ Dynamic ((w ++ hint_before)
                       ++ String bracket (hint_after ++ w')) :: Static s' :: l2')).
  { apply in_elt. }
  specialize (Hdyn _ Hin).
  apply (Contains_false _ _ w w' Hdyn).
  rewrite hint_split, !append_assoc, !append_cons. reflexivity.
Qed.

End HintFacts.

(** ** fix_app: the hint and the error message *)

Module FixAppHintFacts.
Import Str Fmt Mcp McpFacts Spec StringFacts FixApp HintFacts.

Lemma Sprintf_one x y a : Sprintf [Lit x; Verb_s; Lit y] [a] = x ++ a ++ y.
Proof.
  change (Sprintf [Lit x; Verb_s; Lit y] [a]) with (x ++ (a ++ (y ++ EmptyString))).
  rewrite append_empty_r. reflexivity.
Qed.

Lemma Sprintf_four x0 x1 x2 x3 x4 a b c d :
  Sprintf [Lit x0; Verb_s; Lit x1; Verb_s; Lit x2; Verb_s; Lit x3; Verb_s; Lit x4] [a; b; c; d]
  = x0 ++ a ++ x1 ++ b ++ x2 ++ c ++ x3 ++ d ++ x4.
Proof.
  change (Sprintf [Lit x0; Verb_s; Lit x1; Verb_s; Lit x2; Verb_s; Lit x3; Verb_s; Lit x4]
                  [a; b; c; d])
    with (x0 ++ (a ++ (x1 ++ (b ++ (x2 ++ (c ++ (x3 ++ (d ++ (x4 ++ EmptyString))))))))).
  rewrite append_empty_r. reflexivity.
Qed.

(** The checklist is the text of its pieces. *)
Lemma checklist_text (appName : string) : checklist appName = text (checklist_segments appName).
Proof.
  destruct (String.eqb_spec appName EmptyString) as [->|Hne].
  - vm_compute. reflexivity.
  - unfold checklist, checklist_segments. rewrite (eqb_empty_false _ Hne).
    unfold WriteString. rewrite !Sprintf_one, Sprintf_four.
    cbn [List.app text segment_text]. rewrite !append_assoc. reflexivity.
Qed.

(** The part about the error message is the text of its pieces, followed by
    the hint when the message has the substring. *)
Lemma regarding_text (b errorMessage : string) :
  regarding b errorMessage =
    b ++ text (regarding_segments errorMessage)
      ++ (if Contains errorMessage not_in_std then hint else EmptyString).
Proof.
  unfold regarding, regarding_segments.
  destruct (String.eqb_spec errorMessage EmptyString) as [->|Hne].
  - change (b = b ++ EmptyString). symmetry. apply append_empty_r.
  - unfold WriteString. rewrite Sprintf_one. cbn [text segment_text].
    destruct (Contains errorMessage not_in_std);
      rewrite ?append_assoc, ?append_empty_r; reflexivity.
Qed.

Lemma response_text (appName errorMessage : string) :
  regarding (checklist appName) errorMessage =
    text (checklist_segments appName ++ regarding_segments errorMessage)
    ++ (if Contains errorMessage not_in_std then hint else EmptyString).
Proof.
  rewrite regarding_text, checklist_text, text_app, append_assoc. reflexivity.
Qed.

(** The pieces of a response are well separated. *)
Lemma response_well_separated (appName errorMessage : string) :
  well_separated None (checklist_segments appName ++ regarding_segments errorMessage) = true.
Proof.
  unfold checklist_segments, regarding_segments.
  destruct (String.eqb appName EmptyString), (String.eqb errorMessage EmptyString);
    vm_compute; reflexivity.
Qed.

(** The interpolated pieces are the application name and the error
    message. *)
Lemma response_dynamic (appName errorMessage d : string) :
  In (Dynamic d) (checklist_segments appName ++ regarding_segments errorMessage) ->
  d = appName \/ d = errorMessage.
Proof.
  unfold checklist_segments, regarding_segments.
  destruct (String.eqb appName EmptyString), (String.eqb errorMessage EmptyString);
    cbn [List.app In]; intros H;
    repeat (destruct H as [H|H]; [first [discriminate H | injection H as <-; auto]|]);
    contradiction.
Qed.

(** The ends of a response without the hint are not the end of the hint. *)
Lemma no_suffix_fence (x : string) : HasSuffix (x ++ ("    ```" ++ nl)) hint = false.
Proof. unfold HasSuffix. rewrite rev_append. reflexivity. Qed.

Lemma no_suffix_quote (x : string) : HasSuffix (x ++ (dq ++ nl)) hint = false.
Proof. unfold HasSuffix. rewrite rev_append. reflexivity. Qed.

Lemma no_suffix_checklist (appName : string) : HasSuffix (checklist appName) hint = false.
Proof.
  unfold checklist. cbv zeta.
  match goal with
  | |- HasSuffix (WriteString ?b _) _ = false => generalize b; intros x
  end.
  apply no_suffix_fence.
Qed.

Lemma suffix_of_response (appName errorMessage : string) :
  HasSuffix (regarding (checklist appName) errorMessage) hint = Contains errorMessage not_in_std.
Proof.
  unfold regarding.
  destruct (String.eqb_spec errorMessage EmptyString) as [->|Hne].
  - rewrite no_suffix_checklist. reflexivity.
  - unfold WriteString. rewrite Sprintf_one.
    destruct (Contains errorMessage not_in_std).
    + apply HasSuffix_true. eauto.
    + rewrite <- (append_assoc (checklist appName)), <- (append_assoc _ errorMessage).
      apply no_suffix_quote.
Qed.

(** C6, as the handler has it. The handler appends the hint, so that the
    response ends with it, exactly when the error message contains
    [is not in std]; with an absent or empty message nothing is appended.
    A response to which the hint is appended contains it. A response to
    which it is not appended does not contain the text of the hint,
    provided neither the application name nor the error message, which
    are echoed, contains that text. *)
Theorem hint_iff_not_in_std (request : CallToolRequest) :
  HasSuffix (Text (FixAppHandler request)) hint
    = Contains (GetString request "error_message" EmptyString) not_in_std
  /\ (Contains (GetString request "error_message" EmptyString) not_in_std = true ->
      Contains (Text (FixAppHandler request)) hint = true)
  /\ (Contains (GetString request "error_message" EmptyString) not_in_std = false ->
      Contains (GetString request "app_name" EmptyString) hint = false ->
      Contains (GetString request "error_message" EmptyString) hint = false ->
      Contains (Text (FixAppHandler request)) hint = false)
  /\ (Arguments request !! "error_message" = None
      \/ Arguments request !! "error_message" = Some (AnyString EmptyString) ->
      Text (FixAppHandler request) = checklist (GetString request "app_name" EmptyString)
      /\ HasSuffix (Text (FixAppHandler request)) hint = false).
Proof.
  unfold FixAppHandler. cbn [Text NewToolResultText].
  generalize (GetString request "app_name" EmptyString) as appName.
  intros appName. split; [apply suffix_of_response|]. split; [|split].
  - intros Hc. rewrite response_text, Hc.
    rewrite <- (append_empty_r hint) at 1. apply DeclarationFacts.Contains_middle.
  - intros Hc Ha He. rewrite response_text, Hc, append_empty_r.
    apply no_occurrence; [apply response_well_separated|].
    intros d Hd. destruct (response_dynamic _ _ _ Hd) as [->| ->]; assumption.
  - intros He.
    assert (Hg : GetString request "error_message" EmptyString = EmptyString).
    { destruct He as [He|He]; [apply GetString_absent | apply GetString_present]; exact He. }
    rewrite Hg. split; [reflexivity | apply no_suffix_checklist].
Qed.

End FixAppHintFacts.

Module HintWitnesses.
Import Str Fmt Mcp Spec FixApp.

(** C6 on an error message with the substring, and on one without it. *)
Lemma hint_iff_not_in_std_witness :
  Contains (Text (FixAppHandler
                    (request [("app_name", AnyString "shop");
                              ("error_message", AnyString "package shop/models is not in std")])))
           hint = true
  /\ Contains (Text (FixAppHandler
                       (request [("app_name", AnyString "shop");
                                 ("error_message", AnyString "undefined: models.User")])))
              hint = false.
Proof.
  split.
  - apply (proj1 (proj2 (FixAppHintFacts.hint_iff_not_in_std _))). vm_compute. reflexivity.
  - apply (proj1 (proj2 (proj2 (FixAppHintFacts.hint_iff_not_in_std _))));
      vm_compute; reflexivity.
Defined.

(** An error message that is the text of the hint: it lacks the substring,
    nothing is appended, and the response contains the hint, echoed. *)
Lemma hint_iff_not_in_std_counterexample :
  Contains hint not_in_std = false
  /\ FixAppHandler (request [("app_name", AnyString "shop"); ("error_message", AnyString hint)])
     = NewToolResultText
         (checklist "shop" ++ nl ++ nl ++ "Regarding your specific error: " ++ dq ++ hint
                    ++ dq ++ nl)
  /\ Contains (Text (FixAppHandler
                       (request [("app_name", AnyString "shop");
                                 ("error_message", AnyString hint)])))
              hint = true.
Proof. split; [|split]; vm_compute; reflexivity. Qed.

End HintWitnesses.

(** ** UTF-8: decoding what was encoded *)

Module Utf8Facts.
Import Utf8 Spec.
Local Open Scope Z_scope.

Lemma check_range_spec (P : Z -> bool) (p : positive) (lo : Z) :
  check_range P lo p = true -> forall r, lo <= r < lo + Z.pos p -> P r = true.
Proof.
  revert lo. induction p as [p IH|p IH|]; intros lo H r Hr; cbn [check_range] in H.
  - apply andb_true_iff in H as [H H2]. apply andb_true_iff in H as [H0 H1].
    destruct (Z.eq_dec r lo) as [->|Hne]; [exact H0|].
    destruct (Z_lt_le_dec r (lo + 1 + Z.pos p)).
    + apply (IH _ H1). lia.
    + apply (IH _ H2). lia.
  - apply andb_true_iff in H as [H1 H2].
    destruct (Z_lt_le_dec r (lo + Z.pos p)).
    + apply (IH _ H1). lia.
    + apply (IH _ H2). lia.
  - assert (r = lo) as -> by lia. exact H.
Qed.

Lemma ValidRune_range (r : rune) : ValidRune r = true -> 0 <= r < 0x110000.
Proof. unfold ValidRune, MaxRune. lia. Qed.

(** *** Bytes as numbers *)

Ltac arith := Z.div_mod_to_equations; lia.

Lemma byte_val_range c : 0 <= byte_val c < 256.
Proof.
  unfold byte_val. pose proof (N_ascii_bounded c). lia.
Qed.

Lemma lor_disjoint_add a b n :
  0 <= n -> 0 <= b < 2 ^ n -> (2 ^ n | a) -> Z.lor a b = a + b.
Proof.
  intros Hn Hb [k ->].
  assert (H : Z.land (k * 2 ^ n) b = 0).
  { apply Z.bits_inj'. intros i Hi. rewrite Z.land_spec, Z.bits_0.
    destruct (Z_lt_le_dec i n).
    - rewrite Z.mul_pow2_bits_low by lia. reflexivity.
    - rewrite <- (Z.mod_small b (2 ^ n)) by lia.
      rewrite Z.mod_pow2_bits_high by lia. apply andb_false_r. }
  rewrite <- Z.lxor_lor by exact H. symmetry. apply Z.add_nocarry_lxor. exact H.
Qed.

Lemma land_mask x n : 0 <= n -> Z.land x (Z.ones n) = x mod 2 ^ n.
Proof. intros. apply Z.land_ones. lia. Qed.

Lemma decode2_value x0 x1 :
  Z.lor (Z.shiftl (Z.land x0 0x1F) 6) (Z.land x1 0x3F) = (x0 mod 32) * 64 + x1 mod 64.
Proof.
  change 0x1F with (Z.ones 5). change 0x3F with (Z.ones 6).
  rewrite !land_mask by lia. rewrite Z.shiftl_mul_pow2 by lia.
  apply (lor_disjoint_add _ _ 6); [lia | apply Z.mod_pos_bound; lia | ].
  exists (x0 mod 2 ^ 5). reflexivity.
Qed.

Lemma decode3_value x0 x1 x2 :
  Z.lor (Z.lor (Z.shiftl (Z.land x0 0x0F) 12) (Z.shiftl (Z.land x1 0x3F) 6)) (Z.land x2 0x3F)
  = (x0 mod 16) * 4096 + (x1 mod 64) * 64 + x2 mod 64.
Proof.
  change 0x0F with (Z.ones 4). change 0x3F with (Z.ones 6).
  rewrite !land_mask by lia. rewrite !Z.shiftl_mul_pow2 by lia.
  pose proof (Z.mod_pos_bound x1 64). pose proof (Z.mod_pos_bound x2 64).
  change (2 ^ 4) with 16. change (2 ^ 6) with 64. change (2 ^ 12) with 4096.
  rewrite (lor_disjoint_add (x0 mod 16 * 4096) (x1 mod 64 * 64) 12);
    [| lia | change (2 ^ 12) with 4096; lia | exists (x0 mod 16); reflexivity].
  apply (lor_disjoint_add _ _ 6);
    [lia | change (2 ^ 6) with 64; lia
     | exists (x0 mod 16 * 64 + x1 mod 64); change (2 ^ 6) with 64; lia].
Qed.

Lemma decode4_value x0 x1 x2 x3 :
  Z.lor (Z.lor (Z.lor (Z.shiftl (Z.land x0 0x07) 18) (Z.shiftl (Z.land x1 0x3F) 12))
               (Z.shiftl (Z.land x2 0x3F) 6)) (Z.land x3 0x3F)
  = (x0 mod 8) * 262144 + (x1 mod 64) * 4096 + (x2 mod 64) * 64 + x3 mod 64.
Proof.
  change 0x07 with (Z.ones 3). change 0x3F with (Z.ones 6).
  rewrite !land_mask by lia. rewrite !Z.shiftl_mul_pow2 by lia.
  pose proof (Z.mod_pos_bound x1 64). pose proof (Z.mod_pos_bound x2 64).
  pose proof (Z.mod_pos_bound x3 64).
  change (2 ^ 3) with 8. change (2 ^ 6) with 64. change (2 ^ 12) with 4096.
  change (2 ^ 18) with 262144.
  rewrite (lor_disjoint_add (x0 mod 8 * 262144) (x1 mod 64 * 4096) 18);
    [| lia | change (2 ^ 18) with 262144; lia | exists (x0 mod 8); reflexivity].
  rewrite (lor_disjoint_add (x0 mod 8 * 262144 + x1 mod 64 * 4096) (x2 mod 64 * 64) 12);
    [| lia | change (2 ^ 12) with 4096; lia
     | exists (x0 mod 8 * 64 + x1 mod 64); change (2 ^ 12) with 4096; lia].
  apply (lor_disjoint_add _ _ 6);
    [lia | change (2 ^ 6) with 64; lia
     | exists (x0 mod 8 * 4096 + x1 mod 64 * 64 + x2 mod 64); change (2 ^ 6) with 64; lia].
Qed.

Lemma byte_val_to_byte x : 0 <= x < 256 -> byte_val (to_byte x) = x.
Proof.
  intros Hx. unfold byte_val, to_byte.
  change 0xFF with (Z.ones 8). rewrite Z.land_ones by lia.
  rewrite Z.mod_small by (change (2 ^ 8) with 256; lia).
  rewrite N_ascii_embedding by lia. lia.
Qed.

Lemma lead_byte (tag q n : Z) :
  0 <= n -> 0 <= q < 2 ^ n -> (2 ^ n | tag) -> Z.lor tag q = tag + q.
Proof. intros. apply (lor_disjoint_add tag q n); assumption. Qed.

Lemma cont_byte y : Z.lor 0x80 (Z.land y 0x3F) = 0x80 + y mod 64.
Proof.
  change 0x3F with (Z.ones 6). rewrite Z.land_ones by lia. change (2 ^ 6) with 64.
  apply (lor_disjoint_add 0x80 _ 6); [lia | apply Z.mod_pos_bound; lia | exists 2; reflexivity].
Qed.

Lemma roundtrip4 r : 0x10000 <= r <= 0x10FFFF -> roundtrip_ok r = true.
Proof.
  intros Hr. unfold roundtrip_ok. apply orb_true_iff. right.
  unfold EncodeRune.
  replace ((0 <=? r) && (r <=? 0x7F)) with false by lia.
  replace ((0 <=? r) && (r <=? 0x7FF)) with false by lia.
  replace (ValidRune r) with true by (unfold ValidRune, MaxRune; lia).
  replace (r <=? 0xFFFF) with false by lia.
  cbn [negb].
  rewrite !cont_byte, !Z.shiftr_div_pow2 by lia.
  change (2 ^ 18) with 262144. change (2 ^ 12) with 4096. change (2 ^ 6) with 64.
  rewrite (lead_byte 0xF0 (r / 262144) 4) by (try (exists 15; reflexivity); change (2 ^ 4) with 16; arith).
  unfold decodes_to, DecodeRune4.
  rewrite !byte_val_to_byte by arith.
  replace (0xF0 + r / 262144 <? RuneSelf) with false by (unfold RuneSelf; arith).
  assert (Hq : r / 262144 = 0 \/ r / 262144 = 1 \/ r / 262144 = 2 \/ r / 262144 = 3 \/ r / 262144 = 4) by arith.
  assert (H1 : 0 <= r / 4096 mod 64 < 64) by arith.
  assert (H2 : 0 <= r / 64 mod 64 < 64) by arith.
  assert (H3 : 0 <= r mod 64 < 64) by arith.
  assert (Hlo : r / 262144 = 0 -> 16 <= r / 4096 mod 64) by arith.
  assert (Hhi : r / 262144 = 4 -> r / 4096 mod 64 <= 15) by arith.
  assert (Hval : (0xF0 + r / 262144) mod 8 * 262144 + (0x80 + r / 4096 mod 64) mod 64 * 4096
                 + (0x80 + r / 64 mod 64) mod 64 * 64 + (0x80 + r mod 64) mod 64 = r) by arith.
  rewrite decode4_value, Hval.
  replace (is_cont (128 + r / 64 mod 64)) with true by (unfold is_cont; lia).
  replace (is_cont (128 + r mod 64)) with true by (unfold is_cont; lia).
  cbn [negb].
  destruct Hq as [E|[E|[E|[E|E]]]]; rewrite E in *.
  - change (first (240 + 0)) with (Some (4%nat, 0x90, 0xBF)). cbv beta iota.
    replace ((128 + r / 4096 mod 64 <? 144) || (191 <? 128 + r / 4096 mod 64)) with false
      by (specialize (Hlo eq_refl); lia).
    cbn [Nat.eqb fst snd]. cbv beta iota. cbn [fst snd Nat.eqb]. rewrite Z.eqb_refl. reflexivity.
  - change (first (240 + 1)) with (Some (4%nat, 0x80, 0xBF)). cbv beta iota.
    replace ((128 + r / 4096 mod 64 <? 128) || (191 <? 128 + r / 4096 mod 64)) with false by lia.
    cbn [Nat.eqb fst snd]. cbv beta iota. cbn [fst snd Nat.eqb]. rewrite Z.eqb_refl. reflexivity.
  - change (first (240 + 2)) with (Some (4%nat, 0x80, 0xBF)). cbv beta iota.
    replace ((128 + r / 4096 mod 64 <? 128) || (191 <? 128 + r / 4096 mod 64)) with false by lia.
    cbn [Nat.eqb fst snd]. cbv beta iota. cbn [fst snd Nat.eqb]. rewrite Z.eqb_refl. reflexivity.
  - change (first (240 + 3)) with (Some (4%nat, 0x80, 0xBF)). cbv beta iota.
    replace ((128 + r / 4096 mod 64 <? 128) || (191 <? 128 + r / 4096 mod 64)) with false by lia.
    cbn [Nat.eqb fst snd]. cbv beta iota. cbn [fst snd Nat.eqb]. rewrite Z.eqb_refl. reflexivity.
  - change (first (240 + 4)) with (Some (4%nat, 0x80, 0x8F)). cbv beta iota.
    replace ((128 + r / 4096 mod 64 <? 128) || (143 <? 128 + r / 4096 mod 64)) with false
      by (specialize (Hhi eq_refl); lia).
    cbn [Nat.eqb fst snd]. cbv beta iota. cbn [fst snd Nat.eqb]. rewrite Z.eqb_refl. reflexivity.
Qed.

(** The round trip at every valid rune: by enumeration below [0x10000], by
    arithmetic on the four bytes above. *)
Lemma roundtrip_all (r : rune) : ValidRune r = true -> roundtrip_ok r = true.
Proof.
  intros H. apply ValidRune_range in H.
  destruct (Z_lt_le_dec r 0x10000).
  - apply (check_range_spec roundtrip_ok (Z.to_pos 0x10000) 0).
    + vm_cast_no_check (eq_refl true).
    + change (Z.pos (Z.to_pos 0x10000)) with 0x10000. lia.
  - apply roundtrip4. lia.
Qed.

Lemma decodes_to_spec r width result : decodes_to r width result = true -> result = (r, width).
Proof.
  destruct result as [r' w]. unfold decodes_to. cbn [fst snd]. intros H.
  apply andb_true_iff in H as [H1 H2].
  apply Z.eqb_eq in H1. apply Nat.eqb_eq in H2. congruence.
Qed.

(** A sequence of width two or three is read without looking further. *)
Lemma DecodeRune4_width2 b0 b1 r o2 o3 :
  DecodeRune4 b0 (Some b1) None None = (r, 2%nat) ->
  DecodeRune4 b0 (Some b1) o2 o3 = (r, 2%nat).
Proof.
  unfold DecodeRune4.
  destruct (byte_val b0 <? RuneSelf); [intros H; congruence|].
  destruct (first (byte_val b0)) as [[[size lo] hi]|]; [|intros H; congruence].
  destruct ((byte_val b1 <? lo) || (hi <? byte_val b1)); [intros H; congruence|].
  destruct (size =? 2)%nat; [auto|]. intros H. congruence.
Qed.

Lemma DecodeRune4_width3 b0 b1 b2 r o3 :
  DecodeRune4 b0 (Some b1) (Some b2) None = (r, 3%nat) ->
  DecodeRune4 b0 (Some b1) (Some b2) o3 = (r, 3%nat).
Proof.
  unfold DecodeRune4.
  destruct (byte_val b0 <? RuneSelf); [intros H; congruence|].
  destruct (first (byte_val b0)) as [[[size lo] hi]|]; [|intros H; congruence].
  destruct ((byte_val b1 <? lo) || (hi <? byte_val b1)); [intros H; congruence|].
  destruct (size =? 2)%nat; [intros H; congruence|].
  destruct (negb (is_cont (byte_val b2))); [intros H; congruence|].
  destruct (size =? 3)%nat; [auto|]. intros H. congruence.
Qed.

Lemma DecodeRune4_ascii b0 o1 o2 o3 :
  (byte_val b0 <? RuneSelf) = true -> DecodeRune4 b0 o1 o2 o3 = (byte_val b0, 1%nat).
Proof. unfold DecodeRune4. intros ->. reflexivity. Qed.

(** The runes of a text that starts with the encoding of a valid rune. *)
Lemma DecodeRunes_EncodeRune (r : rune) (rest : list ascii) :
  ValidRune r = true ->
  DecodeRunes 0 (EncodeRune r ++ rest) = r :: DecodeRunes 0 rest.
Proof.
  intros Hv. pose proof (roundtrip_all r Hv) as H. unfold roundtrip_ok in H.
  rewrite Hv in H. cbn [negb orb] in H.
  destruct (EncodeRune r) as [|b0 [|b1 [|b2 [|b3 [|]]]]]; try discriminate H.
  - apply andb_true_iff in H as [H1 H2]. apply Z.eqb_eq in H2.
    cbn [List.app DecodeRunes DecodeRune]. rewrite (DecodeRune4_ascii _ _ _ _ H1), H2.
    reflexivity.
  - apply decodes_to_spec in H.
    cbn [List.app DecodeRunes DecodeRune lookup list_lookup].
    rewrite (DecodeRune4_width2 _ _ _ _ _ H). reflexivity.
  - apply decodes_to_spec in H.
    cbn [List.app DecodeRunes DecodeRune lookup list_lookup].
    rewrite (DecodeRune4_width3 _ _ _ _ _ H). reflexivity.
  - apply decodes_to_spec in H.
    cbn [List.app DecodeRunes DecodeRune lookup list_lookup].
    rewrite H. reflexivity.
Qed.

(** *** The runes the decoder returns *)

(** Every rune the decoder returns is a valid one. *)
Lemma DecodeRune4_valid b0 o1 o2 o3 : ValidRune (fst (DecodeRune4 b0 o1 o2 o3)) = true.
Proof.
  unfold DecodeRune4.
  pose proof (byte_val_range b0) as R0.
  destruct (byte_val b0 <? RuneSelf) eqn:E0; [cbn [fst]; unfold ValidRune, RuneSelf in *; lia|].
  destruct (first (byte_val b0)) as [[[size lo] hi]|] eqn:F; [|reflexivity].
  destruct o1 as [b1|]; [|reflexivity].
  pose proof (byte_val_range b1) as R1.
  destruct ((byte_val b1 <? lo) || (hi <? byte_val b1)) eqn:E1; [reflexivity|].
  unfold first in F.
  repeat match type of F with
         | (if ?c then _ else _) = _ => destruct c eqn:?
         end; try discriminate F; injection F as <- <- <-; cbn [Nat.eqb];
    repeat match goal with
      | |- context [match ?o with Some _ => _ | None => _ end] => destruct o as [?b|]; [|reflexivity]
      | |- context [if negb (is_cont ?x) then _ else _] =>
          let E := fresh "C" in destruct (is_cont x) eqn:E; cbn [negb]; [|reflexivity]
      end;
    cbn [fst]; rewrite ?decode2_value, ?decode3_value, ?decode4_value;
    unfold ValidRune, MaxRune, is_cont in *;
    repeat match goal with b : ascii |- _ => pose proof (byte_val_range b); generalize dependent (byte_val b); clear b; intros end;
    Z.div_mod_to_equations; lia.
Qed.

Lemma DecodeRunes_valid (skip : nat) (s : list ascii) :
  Forall (fun r => ValidRune r = true) (DecodeRunes skip s).
Proof.
  revert skip. induction s as [|c t IH]; intros skip; cbn [DecodeRunes]; [constructor|].
  destruct skip as [|k]; [|apply IH].
  destruct (DecodeRune (c :: t)) as [r size] eqn:E. constructor; [|apply IH].
  unfold DecodeRune in E.
  pose proof (DecodeRune4_valid c (t !! 0%nat) (t !! 1%nat) (t !! 2%nat)) as H.
  rewrite E in H. exact H.
Qed.

(** Writing valid runes and reading them back. *)
Lemma runes_write_runes (rs : list rune) :
  Forall (fun r => ValidRune r = true) rs -> runes (write_runes rs) = rs.
Proof.
  unfold runes, write_runes. rewrite list_ascii_of_string_of_list_ascii.
  induction 1 as [|r rs Hr _ IH]; [reflexivity|].
  cbn [flat_map].
  assert (Hneg : (r <? 0) = false) by (unfold ValidRune, MaxRune in Hr; lia).
  rewrite Hneg, DecodeRunes_EncodeRune by exact Hr. rewrite IH. reflexivity.
Qed.

End Utf8Facts.

(** ** strings.Title applied twice *)

Module TitleFacts.
Import Utf8 Strings Spec Utf8Facts.
Local Open Scope Z_scope.

Section WithTables.
Context {tables : UnicodeTables}.

Section Stable.
(** A set of runes on which title case is stable. *)
Variable good : rune -> bool.
Hypothesis good_valid : forall r, good r = true -> ValidRune r = true.
Hypothesis good_title : forall r, good r = true -> good (ToTitle r) = true.
Hypothesis good_idempotent : forall r, good r = true -> ToTitle (ToTitle r) = ToTitle r.
Hypothesis good_separator :
  forall r, good r = true -> isSeparator (ToTitle r) = isSeparator r.

Lemma title_runes_good prev rs :
  Forall (fun r => good r = true) rs ->
  Forall (fun r => good r = true) (title_runes prev rs).
Proof.
  intros H. revert prev. induction H as [|r rs Hr _ IH]; intros prev; cbn [title_runes];
    constructor; [|apply IH].
  destruct (isSeparator prev); [apply good_title|]; exact Hr.
Qed.

(** The closure of [Title] leaves its own output unchanged. *)
Lemma title_runes_idempotent rs :
  Forall (fun r => good r = true) rs ->
  forall prev prev', isSeparator prev' = isSeparator prev ->
    title_runes prev' (title_runes prev rs) = title_runes prev rs.
Proof.
  induction 1 as [|r rs Hr _ IH]; intros prev prev' Hsep; [reflexivity|].
  cbn [title_runes]. rewrite Hsep. destruct (isSeparator prev).
  - rewrite (good_idempotent r Hr). f_equal. apply IH, good_separator, Hr.
  - f_equal. apply IH. reflexivity.
Qed.

Lemma Title_Title_good (s : string) :
  Forall (fun r => good r = true) (runes s) -> Title (Title s) = Title s.
Proof.
  intros H. unfold Title. rewrite runes_write_runes.
  - rewrite title_runes_idempotent; [reflexivity | exact H | reflexivity].
  - eapply Forall_impl; [apply title_runes_good, H | exact good_valid].
Qed.

End Stable.

Lemma runes_ascii (s : string) :
  is_ascii s = true -> Forall (fun r => ascii_rune r = true) (runes s).
Proof.
  unfold runes. induction s as [|c s IH]; cbn [is_ascii list_ascii_of_string]; intros H.
  - constructor.
  - apply andb_true_iff in H as [Hc Hs].
    cbn [DecodeRunes DecodeRune]. rewrite (DecodeRune4_ascii _ _ _ _ Hc). cbn [Nat.pred].
    constructor; [|apply IH, Hs].
    unfold ascii_rune. pose proof (byte_val_range c). lia.
Qed.

Lemma Title_Title_ascii (s : string) : is_ascii s = true -> Title (Title s) = Title s.
Proof.
  intros H. apply (Title_Title_good ascii_rune); [| | | |apply runes_ascii, H];
    intros r Hr; unfold ascii_rune, RuneSelf in Hr.
  - unfold ValidRune, MaxRune. lia.
  - unfold ascii_rune, RuneSelf, ToTitle.
    destruct (r <=? 0x7F) eqn:E; [|lia].
    destruct ((0x61 <=? r) && (r <=? 0x7A)) eqn:E1; lia.
  - unfold ToTitle.
    destruct (r <=? 0x7F) eqn:E; [|lia].
    destruct ((0x61 <=? r) && (r <=? 0x7A)) eqn:E1.
    + destruct (r - 0x20 <=? 0x7F) eqn:E2; [|lia].
      destruct ((0x61 <=? r - 0x20) && (r - 0x20 <=? 0x7A)) eqn:E3; lia.
    + rewrite E, E1. reflexivity.
  - unfold ToTitle, isSeparator.
    destruct (r <=? 0x7F) eqn:E; [|lia].
    destruct ((0x61 <=? r) && (r <=? 0x7A)) eqn:E1; [|rewrite E, E1; reflexivity].
    destruct (r - 0x20 <=? 0x7F) eqn:E2; [|lia].
    destruct ((0x30 <=? r) && (r <=? 0x39)) eqn:E3; [lia|].
    destruct ((0x30 <=? r - 0x20) && (r - 0x20 <=? 0x39)) eqn:E4; [lia|].
    destruct ((0x61 <=? r - 0x20) && (r - 0x20 <=? 0x7A)) eqn:E5; [lia|].
    destruct ((0x41 <=? r - 0x20) && (r - 0x20 <=? 0x5A)) eqn:E6; [reflexivity | lia].
Qed.

Lemma Title_Title_stable (s : string) :
  (forall r, title_case_stable r = true) -> Title (Title s) = Title s.
Proof.
  intros stable.
  assert (Hs : forall r, ValidRune r = true ->
                 ValidRune (ToTitle r) = true
                 /\ ToTitle (ToTitle r) = ToTitle r
                 /\ isSeparator (ToTitle r) = isSeparator r).
  { intros r Hv. pose proof (stable r) as H. unfold title_case_stable in H.
    rewrite Hv in H. cbn [negb orb] in H.
    apply andb_true_iff in H as [H H3]. apply andb_true_iff in H as [H1 H2].
    split; [exact H1|]. split; [apply Z.eqb_eq, H2 | apply Bool.eqb_prop, H3]. }
  apply (Title_Title_good ValidRune); [auto | | | |apply DecodeRunes_valid];
    intros r Hr; apply (Hs r Hr).
Qed.

(** C3. [strings.Title] is idempotent and deterministic. Applied to its own
    output it returns that output: on every string of ASCII bytes whatever
    the tables of package unicode, and on every string when the tables
    give each valid rune a valid title case that is its own title case and
    is a separator exactly when the rune is. Equal inputs give equal
    outputs. The empty string need not be excluded. *)
Theorem Title_idempotent (s : string) :
  (is_ascii s = true -> Title (Title s) = Title s)
  /\ ((forall r, title_case_stable r = true) -> Title (Title s) = Title s)
  /\ (forall s', s' = s -> Title s' = Title s).
Proof.
  split; [apply Title_Title_ascii|]. split; [apply Title_Title_stable|].
  intros s' ->. reflexivity.
Qed.

End WithTables.

(** The fragment of the tables used in the examples is stable: by
    enumeration below [0x3100], and above because the fragment has no case
    pair there. *)
Lemma latin1_stable (r : rune) : title_case_stable (tables := latin1_tables) r = true.
Proof.
  destruct (ValidRune r) eqn:Hv; [|unfold title_case_stable; rewrite Hv; reflexivity].
  pose proof (ValidRune_range r Hv) as Hr.
  destruct (Z_lt_le_dec r 0x3100).
  - apply (check_range_spec (title_case_stable (tables := latin1_tables))
             (Z.to_pos 0x3100) 0).
    + vm_cast_no_check (eq_refl true).
    + change (Z.pos (Z.to_pos 0x3100)) with 0x3100. lia.
  - assert (Ht : ToTitle (tables := latin1_tables) r = r).
    { unfold ToTitle. replace (r <=? 0x7F) with false by lia.
      cbn [To_TitleCase latin1_tables]. unfold latin1_title.
      replace ((0xE0 <=? r) && (r <=? 0xFE) && negb (r =? 0xF7)) with false by lia.
      replace (r =? 0xFF) with false by lia. replace (r =? 0xB5) with false by lia.
      reflexivity. }
    unfold title_case_stable. rewrite !Ht, Hv, Z.eqb_refl, Bool.eqb_reflx. reflexivity.
Qed.

(** C3 on an identifier and on a text with an accented letter. *)
Lemma Title_idempotent_witness :
  Title (tables := latin1_tables) (Title (tables := latin1_tables) "user_name page-count")
  = Title (tables := latin1_tables) "user_name page-count"
  /\ Title (tables := latin1_tables) (Title (tables := latin1_tables) "élan vital")
     = Title (tables := latin1_tables) "élan vital".
Proof.
  split.
  - apply (proj1 (Title_idempotent (tables := latin1_tables) "user_name page-count")).
    reflexivity.
  - apply (proj1 (proj2 (Title_idempotent (tables := latin1_tables) "élan vital"))).
    exact latin1_stable.
Defined.

Lemma Title_examples :
  Title (tables := latin1_tables) "user_name page-count" = "User_name Page-Count"
  /\ Title (tables := latin1_tables) "élan vital" = "Élan Vital"
  /\ Title (tables := latin1_tables) "Élan Vital" = "Élan Vital".
Proof. repeat split; vm_compute; reflexivity. Qed.

End TitleFacts.

(** * Further properties *)

(** ** Which requests the handlers refuse *)

Module ErrorFacts.
Import Str Fmt Mcp McpFacts Server Spec.

Lemma RequireString_not_string request key v :
  Arguments request !! key = Some v -> (forall str, v <> AnyString str) ->
  RequireString request key = inr ("argument " ++ dq ++ key ++ dq ++ " is not a string").
Proof.
  unfold RequireString. intros -> H. destruct v; try reflexivity. exfalso. eapply H. reflexivity.
Qed.

Lemma GetString_not_string request key v d :
  Arguments request !! key = Some v -> (forall str, v <> AnyString str) ->
  GetString request key d = d.
Proof.
  unfold GetString. intros -> H. destruct v; try reflexivity. exfalso. eapply H. reflexivity.
Qed.

(** [RequireString] succeeds on string arguments only. *)
Lemma RequireString_inl request key str :
  RequireString request key = inl str <-> Arguments request !! key = Some (AnyString str).
Proof.
  unfold RequireString. destruct (Arguments request !! key) as [[s| | |]|]; split;
    intros H; try discriminate H; congruence.
Qed.

Lemma GetString_not_empty request key :
  GetString request key EmptyString <> EmptyString <->
  exists str, str <> EmptyString /\ Arguments request !! key = Some (AnyString str).
Proof.
  unfold GetString. destruct (Arguments request !! key) as [[s| | |]|]; split;
    try (intros H; contradiction); try (intros (str & _ & H); discriminate H).
  - intros H. exists s. auto.
  - intros (str & Hne & [= ->]). exact Hne.
Qed.

Section WithLibraries.
Context {tables : UnicodeTables} {json_errors : JsonErrors}.

(** X1. The application scaffold asks for [app_name] with [RequireString]: it
    refuses a request exactly when [app_name] is absent or is not a
    string, and says which; the empty string is accepted and interpolated,
    unlike in the four tools that take a model name. *)
Theorem app_handler_refuses (request : CallToolRequest) :
  (IsError (ProduceAppBoilerplate.ProduceAppBoilerplateHandler request) = false
   <-> exists appName, Arguments request !! "app_name" = Some (AnyString appName))
  /\ (Arguments request !! "app_name" = None ->
      ProduceAppBoilerplate.ProduceAppBoilerplateHandler request
      = NewToolResultError
          ("Error getting 'app_name': required argument " ++ dq ++ "app_name" ++ dq
           ++ " not found"))
  /\ (forall v, Arguments request !! "app_name" = Some v -> (forall str, v <> AnyString str) ->
      ProduceAppBoilerplate.ProduceAppBoilerplateHandler request
      = NewToolResultError
          ("Error getting 'app_name': argument " ++ dq ++ "app_name" ++ dq
           ++ " is not a string"))
  /\ (Arguments request !! "app_name" = Some (AnyString EmptyString) ->
      ProduceAppBoilerplate.ProduceAppBoilerplateHandler request
      = NewToolResultText
          (Sprintf ProduceAppBoilerplate.response_format
             [EmptyString; EmptyString; EmptyString; EmptyString; EmptyString; EmptyString])).
Proof.
  unfold ProduceAppBoilerplate.ProduceAppBoilerplateHandler.
  split; [split|]; [| |split; [|split]].
  - destruct (RequireString request "app_name") as [a|err] eqn:E; [|discriminate].
    intros _. exists a. apply RequireString_inl, E.
  - intros (a & Ha). rewrite (RequireString_present _ _ _ Ha). reflexivity.
  - intros Ha. rewrite (RequireString_absent _ _ Ha), Sprintf_text_operand. reflexivity.
  - intros v Hv Hns. rewrite (RequireString_not_string _ _ _ Hv Hns), Sprintf_text_operand.
    reflexivity.
  - intros Ha. rewrite (RequireString_present _ _ _ Ha). reflexivity.
Qed.

(** X2. The handlers of the service, API controller and HTML controller tools
    return a text result exactly when [app_name] is a string that is not
    empty and [model_name] is a string. *)
Theorem model_name_handlers_succeed_iff (t : tool) (request : CallToolRequest) :
  In t [produce_service_boilerplate; produce_api_controller_boilerplate;
        produce_html_controller_boilerplate] ->
  IsError (handler t request) = false
  <-> exists appName modelName,
        appName <> EmptyString
        /\ Arguments request !! "app_name" = Some (AnyString appName)
        /\ Arguments request !! "model_name" = Some (AnyString modelName).
Proof.
  intros Ht.
  assert (Htm : takes_model_name t = true).
  { simpl in Ht. destruct Ht as [<-|[<-|[<-|[]]]]; reflexivity. }
  destruct (String.eqb_spec (GetString request "app_name" EmptyString) EmptyString) as [He|Hne].
  - rewrite (HandlerFacts.handler_without_app_name t request Htm He).
    split; [discriminate|]. intros (a & m & Hne & Ha & _).
    rewrite (GetString_present _ _ _ Ha) in He. contradiction.
  - pose proof Hne as Hne'. apply GetString_not_empty in Hne' as (a & Ha' & Ha).
    destruct (RequireString request "model_name") as [m|err] eqn:E.
    + split.
      * intros _. exists a, m. apply RequireString_inl in E. auto.
      * intros _. simpl in Ht. destruct Ht as [<-|[<-|[<-|[]]]]; unfold handler;
          [ unfold ProduceServiceBoilerplate.ProduceServiceBoilerplateHandler
          | unfold ProduceApiControllerBoilerplate.ProduceApiControllerBoilerplateHandler
          | unfold ProduceHtmlControllerBoilerplate.ProduceHtmlControllerBoilerplateHandler ];
          rewrite (eqb_empty_false _ Hne), E; reflexivity.
    + split.
      * intros H. exfalso. revert H.
        simpl in Ht. destruct Ht as [<-|[<-|[<-|[]]]]; unfold handler;
          [ unfold ProduceServiceBoilerplate.ProduceServiceBoilerplateHandler
          | unfold ProduceApiControllerBoilerplate.ProduceApiControllerBoilerplateHandler
          | unfold ProduceHtmlControllerBoilerplate.ProduceHtmlControllerBoilerplateHandler ];
          rewrite (eqb_empty_false _ Hne), E; discriminate.
      * intros (a' & m & _ & _ & Hm).
        rewrite (RequireString_present _ _ _ Hm) in E. discriminate E.
Qed.

(** X3. The model handler returns a text result exactly when [app_name] is a
    string that is not empty, [model_name] and [fields] are strings, and
    the fields string decodes. *)
Theorem model_handler_succeeds_iff (request : CallToolRequest) :
  IsError (ProduceModelBoilerplate.ProduceModelBoilerplateHandler request) = false
  <-> exists appName modelName fieldsJSON fields,
        appName <> EmptyString
        /\ Arguments request !! "app_name" = Some (AnyString appName)
        /\ Arguments request !! "model_name" = Some (AnyString modelName)
        /\ Arguments request !! "fields" = Some (AnyString fieldsJSON)
        /\ Json.Unmarshal fieldsJSON = Some fields.
Proof.
  unfold ProduceModelBoilerplate.ProduceModelBoilerplateHandler.
  destruct (String.eqb_spec (GetString request "app_name" EmptyString) EmptyString) as [He|Hne].
  - split; [discriminate|]. intros (a & m & f & fs & Hne & Ha & _).
    rewrite (GetString_present _ _ _ Ha) in He. contradiction.
  - apply GetString_not_empty in Hne as (a & Hne & Ha).
    destruct (RequireString request "model_name") as [m|err] eqn:Em.
    + destruct (RequireString request "fields") as [f|err] eqn:Ef.
      * destruct (Json.Unmarshal f) as [fs|] eqn:Eu.
        -- split; [|reflexivity]. intros _. exists a, m, f, fs.
           apply RequireString_inl in Em. apply RequireString_inl in Ef. auto.
        -- split; [discriminate|]. intros (a' & m' & f' & fs & _ & _ & _ & Hf & Hu).
           rewrite (RequireString_present _ _ _ Hf) in Ef. injection Ef as <-. congruence.
      * split; [discriminate|]. intros (a' & m' & f' & fs & _ & _ & _ & Hf & _).
        rewrite (RequireString_present _ _ _ Hf) in Ef. discriminate Ef.
    + split; [discriminate|]. intros (a' & m' & f' & fs & _ & _ & Hm & _).
      rewrite (RequireString_present _ _ _ Hm) in Em. discriminate Em.
Qed.

(** X4. An argument that is not a string counts as absent for [app_name], which
    is read with [GetString], and is reported as not a string for
    [model_name], which is read with [RequireString]. *)
Theorem arguments_not_strings (t : tool) (request : CallToolRequest) (v : any) :
  In t [produce_model_boilerplate; produce_service_boilerplate;
        produce_api_controller_boilerplate; produce_html_controller_boilerplate] ->
  (forall str, v <> AnyString str) ->
  (Arguments request !! "app_name" = Some v ->
   handler t request = NewToolResultError "App name is required")
  /\ (GetString request "app_name" EmptyString <> EmptyString ->
      Arguments request !! "model_name" = Some v ->
      handler t request
      = NewToolResultError
          ("Error getting 'model_name': argument " ++ dq ++ "model_name" ++ dq
           ++ " is not a string")).
Proof.
  intros Ht Hv.
  assert (Htm : takes_model_name t = true).
  { simpl in Ht. destruct Ht as [<-|[<-|[<-|[<-|[]]]]]; reflexivity. }
  split.
  - intros Ha. apply (HandlerFacts.handler_without_app_name t request Htm).
    apply (GetString_not_string _ _ _ _ Ha Hv).
  - intros Hne Hm. simpl in Ht. destruct Ht as [<-|[<-|[<-|[<-|[]]]]]; unfold handler;
      [ unfold ProduceModelBoilerplate.ProduceModelBoilerplateHandler
      | unfold ProduceServiceBoilerplate.ProduceServiceBoilerplateHandler
      | unfold ProduceApiControllerBoilerplate.ProduceApiControllerBoilerplateHandler
      | unfold ProduceHtmlControllerBoilerplate.ProduceHtmlControllerBoilerplateHandler ];
      rewrite (eqb_empty_false _ Hne), (RequireString_not_string _ _ _ Hm Hv),
        Sprintf_text_operand; reflexivity.
Qed.

(** X5. The model handler looks at [fields] after the two names: with both
    names in order, a missing [fields] and a [fields] that is not a string
    are each reported by name, before any decoding. *)
Theorem fields_missing_or_not_string (request : CallToolRequest) (modelName : string) :
  GetString request "app_name" EmptyString <> EmptyString ->
  Arguments request !! "model_name" = Some (AnyString modelName) ->
  (Arguments request !! "fields" = None ->
   ProduceModelBoilerplate.ProduceModelBoilerplateHandler request
   = NewToolResultError
       ("Error getting 'fields': required argument " ++ dq ++ "fields" ++ dq ++ " not found"))
  /\ (forall v, Arguments request !! "fields" = Some v -> (forall str, v <> AnyString str) ->
      ProduceModelBoilerplate.ProduceModelBoilerplateHandler request
      = NewToolResultError
          ("Error getting 'fields': argument " ++ dq ++ "fields" ++ dq ++ " is not a string")).
Proof.
  intros Hne Hm. unfold ProduceModelBoilerplate.ProduceModelBoilerplateHandler.
  rewrite (eqb_empty_false _ Hne), (RequireString_present _ _ _ Hm). split.
  - intros Hf. rewrite (RequireString_absent _ _ Hf), Sprintf_text_operand. reflexivity.
  - intros v Hf Hv. rewrite (RequireString_not_string _ _ _ Hf Hv), Sprintf_text_operand.
    reflexivity.
Qed.

(** X6. Every parameter a schema marks required is enforced by the handler of
    the tool: a request without it gets an error result. *)
Theorem required_parameters_enforced (t : tool) (p : string) (request : CallToolRequest) :
  requires (definition t) p = true ->
  Arguments request !! p = None ->
  IsError (handler t request) = true.
Proof.
  intros Hreq Hp.
  assert (Hcases : (t = produce_app_boilerplate /\ p = "app_name")
                   \/ (takes_model_name t = true /\ p = "model_name")
                   \/ (t = produce_model_boilerplate /\ p = "fields")).
  { destruct t;
      cbv [requires definition ProduceAppBoilerplate.GetProduceAppBoilerplateTool
           ProduceModelBoilerplate.GetProduceModelBoilerplateTool
           ProduceServiceBoilerplate.GetProduceServiceBoilerplateTool
           ProduceApiControllerBoilerplate.GetProduceApiControllerBoilerplateTool
           ProduceHtmlControllerBoilerplate.GetProduceHtmlControllerBoilerplateTool
           FixApp.GetFixAppTool NewTool WithString Params ParamName Required existsb] in Hreq;
      repeat match type of Hreq with
        | context [String.eqb ?a p] =>
            destruct (String.eqb_spec a p) as [<-|?]; cbn [andb orb] in Hreq
        end; try discriminate Hreq; auto. }
  destruct Hcases as [[-> ->]|[[Htm ->]|[-> ->]]].
  - unfold handler, ProduceAppBoilerplate.ProduceAppBoilerplateHandler.
    rewrite (RequireString_absent _ _ Hp). reflexivity.
  - destruct (String.eqb_spec (GetString request "app_name" EmptyString) EmptyString) as [He|Hne].
    + rewrite (HandlerFacts.handler_without_app_name t request Htm He). reflexivity.
    + rewrite (HandlerFacts.handler_without_model_name t request _ Htm eq_refl Hne Hp).
      reflexivity.
  - unfold handler, ProduceModelBoilerplate.ProduceModelBoilerplateHandler.
    destruct (String.eqb (GetString request "app_name" EmptyString) EmptyString);
      [reflexivity|].
    destruct (RequireString request "model_name"); [|reflexivity].
    rewrite (RequireString_absent _ _ Hp). reflexivity.
Qed.

End WithLibraries.

(** The three tools on a request with the two names, and without the model
    name. *)
Lemma model_name_handlers_succeed_iff_witness :
  IsError (handler (tables := latin1_tables) (json_errors := sample_errors)
             produce_service_boilerplate
             (request [("app_name", AnyString "shop"); ("model_name", AnyString "book")]))
  = false.
Proof.
  apply (proj2 (model_name_handlers_succeed_iff
                  (tables := latin1_tables) (json_errors := sample_errors)
                  produce_service_boilerplate
                  (request [("app_name", AnyString "shop"); ("model_name", AnyString "book")])
                  (or_introl eq_refl))).
  exists "shop", "book". split; [discriminate|]. split; reflexivity.
Defined.

Lemma arguments_not_strings_witness :
  handler (tables := latin1_tables) (json_errors := sample_errors)
    produce_api_controller_boilerplate
    (request [("app_name", AnyNumber 7); ("model_name", AnyString "book")])
  = NewToolResultError "App name is required".
Proof.
  refine (proj1 (arguments_not_strings
                   (tables := latin1_tables) (json_errors := sample_errors)
                   produce_api_controller_boilerplate
                   (request [("app_name", AnyNumber 7); ("model_name", AnyString "book")])
                   (AnyNumber 7) _ _) eq_refl).
  - simpl. tauto.
  - discriminate.
Defined.

Lemma fields_missing_or_not_string_witness :
  ProduceModelBoilerplate.ProduceModelBoilerplateHandler
    (tables := latin1_tables) (json_errors := sample_errors)
    (request [("app_name", AnyString "shop"); ("model_name", AnyString "book")])
  = NewToolResultError
      ("Error getting 'fields': required argument " ++ dq ++ "fields" ++ dq ++ " not found").
Proof.
  refine (proj1 (fields_missing_or_not_string
                   (tables := latin1_tables) (json_errors := sample_errors)
                   (request [("app_name", AnyString "shop"); ("model_name", AnyString "book")])
                   "book" _ eq_refl) eq_refl).
  discriminate.
Defined.

Lemma required_parameters_enforced_witness :
  IsError (handler (tables := latin1_tables) (json_errors := sample_errors)
             produce_model_boilerplate
             (request [("app_name", AnyString "shop"); ("model_name", AnyString "book")]))
  = true.
Proof.
  exact (required_parameters_enforced
           (tables := latin1_tables) (json_errors := sample_errors)
           produce_model_boilerplate "fields"
           (request [("app_name", AnyString "shop"); ("model_name", AnyString "book")])
           eq_refl eq_refl).
Defined.

End ErrorFacts.

(** ** Decoding the fields string *)

Module DecodeFacts.
Import Str Fmt Mcp McpFacts Spec Notions Json.

Local Abbreviation chars := list_ascii_of_string.

Lemma chars_append (a b : string) : chars (a ++ b) = (chars a ++ chars b)%list.
Proof. induction a as [|c a IH]; [reflexivity | exact (f_equal (cons c) IH)]. Qed.

Lemma chars_cons c (s : string) : chars (String c s) = c :: chars s.
Proof. reflexivity. Qed.

Lemma string_of_chars (s : string) : string_of_list_ascii (chars s) = s.
Proof. apply string_of_list_ascii_of_string. Qed.

Lemma skip_space_stop c r : is_space c = false -> skip_space (c :: r) = c :: r.
Proof. intros H. cbn [skip_space]. rewrite H. reflexivity. Qed.

Lemma skip_space_blank (ws : string) (r : list ascii) :
  blank ws = true -> skip_space (chars ws ++ r) = skip_space r.
Proof.
  induction ws as [|c ws IH]; [reflexivity|].
  cbn [blank]. intros H. apply andb_true_iff in H as [Hc Hw].
  rewrite chars_cons. cbn [List.app skip_space]. rewrite Hc. exact (IH Hw).
Qed.

(** A plain string between double quotes is scanned to itself. *)
Lemma scan_string_plain (s : string) :
  plain s = true -> forall out rest,
    scan_string 0 (chars s ++ dquote :: rest) out
    = Some (string_of_list_ascii (List.rev out ++ chars s), rest).
Proof.
  induction s as [|c s IH]; intros Hp out rest.
  - cbn [chars List.app scan_string]. rewrite Ascii.eqb_refl, app_nil_r. reflexivity.
  - cbn [plain] in Hp. apply andb_true_iff in Hp as [Hc Hs].
    unfold plain_char in Hc. apply andb_true_iff in Hc as [Hc Hb].
    apply andb_true_iff in Hc as [Hr Hq]. apply negb_true_iff in Hq, Hb.
    rewrite chars_cons. cbn [List.app scan_string]. rewrite Hq, Hb.
    replace (Utf8.byte_val c <? 32)%Z with false by lia.
    replace (Utf8.byte_val c <? Utf8.RuneSelf)%Z with true by (unfold Utf8.RuneSelf; lia).
    rewrite (IH Hs). cbn [List.rev]. rewrite <- app_assoc. reflexivity.
Qed.

Lemma scan_value_quote depth (r : list ascii) :
  scan_value depth (dquote :: r)
  = match scan_string 0 r [] with
    | Some (str, r') => Some (Str str, r')
    | None => None
    end.
Proof. destruct depth; reflexivity. Qed.

Lemma scan_value_string depth (s : string) (rest : list ascii) :
  plain s = true ->
  scan_value depth (dquote :: chars s ++ dquote :: rest) = Some (Str s, rest).
Proof.
  intros Hp. rewrite scan_value_quote, (scan_string_plain s Hp).
  cbn [List.rev List.app]. rewrite string_of_chars. reflexivity.
Qed.

Section Members.
Variable scan : list ascii -> option (value * list ascii).
Hypothesis scan_plain : forall (s : string) rest,
  plain s = true -> scan (dquote :: chars s ++ dquote :: rest) = Some (Str s, rest).

Lemma scan_member_more n k v rest acc :
  plain k = true -> plain v = true ->
  scan_members scan (S n) (member_chars k v (","%char :: rest)) acc
  = scan_members scan n rest ((k, Str v) :: acc).
Proof.
  intros Hk Hv. unfold member_chars. cbn [scan_members].
  rewrite skip_space_stop by reflexivity. rewrite Ascii.eqb_refl.
  rewrite (scan_string_plain k Hk). cbn [List.rev List.app]. rewrite string_of_chars.
  rewrite skip_space_stop by reflexivity. cbn iota.
  rewrite (scan_plain v _ Hv).
  rewrite skip_space_stop by reflexivity. reflexivity.
Qed.

Lemma scan_member_last n k v rest acc :
  plain k = true -> plain v = true ->
  scan_members scan (S n) (member_chars k v ("}"%char :: rest)) acc
  = Some (List.rev ((k, Str v) :: acc), rest).
Proof.
  intros Hk Hv. unfold member_chars. cbn [scan_members].
  rewrite skip_space_stop by reflexivity. rewrite Ascii.eqb_refl.
  rewrite (scan_string_plain k Hk). cbn [List.rev List.app]. rewrite string_of_chars.
  rewrite skip_space_stop by reflexivity. cbn iota.
  rewrite (scan_plain v _ Hv).
  rewrite skip_space_stop by reflexivity. reflexivity.
Qed.

End Members.

Lemma scan_value_object depth (r : list ascii) :
  scan_value (S depth) ("{"%char :: dquote :: r)
  = match scan_members (scan_value depth) (S (length r)) (dquote :: r) [] with
    | Some (ms, r') => Some (Obj ms, r')
    | None => None
    end.
Proof. reflexivity. Qed.

Lemma scan_value_array depth (r : list ascii) :
  scan_value (S depth) ("["%char :: "{"%char :: r)
  = match scan_elements (scan_value depth) (S (length r)) ("{"%char :: r) [] with
    | Some (vs, r') => Some (Arr vs, r')
    | None => None
    end.
Proof. reflexivity. Qed.

(** The characters of the text of a descriptor. *)
Lemma chars_encode_descriptor (d : string * string) (rest : list ascii) :
  (chars (encode_descriptor d) ++ rest)%list
  = "{"%char :: member_chars "name" (fst d) (","%char :: member_chars "type" (snd d) ("}"%char :: rest)).
Proof.
  unfold encode_descriptor, json_object, json_member, member_chars.
  cbn [List.map Join fst snd].
  rewrite !chars_append. unfold dq. cbn [chars].
  repeat (rewrite <- ?app_assoc; cbn [List.app]). reflexivity.
Qed.

(** The text of a plain descriptor is scanned to the object of its two
    members. *)
Lemma scan_value_descriptor depth (d : string * string) (rest : list ascii) :
  plain_descriptor d = true ->
  scan_value (S depth) (chars (encode_descriptor d) ++ rest) = Some (descriptor_value d, rest).
Proof.
  unfold plain_descriptor. intros Hp. apply andb_true_iff in Hp as [Hn Ht].
  rewrite chars_encode_descriptor. unfold member_chars at 1.
  rewrite scan_value_object.
  fold (member_chars "name" (fst d) (","%char :: member_chars "type" (snd d) ("}"%char :: rest))).
  rewrite length_app. cbn [length]. rewrite Nat.add_succ_r.
  rewrite (scan_member_more _ (scan_value_string depth)) by (reflexivity || assumption).
  rewrite (scan_member_last _ (scan_value_string depth)) by (reflexivity || assumption).
  reflexivity.
Qed.

Lemma Join_cons (e e' : string) (l : list string) (sep : string) :
  Join (e :: e' :: l) sep = e ++ sep ++ Join (e' :: l) sep.
Proof. reflexivity. Qed.

(** The elements of an array of plain descriptors. *)
Lemma scan_elements_descriptors depth (ds : list (string * string)) :
  forall (d : string * string) n acc rest,
    forallb plain_descriptor (d :: ds) = true ->
    (length ds < n)%nat ->
    scan_elements (scan_value (S depth)) n
      (chars (Join (List.map encode_descriptor (d :: ds)) ",") ++ "]"%char :: rest) acc
    = Some ((List.rev acc ++ List.map descriptor_value (d :: ds))%list, rest).
Proof.
  induction ds as [|d' ds IH]; intros d n acc rest Hp Hn.
  - cbn [forallb] in Hp. apply andb_true_iff in Hp as [Hd _].
    destruct n as [|n]; [cbn [length] in Hn; lia|].
    cbn [List.map Join scan_elements].
    rewrite (scan_value_descriptor depth d _ Hd).
    rewrite skip_space_stop by reflexivity. reflexivity.
  - cbn [forallb] in Hp. apply andb_true_iff in Hp as [Hd Hds].
    destruct n as [|n]; [cbn [length] in Hn; lia|].
    assert (Hn' : (length ds < n)%nat) by (cbn [length] in Hn; lia).
    change (List.map encode_descriptor (d :: d' :: ds))
      with (encode_descriptor d :: encode_descriptor d' :: List.map encode_descriptor ds).
    rewrite Join_cons, !chars_append, <- !app_assoc.
    cbn [scan_elements]. rewrite (scan_value_descriptor depth d _ Hd).
    change (chars ",") with [","%char]. cbn [List.app].
    rewrite skip_space_stop by reflexivity. cbn iota.
    change (encode_descriptor d' :: List.map encode_descriptor ds)
      with (List.map encode_descriptor (d' :: ds)).
    rewrite (IH d' n (descriptor_value d :: acc) rest Hds Hn').
    cbn [List.rev]. rewrite <- app_assoc. reflexivity.
Qed.

Lemma length_Join_descriptors (d : string * string) (ds : list (string * string)) :
  (length ds < length (chars (Join (List.map encode_descriptor (d :: ds)) ",")))%nat.
Proof.
  revert d. induction ds as [|d' ds IH]; intros d.
  - cbn [List.map Join length].
    pose proof (chars_encode_descriptor d []) as H. rewrite app_nil_r in H. rewrite H.
    cbn [length]. lia.
  - change (List.map encode_descriptor (d :: d' :: ds))
      with (encode_descriptor d :: List.map encode_descriptor (d' :: ds)).
    cbn [List.map]. rewrite Join_cons, !chars_append, !length_app.
    specialize (IH d'). cbn [List.map] in IH. cbn [length]. 
    change (length (chars ",")) with 1%nat. lia.
Qed.

Lemma Join_head (d : string * string) (ds : list (string * string)) :
  exists t, chars (Join (List.map encode_descriptor (d :: ds)) ",") = "{"%char :: t.
Proof.
  destruct ds as [|d' ds].
  - cbn [List.map Join]. pose proof (chars_encode_descriptor d []) as H.
    rewrite app_nil_r in H. rewrite H. eexists. reflexivity.
  - change (List.map encode_descriptor (d :: d' :: ds))
      with (encode_descriptor d :: encode_descriptor d' :: List.map encode_descriptor ds).
    rewrite Join_cons, chars_append, chars_encode_descriptor. eexists. reflexivity.
Qed.

Lemma depth_two : exists k, maxNestingDepth = S (S k).
Proof. exists (Z.to_nat 9998). vm_compute. reflexivity. Qed.

(** The text of a list of plain descriptors is scanned to the array of
    their objects. *)
Lemma scan_descriptors (ds : list (string * string)) :
  forallb plain_descriptor ds = true ->
  scan (encode_descriptors ds) = Some (Arr (List.map descriptor_value ds)).
Proof.
  intros Hp. unfold scan. destruct depth_two as [k ->].
  destruct ds as [|d ds]; [reflexivity|].
  unfold encode_descriptors, json_array.
  rewrite !chars_append. change (chars "[") with ["["%char]. change (chars "]") with ["]"%char].
  pose proof (length_Join_descriptors d ds) as Hlen.
  pose proof (scan_elements_descriptors k ds d) as Hscan.
  destruct (Join_head d ds) as [t Ht]. rewrite Ht in *.
  cbn [List.app length] in *. rewrite scan_value_array.
  rewrite (Hscan (S (length (t ++ ["]"%char]))) [] [] Hp)
    by (rewrite length_app; cbn [length]; lia).
  reflexivity.
Qed.

(** The object of a descriptor is stored as its map. *)
Lemma to_slice_descriptors (ds : list (string * string)) :
  to_slice (Arr (List.map descriptor_value ds)) = Some (List.map descriptor_map ds).
Proof.
  cbn [to_slice]. apply mapM_Some.
  induction ds as [|d ds IH]; constructor; [reflexivity | exact IH].
Qed.

(** Decoding is a left inverse of writing, on plain descriptors. *)
Lemma Unmarshal_encode_descriptors (ds : list (string * string)) :
  forallb plain_descriptor ds = true ->
  Unmarshal (encode_descriptors ds) = Some (List.map descriptor_map ds).
Proof.
  intros Hp. unfold Unmarshal. rewrite (scan_descriptors ds Hp).
  exact (to_slice_descriptors ds).
Qed.

Lemma index_descriptor_map (d : string * string) :
  ProduceModelBoilerplate.index (descriptor_map d) "name" = fst d
  /\ ProduceModelBoilerplate.index (descriptor_map d) "type" = snd d.
Proof.
  unfold ProduceModelBoilerplate.index, descriptor_map. split.
  - rewrite lookup_insert_ne by discriminate. rewrite lookup_insert_eq. reflexivity.
  - rewrite lookup_insert_eq. reflexivity.
Qed.

Section WithLibraries.
Context {tables : UnicodeTables} {json_errors : JsonErrors}.
Import ProduceModelBoilerplate.

Lemma struct_fields_descriptors (ds : list (string * string)) :
  struct_fields (List.map descriptor_map ds)
  = List.map (fun d => field_line (fst d) (snd d)) ds.
Proof.
  rewrite ModelFacts.struct_fields_map, List.map_map. apply List.map_ext. intros d.
  rewrite ModelFacts.struct_field_line.
  destruct (index_descriptor_map d) as [-> ->]. reflexivity.
Qed.

(** X7. A fields string written from a list of plain descriptors is
    accepted, it decodes to the descriptors in their order, and the
    handler answers with the declaration that has the field line of each
    descriptor, in the same order. *)
Theorem plain_descriptors_accepted (request : CallToolRequest)
    (appName modelName : string) (ds : list (string * string)) :
  Arguments request !! "app_name" = Some (AnyString appName) ->
  appName <> EmptyString ->
  Arguments request !! "model_name" = Some (AnyString modelName) ->
  Arguments request !! "fields" = Some (AnyString (encode_descriptors ds)) ->
  forallb plain_descriptor ds = true ->
  Json.Unmarshal (encode_descriptors ds) = Some (List.map descriptor_map ds)
  /\ ProduceModelBoilerplateHandler request =
       NewToolResultText
         (Sprintf response_format
            [Strings.Title modelName; Strings.ToLower modelName;
             modelContent modelName (List.map descriptor_map ds);
             Strings.Title modelName; Strings.ToLower modelName; appName])
  /\ modelContent modelName (List.map descriptor_map ds) =
       lines ["package models"; EmptyString; "import " ++ dq ++ "gorm.io/gorm" ++ dq; EmptyString]
       ++ "type " ++ Strings.Title modelName ++ " struct {" ++ nl ++ tab ++ "gorm.Model" ++ nl
       ++ Join (List.map (fun d => field_line (fst d) (snd d)) ds) nl ++ nl ++ "}" ++ nl.
Proof.
  intros Happ Hne Hmodel Hfields Hp.
  pose proof (Unmarshal_encode_descriptors ds Hp) as Hdec.
  split; [exact Hdec|]. split.
  - rewrite (ModelFacts.handler_with_parameters request appName modelName _ Happ Hne Hmodel Hfields).
    rewrite Hdec. reflexivity.
  - rewrite DeclarationFacts.modelContent_text, struct_fields_descriptors. reflexivity.
Qed.

End WithLibraries.

End DecodeFacts.

(** ** Capitalization and lower case on ASCII names *)

Module AsciiFacts.
Import Str Spec Notions Utf8 Strings Utf8Facts.
Local Open Scope Z_scope.

Lemma to_byte_byte_val c : to_byte (byte_val c) = c.
Proof.
  pose proof (byte_val_range c) as Hc. unfold to_byte, byte_val in *.
  change 0xFF with (Z.ones 8). rewrite Z.land_ones by lia.
  rewrite Z.mod_small by (change (2 ^ 8) with 256; lia).
  rewrite N2Z.id. apply ascii_N_embedding.
Qed.

Lemma runes_ascii_bytes (s : string) :
  is_ascii s = true -> runes s = List.map byte_val (list_ascii_of_string s).
Proof.
  unfold runes. induction s as [|c s IH]; cbn [is_ascii list_ascii_of_string]; intros H.
  - reflexivity.
  - apply andb_true_iff in H as [Hc Hs].
    cbn [DecodeRunes DecodeRune List.map]. rewrite (DecodeRune4_ascii _ _ _ _ Hc).
    cbn [Nat.pred]. rewrite (IH Hs). reflexivity.
Qed.

Lemma write_runes_cons (r : rune) (rs : list rune) :
  0 <= r <= 0x7F -> write_runes (r :: rs) = String (to_byte r) (write_runes rs).
Proof.
  intros Hr. unfold write_runes. cbn [flat_map].
  replace (r <? 0) with false by lia. unfold EncodeRune.
  replace ((0 <=? r) && (r <=? 0x7F)) with true by lia. reflexivity.
Qed.

Lemma upper_byte_ascii c : byte_val c < RuneSelf -> byte_val (upper_byte c) < RuneSelf.
Proof.
  unfold upper_byte, RuneSelf. intros Hc. pose proof (byte_val_range c).
  destruct ((0x61 <=? byte_val c) && (byte_val c <=? 0x7A)) eqn:E; [|exact Hc].
  rewrite byte_val_to_byte; lia.
Qed.

Lemma lower_upper_byte c : lower_byte (upper_byte c) = lower_byte c.
Proof.
  unfold upper_byte. pose proof (byte_val_range c).
  destruct ((0x61 <=? byte_val c) && (byte_val c <=? 0x7A)) eqn:E; [|reflexivity].
  unfold lower_byte. rewrite byte_val_to_byte by lia.
  replace ((0x41 <=? byte_val c - 0x20) && (byte_val c - 0x20 <=? 0x5A)) with true by lia.
  replace ((0x41 <=? byte_val c) && (byte_val c <=? 0x5A)) with false by lia.
  replace (byte_val c - 0x20 + 0x20) with (byte_val c) by lia. apply to_byte_byte_val.
Qed.

Section WithTables.
Context {tables : UnicodeTables}.

Lemma isSeparator_byte c :
  byte_val c < RuneSelf -> isSeparator (byte_val c) = negb (word_byte c).
Proof.
  unfold RuneSelf, isSeparator, word_byte. intros Hc. cbv zeta.
  replace (byte_val c <=? 0x7F) with true by lia.
  destruct ((0x30 <=? byte_val c) && (byte_val c <=? 0x39)); [reflexivity|].
  destruct ((0x61 <=? byte_val c) && (byte_val c <=? 0x7A)); [reflexivity|].
  destruct ((0x41 <=? byte_val c) && (byte_val c <=? 0x5A)); [reflexivity|].
  destruct (byte_val c =? 0x5F); reflexivity.
Qed.

Lemma ToTitle_byte c :
  byte_val c < RuneSelf ->
  0 <= ToTitle (byte_val c) <= 0x7F /\ to_byte (ToTitle (byte_val c)) = upper_byte c.
Proof.
  unfold RuneSelf, ToTitle, upper_byte. intros Hc. pose proof (byte_val_range c).
  replace (byte_val c <=? 0x7F) with true by lia.
  destruct ((0x61 <=? byte_val c) && (byte_val c <=? 0x7A)) eqn:E.
  - split; [lia | reflexivity].
  - split; [lia | apply to_byte_byte_val].
Qed.

Lemma ToLower_byte c :
  byte_val c < RuneSelf ->
  0 <= ToLower_rune (byte_val c) <= 0x7F /\ to_byte (ToLower_rune (byte_val c)) = lower_byte c.
Proof.
  unfold RuneSelf, ToLower_rune, lower_byte. intros Hc. pose proof (byte_val_range c).
  replace (byte_val c <=? 0x7F) with true by lia.
  destruct ((0x41 <=? byte_val c) && (byte_val c <=? 0x5A)) eqn:E.
  - split; [lia | reflexivity].
  - split; [lia | apply to_byte_byte_val].
Qed.

Lemma title_runes_bytes (s : string) :
  is_ascii s = true -> forall prev,
    write_runes (title_runes prev (List.map byte_val (list_ascii_of_string s)))
    = title_bytes (negb (isSeparator prev)) s.
Proof.
  induction s as [|c s IH]; cbn [is_ascii]; intros H prev; [reflexivity|].
  apply andb_true_iff in H as [Hc Hs]. apply Z.ltb_lt in Hc.
  pose proof (byte_val_range c) as Hr. unfold RuneSelf in Hc.
  cbn [list_ascii_of_string List.map title_runes title_bytes].
  destruct (ToTitle_byte c Hc) as [Ht1 Ht2].
  rewrite write_runes_cons by (destruct (isSeparator prev); lia).
  rewrite (IH Hs), (isSeparator_byte c Hc), negb_involutive.
  destruct (isSeparator prev); cbn [negb]; [rewrite Ht2 | rewrite to_byte_byte_val]; reflexivity.
Qed.

Lemma Title_bytes (s : string) : is_ascii s = true -> Title s = title_bytes false s.
Proof.
  intros H. unfold Title. rewrite (runes_ascii_bytes s H).
  exact (title_runes_bytes s H 0x20).
Qed.

Lemma ToLower_bytes (s : string) : is_ascii s = true -> ToLower s = lower_bytes s.
Proof.
  intros H. unfold ToLower. rewrite (runes_ascii_bytes s H).
  induction s as [|c s IH]; [reflexivity|].
  cbn [is_ascii] in H. apply andb_true_iff in H as [Hc Hs]. apply Z.ltb_lt in Hc.
  cbn [list_ascii_of_string List.map lower_bytes].
  destruct (ToLower_byte c Hc) as [Hl1 Hl2].
  rewrite write_runes_cons by exact Hl1. rewrite Hl2, (IH Hs). reflexivity.
Qed.

Lemma title_bytes_ascii (s : string) b : is_ascii s = true -> is_ascii (title_bytes b s) = true.
Proof.
  revert b. induction s as [|c s IH]; intros b; cbn [is_ascii title_bytes]; [reflexivity|].
  intros H. apply andb_true_iff in H as [Hc Hs]. apply Z.ltb_lt in Hc.
  apply andb_true_iff. split; [|exact (IH _ Hs)].
  apply Z.ltb_lt. destruct b; [exact Hc | exact (upper_byte_ascii c Hc)].
Qed.

Lemma lower_title_bytes (s : string) b : lower_bytes (title_bytes b s) = lower_bytes s.
Proof.
  revert b. induction s as [|c s IH]; intros b; cbn [lower_bytes title_bytes]; [reflexivity|].
  rewrite IH. destruct b; [reflexivity | rewrite lower_upper_byte; reflexivity].
Qed.

Lemma length_title_bytes (s : string) b : String.length (title_bytes b s) = String.length s.
Proof.
  revert b. induction s as [|c s IH]; intros b; cbn [String.length title_bytes]; [reflexivity|].
  rewrite IH. reflexivity.
Qed.

Lemma length_lower_bytes (s : string) : String.length (lower_bytes s) = String.length s.
Proof.
  induction s as [|c s IH]; cbn [String.length lower_bytes]; [reflexivity|].
  rewrite IH. reflexivity.
Qed.

Lemma title_bytes_word (s : string) : word s = true -> title_bytes true s = s.
Proof.
  induction s as [|c s IH]; cbn [word title_bytes]; [reflexivity|].
  intros H. apply andb_true_iff in H as [Hc Hs]. rewrite Hc, (IH Hs). reflexivity.
Qed.

Lemma word_ascii (s : string) : word s = true -> is_ascii s = true.
Proof.
  induction s as [|c s IH]; cbn [word is_ascii]; [reflexivity|].
  intros H. apply andb_true_iff in H as [Hc Hs]. rewrite (IH Hs), andb_true_r.
  unfold word_byte in Hc. cbv zeta in Hc. unfold RuneSelf. lia.
Qed.

(** X10. On a name of ASCII bytes, [strings.Title] and [strings.ToLower]
    act byte by byte and do not consult the Unicode tables: a lower-case
    letter that does not follow a letter, a digit or an underscore is put
    in upper case, and every upper-case letter is put in lower case. Both
    keep the length of the name. *)
Theorem Title_ToLower_on_ascii (s : string) :
  is_ascii s = true ->
  Title s = title_bytes false s
  /\ ToLower s = lower_bytes s
  /\ String.length (Title s) = String.length s
  /\ String.length (ToLower s) = String.length s.
Proof.
  intros H. rewrite (Title_bytes s H), (ToLower_bytes s H).
  split; [reflexivity|]. split; [reflexivity|].
  split; [apply length_title_bytes | apply length_lower_bytes].
Qed.

(** X11. A name made of ASCII letters, digits and underscores is one word:
    [strings.Title] changes its first byte only, into upper case when it is
    a lower-case letter. *)
Theorem Title_of_a_word (c : ascii) (s : string) :
  word (String c s) = true -> Title (String c s) = String (upper_byte c) s.
Proof.
  intros H. rewrite (Title_bytes _ (word_ascii _ H)).
  cbn [word] in H. apply andb_true_iff in H as [Hc Hs].
  cbn [title_bytes]. rewrite Hc, (title_bytes_word s Hs). reflexivity.
Qed.

(** X12. The lower-case name is the same whether it is taken from the name
    as given or from the capitalized name. *)
Theorem ToLower_of_Title (s : string) :
  is_ascii s = true -> ToLower (Title s) = ToLower s.
Proof.
  intros H. rewrite (Title_bytes s H).
  rewrite (ToLower_bytes _ (title_bytes_ascii s false H)), (ToLower_bytes s H).
  apply lower_title_bytes.
Qed.

End WithTables.

End AsciiFacts.

(** ** Fields strings at the edges *)

Module FieldsFacts.
Import Str Fmt Mcp McpFacts Spec Notions Json DecodeFacts.

Local Abbreviation chars := list_ascii_of_string.

(** The scanner looks at a text from its first character after white
    space. *)
Lemma scan_value_space depth s s' :
  skip_space s = skip_space s' -> scan_value depth s = scan_value depth s'.
Proof. intros H. destruct depth; cbn [scan_value]; rewrite H; reflexivity. Qed.

Lemma skip_space_idempotent s : skip_space (skip_space s) = skip_space s.
Proof.
  induction s as [|c s IH]; [reflexivity|].
  cbn [skip_space]. destruct (is_space c) eqn:E; [exact IH|].
  cbn [skip_space]. rewrite E. reflexivity.
Qed.

(** The three literals. *)
Lemma scan_literal c t v r :
  match c :: t with
  | "t"%char :: "r"%char :: "u"%char :: "e"%char :: r' => Some (Bool true, r')
  | "f"%char :: "a"%char :: "l"%char :: "s"%char :: "e"%char :: r' => Some (Bool false, r')
  | "n"%char :: "u"%char :: "l"%char :: "l"%char :: r' => Some (Null, r')
  | _ => None
  end = Some (v, r) ->
  Ascii.eqb c "n"%char = false -> to_slice v = None.
Proof.
  intros H Hn.
  destruct c as [[] [] [] [] [] [] [] []]; try discriminate Hn; try discriminate H;
    cbv beta iota in H; repeat case_match; simplify_eq; reflexivity.
Qed.

(** A value that opens neither as an array nor as [null] is not stored
    into a slice. *)
Lemma scan_value_kind depth c t v r :
  scan_value depth (c :: t) = Some (v, r) -> is_space c = false ->
  Ascii.eqb c "["%char = false -> Ascii.eqb c "n"%char = false -> to_slice v = None.
Proof.
  intros H Hc Hb Hn.
  assert (Hs : skip_space (c :: t) = c :: t) by (apply skip_space_stop, Hc).
  assert (H' :
    (if Ascii.eqb c "{"%char then
       match depth with
       | O => None
       | S d =>
           match skip_space t with
           | "}"%char :: r' => Some (Obj [], r')
           | _ =>
               match scan_members (scan_value d) (length t) t [] with
               | Some (ms, r') => Some (Obj ms, r')
               | None => None
               end
           end
       end
     else if Ascii.eqb c dquote then
       match scan_string 0 t [] with
       | Some (str, r') => Some (Str str, r')
       | None => None
       end
     else if Ascii.eqb c "-"%char then
       match scan_number t with
       | Some r' => Some (Number, r')
       | None => None
       end
     else if is_digit c then
       match scan_number (c :: t) with
       | Some r' => Some (Number, r')
       | None => None
       end
     else
       match c :: t with
       | "t"%char :: "r"%char :: "u"%char :: "e"%char :: r' => Some (Bool true, r')
       | "f"%char :: "a"%char :: "l"%char :: "s"%char :: "e"%char :: r' => Some (Bool false, r')
       | "n"%char :: "u"%char :: "l"%char :: "l"%char :: r' => Some (Null, r')
       | _ => None
       end) = Some (v, r)).
  { rewrite <- H. destruct depth; cbn [scan_value]; rewrite Hs; cbn iota; rewrite Hb; reflexivity. }
  clear H. revert H'.
  destruct (Ascii.eqb c "{"%char).
  { destruct depth as [|d]; [discriminate|].
    destruct (scan_members (scan_value d) (length t) t []) as [[ms r']|];
      intros H; repeat case_match; simplify_eq; reflexivity. }
  destruct (Ascii.eqb c dquote).
  { destruct (scan_string 0 t []) as [[str r']|]; intros H; simplify_eq; reflexivity. }
  destruct (Ascii.eqb c "-"%char).
  { destruct (scan_number t); intros H; simplify_eq; reflexivity. }
  destruct (is_digit c).
  { destruct (scan_number (c :: t)); intros H; simplify_eq; reflexivity. }
  intros H. exact (scan_literal c t v r H Hn).
Qed.

Lemma first_char_skip (s : string) c :
  first_char s = Some c -> exists t, skip_space (chars s) = c :: t /\ is_space c = false.
Proof.
  unfold first_char. destruct (skip_space (chars s)) as [|c' t] eqn:E; [discriminate|].
  intros [= ->]. exists t. split; [reflexivity|].
  pose proof (skip_space_idempotent (chars s)) as Hi. rewrite E in Hi.
  cbn [skip_space] in Hi. destruct (is_space c); [|reflexivity].
  exfalso. clear E. revert Hi. generalize c. induction t as [|c' t IH]; intros c0 Hi.
  - discriminate Hi.
  - cbn [skip_space] in Hi. destruct (is_space c').
    + pose proof (f_equal (@length ascii) Hi) as Hl. cbn [length] in Hl.
      assert (Hle : forall l, (length (skip_space l) <= length l)%nat).
      { clear. induction l as [|x l IHl]; [reflexivity|].
        cbn [skip_space]. destruct (is_space x); cbn [length]; lia. }
      specialize (Hle t). lia.
    + pose proof (f_equal (@length ascii) Hi) as Hl. cbn [length] in Hl. lia.
Qed.

(** A fields string that opens neither as an array nor as [null] is not
    decoded. *)
Lemma Unmarshal_not_a_list (s : string) : opens_list s = false -> Unmarshal s = None.
Proof.
  unfold opens_list, Unmarshal, scan. intros H.
  destruct (first_char s) as [c|] eqn:Ec.
  - apply orb_false_iff in H as [Hb Hn].
    destruct (first_char_skip s c Ec) as (t & Hs & Hc).
    rewrite (scan_value_space _ (chars s) (c :: t))
      by (rewrite Hs; symmetry; apply skip_space_stop, Hc).
    destruct (scan_value maxNestingDepth (c :: t)) as [[v r]|] eqn:Ev; [|reflexivity].
    destruct (skip_space r); [|reflexivity].
    cbn. exact (scan_value_kind _ _ _ _ _ Ev Hc Hb Hn).
  - unfold first_char in Ec. destruct (skip_space (chars s)) eqn:Es; [|discriminate].
    destruct depth_two as [k ->]. cbn [scan_value]. rewrite Es. reflexivity.
Qed.

(** JSON [null] and the empty array, with white space around and inside,
    decode to the empty list. *)
Lemma Unmarshal_null (ws1 ws2 : string) :
  blank ws1 = true -> blank ws2 = true -> Unmarshal (ws1 ++ "null" ++ ws2) = Some [].
Proof.
  intros H1 H2. unfold Unmarshal, scan. rewrite !chars_append.
  rewrite (scan_value_space _ _ (chars "null" ++ chars ws2))
    by (rewrite (skip_space_blank ws1 _ H1); reflexivity).
  destruct depth_two as [k ->].
  change (scan_value (S (S k)) (chars "null" ++ chars ws2)) with (Some (Null, chars ws2)).
  rewrite <- (app_nil_r (chars ws2)), (skip_space_blank ws2 [] H2). reflexivity.
Qed.

Lemma scan_value_bracket depth (r : list ascii) :
  scan_value (S depth) ("["%char :: r)
  = match skip_space r with
    | "]"%char :: r' => Some (Arr [], r')
    | _ =>
        match scan_elements (scan_value depth) (length r) r [] with
        | Some (vs, r') => Some (Arr vs, r')
        | None => None
        end
    end.
Proof. reflexivity. Qed.

Lemma Unmarshal_empty_array (ws1 ws2 ws3 : string) :
  blank ws1 = true -> blank ws2 = true -> blank ws3 = true ->
  Unmarshal (ws1 ++ "[" ++ ws2 ++ "]" ++ ws3) = Some [].
Proof.
  intros H1 H2 H3. unfold Unmarshal, scan. rewrite !chars_append.
  rewrite (scan_value_space _ _ (chars "[" ++ chars ws2 ++ chars "]" ++ chars ws3))
    by (rewrite (skip_space_blank ws1 _ H1); reflexivity).
  destruct depth_two as [k ->].
  change (chars "[") with ["["%char]. change (chars "]") with ["]"%char]. cbn [List.app].
  rewrite scan_value_bracket, (skip_space_blank ws2 _ H2), skip_space_stop by reflexivity.
  cbn iota.
  rewrite <- (app_nil_r (chars ws3)), (skip_space_blank ws3 [] H3). reflexivity.
Qed.

Section WithLibraries.
Context {tables : UnicodeTables} {json_errors : JsonErrors}.
Import ProduceModelBoilerplate.

(** X8. A fields string whose first character after white space is neither
    an opening bracket nor an [n] is refused, whatever follows: the
    handler answers with the error of the decoder. An empty or blank
    string is such a string. *)
Theorem fields_not_a_list_refused (request : CallToolRequest)
    (appName modelName fieldsJSON : string) :
  Arguments request !! "app_name" = Some (AnyString appName) ->
  appName <> EmptyString ->
  Arguments request !! "model_name" = Some (AnyString modelName) ->
  Arguments request !! "fields" = Some (AnyString fieldsJSON) ->
  opens_list fieldsJSON = false ->
  Json.Unmarshal fieldsJSON = None
  /\ ProduceModelBoilerplateHandler request =
       NewToolResultError ("Invalid 'fields' JSON format: " ++ Unmarshal_error fieldsJSON).
Proof.
  intros Happ Hne Hmodel Hfields Hopen.
  pose proof (Unmarshal_not_a_list fieldsJSON Hopen) as Hdec.
  split; [exact Hdec|].
  rewrite (ModelFacts.handler_with_parameters request appName modelName _ Happ Hne Hmodel Hfields).
  rewrite Hdec. reflexivity.
Qed.

(** X9. A fields string that is [null] or the empty array, with any white
    space around it and between the brackets, is accepted as the empty
    list of fields: the declaration of the response has the [gorm.Model]
    line, an empty line and the closing brace. *)
Theorem empty_fields_accepted (request : CallToolRequest)
    (appName modelName fieldsJSON ws1 ws2 ws3 : string) :
  Arguments request !! "app_name" = Some (AnyString appName) ->
  appName <> EmptyString ->
  Arguments request !! "model_name" = Some (AnyString modelName) ->
  Arguments request !! "fields" = Some (AnyString fieldsJSON) ->
  blank ws1 = true -> blank ws2 = true -> blank ws3 = true ->
  fieldsJSON = ws1 ++ "null" ++ ws3 \/ fieldsJSON = ws1 ++ "[" ++ ws2 ++ "]" ++ ws3 ->
  Json.Unmarshal fieldsJSON = Some []
  /\ ProduceModelBoilerplateHandler request =
       NewToolResultText
         (Sprintf response_format
            [Strings.Title modelName; Strings.ToLower modelName; modelContent modelName [];
             Strings.Title modelName; Strings.ToLower modelName; appName])
  /\ modelContent modelName [] =
       lines ["package models"; EmptyString; "import " ++ dq ++ "gorm.io/gorm" ++ dq; EmptyString]
       ++ "type " ++ Strings.Title modelName ++ " struct {" ++ nl ++ tab ++ "gorm.Model" ++ nl
       ++ nl ++ "}" ++ nl.
Proof.
  intros Happ Hne Hmodel Hfields H1 H2 H3 Hshape.
  assert (Hdec : Json.Unmarshal fieldsJSON = Some []).
  { destruct Hshape as [-> | ->];
      [apply Unmarshal_null | apply Unmarshal_empty_array]; assumption. }
  split; [exact Hdec|]. split; [|reflexivity].
  rewrite (ModelFacts.handler_with_parameters request appName modelName _ Happ Hne Hmodel Hfields).
  rewrite Hdec. reflexivity.
Qed.

End WithLibraries.

End FieldsFacts.

(** ** What the responses print *)

Module ResponseFacts.
Import Str Fmt Mcp McpFacts Spec Notions.

(** The text printed for a format is the text printed for its first [k]
    directives followed by the text printed for the others. *)
Lemma doPrintf_skipn (k : nat) :
  forall (f : format) (a : list string) (n : nat) (r : bool),
    exists P n' r', doPrintf f a n r = P ++ doPrintf (List.skipn k f) a n' r'.
Proof.
  induction k as [|k IH]; intros f a n r.
  - exists EmptyString, n, r. reflexivity.
  - destruct f as [|d f].
    + exists EmptyString, n, r. reflexivity.
    + cbn [List.skipn].
      assert (Hstep : exists piece n1 r1, doPrintf (d :: f) a n r = piece ++ doPrintf f a n1 r1).
      { destruct d as [text| |[|i]|verb]; cbn [doPrintf].
        - eauto.
        - destruct (a !! n); eauto.
        - eauto.
        - destruct (a !! i); eauto.
        - destruct (a !! n); eauto. }
      destruct Hstep as (piece & n1 & r1 & ->).
      destruct (IH f a n1 r1) as (P & n' & r' & ->).
      exists (piece ++ P), n', r'. symmetry. apply DeclarationFacts.append_assoc_r.
Qed.

(** An operand printed between two literals. *)
Lemma Sprintf_prints_between (f : format) (k i : nat) (before after x : string)
    (a : list string) :
  prints_between f k i before after = true -> a !! i = Some x ->
  Contains (Sprintf f a) (before ++ x ++ after) = true.
Proof.
  unfold prints_between, Sprintf. intros H Hx.
  destruct (doPrintf_skipn k f a 0 false) as (P & n & r & ->).
  destruct (List.skipn k f) as [|[u| | |] [|[| |m|] [|[v| | |] rest]]]; try discriminate H.
  apply andb_true_iff in H as [H Hafter]. apply andb_true_iff in H as [Hm Hbefore].
  apply Nat.eqb_eq in Hm. subst m.
  apply StringFacts.HasSuffix_true in Hbefore as (u' & ->).
  apply StringFacts.HasPrefix_true in Hafter as (v' & ->).
  cbn [doPrintf]. rewrite Hx.
  rewrite !StringFacts.append_assoc.
  rewrite <- (StringFacts.append_assoc before), <- (StringFacts.append_assoc (before ++ x)).
  rewrite (StringFacts.append_assoc before).
  rewrite <- (StringFacts.append_assoc P).
  apply DeclarationFacts.Contains_middle.
Qed.

(** Two directives that strings do not have, after an indexed operand. *)
Lemma Sprintf_misprints_after (f : format) (k i : nat) (x verb y o1 o2 o3 : string)
    (a : list string) :
  misprints_after f k i x verb y = true ->
  a !! i = Some o1 -> a !! S i = Some o2 -> a !! S (S i) = Some o3 ->
  Contains (Sprintf f a) (o1 ++ x ++ badverb verb o2 ++ y ++ badverb verb o3) = true.
Proof.
  unfold misprints_after, Sprintf. intros H H1 H2 H3.
  destruct (doPrintf_skipn k f a 0 false) as (P & n & r & ->).
  destruct (List.skipn k f) as [|[| |m|] [|[x'| | |] [|[| | |v] [|[y'| | |] [|[| | |v'] rest]]]]];
    try discriminate H.
  repeat (apply andb_true_iff in H as [H ?]).
  apply Nat.eqb_eq in H. subst m.
  repeat match goal with E : String.eqb _ _ = true |- _ => apply String.eqb_eq in E; subst end.
  cbn [doPrintf]. rewrite H1, H2, H3.
  set (rest' := doPrintf rest a (S (S (S i))) true).
  assert (E : o1 ++ x ++ badverb verb o2 ++ y ++ badverb verb o3 ++ rest'
              = (o1 ++ x ++ badverb verb o2 ++ y ++ badverb verb o3) ++ rest')
    by (rewrite !StringFacts.append_assoc; reflexivity).
  rewrite E. apply DeclarationFacts.Contains_middle.
Qed.

Section WithLibraries.
Context {tables : UnicodeTables} {json_errors : JsonErrors}.

(** X13. The response of [produce_app_boilerplate] tells to create the
    directory of the application and to initialize the Go module under the
    name given, for every name, the empty one too. *)
Theorem app_response_commands (request : CallToolRequest) (appName : string) :
  Arguments request !! "app_name" = Some (AnyString appName) ->
  let response := Text (ProduceAppBoilerplate.ProduceAppBoilerplateHandler request) in
  Contains response ("`mkdir -p " ++ appName ++ "/cmd/web`") = true
  /\ Contains response ("`cd " ++ appName ++ " && go mod init ") = true
  /\ Contains response
       (" && go mod init " ++ appName ++ " && go get github.com/labstack/echo/v4 && go mod tidy`")
     = true.
Proof.
  intros Happ response. subst response.
  unfold ProduceAppBoilerplate.ProduceAppBoilerplateHandler.
  rewrite (RequireString_present _ _ _ Happ). cbn [Text NewToolResultText].
  split; [|split].
  - apply (Sprintf_prints_between _ 2 0); [lazy; reflexivity | reflexivity].
  - apply (Sprintf_prints_between _ 6 0); [lazy; reflexivity | reflexivity].
  - apply (Sprintf_prints_between _ 8 0); [lazy; reflexivity | reflexivity].
Qed.

(** X14. The response of [produce_model_boilerplate] names the model file
    by the lower-case model name and imports the models package of the
    application. *)
Theorem model_response_paths (request : CallToolRequest)
    (appName modelName fieldsJSON : string) (fields : list (gmap string string)) :
  Arguments request !! "app_name" = Some (AnyString appName) ->
  appName <> EmptyString ->
  Arguments request !! "model_name" = Some (AnyString modelName) ->
  Arguments request !! "fields" = Some (AnyString fieldsJSON) ->
  Json.Unmarshal fieldsJSON = Some fields ->
  let response := Text (ProduceModelBoilerplate.ProduceModelBoilerplateHandler request) in
  Contains response
    ("file at `internal/models/" ++ Strings.ToLower modelName ++ ".go` with the following content:")
  = true
  /\ Contains response (tab ++ dq ++ appName ++ "/internal/models" ++ dq) = true.
Proof.
  intros Happ Hne Hmodel Hfields Hdec response. subst response.
  rewrite (ModelFacts.handler_with_parameters request appName modelName _ Happ Hne Hmodel Hfields).
  rewrite Hdec. cbn [Text NewToolResultText].
  split.
  - apply (Sprintf_prints_between _ 2 1); [lazy; reflexivity | reflexivity].
  - rewrite <- StringFacts.append_assoc.
    apply (Sprintf_prints_between _ 10 5); [lazy; reflexivity | reflexivity].
Qed.

(** X15. The template of [produce_html_controller_boilerplate] holds two
    [%d] directives in each pagination link; the handler's own [Sprintf]
    takes them, and prints the operands after the second, both strings,
    with the mark of a wrong verb. *)
Theorem html_response_pagination_links (request : CallToolRequest) (appName modelName : string) :
  Arguments request !! "app_name" = Some (AnyString appName) ->
  appName <> EmptyString ->
  Arguments request !! "model_name" = Some (AnyString modelName) ->
  Contains
    (Text (ProduceHtmlControllerBoilerplate.ProduceHtmlControllerBoilerplateHandler request))
    (Strings.ToLower modelName ++ "s?page=" ++ "%!d(string=" ++ Strings.Title modelName ++ ")"
     ++ "&limit=" ++ "%!d(string=" ++ Strings.ToLower modelName ++ ")")
  = true.
Proof.
  intros Happ Hne Hmodel.
  unfold ProduceHtmlControllerBoilerplate.ProduceHtmlControllerBoilerplateHandler.
  rewrite (GetString_present _ _ _ Happ), (eqb_empty_false _ Hne).
  rewrite (RequireString_present _ _ _ Hmodel). cbn [Text NewToolResultText].
  set (t := Strings.Title modelName). set (l := Strings.ToLower modelName).
  replace (l ++ "s?page=" ++ "%!d(string=" ++ t ++ ")" ++ "&limit=" ++ "%!d(string=" ++ l ++ ")")
    with (l ++ "s?page=" ++ badverb "d" t ++ "&limit=" ++ badverb "d" l)
    by (unfold badverb; rewrite !StringFacts.append_assoc; reflexivity).
  apply (Sprintf_misprints_after _ 55 1 "s?page=" "d" "&limit=");
    [lazy; reflexivity | reflexivity..].
Qed.

End WithLibraries.

End ResponseFacts.

(** ** The handlers of [main.go] *)

Module MainFacts.
Import Str Fmt Mcp McpFacts Spec Notions StringFacts.

Lemma main_no_suffix_fence (x : string) : HasSuffix (x ++ ("    ```" ++ nl)) Main.hint = false.
Proof. unfold HasSuffix. rewrite rev_append. reflexivity. Qed.

Lemma main_no_suffix_quote (x : string) : HasSuffix (x ++ (dq ++ nl)) Main.hint = false.
Proof. unfold HasSuffix. rewrite rev_append. reflexivity. Qed.

Lemma main_no_suffix_checklist (appName : string) : HasSuffix (Main.checklist appName) Main.hint = false.
Proof.
  unfold Main.checklist. cbv zeta.
  match goal with
  | |- HasSuffix (FixApp.WriteString ?b _) _ = false => generalize b; intros x
  end.
  apply main_no_suffix_fence.
Qed.

Lemma main_suffix_of_response (appName errorMessage : string) :
  HasSuffix (Main.regarding (Main.checklist appName) errorMessage) Main.hint
  = Contains errorMessage Main.not_in_std.
Proof.
  unfold Main.regarding.
  destruct (String.eqb_spec errorMessage EmptyString) as [->|Hne].
  - rewrite main_no_suffix_checklist. reflexivity.
  - unfold FixApp.WriteString. rewrite FixAppHintFacts.Sprintf_one.
    destruct (Contains errorMessage Main.not_in_std).
    + apply HasSuffix_true. eauto.
    + rewrite <- (append_assoc (Main.checklist appName)), <- (append_assoc _ errorMessage).
      apply main_no_suffix_quote.
Qed.

(** X16. [fixAppHandler] of [main.go] never answers with an error; its
    response ends with the hint about import paths exactly when the error
    message contains [is not in std], and a message that is not empty is
    quoted in the response. *)
Theorem main_fix_app_response (request : CallToolRequest) :
  let errorMessage := GetString request "error_message" EmptyString in
  IsError (Main.fixAppHandler request) = false
  /\ HasSuffix (Text (Main.fixAppHandler request)) Main.hint
     = Contains errorMessage Main.not_in_std
  /\ (errorMessage <> EmptyString ->
      Contains (Text (Main.fixAppHandler request))
        ("Regarding your specific error: " ++ dq ++ errorMessage ++ dq ++ nl) = true)
  /\ (errorMessage = EmptyString ->
      Text (Main.fixAppHandler request)
      = Main.checklist (GetString request "app_name" EmptyString)).
Proof.
  intros errorMessage. subst errorMessage. unfold Main.fixAppHandler.
  cbn [Text IsError NewToolResultText].
  generalize (GetString request "app_name" EmptyString) as appName.
  generalize (GetString request "error_message" EmptyString) as errorMessage.
  intros errorMessage appName.
  split; [reflexivity|]. split; [apply main_suffix_of_response|]. split.
  - intros Hne. unfold Main.regarding. rewrite (eqb_empty_false _ Hne).
    unfold FixApp.WriteString. rewrite FixAppHintFacts.Sprintf_one.
    set (b := Main.checklist appName).
    set (m := "Regarding your specific error: " ++ dq ++ errorMessage ++ dq ++ nl).
    assert (E : b ++ (nl ++ nl ++ "Regarding your specific error: " ++ dq) ++ errorMessage ++ dq ++ nl
                = (b ++ nl ++ nl) ++ m ++ EmptyString).
    { subst m. rewrite append_empty_r, !append_assoc. reflexivity. }
    destruct (Contains errorMessage Main.not_in_std).
    + rewrite E, !append_assoc. rewrite <- (append_assoc b), <- (append_assoc (b ++ nl)).
      change (EmptyString ++ Main.hint) with Main.hint.
      rewrite (append_assoc b nl nl). apply DeclarationFacts.Contains_middle.
    + rewrite E. apply DeclarationFacts.Contains_middle.
  - intros ->. reflexivity.
Qed.

(** The templates that [main.go] and package tools share. *)
Lemma createApp_format_same : Main.createApp_format = ProduceAppBoilerplate.response_format.
Proof. reflexivity. Qed.

Lemma model_format_same : Main.model_format = ProduceModelBoilerplate.model_format.
Proof. reflexivity. Qed.

Lemma field_format_same : Main.field_format = ProduceModelBoilerplate.field_format.
Proof. reflexivity. Qed.

Ltac done_IsError := cbn [IsError NewToolResultText NewToolResultError]; reflexivity.

Ltac same_error :=
  cbn [IsError NewToolResultText NewToolResultError];
  intros Hfalse; first [discriminate Hfalse | reflexivity].

Section WithLibraries.
Context {tables : UnicodeTables} {json_errors : JsonErrors}.

(** X17. The handlers of [main.go] refuse the requests that the handlers of
    package tools which took their place refuse, with the same error
    result; [createAppHandler] and [ProduceAppBoilerplateHandler] give the
    same result on every request, and [createModelHandler] writes the same
    declaration as [ProduceModelBoilerplateHandler]. *)
Theorem main_handlers_refuse_alike (t : Main.tool) (request : CallToolRequest) :
  IsError (Main.handler t request) = IsError (Server.handler (Main.successor t) request)
  /\ (IsError (Main.handler t request) = true ->
      Main.handler t request = Server.handler (Main.successor t) request)
  /\ Main.createAppHandler request = ProduceAppBoilerplate.ProduceAppBoilerplateHandler request
  /\ (forall modelName fields,
        Main.modelContent modelName fields
        = ProduceModelBoilerplate.modelContent modelName fields).
Proof.
  split; [|split; [|split]].
  - destruct t; cbn [Main.handler Server.handler Main.successor].
    + unfold Main.createAppHandler, ProduceAppBoilerplate.ProduceAppBoilerplateHandler.
      destruct (RequireString request "app_name"); done_IsError.
    + unfold Main.createModelHandler, ProduceModelBoilerplate.ProduceModelBoilerplateHandler.
      cbv zeta. destruct (String.eqb _ _); [done_IsError|].
      destruct (RequireString request "model_name"); [|done_IsError].
      destruct (RequireString request "fields"); [|done_IsError].
      destruct (Json.Unmarshal _); done_IsError.
    + unfold Main.createModelControllerHandler,
        ProduceApiControllerBoilerplate.ProduceApiControllerBoilerplateHandler.
      cbv zeta. destruct (String.eqb _ _); [done_IsError|].
      destruct (RequireString request "model_name"); done_IsError.
    + unfold Main.createServiceHandler, ProduceServiceBoilerplate.ProduceServiceBoilerplateHandler.
      cbv zeta. destruct (String.eqb _ _); [done_IsError|].
      destruct (RequireString request "model_name"); done_IsError.
    + done_IsError.
  - destruct t; cbn [Main.handler Server.handler Main.successor].
    + unfold Main.createAppHandler, ProduceAppBoilerplate.ProduceAppBoilerplateHandler.
      destruct (RequireString request "app_name"); same_error.
    + unfold Main.createModelHandler, ProduceModelBoilerplate.ProduceModelBoilerplateHandler.
      cbv zeta. destruct (String.eqb _ _); [same_error|].
      destruct (RequireString request "model_name"); [|same_error].
      destruct (RequireString request "fields"); [|same_error].
      destruct (Json.Unmarshal _); same_error.
    + unfold Main.createModelControllerHandler,
        ProduceApiControllerBoilerplate.ProduceApiControllerBoilerplateHandler.
      cbv zeta. destruct (String.eqb _ _); [same_error|].
      destruct (RequireString request "model_name"); same_error.
    + unfold Main.createServiceHandler, ProduceServiceBoilerplate.ProduceServiceBoilerplateHandler.
      cbv zeta. destruct (String.eqb _ _); [same_error|].
      destruct (RequireString request "model_name"); same_error.
    + unfold Main.fixAppHandler. same_error.
  - unfold Main.createAppHandler, ProduceAppBoilerplate.ProduceAppBoilerplateHandler.
    rewrite createApp_format_same. reflexivity.
  - intros modelName fields.
    unfold Main.modelContent, ProduceModelBoilerplate.modelContent,
      Main.struct_fields, ProduceModelBoilerplate.struct_fields,
      Main.struct_field, ProduceModelBoilerplate.struct_field, ProduceModelBoilerplate.index.
    rewrite model_format_same, field_format_same. reflexivity.
Qed.

End WithLibraries.

End MainFacts.

(** ** What fix_app echoes *)

Module FixAppEchoFacts.
Import Str Fmt Mcp McpFacts Spec FixApp StringFacts FixAppHintFacts.

Lemma HasPrefix_append_l (b x p : string) : HasPrefix b p = true -> HasPrefix (b ++ x) p = true.
Proof.
  intros H. apply HasPrefix_true in H as (v & ->). apply HasPrefix_true.
  exists (v ++ x). apply append_assoc.
Qed.

(** The checklist opens with its first line and, for a name that is not
    empty, the line that names the application. *)
Lemma checklist_heading (appName : string) :
  HasPrefix (checklist appName)
    ("Here are some pointers to address common issues in your Echo web application:" ++ nl ++ nl
     ++ (if String.eqb appName EmptyString then EmptyString
         else "For application '" ++ appName ++ "':" ++ nl)
     ++ "1.  **Go Module Paths**") = true.
Proof.
  rewrite checklist_text. unfold checklist_segments.
  destruct (String.eqb appName EmptyString).
  - cbn [List.app text segment_text].
    match goal with
    | |- HasPrefix (_ ++ (_ ++ ?big)) _ = true => generalize big; intros others
    end.
    apply HasPrefix_true. eexists. rewrite !append_assoc. reflexivity.
  - cbn [List.app text segment_text].
    match goal with
    | |- HasPrefix (_ ++ _ ++ _ ++ _ ++ (_ ++ ?big)) _ = true => generalize big; intros others
    end.
    apply HasPrefix_true. eexists. rewrite !append_assoc. reflexivity.
Qed.

(** X18. The response of [fix_app] opens with the first line of the
    checklist, followed by the line that names the application exactly
    when [app_name] is a string that is not empty, and then by the first
    point; an error message that is not empty is quoted in the
    response. *)
Theorem fix_app_heading_and_quote (request : CallToolRequest) :
  let appName := GetString request "app_name" EmptyString in
  let errorMessage := GetString request "error_message" EmptyString in
  HasPrefix (Text (FixAppHandler request))
    ("Here are some pointers to address common issues in your Echo web application:" ++ nl ++ nl
     ++ (if String.eqb appName EmptyString then EmptyString
         else "For application '" ++ appName ++ "':" ++ nl)
     ++ "1.  **Go Module Paths**") = true
  /\ (errorMessage <> EmptyString ->
      Contains (Text (FixAppHandler request))
        ("Regarding your specific error: " ++ dq ++ errorMessage ++ dq ++ nl) = true).
Proof.
  intros appName errorMessage. subst appName errorMessage. unfold FixAppHandler.
  cbn [Text NewToolResultText].
  generalize (GetString request "app_name" EmptyString) as appName.
  generalize (GetString request "error_message" EmptyString) as errorMessage.
  intros errorMessage appName. split.
  - rewrite regarding_text. apply HasPrefix_append_l, checklist_heading.
  - intros Hne. unfold regarding. rewrite (eqb_empty_false _ Hne).
    unfold WriteString. rewrite Sprintf_one.
    set (b := checklist appName).
    set (m := "Regarding your specific error: " ++ dq ++ errorMessage ++ dq ++ nl).
    assert (E : b ++ (nl ++ nl ++ "Regarding your specific error: " ++ dq) ++ errorMessage ++ dq ++ nl
                = (b ++ nl ++ nl) ++ m ++ EmptyString).
    { subst m. rewrite append_empty_r, !append_assoc. reflexivity. }
    destruct (Contains errorMessage not_in_std).
    + rewrite E, !append_assoc. rewrite <- (append_assoc b), <- (append_assoc (b ++ nl)).
      change (EmptyString ++ hint) with hint.
      rewrite (append_assoc b nl nl). apply DeclarationFacts.Contains_middle.
    + rewrite E. apply DeclarationFacts.Contains_middle.
Qed.

End FixAppEchoFacts.

(** ** Templates and their operands *)

Module TemplateFacts.
Import Str Fmt Mcp McpFacts Spec Notions.

Lemma doPrintf_substitute (a : list string) (f : format) :
  forallb (fun d => match d with
                    | Lit _ => true
                    | Verb_s_at (S i) => (i <? length a)%nat
                    | _ => false
                    end) f = true ->
  forall (n : nat) (r : bool),
    r = true \/ existsb (fun d => match d with Verb_s_at _ => true | _ => false end) f = true ->
    doPrintf f a n r = substitute f a.
Proof.
  induction f as [|d f IH]; intros Hall n r Hr.
  - destruct Hr as [->|Hr]; [reflexivity | discriminate Hr].
  - cbn [forallb] in Hall. apply andb_true_iff in Hall as [Hd Hall].
    destruct d as [x| |[|i]|v]; try discriminate Hd.
    + cbn [doPrintf substitute]. f_equal. apply (IH Hall).
      destruct Hr as [Hr|Hr]; [left; exact Hr | right; exact Hr].
    + apply Nat.ltb_lt in Hd. apply lookup_lt_is_Some in Hd as [x Hx].
      cbn [doPrintf substitute]. rewrite Hx. cbn [default]. f_equal.
      apply (IH Hall). left. reflexivity.
Qed.

Lemma Sprintf_substitute (f : format) (a : list string) :
  indexed_within (length a) f = true -> Sprintf f a = substitute f a.
Proof.
  unfold indexed_within, Sprintf. intros H. apply andb_true_iff in H as [Hall Hex].
  apply (doPrintf_substitute a f Hall). right. exact Hex.
Qed.

(** X20. The templates of the application, model, service and API
    controller tools, and those of [main.go], are made of literals and of
    indexed [%[n]s] directives within the operands given: what is printed
    is the template with the operands at their places, and the printing
    adds no mark of a missing, extra or ill-typed operand, whatever the
    operands are. *)
Theorem templates_print_operands_only (a : list string) :
  (length a = 6%nat ->
   Sprintf ProduceAppBoilerplate.response_format a
   = substitute ProduceAppBoilerplate.response_format a
   /\ Sprintf ProduceModelBoilerplate.response_format a
      = substitute ProduceModelBoilerplate.response_format a
   /\ Sprintf Main.createModel_format a = substitute Main.createModel_format a)
  /\ (length a = 5%nat ->
      Sprintf ProduceApiControllerBoilerplate.response_format a
      = substitute ProduceApiControllerBoilerplate.response_format a
      /\ Sprintf Main.createModelController_format a
         = substitute Main.createModelController_format a)
  /\ (length a = 3%nat ->
      Sprintf ProduceServiceBoilerplate.response_format a
      = substitute ProduceServiceBoilerplate.response_format a
      /\ Sprintf Main.createService_format a = substitute Main.createService_format a).
Proof.
  split; [|split]; intros Hlen; repeat apply conj;
    apply Sprintf_substitute; rewrite Hlen; lazy; reflexivity.
Qed.

Section WithLibraries.
Context {tables : UnicodeTables} {json_errors : JsonErrors}.

(** X19. The responses of the service and API controller tools name the
    directory of the model by the lower-case model name and import the
    packages of the application by its name. *)
Theorem service_and_api_response_paths (request : CallToolRequest) (appName modelName : string) :
  Arguments request !! "app_name" = Some (AnyString appName) ->
  appName <> EmptyString ->
  Arguments request !! "model_name" = Some (AnyString modelName) ->
  let service :=
    Text (ProduceServiceBoilerplate.ProduceServiceBoilerplateHandler request) in
  let api :=
    Text (ProduceApiControllerBoilerplate.ProduceApiControllerBoilerplateHandler request) in
  Contains service ("mkdir -p internal/service/" ++ Strings.ToLower modelName ++ nl) = true
  /\ Contains service (tab ++ dq ++ appName ++ "/internal/repository" ++ dq) = true
  /\ Contains api ("`mkdir -p internal/controllers/" ++ Strings.ToLower modelName ++ "`") = true
  /\ Contains api (tab ++ dq ++ appName ++ "/internal/service" ++ dq) = true.
Proof.
  intros Happ Hne Hmodel service api. subst service api.
  unfold ProduceServiceBoilerplate.ProduceServiceBoilerplateHandler,
    ProduceApiControllerBoilerplate.ProduceApiControllerBoilerplateHandler.
  rewrite (GetString_present _ _ _ Happ), (eqb_empty_false _ Hne).
  rewrite (RequireString_present _ _ _ Hmodel). cbn [Text NewToolResultText].
  split; [|split; [|split]].
  - apply (ResponseFacts.Sprintf_prints_between _ 32 1); [lazy; reflexivity | reflexivity].
  - rewrite <- StringFacts.append_assoc. apply (ResponseFacts.Sprintf_prints_between _ 40 2); [lazy; reflexivity | reflexivity].
  - apply (ResponseFacts.Sprintf_prints_between _ 2 1); [lazy; reflexivity | reflexivity].
  - rewrite <- StringFacts.append_assoc. apply (ResponseFacts.Sprintf_prints_between _ 6 4); [lazy; reflexivity | reflexivity].
Qed.

End WithLibraries.

End TemplateFacts.

(** ** The lines of the declaration *)

Module LineFacts.
Import Str Fmt Mcp McpFacts Spec Notions Utf8 Strings.

Lemma plain_char_not_newline c : plain_char c = true -> Ascii.eqb newline c = false.
Proof.
  intros H. destruct (Ascii.eqb_spec newline c) as [<-|Hne]; [discriminate H | reflexivity].
Qed.

Lemma plain_no_newline (s : string) : plain s = true -> mem newline s = false.
Proof.
  induction s as [|c s IH]; cbn [plain mem]; [reflexivity|].
  intros H. apply andb_true_iff in H as [Hc Hs].
  rewrite (plain_char_not_newline c Hc), (IH Hs). reflexivity.
Qed.

Lemma plain_ascii (s : string) : plain s = true -> is_ascii s = true.
Proof.
  induction s as [|c s IH]; cbn [plain is_ascii]; [reflexivity|].
  intros H. apply andb_true_iff in H as [Hc Hs]. rewrite (IH Hs), andb_true_r.
  unfold plain_char in Hc. unfold RuneSelf. lia.
Qed.

Lemma upper_byte_not_newline c :
  Ascii.eqb newline c = false -> Ascii.eqb newline (upper_byte c) = false.
Proof.
  intros Hc. unfold upper_byte.
  destruct ((97 <=? byte_val c) && (byte_val c <=? 122))%Z eqn:E; [|exact Hc].
  destruct (Ascii.eqb_spec newline (to_byte (byte_val c - 32))) as [Heq|]; [|reflexivity].
  pose proof (Utf8Facts.byte_val_range c).
  apply (f_equal byte_val) in Heq. rewrite Utf8Facts.byte_val_to_byte in Heq by lia.
  change (byte_val newline) with 10%Z in Heq. lia.
Qed.

Lemma title_bytes_no_newline (s : string) (b : bool) :
  mem newline s = false -> mem newline (title_bytes b s) = false.
Proof.
  revert b. induction s as [|c s IH]; intros b; cbn [mem title_bytes]; [reflexivity|].
  intros H. apply orb_false_elim in H as [Hc Hs]. rewrite (IH _ Hs), orb_false_r.
  destruct b; [exact Hc | exact (upper_byte_not_newline c Hc)].
Qed.

Section WithTables.
Context {tables : UnicodeTables}.

(** The field line of a plain descriptor holds no newline. *)
Lemma field_line_no_newline (d : string * string) :
  plain_descriptor d = true -> mem newline (field_line (fst d) (snd d)) = false.
Proof.
  unfold plain_descriptor. intros H. apply andb_true_iff in H as [Hn Ht].
  unfold field_line. rewrite (AsciiFacts.Title_bytes _ (plain_ascii _ Hn)).
  rewrite !StringFacts.mem_append.
  rewrite (title_bytes_no_newline _ false (plain_no_newline _ Hn)).
  rewrite (plain_no_newline _ Hn), (plain_no_newline _ Ht). reflexivity.
Qed.

(** X21. The field lines of plain descriptors hold no newline, so that the
    text between the [gorm.Model] line and the closing brace of the
    declaration has exactly one line for each descriptor, in the order of
    the descriptors. *)
Theorem plain_descriptors_one_line_each (ds : list (string * string)) :
  ds <> [] -> forallb plain_descriptor ds = true ->
  text_lines (Join (ProduceModelBoilerplate.struct_fields (List.map descriptor_map ds)) nl)
  = List.map (fun d => field_line (fst d) (snd d)) ds
  /\ length (text_lines
               (Join (ProduceModelBoilerplate.struct_fields (List.map descriptor_map ds)) nl))
     = length ds.
Proof.
  intros Hne Hp.
  assert (E : text_lines
                (Join (ProduceModelBoilerplate.struct_fields (List.map descriptor_map ds)) nl)
              = List.map (fun d => field_line (fst d) (snd d)) ds).
  { rewrite DecodeFacts.struct_fields_descriptors.
    apply DeclarationFacts.text_lines_Join.
    - destruct ds; [contradiction | discriminate].
    - intros l Hl. apply in_map_iff in Hl as (d & <- & Hd).
      apply field_line_no_newline.
      rewrite forallb_forall in Hp. exact (Hp d Hd). }
  split; [exact E|]. rewrite E. apply length_map.
Qed.

End WithTables.

End LineFacts.

(** ** The further properties on the requests of the examples *)

Module FurtherWitnesses.
Import Str Fmt Mcp McpFacts Spec Notions.

(** A request for [produce_app_boilerplate], and one for the handlers that
    read a model name. *)
Lemma app_handler_refuses_witness :
  ProduceAppBoilerplate.ProduceAppBoilerplateHandler (request [])
  = NewToolResultError
      ("Error getting 'app_name': required argument " ++ dq ++ "app_name" ++ dq ++ " not found").
Proof.
  exact (proj1 (proj2 (ErrorFacts.app_handler_refuses (request []))) eq_refl).
Defined.

Lemma model_handler_succeeds_iff_witness :
  IsError (ProduceModelBoilerplate.ProduceModelBoilerplateHandler
             (tables := latin1_tables) (json_errors := sample_errors) sample_request) = false.
Proof.
  apply (proj2 (ErrorFacts.model_handler_succeeds_iff
                  (tables := latin1_tables) (json_errors := sample_errors) sample_request)).
  exists "shop", "book", sample_fields, sample_decoded.
  split; [discriminate|]. split; [reflexivity|]. split; [reflexivity|].
  split; [reflexivity | vm_compute; reflexivity].
Defined.

Lemma plain_descriptors_accepted_witness :
  Json.Unmarshal (encode_descriptors [("title", "string"); ("pages", "int")])
  = Some (List.map descriptor_map [("title", "string"); ("pages", "int")]).
Proof.
  refine (proj1 (DecodeFacts.plain_descriptors_accepted
                   (tables := latin1_tables) (json_errors := sample_errors)
                   sample_request "shop" "book" [("title", "string"); ("pages", "int")]
                   eq_refl _ eq_refl eq_refl eq_refl)).
  discriminate.
Defined.

Lemma Title_ToLower_on_ascii_witness :
  Strings.Title (tables := latin1_tables) "user profile" = title_bytes false "user profile".
Proof.
  exact (proj1 (AsciiFacts.Title_ToLower_on_ascii (tables := latin1_tables) "user profile" eq_refl)).
Defined.

Lemma Title_of_a_word_witness :
  Strings.Title (tables := latin1_tables) "user_profile"
  = String (upper_byte "u") "ser_profile".
Proof.
  exact (AsciiFacts.Title_of_a_word (tables := latin1_tables) "u" "ser_profile" eq_refl).
Defined.

Lemma ToLower_of_Title_witness :
  Strings.ToLower (tables := latin1_tables) (Strings.Title (tables := latin1_tables) "blogPost")
  = Strings.ToLower (tables := latin1_tables) "blogPost".
Proof.
  exact (AsciiFacts.ToLower_of_Title (tables := latin1_tables) "blogPost" eq_refl).
Defined.

Lemma fields_not_a_list_refused_witness :
  Json.Unmarshal "ID:uint,Name:string" = None.
Proof.
  refine (proj1 (FieldsFacts.fields_not_a_list_refused
                   (tables := latin1_tables) (json_errors := sample_errors)
                   (request [("app_name", AnyString "shop"); ("model_name", AnyString "book");
                             ("fields", AnyString "ID:uint,Name:string")])
                   "shop" "book" "ID:uint,Name:string" eq_refl _ eq_refl eq_refl eq_refl)).
  discriminate.
Defined.

Lemma empty_fields_accepted_witness :
  Json.Unmarshal " [ ] " = Some [].
Proof.
  refine (proj1 (FieldsFacts.empty_fields_accepted
                   (tables := latin1_tables) (json_errors := sample_errors)
                   (request [("app_name", AnyString "shop"); ("model_name", AnyString "book");
                             ("fields", AnyString " [ ] ")])
                   "shop" "book" " [ ] " " " " " " "
                   eq_refl _ eq_refl eq_refl eq_refl eq_refl eq_refl (or_intror eq_refl))).
  discriminate.
Defined.

Lemma app_response_commands_witness :
  Contains
    (Text (ProduceAppBoilerplate.ProduceAppBoilerplateHandler
             (request [("app_name", AnyString "shop")])))
    ("`mkdir -p " ++ "shop" ++ "/cmd/web`") = true.
Proof.
  exact (proj1 (ResponseFacts.app_response_commands
                  (request [("app_name", AnyString "shop")]) "shop" eq_refl)).
Defined.

Lemma model_response_paths_witness :
  Contains
    (Text (ProduceModelBoilerplate.ProduceModelBoilerplateHandler
             (tables := latin1_tables) (json_errors := sample_errors) sample_request))
    (tab ++ dq ++ "shop" ++ "/internal/models" ++ dq) = true.
Proof.
  refine (proj2 (ResponseFacts.model_response_paths
                   (tables := latin1_tables) (json_errors := sample_errors)
                   sample_request "shop" "book" sample_fields sample_decoded
                   eq_refl _ eq_refl eq_refl _)).
  - discriminate.
  - vm_compute. reflexivity.
Defined.

Lemma html_response_pagination_links_witness :
  Contains
    (Text (ProduceHtmlControllerBoilerplate.ProduceHtmlControllerBoilerplateHandler
             (tables := latin1_tables)
             (request [("app_name", AnyString "shop"); ("model_name", AnyString "book")])))
    (Strings.ToLower (tables := latin1_tables) "book" ++ "s?page=" ++ "%!d(string="
     ++ Strings.Title (tables := latin1_tables) "book" ++ ")"
     ++ "&limit=" ++ "%!d(string=" ++ Strings.ToLower (tables := latin1_tables) "book" ++ ")")
  = true.
Proof.
  refine (ResponseFacts.html_response_pagination_links
            (tables := latin1_tables)
            (request [("app_name", AnyString "shop"); ("model_name", AnyString "book")])
            "shop" "book" eq_refl _ eq_refl).
  discriminate.
Defined.

Lemma main_fix_app_response_witness :
  Contains
    (Text (Main.fixAppHandler (request [("error_message", AnyString "package x is not in std")])))
    ("Regarding your specific error: " ++ dq ++ "package x is not in std" ++ dq ++ nl) = true.
Proof.
  refine (proj1 (proj2 (proj2 (MainFacts.main_fix_app_response
            (request [("error_message", AnyString "package x is not in std")])))) _).
  discriminate.
Defined.

Lemma main_handlers_refuse_alike_witness :
  Main.handler (tables := latin1_tables) (json_errors := sample_errors)
    Main.create_service (request [("model_name", AnyString "book")])
  = Server.handler (tables := latin1_tables) (json_errors := sample_errors)
      Server.produce_service_boilerplate (request [("model_name", AnyString "book")]).
Proof.
  exact (proj1 (proj2 (MainFacts.main_handlers_refuse_alike
                         (tables := latin1_tables) (json_errors := sample_errors)
                         Main.create_service (request [("model_name", AnyString "book")])))
           eq_refl).
Defined.

Lemma fix_app_heading_and_quote_witness :
  Contains
    (Text (FixApp.FixAppHandler (request [("error_message", AnyString "undefined: x")])))
    ("Regarding your specific error: " ++ dq ++ "undefined: x" ++ dq ++ nl) = true.
Proof.
  refine (proj2 (FixAppEchoFacts.fix_app_heading_and_quote
            (request [("error_message", AnyString "undefined: x")])) _).
  discriminate.
Defined.

Lemma templates_print_operands_only_witness :
  Sprintf ProduceServiceBoilerplate.response_format ["Book"; "book"; "shop"]
  = substitute ProduceServiceBoilerplate.response_format ["Book"; "book"; "shop"].
Proof.
  exact (proj1 (proj2 (proj2 (TemplateFacts.templates_print_operands_only
                                ["Book"; "book"; "shop"])) eq_refl)).
Defined.

Lemma service_and_api_response_paths_witness :
  Contains
    (Text (ProduceApiControllerBoilerplate.ProduceApiControllerBoilerplateHandler
             (tables := latin1_tables)
             (request [("app_name", AnyString "shop"); ("model_name", AnyString "book")])))
    (tab ++ dq ++ "shop" ++ "/internal/service" ++ dq) = true.
Proof.
  refine (proj2 (proj2 (proj2 (TemplateFacts.service_and_api_response_paths
            (tables := latin1_tables)
            (request [("app_name", AnyString "shop"); ("model_name", AnyString "book")])
            "shop" "book" eq_refl _ eq_refl)))).
  discriminate.
Defined.

Lemma plain_descriptors_one_line_each_witness :
  length (text_lines
            (Join (ProduceModelBoilerplate.struct_fields (tables := latin1_tables)
                     (List.map descriptor_map [("title", "string"); ("pages", "int")])) nl))
  = 2%nat.
Proof.
  refine (proj2 (LineFacts.plain_descriptors_one_line_each (tables := latin1_tables)
                   [("title", "string"); ("pages", "int")] _ eq_refl)).
  discriminate.
Defined.

End FurtherWitnesses.
